(** * cameractrls: the control backends of [cameractrls.py]

    A shallow embedding of the control backend layer of [cameractrls.py]
    (the ioctl request codes, generic V4L2 controls, format controls, the
    AnkerWork and Logitech extension unit backends, the aggregator with
    its pages, the presets' id resolution and the listener), followed by
    the properties proved about it.

    Conventions.
    - Python [int] is [Z]; a ctypes field of width [w] wraps on assignment
      and the wrap is written out ([wrap_u32], [wrap_s32]). [int] reads
      at most 4300 digits, the interpreter's limit, so that [str] of an
      [int] it has read is within the limit too; an [int] a caller puts
      in a batch is taken to be within it.
    - Python [float] is IEEE 754 binary64, taken from the Standard
      Library's executable specification [SpecFloat] at precision 53 and
      maximal exponent 1024.
    - An exception that is raised is a value [Raise e]; code that mutates
      an object before raising returns the mutated state next to the
      exception.
    - The kernel and the sysfs tree are outside the program: every ioctl is
      a method of a device class, and theorems quantify over all devices.
    - Warning texts are f-strings in the source; here a warning is a
      constructor carrying the values the f-string interpolates. *)

From Stdlib Require Import ZArith List String Ascii Bool Lia.
From Stdlib Require Import DecimalString Decimal DecimalZ DecimalN.
From Stdlib Require Import SpecFloat Sorting.Sorted.
From stdpp Require Import base option list strings gmap.

Open Scope Z_scope.

(** ** Python values, exceptions and builtins *)

Module Py.

Inductive exn :=
| ValueError | TypeError | OverflowError | AssertionError
| IndexError | ZeroDivisionError | AttributeError
| OSError.

Inductive res (A : Type) :=
| Ok (a : A)
| Raise (e : exn).
Arguments Ok {A} a.
Arguments Raise {A} e.

Definition bind {A B} (r : res A) (k : A -> res B) : res B :=
  match r with
  | Ok a => k a
  | Raise e => Raise e
  end.

(** The values a control attribute or a batch entry can hold: [None], an
    [int], a [str], a [bytes] literal, or a ctypes character buffer. *)
Inductive pyval :=
| PNone
| PInt (z : Z)
| PStr (s : string)
| PBytes (bs : list Z)
| PBuf (bs : list Z).

(** [a == b] on the values above. An [int] never equals a [str], and a
    ctypes buffer has no [__eq__]: it is compared by identity, which the
    callers that need it decide themselves. *)
Definition py_eq (a b : pyval) : bool :=
  match a, b with
  | PNone, PNone => true
  | PInt x, PInt y => x =? y
  | PStr s, PStr t => String.eqb s t
  | PBytes x, PBytes y => bool_decide (x = y)
  | _, _ => false
  end.

Definition str_of_Z (z : Z) : string := NilZero.string_of_int (Z.to_int z).

(** [str(v)] *)
Definition py_str (v : pyval) : string :=
  match v with
  | PNone => "None"
  | PInt z => str_of_Z z
  | PStr s => s
  | PBytes _ | PBuf _ => "<bytes>"
  end.

(** *** [int(s)]

    A [str] is modelled by a [string] whose characters are its code
    points, all below 256. *)

(** The white space [int] and [float] skip around a literal: in a [str]
    the ASCII blanks, U+0085 and U+00A0; in [bytes] the ASCII blanks. *)
Definition is_space (text : bool) (c : ascii) : bool :=
  let n := N_of_ascii c in
  ((9 <=? n) && (n <=? 13) || (n =? 32) || text && ((n =? 133) || (n =? 160)))%N.

Definition is_digit (c : ascii) : bool :=
  let n := N_of_ascii c in ((48 <=? n) && (n <=? 57))%N.

Fixpoint lstrip (sp : ascii -> bool) (s : string) : string :=
  match s with
  | EmptyString => EmptyString
  | String a r => if sp a then lstrip sp r else s
  end.

Fixpoint rstrip (sp : ascii -> bool) (s : string) : string :=
  match s with
  | EmptyString => EmptyString
  | String a r =>
      match rstrip sp r with
      | EmptyString => if sp a then EmptyString else String a EmptyString
      | r' => String a r'
      end
  end.

Definition strip (sp : ascii -> bool) (s : string) : string := rstrip sp (lstrip sp s).

(** The digits of a digit part, [digit (["_"] digit)*]: an underscore
    stands between two digits only. [after_digit] tells whether the
    character before is a digit. *)
Fixpoint digits_of (after_digit : bool) (s : string) : option string :=
  match s with
  | EmptyString => if after_digit then Some EmptyString else None
  | String a r =>
      if Ascii.eqb a "_" then
        if after_digit then digits_of false r else None
      else if is_digit a then
        match digits_of true r with
        | Some ds => Some (String a ds)
        | None => None
        end
      else None
  end.

(** The number a digit string spells. *)
Definition number_of (ds : string) : option Z :=
  match NilEmpty.uint_of_string ds with
  | Some d => Some (Z.of_N (N.of_uint d))
  | None => None
  end.

(** The value of a digit part. *)
Definition parse_digits (s : string) : option Z :=
  match digits_of false s with
  | Some ds => number_of ds
  | None => None
  end.

(** An optional sign and what follows it. *)
Definition split_sign (s : string) : bool * string :=
  match s with
  | EmptyString => (false, s)
  | String a r =>
      if Ascii.eqb a "-" then (true, r)
      else if Ascii.eqb a "+" then (false, r)
      else (false, s)
  end.

Definition signed (neg : bool) (n : Z) : Z := if neg then - n else n.

(** The most digits [int] converts, [sys.get_int_max_str_digits()] as
    the interpreter starts. *)
Definition int_max_str_digits : Z := 4300.

(** [int(s)] for a [str] ([text]) or for [bytes]: white space, an
    optional sign, a digit part of at most [int_max_str_digits] digits,
    white space. *)
Definition int_of_text (text : bool) (s : string) : res Z :=
  let '(neg, body) := split_sign (strip (is_space text) s) in
  match digits_of false body with
  | Some ds =>
      if int_max_str_digits <? Z.of_nat (String.length ds) then Raise ValueError
      else
        match number_of ds with
        | Some n => Ok (signed neg n)
        | None => Raise ValueError
        end
  | None => Raise ValueError
  end.

Definition int_of_str (s : string) : res Z := int_of_text true s.

(** The characters of a [bytes] object or of a character buffer. *)
Definition chars (bs : list Z) : string :=
  string_of_list_ascii ((fun b => ascii_of_N (Z.to_N b)) <$> bs).

(** [int(v)]; [bytes] and buffers are read as text in ASCII. *)
Definition py_int (v : pyval) : res Z :=
  match v with
  | PInt z => Ok z
  | PStr s => int_of_str s
  | PBytes bs | PBuf bs => int_of_text false (chars bs)
  | PNone => Raise TypeError
  end.

(** [s.endswith(c)] for a one-character suffix, and [s[:-1]]. *)
Fixpoint endswith (s : string) (c : ascii) : bool :=
  match s with
  | EmptyString => false
  | String a EmptyString => Ascii.eqb a c
  | String _ r => endswith r c
  end.

Fixpoint drop_last (s : string) : string :=
  match s with
  | EmptyString => EmptyString
  | String _ EmptyString => EmptyString
  | String a r => String a (drop_last r)
  end.

(** [s.split(c)] for a one-character separator. *)
Fixpoint split (c : ascii) (s : string) : list string :=
  match s with
  | EmptyString => [EmptyString]
  | String a r =>
      if Ascii.eqb a c then EmptyString :: split c r
      else match split c r with
           | w :: ws => String a w :: ws
           | [] => [String a EmptyString]
           end
  end.

(** *** binary64 *)

Definition float := spec_float.
Definition prec := 53.
Definition emax := 1024.

Definition fmul : float -> float -> float := SFmul prec emax.
Definition fadd : float -> float -> float := SFadd prec emax.
Definition fdiv : float -> float -> float := SFdiv prec emax.

(** The correctly rounded quotient of two integers, [n > 0]. *)
Definition float_of_quot (neg : bool) (m : Z) (n : positive) : float :=
  match m with
  | Zpos p => fdiv (S754_finite neg p 0) (S754_finite false n 0)
  | _ => S754_zero neg
  end.

(** [float(z)] for an [int]: the nearest double, [OverflowError] when
    there is none. *)
Definition float_of_int (z : Z) : res float :=
  match binary_normalize prec emax z 0 false with
  | S754_infinity _ => Raise OverflowError
  | f => Ok f
  end.

(** *** [float(s)]

    White space, an optional sign, then [inf], [infinity] or [nan] in any
    case, or a decimal number: digit parts around an optional point, one
    of them at least, and an optional exponent. The result is the double
    nearest to the decimal value. *)

Definition lower_ascii (c : ascii) : ascii :=
  let n := N_of_ascii c in
  if ((65 <=? n) && (n <=? 90))%N then ascii_of_N (n + 32) else c.

Fixpoint lower (s : string) : string :=
  match s with
  | EmptyString => EmptyString
  | String a r => String (lower_ascii a) (lower r)
  end.

(** The text before the first [e] or [E], and the text after it. *)
Fixpoint split_exponent (s : string) : string * option string :=
  match s with
  | EmptyString => (EmptyString, None)
  | String a r =>
      if Ascii.eqb a "e" || Ascii.eqb a "E" then (EmptyString, Some r)
      else let '(m, x) := split_exponent r in (String a m, x)
  end.

(** The digits of a digit part that may be missing. *)
Definition optional_digits (s : string) : option string :=
  match s with
  | EmptyString => Some EmptyString
  | _ => digits_of false s
  end.

(** The digits of the mantissa as a number, and how many of them follow
    the point: the [k] digits after the point count as the number they
    spell, the digits before it as [10 ^ k] times theirs. *)
Definition parse_mantissa (s : string) : option (Z * Z) :=
  match split "." s with
  | [i] =>
      match parse_digits i with
      | Some m => Some (m, 0)
      | None => None
      end
  | [i; f] =>
      match optional_digits i, optional_digits f with
      | Some di, Some df =>
          match (di +:+ df)%string, number_of di, number_of df with
          | EmptyString, _, _ => None
          | _, Some mi, Some mf =>
              let k := Z.of_nat (String.length df) in
              Some (mi * 10 ^ k + mf, k)
          | _, _, _ => None
          end
      | _, _ => None
      end
  | _ => None
  end.

Definition parse_exponent (x : option string) : option Z :=
  match x with
  | None => Some 0
  | Some t =>
      let '(neg, body) := split_sign t in
      match parse_digits body with
      | Some n => Some (signed neg n)
      | None => None
      end
  end.

(** The double nearest to [m * 10^k]. *)
Definition scale10 (neg : bool) (m k : Z) : float :=
  if 0 <=? k then float_of_quot neg (m * 10 ^ k) 1
  else float_of_quot neg m (Z.to_pos (10 ^ (- k))).

Definition float_of_unsigned (neg : bool) (s : string) : res float :=
  let l := lower s in
  if String.eqb l "inf" || String.eqb l "infinity" then Ok (S754_infinity neg)
  else if String.eqb l "nan" then Ok S754_nan
  else
    let '(m, x) := split_exponent s in
    match parse_mantissa m, parse_exponent x with
    | Some (digits, frac), Some e => Ok (scale10 neg digits (e - frac))
    | _, _ => Raise ValueError
    end.

Definition float_of_text (text : bool) (s : string) : res float :=
  let '(neg, body) := split_sign (strip (is_space text) s) in
  float_of_unsigned neg body.

Definition float_of_str (s : string) : res float := float_of_text true s.

(** The integer nearest to [m * 2^e], ties to the even one, and the
    integer part of [m * 2^e]. *)
Definition nearest_even (m e : Z) : Z :=
  if 0 <=? e then m * 2 ^ e
  else
    let d := 2 ^ (- e) in
    let q := m / d in
    let r := m mod d in
    if 2 * r <? d then q
    else if d <? 2 * r then q + 1
    else if Z.even q then q else q + 1.

Definition int_part (m e : Z) : Z :=
  if 0 <=? e then m * 2 ^ e else m / 2 ^ (- e).

(** [round(x)] for a [float], one argument. *)
Definition py_round (x : float) : res Z :=
  match x with
  | S754_zero _ => Ok 0
  | S754_infinity _ => Raise OverflowError
  | S754_nan => Raise ValueError
  | S754_finite s m e => Ok (signed s (nearest_even (Zpos m) e))
  end.

(** [int(x)] for a [float]: truncation towards zero. *)
Definition py_trunc (x : float) : res Z :=
  match x with
  | S754_zero _ => Ok 0
  | S754_infinity _ => Raise OverflowError
  | S754_nan => Raise ValueError
  | S754_finite s m e => Ok (signed s (int_part (Zpos m) e))
  end.

(** [x == y] on floats. *)
Definition feqb (x y : float) : bool := SFeqb x y.

(** *** Vocabulary of the properties of rounding

    [nearest_even_quot a b] is the integer nearest to the fraction
    [a / b], [b > 0], a half going to the even neighbour. [loc_of r d]
    is where the remainder [r] of a division by [d] lies between two
    integers, and a shift record describes the fraction [n / d] when it
    holds the integer part of [n / d] and the place of what is left. *)
Definition nearest_even_quot (a b : Z) : Z :=
  let q := a / b in
  let r := a mod b in
  if 2 * r <? b then q
  else if b <? 2 * r then q + 1
  else if Z.even q then q else q + 1.

Definition loc_of (r d : Z) : location :=
  if r =? 0 then loc_Exact else loc_Inexact (Z.compare (2 * r) d).

Definition describes (mrs : shr_record) (n d : Z) : Prop :=
  shr_m mrs = n / d /\ loc_of_shr_record mrs = loc_of (n mod d) d.

(** ctypes integer fields keep the low bits of what is assigned. *)
Definition wrap_u32 (z : Z) : Z := z mod 2 ^ 32.
Definition wrap_s32 (z : Z) : Z := (z + 2 ^ 31) mod 2 ^ 32 - 2 ^ 31.

End Py.
Export Py.

#[export] Instance res_bind : MBind res := fun A B k r => Py.bind r k.
#[export] Instance res_ret : MRet res := @Py.Ok.

(** ** Shared helpers (module level functions of the source) *)

Record BaseCtrlMenu := {
  m_text_id : string;
  m_name : string;
  m_value : pyval;
}.

Inductive ctrl_type := integer | boolean | menu | button | info.

#[export] Instance ctrl_type_eq_dec : EqDecision ctrl_type.
Proof. solve_decision. Defined.

(** [find_by_value(menu, value)] *)
Fixpoint find_by_value (menu : list BaseCtrlMenu) (value : pyval) : option BaseCtrlMenu :=
  match menu with
  | [] => None
  | m :: rest => if py_eq (m_value m) value then Some m else find_by_value rest value
  end.

(** [find_idx(ctrls, pred)] *)
Fixpoint find_idx {A} (ctrls : list A) (pred : A -> bool) : option nat :=
  match ctrls with
  | [] => None
  | c :: rest => if pred c then Some 0%nat else S <$> find_idx rest pred
  end.

(** [find_by_text_id(ctrls, text_id)], for any class with a [text_id]. The
    key of a batch may be any value; only a [str] equals a text id. *)
Class HasTextId (A : Type) := get_text_id : A -> string.

#[export] Instance menu_text_id : HasTextId BaseCtrlMenu := m_text_id.

Definition text_id_is {A} `{HasTextId A} (v : pyval) (c : A) : bool :=
  py_eq (PStr (get_text_id c)) v.

Fixpoint find_by_text_id {A} `{HasTextId A} (ctrls : list A) (v : pyval) : option A :=
  match ctrls with
  | [] => None
  | c :: rest => if text_id_is v c then Some c else find_by_text_id rest v
  end.

(** [to_bool(val)]; a [bytes] object or a buffer is true when it is not
    empty. *)
Definition to_bool (val : pyval) : bool :=
  match val with
  | PStr s =>
      bool_decide (lower s ∈ ["y"; "yes"; "t"; "true"; "on"; "1"]%string)
  | PInt z => negb (z =? 0)
  | PBytes bs | PBuf bs => negb (bool_decide (bs = []))
  | PNone => false
  end.

(** ** Pixel format codes: [str2pxf], [pxf2str]

    A Python [str] is a sequence of code points; these two functions are
    modelled on the code points themselves, so that the range of [ord] is
    visible. *)

Module Fourcc.

Definition pystr := list Z.

(** [ord(str[i])]; indexing past the end raises [IndexError]. *)
Definition ord_at (s : pystr) (i : nat) : res Z :=
  match s !! i with
  | Some c => Ok c
  | None => Raise IndexError
  end.

Definition str2pxf (str : pystr) : res Z :=
  c0 ← ord_at str 0;
  c1 ← ord_at str 1;
  c2 ← ord_at str 2;
  c3 ← ord_at str 3;
  Ok (Z.lor (Z.lor (Z.lor c0 (Z.shiftl c1 8)) (Z.shiftl c2 16)) (Z.shiftl c3 24)).

Definition pxf2str (pxf : Z) : pystr :=
  [ Z.land pxf 255;
    Z.land (Z.shiftr pxf 8) 255;
    Z.land (Z.shiftr pxf 16) 255;
    Z.land (Z.shiftr pxf 24) 255 ].

(** A code point that [chr] of a byte can give. *)
Definition is_byte (c : Z) : Prop := 0 <= c < 256.

(** The code points of the ASCII text ["YUYV"]. *)
Definition YUYV : pystr := [89; 85; 89; 86].

(** A [str] of code points below 256 as a byte string. *)
Definition to_string (s : pystr) : string :=
  string_of_list_ascii (map (fun c => ascii_of_N (Z.to_N c)) s).

End Fourcc.

(** ** Controls

    [BaseCtrl] and its subclasses are one record: the attributes a subclass
    adds ([v4l2_id] of [V4L2Ctrl], [selector] and [length] of
    [AnkerWorkCtrl]) are optional, as [hasattr] sees them. Attributes that
    only the user interface reads (tooltips, scale classes, value
    formatters, repeat timers) are left out. *)

Record BaseCtrl := {
  c_text_id : string;
  c_name : string;
  c_type : ctrl_type;
  c_value : pyval;
  c_default : pyval;
  c_min : pyval;
  c_max : pyval;
  c_step : pyval;
  c_inactive : bool;
  c_readonly : bool;
  c_reopener : bool;
  c_zeroer : bool;
  c_menu : list BaseCtrlMenu;
  c_v4l2_id : option Z;
  c_selector : option Z;
  c_length : option Z;
}.

#[export] Instance ctrl_text_id : HasTextId BaseCtrl := c_text_id.

Definition set_value (v : pyval) (c : BaseCtrl) : BaseCtrl :=
  {| c_text_id := c_text_id c; c_name := c_name c; c_type := c_type c;
     c_value := v; c_default := c_default c; c_min := c_min c;
     c_max := c_max c; c_step := c_step c; c_inactive := c_inactive c;
     c_readonly := c_readonly c; c_reopener := c_reopener c;
     c_zeroer := c_zeroer c; c_menu := c_menu c; c_v4l2_id := c_v4l2_id c;
     c_selector := c_selector c; c_length := c_length c |}.

Definition set_flags (inactive readonly : bool) (c : BaseCtrl) : BaseCtrl :=
  {| c_text_id := c_text_id c; c_name := c_name c; c_type := c_type c;
     c_value := c_value c; c_default := c_default c; c_min := c_min c;
     c_max := c_max c; c_step := c_step c; c_inactive := inactive;
     c_readonly := readonly; c_reopener := c_reopener c;
     c_zeroer := c_zeroer c; c_menu := c_menu c; c_v4l2_id := c_v4l2_id c;
     c_selector := c_selector c; c_length := c_length c |}.

(** The objects of a list are mutated in place: [find_by_text_id] returns a
    reference, modelled as the index of the first match. *)
Definition find_ref (ctrls : list BaseCtrl) (k : pyval) : option (nat * BaseCtrl) :=
  i ← find_idx ctrls (text_id_is k);
  c ← ctrls !! i;
  Some (i, c).

(** An operand of integer arithmetic or comparison. *)
Definition as_int (v : pyval) : res Z :=
  match v with
  | PInt z => Ok z
  | _ => Raise TypeError
  end.

(** The warnings of the source, by the values they interpolate. *)
Inductive warning :=
| W_V4L2_no_menu (v : pyval) (ids : list string)
| W_V4L2_unsupported_type (k : string) (v : pyval) (t : ctrl_type)
| W_V4L2_set_using (k : string) (v : pyval) (readback : Z)
| W_V4L2_set_failed (k : string) (v : pyval) (e : exn)
| W_V4L2_no_value (intvalue : Z) (values : list pyval)
| W_Fmt_info (k : string)
| W_Fmt_no_menu (v : pyval) (ids : list string)
| W_Fmt_set_fps_failed (e : exn)
| W_Fmt_invalid_rate (fps : string)
| W_Fmt_fps_using (fps : string) (den num : Z)
| W_Anker_no_menu (v : pyval) (ids : list string)
| W_Anker_unsupported_type (k : string) (v : pyval) (t : ctrl_type)
| W_Anker_failed (k : string)
| W_DQEVENT_failed (e : exn)
| W_unknown_ctrls (ks : gset string)
| W_other (text : string).

(** [collect_warning(w, ws)] *)
Definition collect_warning (w : warning) (ws : list warning) : list warning := ws ++ [w].

(** A batch: the items of the [params] dict, in insertion order. *)
Definition params := list (string * pyval).

(** How the body of a [for] loop ends: it falls through or [continue]s, or
    an exception leaves the function. *)
Inductive flow :=
| Next
| Escape (e : exn).

(** ** The generic control backend: [V4L2Ctrls] *)

Module V4L2Ctrls.

Definition V4L2_CTRL_TYPE_INTEGER := 1.
Definition V4L2_CTRL_TYPE_BOOLEAN := 2.
Definition V4L2_CTRL_TYPE_MENU := 3.
Definition V4L2_CTRL_TYPE_BUTTON := 4.
Definition V4L2_CTRL_TYPE_INTEGER_MENU := 9.
Definition V4L2_CTRL_FLAG_READ_ONLY := 0x0004.
Definition V4L2_CTRL_FLAG_INACTIVE := 0x0010.
Definition V4L2_CID_CAMERA_CLASS_BASE := Z.lor 0x009a0000 0x900.
Definition V4L2_CTRL_ZEROERS : list Z :=
  [ V4L2_CID_CAMERA_CLASS_BASE + 32;   (* V4L2_CID_PAN_SPEED *)
    V4L2_CID_CAMERA_CLASS_BASE + 33;   (* V4L2_CID_TILT_SPEED *)
    V4L2_CID_CAMERA_CLASS_BASE + 15 ]. (* V4L2_CID_ZOOM_CONTINUOUS *)

(** [struct v4l2_queryctrl] and [struct v4l2_querymenu] as the kernel
    fills them; the union of the latter is read as [name] or as [value]. *)
Record v4l2_queryctrl := {
  q_id : Z;
  q_type : Z;
  q_name : string;
  q_minimum : Z;
  q_maximum : Z;
  q_step : Z;
  q_default : Z;
  q_flags : Z;
}.

Record v4l2_querymenu := {
  qm_index : Z;
  qm_name : string;
  qm_value : Z;
}.

(** The ioctls of the generic control protocol. Each takes the device
    state and the fields the program fills in, and gives the next device
    state with either the fields the kernel wrote back or the error. *)
Class Device (D : Type) := {
  VIDIOC_S_CTRL : D -> Z -> Z -> D * res Z;
  VIDIOC_G_CTRL : D -> Z -> D * res Z;
  VIDIOC_QUERYMENU : D -> Z -> Z -> D * res v4l2_querymenu;
}.

(** Ghost record of the requests issued, in order. *)
Inductive request :=
| S_CTRL (id value : Z)
| G_CTRL (id : Z)
| QUERYMENU (id index : Z).

Definition is_write (r : request) : bool :=
  match r with S_CTRL _ _ => true | _ => false end.

Section WithDevice.
Context {D : Type} `{Device D}.

(** The object: [self.fd] (the device), [self.ctrls], and the ghost
    request log. *)
Record t := {
  fd : D;
  ctrls : list BaseCtrl;
  issued : list request;
}.

(** Lines 2139-2146: the value of an ['integer'] control. *)
Definition percent_value (ctrl : BaseCtrl) (v : pyval) : res Z :=
  p ← float_of_str (drop_last (py_str v));
  let percent := fdiv p (binary_normalize prec emax 100 0 false) in
  d ← as_int (c_default ctrl);
  mn ← as_int (c_min ctrl);
  diff ← float_of_int (d - mn);
  fmn ← float_of_int mn;
  intvalue ← py_round (fadd fmn (fmul (fmul diff percent) (binary_normalize prec emax 2 0 false)));
  mx ← as_int (c_max ctrl);
  let intvalue := Z.min mx intvalue in
  let intvalue := Z.max mn intvalue in
  Ok intvalue.

Definition integer_value (ctrl : BaseCtrl) (v : pyval) : res Z :=
  if endswith (py_str v) "%" then percent_value ctrl v else py_int v.

(** Lines 2135-2159: what the type dispatch leaves in [intvalue]. *)
Inductive dispatch :=
| Write (intvalue : pyval)
| Skip (w : warning)
| Raised (e : exn).

Definition select_value (k : string) (ctrl : BaseCtrl) (v : pyval) : dispatch :=
  match c_type ctrl with
  | integer =>
      match integer_value ctrl v with
      | Ok z => Write (PInt z)
      | Raise e => Raised e
      end
  | boolean => Write (PInt (if to_bool v then 1 else 0))
  | menu =>
      match find_by_text_id (c_menu ctrl) v with
      | None => Skip (W_V4L2_no_menu v (m_text_id <$> c_menu ctrl))
      | Some m => Write (m_value m)
      end
  | button => Write (PInt 0)
  | info => Skip (W_V4L2_unsupported_type k v (c_type ctrl))
  end.

(** Lines 2160-2172: the [try] block. [idx] is the reference to
    [ctrl] in [self.ctrls]. *)
Definition write_ctrl (self : t) (errs : list warning) (k : string) (v : pyval)
    (idx : nat) (ctrl : BaseCtrl) (intvalue : pyval) : t * list warning :=
  match c_v4l2_id ctrl, intvalue with
  | Some id, PInt iv =>
      let id32 := wrap_u32 id in
      let iv32 := wrap_s32 iv in
      let '(fd', r) := VIDIOC_S_CTRL (fd self) id32 iv32 in
      let issued' := issued self ++ [S_CTRL id32 iv32] in
      match r with
      | Raise e =>
          ({| fd := fd'; ctrls := ctrls self; issued := issued' |},
           collect_warning (W_V4L2_set_failed k v e) errs)
      | Ok readback =>
          if negb (readback =? iv) then
            ({| fd := fd'; ctrls := ctrls self; issued := issued' |},
             collect_warning (W_V4L2_set_using k v readback) errs)
          else
            let stored := if decide (c_type ctrl = menu) then v else PInt iv in
            ({| fd := fd';
                ctrls := <[idx := set_value stored ctrl]> (ctrls self);
                issued := issued' |}, errs)
      end
  | None, _ => (self, collect_warning (W_V4L2_set_failed k v AttributeError) errs)
  | Some _, _ => (self, collect_warning (W_V4L2_set_failed k v TypeError) errs)
  end.

(** The body of the loop of [setup_ctrls], for the item [k, v]. *)
Definition setup_ctrl (self : t) (errs : list warning) (k : string) (v : pyval)
    : t * list warning * flow :=
  match find_ref (ctrls self) (PStr k) with
  | None => (self, errs, Next)
  | Some (idx, ctrl) =>
      let v := if py_eq v (PStr "default") then c_default ctrl else v in
      match select_value k ctrl v with
      | Raised e => (self, errs, Escape e)
      | Skip w => (self, collect_warning w errs, Next)
      | Write intvalue =>
          let '(self', errs') := write_ctrl self errs k v idx ctrl intvalue in
          (self', errs', Next)
      end
  end.

(** [V4L2Ctrls.setup_ctrls(self, params, errs)] *)
Fixpoint setup_ctrls (self : t) (ps : params) (errs : list warning)
    : t * list warning * flow :=
  match ps with
  | [] => (self, errs, Next)
  | (k, v) :: rest =>
      match setup_ctrl self errs k v with
      | (self', errs', Next) => setup_ctrls self' rest errs'
      | escaped => escaped
      end
  end.

(** [V4L2Ctrls.set_ctrl_int_value(self, ctrl, intvalue, errs)]; [idx]
    is the reference to [ctrl]. *)
Definition set_ctrl_int_value (self : t) (idx : nat) (ctrl : BaseCtrl) (intvalue : Z)
    (errs : list warning) : t * list warning :=
  if negb (bool_decide (c_type ctrl = menu)) then
    ({| fd := fd self; ctrls := <[idx := set_value (PInt intvalue) ctrl]> (ctrls self);
        issued := issued self |}, errs)
  else
    match find_by_value (c_menu ctrl) (PInt intvalue) with
    | None => (self, collect_warning (W_V4L2_no_value intvalue (m_value <$> c_menu ctrl)) errs)
    | Some m =>
        ({| fd := fd self; ctrls := <[idx := set_value (PStr (m_text_id m)) ctrl]> (ctrls self);
            issued := issued self |}, errs)
    end.

(** [V4L2Ctrls.to_text_id(self, text)]: lower case, delete [,&(.)/],
    map blank and dash to an underscore, then [replace(b'__', b'_')]. *)
Fixpoint replace_uu (s : string) : string :=
  match s with
  | String "_" (String "_" r) => String "_" (replace_uu r)
  | String a r => String a (replace_uu r)
  | EmptyString => EmptyString
  end.

Fixpoint translate (s : string) : string :=
  match s with
  | EmptyString => EmptyString
  | String a r =>
      if bool_decide (a ∈ [","; "&"; "("; "."; ")"; "/"]%char) then translate r
      else if bool_decide (a ∈ [" "; "-"]%char) then String "_" (translate r)
      else String a (translate r)
  end.

Definition to_text_id (text : string) : string :=
  replace_uu (translate (lower text)).

Definition to_type (qtype : Z) : option ctrl_type :=
  if qtype =? V4L2_CTRL_TYPE_INTEGER then Some integer
  else if qtype =? V4L2_CTRL_TYPE_BOOLEAN then Some boolean
  else if qtype =? V4L2_CTRL_TYPE_MENU then Some menu
  else if qtype =? V4L2_CTRL_TYPE_INTEGER_MENU then Some menu
  else if qtype =? V4L2_CTRL_TYPE_BUTTON then Some button
  else None.

Definition set_menu_value_default (mn : list BaseCtrlMenu) (v d : pyval) (c : BaseCtrl)
    : BaseCtrl :=
  {| c_text_id := c_text_id c; c_name := c_name c; c_type := c_type c;
     c_value := v; c_default := d; c_min := c_min c;
     c_max := c_max c; c_step := c_step c; c_inactive := c_inactive c;
     c_readonly := c_readonly c; c_reopener := c_reopener c;
     c_zeroer := c_zeroer c; c_menu := mn; c_v4l2_id := c_v4l2_id c;
     c_selector := c_selector c; c_length := c_length c |}.

(** Lines 2241-2258: the loop over [range(qctrl.minimum,
    qctrl.maximum + 1)], here over the list of these indices. *)
Fixpoint query_menus (dev : D) (log : list request) (q : v4l2_queryctrl)
    (indices : list Z) (c : BaseCtrl) : D * list request * BaseCtrl :=
  match indices with
  | [] => (dev, log, c)
  | i :: rest =>
      let idx32 := wrap_u32 i in
      let '(dev', r) := VIDIOC_QUERYMENU dev (q_id q) idx32 in
      let log' := log ++ [QUERYMENU (q_id q) idx32] in
      match r with
      | Raise _ => query_menus dev' log' q rest c
      | Ok qmenu =>
          let menu_text_id :=
            if q_type q =? V4L2_CTRL_TYPE_MENU then to_text_id (qm_name qmenu)
            else str_of_Z (qm_value qmenu) in
          let menu_text :=
            if q_type q =? V4L2_CTRL_TYPE_MENU then qm_name qmenu
            else menu_text_id in
          let v4l2menu :=
            {| m_text_id := menu_text_id; m_name := menu_text;
               m_value := PInt (qm_index qmenu) |} in
          let value :=
            if py_eq (c_value c) (PInt (qm_index qmenu)) then PStr menu_text_id
            else c_value c in
          let default :=
            if py_eq (c_default c) (PInt (qm_index qmenu)) then PStr menu_text_id
            else c_default c in
          query_menus dev' log' q rest
            (set_menu_value_default (c_menu c ++ [v4l2menu]) value default c)
      end
  end.

(** [isinstance(x, int)] *)
Definition is_int (v : pyval) : bool :=
  match v with PInt _ => true | _ => false end.

(** Lines 2239-2265. *)
Definition resolve_menu (dev : D) (log : list request) (q : v4l2_queryctrl)
    (c : BaseCtrl) : D * list request * BaseCtrl :=
  if bool_decide (q_type q ∈ [V4L2_CTRL_TYPE_MENU; V4L2_CTRL_TYPE_INTEGER_MENU]) then
    let c0 := set_menu_value_default [] (c_value c) (c_default c) c in
    let '(dev', log', c1) :=
      query_menus dev log q (seqZ (q_minimum q) (q_maximum q + 1 - q_minimum q)) c0 in
    let value := if is_int (c_value c1) then PNone else c_value c1 in
    let default := if is_int (c_default c1) then PNone else c_default c1 in
    (dev', log', set_menu_value_default (c_menu c1) value default c1)
  else (dev, log, c).

(** Lines 2193-2267: the control built from one answer of
    [VIDIOC_QUERYCTRL], or nothing for a type the backend skips. *)
Definition build_ctrl (dev : D) (log : list request) (q : v4l2_queryctrl)
    : D * list request * option BaseCtrl :=
  match to_type (q_type q) with
  | None => (dev, log, None)
  | Some t0 =>
      let text_id := to_text_id (q_name q) in
      let ctrl_type :=
        if bool_decide (t0 = integer) && (q_minimum q =? 0) && (q_maximum q =? 1)
           && (q_step q =? 1)
        then boolean else t0 in
      let zero := bool_decide (q_id q ∈ V4L2_CTRL_ZEROERS) in
      let flags x := negb (Z.land (q_flags q) x =? 0) in
      if negb (bool_decide (ctrl_type = button)) then
        let '(dev1, r) := VIDIOC_G_CTRL dev (q_id q) in
        let log1 := log ++ [G_CTRL (q_id q)] in
        let value := match r with Ok z => z | Raise _ => 0 end in
        let c :=
          {| c_text_id := text_id; c_name := q_name q; c_type := ctrl_type;
             c_value := PInt value;
             c_default := PInt (if zero then 0 else q_default q);
             c_min := PInt (q_minimum q); c_max := PInt (q_maximum q);
             c_step := PInt (q_step q);
             c_inactive := flags V4L2_CTRL_FLAG_INACTIVE;
             c_readonly := flags V4L2_CTRL_FLAG_READ_ONLY;
             c_reopener := false; c_zeroer := zero; c_menu := [];
             c_v4l2_id := Some (q_id q); c_selector := None; c_length := None |} in
        let '(dev2, log2, c') := resolve_menu dev1 log1 q c in
        (dev2, log2, Some c')
      else
        let c :=
          {| c_text_id := text_id; c_name := q_name q; c_type := ctrl_type;
             c_value := PNone;
             c_default := if zero then PInt 0 else PNone;
             c_min := PNone; c_max := PNone; c_step := PNone;
             c_inactive := flags V4L2_CTRL_FLAG_INACTIVE;
             c_readonly := flags V4L2_CTRL_FLAG_READ_ONLY;
             c_reopener := false; c_zeroer := zero;
             c_menu := [ {| m_text_id := text_id; m_name := q_name q;
                            m_value := PStr text_id |} ];
             c_v4l2_id := Some (q_id q); c_selector := None; c_length := None |} in
        let '(dev2, log2, c') := resolve_menu dev log q c in
        (dev2, log2, Some c')
  end.

(** [V4L2Ctrls.get_device_controls(self)]. [VIDIOC_QUERYCTRL] is asked
    for the next control until it fails; [answers] are the descriptors
    it gave before failing. *)
Fixpoint enumerate (dev : D) (log : list request) (answers : list v4l2_queryctrl)
    (acc : list BaseCtrl) : t :=
  match answers with
  | [] => {| fd := dev; ctrls := acc; issued := log |}
  | q :: rest =>
      let '(dev', log', oc) := build_ctrl dev log q in
      enumerate dev' log' rest
        (match oc with Some c => acc ++ [c] | None => acc end)
  end.

Definition get_device_controls (dev : D) (answers : list v4l2_queryctrl) : t :=
  enumerate dev [] answers [].

(** [V4L2Ctrls.find_by_v4l2_id(self, v4l2_id)], as a reference. *)
Definition find_by_v4l2_id (self : t) (id : Z) : option (nat * BaseCtrl) :=
  i ← find_idx (ctrls self)
        (fun c => match c_v4l2_id c with Some x => x =? id | None => false end);
  c ← ctrls self !! i;
  Some (i, c).

End WithDevice.
Arguments t D : clear implicits.

(** *** Vocabulary of the properties *)

(** A value that is [None] or the text id of an entry of the menu. *)
Definition resolved (v : pyval) (mn : list BaseCtrlMenu) : Prop :=
  v = PNone \/ exists m, m ∈ mn /\ v = PStr (m_text_id m).

(** The same, knowing the numeric code it came from: the text id of an
    entry with that code, or [None] when no entry has the code. *)
Definition resolves_code (code : Z) (v : pyval) (mn : list BaseCtrlMenu) : Prop :=
  (v = PNone /\ forall m, m ∈ mn -> m_value m <> PInt code) \/
  (exists m, m ∈ mn /\ v = PStr (m_text_id m) /\ m_value m = PInt code).

Definition menu_resolved (c : BaseCtrl) : Prop :=
  c_type c = menu -> resolved (c_value c) (c_menu c) /\ resolved (c_default c) (c_menu c).

(** The codes enumeration starts from when it builds the control of the
    descriptor [q] on the device [dev]: the answer of [VIDIOC_G_CTRL], or
    0 when it fails, and the default of the descriptor, or 0 for the
    controls that return to zero. *)
Definition live_code {D : Type} `{Device D} (dev : D) (q : v4l2_queryctrl) : Z :=
  match (VIDIOC_G_CTRL dev (q_id q)).2 with
  | Ok z => z
  | Raise _ => 0
  end.

Definition default_code (q : v4l2_queryctrl) : Z :=
  if bool_decide (q_id q ∈ V4L2_CTRL_ZEROERS) then 0 else q_default q.

(** A control whose value and default are resolved from the codes
    [codes.1] and [codes.2]. *)
Definition menu_resolves_codes (c : BaseCtrl) (codes : Z * Z) : Prop :=
  c_type c = menu ->
  resolves_code codes.1 (c_value c) (c_menu c) /\
  resolves_code codes.2 (c_default c) (c_menu c).

(** The codes of the controls [get_device_controls] builds, in order:
    each live code is the one the device gives when its control is
    built. *)
Fixpoint enumerated_codes {D : Type} `{Device D} (dev : D) (log : list request)
    (answers : list v4l2_queryctrl) : list (Z * Z) :=
  match answers with
  | [] => []
  | q :: rest =>
      let '(dev', log', oc) := build_ctrl dev log q in
      match oc with
      | Some _ => (live_code dev q, default_code q) :: enumerated_codes dev' log' rest
      | None => enumerated_codes dev' log' rest
      end
  end.

(** While the menu is being enumerated: still the code, with no entry for
    it so far, or already the text id of an entry with the code. *)
Definition resolving (code : Z) (v : pyval) (mn : list BaseCtrlMenu) : Prop :=
  (v = PInt code /\ forall m, m ∈ mn -> m_value m <> PInt code) \/
  (exists m, m ∈ mn /\ v = PStr (m_text_id m) /\ m_value m = PInt code).

(** The value the specification gives for a percentage [p] of a control
    with the range [mn .. mx] and the default [d]:
    [round(mn + (d - mn) * (p / 100) * 2)] in double precision, brought
    into the range. *)
Definition percent_target (mn d mx : Z) (p : float) : res Z :=
  diff ← float_of_int (d - mn);
  fmn ← float_of_int mn;
  r ← py_round
        (fadd fmn
           (fmul (fmul diff (fdiv p (binary_normalize prec emax 100 0 false)))
                 (binary_normalize prec emax 2 0 false)));
  Ok (Z.max mn (Z.min mx r)).

(** The value the specification's formula gives for the percentage [nn],
    a whole number: [round(mn + 2 * (d - mn) * (nn / 100))] in exact
    arithmetic, a half going to the even neighbour, brought into the
    range. *)
Definition percent_exact (mn d mx nn : Z) : Z :=
  Z.max mn (Z.min mx (nearest_even_quot (100 * mn + 2 * (d - mn) * nn) 100)).

(** The number of [VIDIOC_S_CTRL] requests issued so far. *)
Definition writes {D : Type} (self : t D) : nat :=
  length (filter (fun r => is_write r = true) (issued self)).

End V4L2Ctrls.

(** ** The format backend: [V4L2FmtCtrls] *)

Module V4L2FmtCtrls.

Definition V4L2_FRMSIZE_TYPE_DISCRETE := 1.

(** [struct v4l2_fract], the [pix] member of [struct v4l2_format], and
    the fields of [struct v4l2_frmsizeenum] the program reads. *)
Record v4l2_fract := { numerator : Z; denominator : Z }.
Record v4l2_pix_format := { width : Z; height : Z; pixelformat : Z }.
Record v4l2_frmsizeenum := { frm_type : Z; frm_width : Z; frm_height : Z }.

(** The ioctls of the format protocol. [ENUM_FRAMESIZES dev pxf] is the
    list of answers [VIDIOC_ENUM_FRAMESIZES] gives for the indices 0, 1,
    ... before it fails. *)
Class Device (D : Type) := {
  VIDIOC_G_FMT : D -> D * res v4l2_pix_format;
  VIDIOC_G_PARM : D -> D * res v4l2_fract;
  VIDIOC_S_PARM : D -> v4l2_fract -> D * res v4l2_fract;
  ENUM_FRAMESIZES : D -> Z -> list v4l2_frmsizeenum;
}.

Inductive request :=
| G_FMT
| G_PARM
| S_PARM (timeperframe : v4l2_fract)
| ENUM_FRAMESIZES_upto (pixel_format : Z) (index : nat).

(** [wh2str(wh)] *)
Definition wh2str (w h : Z) : string :=
  (str_of_Z w +:+ "x" +:+ str_of_Z h)%string.

(** [f'{x:.1f}']: the decimal with one digit after the point nearest to
    the exact value of the double, ties to even. *)
Definition format_1f (x : float) : string :=
  match x with
  | S754_zero s => ((if s then "-" else "") +:+ "0.0")%string
  | S754_infinity s => ((if s then "-" else "") +:+ "inf")%string
  | S754_nan => "nan"
  | S754_finite s m e =>
      let t := nearest_even (10 * Zpos m) e in
      ((if s then "-" else "") +:+ str_of_Z (t / 10) +:+ "." +:+ str_of_Z (t mod 10))%string
  end.

(** [s.replace('.0', '')] *)
Fixpoint replace_dot0 (s : string) : string :=
  match s with
  | String "." (String "0" r) => replace_dot0 r
  | String a r => String a (replace_dot0 r)
  | EmptyString => EmptyString
  end.

(** [a / b] on two [int]s. *)
Definition true_div (a b : Z) : res float :=
  if b =? 0 then Raise ZeroDivisionError
  else
    match a, b with
    | Zpos p, Zpos q => Ok (float_of_quot false a q)
    | Zneg p, Zpos q => Ok (float_of_quot true (Zpos p) q)
    | Zpos p, Zneg q => Ok (float_of_quot true a q)
    | Zneg p, Zneg q => Ok (float_of_quot false (Zpos p) q)
    | _, _ => Ok (S754_zero false)
    end.

(** [dn2str(dn)] *)
Definition dn2str (dn : v4l2_fract) : res string :=
  q ← true_div (denominator dn) (numerator dn);
  Ok (replace_dot0 (format_1f q)).

(** The fields of [struct v4l2_frmivalenum] the program reads. *)
Definition V4L2_FRMIVAL_TYPE_DISCRETE := 1.
Record v4l2_frmivalenum := { frmi_type : Z; frmi_discrete : v4l2_fract }.

(** The loop of [get_framerates] over the answers
    [VIDIOC_ENUM_FRAMEINTERVALS] gives for the indices 0, 1, ... before it
    fails: it stops at the first answer that is not discrete. *)
Fixpoint get_framerates (answers : list v4l2_frmivalenum) : res (list string) :=
  match answers with
  | [] => Ok []
  | frmi :: rest =>
      if negb (frmi_type frmi =? V4L2_FRMIVAL_TYPE_DISCRETE) then Ok []
      else
        fps ← dn2str (frmi_discrete frmi);
        framerates ← get_framerates rest;
        Ok (fps :: framerates)
  end.

(** The menu of the frame rate control, lines 2432-2434:
    [BaseCtrlMenu(fps, fps, None) for fps in framerates]. *)
Definition fps_menu (framerates : list string) : list BaseCtrlMenu :=
  (fun fps => {| m_text_id := fps; m_name := fps; m_value := PNone |}) <$> framerates.

(** The key of the sort in [get_resolutions]:
    [list(map(int, r.split('x')))]. *)
Fixpoint map_int (l : list string) : res (list Z) :=
  match l with
  | [] => Ok []
  | w :: ws => n ← int_of_str w; ns ← map_int ws; Ok (n :: ns)
  end.

Definition sort_key (r : string) : res (list Z) := map_int (split "x" r).

(** [a < b] on two lists of [int]. *)
Fixpoint list_lt (a b : list Z) : bool :=
  match a, b with
  | _, [] => false
  | [], _ :: _ => true
  | x :: a', y :: b' => (x <? y) || ((x =? y) && list_lt a' b')
  end.

(** [list.sort(key=..., reverse=True)] on the pairs of key and element:
    descending by key, elements of equal key in their original order. *)
Fixpoint insert_desc {A} (x : list Z * A) (l : list (list Z * A)) : list (list Z * A) :=
  match l with
  | [] => [x]
  | y :: l' => if list_lt x.1 y.1 then y :: insert_desc x l' else x :: l
  end.

Definition sort_desc {A} (l : list (list Z * A)) : list (list Z * A) :=
  foldr insert_desc [] l.

Fixpoint with_keys (l : list string) : res (list (list Z * string)) :=
  match l with
  | [] => Ok []
  | r :: rs => k ← sort_key r; ks ← with_keys rs; Ok ((k, r) :: ks)
  end.

(** The loop of [get_resolutions]: it stops at the first answer that is
    not discrete. *)
Fixpoint discrete_prefix (answers : list v4l2_frmsizeenum) : list string :=
  match answers with
  | [] => []
  | frm :: rest =>
      if negb (frm_type frm =? V4L2_FRMSIZE_TYPE_DISCRETE) then []
      else wh2str (frm_width frm) (frm_height frm) :: discrete_prefix rest
  end.

Section WithDevice.
Context {D : Type} `{Device D}.

(** The object. [pxf_ctrl], [res_ctrl] and [fps_ctrl] are references
    to members of [ctrls], or [None]. *)
Record t := {
  fd : D;
  ctrls : list BaseCtrl;
  pxf_ctrl : option nat;
  res_ctrl : option nat;
  fps_ctrl : option nat;
  issued : list request;
}.

Definition with_dev (self : t) (dev : D) (r : request) : t :=
  {| fd := dev; ctrls := ctrls self; pxf_ctrl := pxf_ctrl self;
     res_ctrl := res_ctrl self; fps_ctrl := fps_ctrl self;
     issued := issued self ++ [r] |}.

Definition with_ctrls (self : t) (cs : list BaseCtrl) : t :=
  {| fd := fd self; ctrls := cs; pxf_ctrl := pxf_ctrl self;
     res_ctrl := res_ctrl self; fps_ctrl := fps_ctrl self;
     issued := issued self |}.

(** [V4L2FmtCtrls.get_fmt(self)] *)
Definition get_fmt (self : t) : t * option v4l2_pix_format :=
  let '(dev, r) := VIDIOC_G_FMT (fd self) in
  (with_dev self dev G_FMT, match r with Ok f => Some f | Raise _ => None end).

(** [V4L2FmtCtrls.get_fps(self)]; the [res] is for the division of
    [dn2str], which the guard before it keeps from raising. *)
Definition get_fps (self : t) : t * res pyval :=
  let '(dev, r) := VIDIOC_G_PARM (fd self) in
  let self' := with_dev self dev G_PARM in
  match r with
  | Raise _ => (self', Ok (PInt 0))
  | Ok tf =>
      if (numerator tf =? 0) || (denominator tf =? 0) then (self', Ok (PInt 0))
      else (self', s ← dn2str tf; Ok (PStr s))
  end.

(** [float(fps)] *)
Definition py_float (v : pyval) : res float :=
  match v with
  | PStr s => float_of_str s
  | PInt z => float_of_int z
  | PBytes bs | PBuf bs => float_of_text false (chars bs)
  | PNone => Raise TypeError
  end.

Definition ten : float := binary_normalize prec emax 10 0 false.

(** [V4L2FmtCtrls.set_fps(self, ctrl, fps, errs)]; [idx] is the
    reference to [ctrl]. *)
Definition set_fps (self : t) (idx : nat) (ctrl : BaseCtrl) (fps : pyval)
    (errs : list warning) : t * list warning * flow :=
  let '(self1, cur) := get_fps self in
  match cur with
  | Raise e => (self1, errs, Escape e)
  | Ok cur =>
      if py_eq fps cur then (self1, errs, Next)
      else
        match (x ← py_float fps; py_trunc (fmul x ten)) with
        | Raise e => (self1, errs, Escape e)
        | Ok den =>
            let parm := {| numerator := 10; denominator := wrap_u32 den |} in
            let '(dev, r) := VIDIOC_S_PARM (fd self1) parm in
            let self2 := with_dev self1 dev (S_PARM parm) in
            match r with
            | Raise e => (self2, collect_warning (W_Fmt_set_fps_failed e) errs, Next)
            | Ok tf =>
                if (denominator tf =? 0) || (numerator tf =? 0) then
                  (self2, collect_warning (W_Fmt_invalid_rate (py_str fps)) errs, Next)
                else
                  match (x ← py_float fps;
                         q ← true_div (denominator tf) (numerator tf);
                         Ok (negb (feqb x q))) with
                  | Raise e => (self2, errs, Escape e)
                  | Ok true =>
                      (self2,
                       collect_warning
                         (W_Fmt_fps_using (py_str fps) (denominator tf) (numerator tf)) errs,
                       Next)
                  | Ok false =>
                      (with_ctrls self2 (<[idx := set_value fps ctrl]> (ctrls self2)),
                       errs, Next)
                  end
            end
        end
  end.

(** [V4L2FmtCtrls.get_resolutions(self, pixelformat)] *)
Definition get_resolutions (self : t) (pixelformat : Z) : t * res (list string) :=
  let answers := ENUM_FRAMESIZES (fd self) pixelformat in
  let resolutions := discrete_prefix answers in
  let self' :=
    with_dev self (fd self)
      (ENUM_FRAMESIZES_upto pixelformat (length resolutions)) in
  (self', ks ← with_keys resolutions; Ok (snd <$> sort_desc ks)).

End WithDevice.
Arguments t D : clear implicits.

(** *** Vocabulary of the properties *)

(** The sizes [get_resolutions] collects, as pairs of width and height. *)
Fixpoint discrete_sizes (answers : list v4l2_frmsizeenum) : list (Z * Z) :=
  match answers with
  | [] => []
  | frm :: rest =>
      if negb (frm_type frm =? V4L2_FRMSIZE_TYPE_DISCRETE) then []
      else (frm_width frm, frm_height frm) :: discrete_sizes rest
  end.

(** A size as the resolution string, and with its sort key. *)
Definition res_str (p : Z * Z) : string := wh2str p.1 p.2.
Definition keyed (p : Z * Z) : list Z * string := ([p.1; p.2], res_str p).

Definition is_u32 (z : Z) : Prop := 0 <= z < 2 ^ 32.

(** Descending order on pairs, first by width and then by height. *)
Definition lex_ge (a b : Z * Z) : Prop :=
  b.1 < a.1 \/ (b.1 = a.1 /\ b.2 <= a.2).

(** The pixel area of a resolution string, and a list of resolution
    strings in descending order of area. *)
Definition area (r : string) : res Z :=
  k ← sort_key r;
  match k with
  | [w; h] => Ok (w * h)
  | _ => Raise ValueError
  end.

Definition area_descending (l : list string) : Prop :=
  forall i j r1 r2 a1 a2,
    (i < j)%nat -> l !! i = Some r1 -> l !! j = Some r2 ->
    area r1 = Ok a1 -> area r2 = Ok a2 -> a2 <= a1.

(** The text [dn2str] gives for a frame rate of [t] tenths. *)
Definition tenths_str (t : Z) : string :=
  replace_dot0 (str_of_Z (t / 10) +:+ "." +:+ str_of_Z (t mod 10)).

(** The denominator the specification words: [round(fps * 10)]. *)
Definition rounded_denominator (fps : pyval) : res Z :=
  x ← py_float fps; py_round (fmul x ten).

(** The denominator the source computes: [int(float(fps) * 10)]. *)
Definition truncated_denominator (fps : pyval) : res Z :=
  x ← py_float fps; py_trunc (fmul x ten).

End V4L2FmtCtrls.

(** ** The listener: [V4L2Listener] *)

Module V4L2Listener.

(** [struct v4l2_event] of type [V4L2_EVENT_CTRL]: the fields read. *)
Record v4l2_event := { ev_id : Z; ev_flags : Z; ev_value : Z }.

Definition POLLERR := 0x008.
Definition POLLNVAL := 0x020.

(** What [self.epoll.poll(1)] and, on readiness,
    [ioctl(self.fd, VIDIOC_DQEVENT, event)] deliver in one iteration. *)
Inductive polled :=
| Timeout
| Ready (revents : Z) (dqevent : res v4l2_event).

(** The two callbacks, with their argument as it is when they are
    called. *)
Inductive callback :=
| cb (ctrl : BaseCtrl)
| err_cb (errs : list warning).

Inductive loop_flow :=
| Continue
| Break
| Died (e : exn).

Section WithDevice.
Context {D : Type} `{V4L2Ctrls.Device D} `{V4L2FmtCtrls.Device D}.

Record t := {
  ctrls : V4L2Ctrls.t D;
  fmt_ctrls : V4L2FmtCtrls.t D;
  closed : bool;
}.

(** [V4L2Listener.update_ctrl(self, ctrl, value, updates)]; [ctrl] is
    a reference into [cs] or [None], [updates] a list of references. *)
Definition update_ctrl (cs : list BaseCtrl) (ctrl : option nat) (value : pyval)
    (updates : list nat) : list BaseCtrl * list nat :=
  match ctrl with
  | None => (cs, updates)
  | Some i =>
      match cs !! i with
      | None => (cs, updates)
      | Some c =>
          if negb (py_eq (c_value c) value)
          then (<[i := set_value value c]> cs, updates ++ [i])
          else (cs, updates)
      end
  end.

(** [V4L2Listener.query_fmt_changes(self)] *)
Definition query_fmt_changes (self : t) : t * list callback * loop_flow :=
  let updates := [] in
  let '(f1, fmt) := V4L2FmtCtrls.get_fmt (fmt_ctrls self) in
  let '(cs1, updates) :=
    match fmt with
    | Some pix =>
        let '(cs, updates) :=
          update_ctrl (V4L2FmtCtrls.ctrls f1) (V4L2FmtCtrls.pxf_ctrl f1)
            (PStr (Fourcc.to_string (Fourcc.pxf2str (V4L2FmtCtrls.pixelformat pix))))
            updates in
        update_ctrl cs (V4L2FmtCtrls.res_ctrl f1)
          (PStr (V4L2FmtCtrls.wh2str (V4L2FmtCtrls.width pix) (V4L2FmtCtrls.height pix)))
          updates
    | None => (V4L2FmtCtrls.ctrls f1, updates)
    end in
  let '(f2, fps) := V4L2FmtCtrls.get_fps (V4L2FmtCtrls.with_ctrls f1 cs1) in
  match fps with
  | Raise e =>
      ({| ctrls := ctrls self; fmt_ctrls := f2; closed := closed self |}, [], Died e)
  | Ok fps =>
      let '(cs2, updates) :=
        update_ctrl (V4L2FmtCtrls.ctrls f2) (V4L2FmtCtrls.fps_ctrl f2) fps updates in
      let self' :=
        {| ctrls := ctrls self; fmt_ctrls := V4L2FmtCtrls.with_ctrls f2 cs2;
           closed := closed self |} in
      match updates with
      | [] => (self', [], Continue)
      | i :: _ =>
          match cs2 !! i with
          | Some ctrl => (self', [cb ctrl], Continue)
          | None => (self', [], Died IndexError)
          end
      end
  end.

(** Lines 2338-2355: the iteration when [poll] returned readiness. *)
Definition handle_event (self : t) (revents : Z) (dq : res v4l2_event)
    : t * list callback * loop_flow :=
  if (revents =? POLLNVAL) || (revents =? POLLERR) then (self, [], Break)
  else
    match dq with
    | Raise e => (self, [err_cb (collect_warning (W_DQEVENT_failed e) [])], Break)
    | Ok event =>
        match V4L2Ctrls.find_by_v4l2_id (ctrls self) (ev_id event) with
        | None => (self, [], Died AttributeError)
        | Some (idx, ctrl) =>
            let flag x := negb (Z.land (ev_flags event) x =? 0) in
            let ctrl1 :=
              set_flags (flag V4L2Ctrls.V4L2_CTRL_FLAG_INACTIVE)
                        (flag V4L2Ctrls.V4L2_CTRL_FLAG_READ_ONLY) ctrl in
            let v1 :=
              {| V4L2Ctrls.fd := V4L2Ctrls.fd (ctrls self);
                 V4L2Ctrls.ctrls := <[idx := ctrl1]> (V4L2Ctrls.ctrls (ctrls self));
                 V4L2Ctrls.issued := V4L2Ctrls.issued (ctrls self) |} in
            let '(v2, errs) :=
              V4L2Ctrls.set_ctrl_int_value v1 idx ctrl1 (ev_value event) [] in
            let self' :=
              {| ctrls := v2; fmt_ctrls := fmt_ctrls self; closed := closed self |} in
            match errs with
            | _ :: _ => (self', [err_cb errs], Continue)
            | [] =>
                match V4L2Ctrls.ctrls v2 !! idx with
                | Some c => (self', [cb c], Continue)
                | None => (self', [], Died IndexError)
                end
            end
        end
    end.

(** One iteration of the loop of [run], entered with the listener not
    closed; [closed_after_poll] is [self.epoll.closed] as read after
    [poll] returned empty. *)
Definition run_iteration (self : t) (p : polled) (closed_after_poll : bool)
    : t * list callback * loop_flow :=
  match p with
  | Timeout =>
      if negb closed_after_poll then query_fmt_changes self
      else (self, [], Continue)
  | Ready revents dq => handle_event self revents dq
  end.

(** *** Vocabulary of the properties *)

(** The references of the three format controls that exist. *)
Definition refs (f : V4L2FmtCtrls.t D) : list nat :=
  omap id [V4L2FmtCtrls.pxf_ctrl f; V4L2FmtCtrls.res_ctrl f; V4L2FmtCtrls.fps_ctrl f].

(** What a poll cycle reads from the device, next to the control it
    belongs to: pixel format and resolution when [get_fmt] gave a format,
    and the frame rate. *)
Definition observed (f : V4L2FmtCtrls.t D) (fmt : option V4L2FmtCtrls.v4l2_pix_format)
    (fps : pyval) : list (option nat * pyval) :=
  match fmt with
  | Some pix =>
      [ (V4L2FmtCtrls.pxf_ctrl f,
         PStr (Fourcc.to_string (Fourcc.pxf2str (V4L2FmtCtrls.pixelformat pix))));
        (V4L2FmtCtrls.res_ctrl f,
         PStr (V4L2FmtCtrls.wh2str (V4L2FmtCtrls.width pix) (V4L2FmtCtrls.height pix))) ]
  | None => []
  end ++ [ (V4L2FmtCtrls.fps_ctrl f, fps) ].

(** The cached control exists and its value is not the one read. *)
Definition differs (cs : list BaseCtrl) (o : option nat * pyval) : bool :=
  match o.1 with
  | Some i =>
      match cs !! i with
      | Some c => negb (py_eq (c_value c) o.2)
      | None => false
      end
  | None => false
  end.

(** The callbacks the specification asks for: one, for the first control
    that differs, with its new value; none when nothing differs. *)
Definition first_change (cs : list BaseCtrl) (obs : list (option nat * pyval))
    : list callback :=
  match filter (fun o => differs cs o = true) obs with
  | (Some i, v) :: _ =>
      match cs !! i with
      | Some c => [cb (set_value v c)]
      | None => []
      end
  | _ => []
  end.

(** The calls of [update_ctrl] of one cycle, one after the other. *)
Fixpoint update_all (cs : list BaseCtrl) (obs : list (option nat * pyval))
    (updates : list nat) : list BaseCtrl * list nat :=
  match obs with
  | [] => (cs, updates)
  | (r, v) :: rest =>
      let '(cs', updates') := update_ctrl cs r v updates in
      update_all cs' rest updates'
  end.

End WithDevice.
Arguments t D : clear implicits.

End V4L2Listener.

(** ** Extension unit discovery: [find_unit_id_in_sysfs] *)

Module Sysfs.

(** The [descriptors] file of the USB device behind the video node:
    missing, present but failing to open or read, or its bytes. *)
Inductive descfile :=
| Absent
| Unreadable
| Content (descriptors : list Z).

Fixpoint startswith (l p : list Z) : bool :=
  match p, l with
  | [], _ => true
  | _ :: _, [] => false
  | b :: p', a :: l' => (a =? b) && startswith l' p'
  end.

(** [descriptors.find(guid)], searching from offset [i]. *)
Fixpoint find_from (i : Z) (descriptors guid : list Z) : Z :=
  if startswith descriptors guid then i
  else
    match descriptors with
    | [] => -1
    | _ :: rest => find_from (i + 1) rest guid
    end.

Definition find (descriptors guid : list Z) : Z := find_from 0 descriptors guid.

(** [find_unit_id_in_sysfs(device, guid)] *)
Definition find_unit_id_in_sysfs (f : descfile) (guid : list Z) : res Z :=
  match f with
  | Absent => Ok 0
  | Unreadable => Ok 0
  | Content descriptors =>
      let guid_start := find descriptors guid in
      if 0 <? guid_start then
        match descriptors !! Z.to_nat (guid_start - 1) with
        | Some b => Ok b
        | None => Raise IndexError
        end
      else Ok 0
  end.

Definition UVC_EU1_GUID : list Z :=
  [0xd0; 0x9e; 0xe4; 0x23; 0x78; 0x11; 0x31; 0x4f; 0xae; 0x52; 0xd2; 0xfb; 0x8a; 0x8d; 0x3b; 0x48].
Definition DELL_ULTRASHARP_GUID : list Z := UVC_EU1_GUID.
Definition ANKERWORK_GUID : list Z :=
  [0xa2; 0x9e; 0x76; 0x41; 0xde; 0x04; 0x47; 0xe3; 0x8b; 0x2b; 0xf4; 0x34; 0x1a; 0xff; 0x00; 0x3b].
Definition LOGITECH_PERIPHERAL_GUID : list Z :=
  [0x21; 0x2d; 0xe5; 0xff; 0x30; 0x80; 0x2c; 0x4e; 0x82; 0xd9; 0xf5; 0x87; 0xd0; 0x05; 0x40; 0xbd].
Definition LOGITECH_USER_HW_CONTROL_V1_GUID : list Z :=
  [0x82; 0x06; 0x61; 0x63; 0x70; 0x50; 0xab; 0x49; 0xb8; 0xcc; 0xb3; 0x85; 0x5e; 0x8d; 0x22; 0x1f].
Definition LOGITECH_MOTOR_CONTROL_V1_GUID : list Z :=
  [0x82; 0x06; 0x61; 0x63; 0x70; 0x50; 0xab; 0x49; 0xb8; 0xcc; 0xb3; 0x85; 0x5e; 0x8d; 0x22; 0x56].
Definition LOGITECH_BRIO_GUID : list Z :=
  [0x15; 0x02; 0xe4; 0x49; 0x34; 0xf4; 0xfe; 0x47; 0xb1; 0x58; 0x0e; 0x88; 0x50; 0x23; 0xe5; 0x1b].

(** [supported()] of [KiyoProCtrls], [DellUltraSharpCtrls] and
    [AnkerWorkCtrls]: [self.unit_id != 0 and self.usb_ids in MATCH]
    (for the Kiyo Pro, [== KIYO_PRO_USB_ID]). *)
Definition supported (unit_id : Z) (usb_ids : string) (dev_match : list string) : bool :=
  negb (unit_id =? 0) && bool_decide (usb_ids ∈ dev_match).

(** [LogitechCtrls]: [supported()] is [len(self.ctrls) != 0], and
    [get_device_controls] extends [self.ctrls] under four guards, one per
    extension unit. The groups are kept by name; [probe sel] is the
    outcome of [try_xu_control] and the [bool]s those of the
    [usb_ids in ..._DEV_MATCH] tests. *)
Definition logitech_groups (peripheral user_hw motor_control brio : Z)
    (probe : Z -> bool) (preset_match focus_match fov_match : bool) : list string :=
  (if negb (peripheral =? 0) then
     (if probe 0x09 then ["led1"] else []) ++
     (if probe 0x01 then ["pantilt_rel"] else []) ++
     (if probe 0x02 then ["pantilt_reset"] else []) ++
     (if probe 0x02 && preset_match then ["pantilt_preset"] else [])
   else []) ++
  (if negb (user_hw =? 0) then ["user_hw"] else []) ++
  (if negb (motor_control =? 0) && focus_match then ["motor_focus"] else []) ++
  (if negb (brio =? 0) && fov_match then ["brio_fov"] else []).

Definition logitech_supported (groups : list string) : bool :=
  negb (length groups =? 0)%nat.

(** The vocabulary of the specification: the identifier occurs in the
descriptors at offset [n]; and what unit id resolution is to give for a
descriptor source. *)
Definition occurs_at (descriptors guid : list Z) (n : nat) : Prop :=
  exists pre post, descriptors = pre ++ guid ++ post /\ length pre = n.

Inductive resolves (guid : list Z) : descfile -> Z -> Prop :=
| resolves_found descriptors n b :
    occurs_at descriptors guid (S n) ->
    (forall j, (j < S n)%nat -> ~ occurs_at descriptors guid j) ->
    descriptors !! n = Some b ->
    resolves guid (Content descriptors) b
| resolves_not_found descriptors :
    (forall j, ~ occurs_at descriptors guid j) ->
    resolves guid (Content descriptors) 0
| resolves_absent :
    resolves guid Absent 0.

(** A descriptor blob with the AnkerWork identifier after the byte 0x05. *)
Definition sample_descriptors : list Z := [0x09; 0x05] ++ ANKERWORK_GUID ++ [0x01; 0x00].

End Sysfs.

(** ** The AnkerWork backend: [AnkerWorkCtrls] *)

Module AnkerWorkCtrls.

Definition UVC_SET_CUR := 0x01.
Definition UVC_GET_CUR := 0x81.
Definition UVC_GET_LEN := 0x85.

Definition ANKERWORK_DEV_MATCH : list string := ["291a:3367"].

Definition ANKERWORK_FOV_SELECTOR := 0x10.
Definition ANKERWORK_FOV_LENGTH := 0x7.
Definition ANKERWORK_SOLO_FRAME := PBytes [0x02; 0x01; 0x5f; 0; 0; 0; 0].
Definition ANKERWORK_FOV_65 := PBytes [0x00; 0x01; 0x5f; 0; 0; 0; 0].
Definition ANKERWORK_FOV_78 := PBytes [0x00; 0x01; 0x4e; 0; 0; 0; 0].
Definition ANKERWORK_FOV_95 := PBytes [0x00; 0x01; 0x41; 0; 0; 0; 0].
Definition ANKERWORK_HOR_SELECTOR := 0x11.
Definition ANKERWORK_HOR_LENGTH := 0x1.
Definition ANKERWORK_FACE_FOCUS_SELECTOR := 0x1b.
Definition ANKERWORK_FACE_FOCUS_LENGTH := 0x1.
Definition ANKERWORK_FACE_EXPOSURE_COMP_SELECTOR := 0xb.
Definition ANKERWORK_FACE_EXPOSURE_COMP_LENGTH := 0x2.
Definition ANKERWORK_HDR_SELECTOR := 0x13.
Definition ANKERWORK_HDR_LENGTH := 0x1.
Definition ANKERWORK_MIC_AI_NOISERED_SELECTOR := 0x1d.
Definition ANKERWORK_MIC_AI_NOISERED_LENGTH := 0x1.
Definition ANKERWORK_MIC_PICKUP_MODE_SELECTOR := 0x1f.
Definition ANKERWORK_MIC_PICKUP_MODE_LENGTH := 0x1.
Definition ANKERWORK_MIC_PICKUP_360 := 0x0.
Definition ANKERWORK_MIC_PICKUP_90 := 0x5a.

(** [AnkerWorkCtrl(text_id, name, type, tooltip, selector, menu, length,
    min, max, default)] *)
Definition AnkerWorkCtrl (text_id name : string) (type : ctrl_type) (selector : Z)
    (mn : list BaseCtrlMenu) (length : Z) (min max default : pyval) : BaseCtrl :=
  {| c_text_id := text_id; c_name := name; c_type := type; c_value := PNone;
     c_default := default; c_min := min; c_max := max; c_step := PNone;
     c_inactive := false; c_readonly := false; c_reopener := false;
     c_zeroer := false; c_menu := mn; c_v4l2_id := None;
     c_selector := Some selector; c_length := Some length |}.

Definition entry (text_id name : string) (value : pyval) : BaseCtrlMenu :=
  {| m_text_id := text_id; m_name := name; m_value := value |}.

(** The list built by [get_device_controls] (lines 1893-1993). Names are
    ASCII renderings where the source has a degree sign. *)
Definition device_controls : list BaseCtrl :=
  [ AnkerWorkCtrl "ankerwork_fov" "FoV" menu ANKERWORK_FOV_SELECTOR
      [ entry "65" "65" ANKERWORK_FOV_65; entry "78" "78" ANKERWORK_FOV_78;
        entry "95" "95" ANKERWORK_FOV_95; entry "auto" "Auto" ANKERWORK_SOLO_FRAME ]
      ANKERWORK_FOV_LENGTH PNone PNone PNone;
    AnkerWorkCtrl "ankerwork_face_focus" "FF" menu ANKERWORK_FACE_FOCUS_SELECTOR
      [ entry "on" "On" (PInt 0x01); entry "off" "Off" (PInt 0x00) ]
      ANKERWORK_FACE_FOCUS_LENGTH PNone PNone PNone;
    AnkerWorkCtrl "ankerwork_mic_noisered" "mic" menu ANKERWORK_MIC_AI_NOISERED_SELECTOR
      [ entry "on" "On" (PInt 0x01); entry "off" "Off" (PInt 0x00) ]
      ANKERWORK_MIC_AI_NOISERED_LENGTH PNone PNone PNone;
    AnkerWorkCtrl "ankerwork_mic_pickup" "mic" menu ANKERWORK_MIC_PICKUP_MODE_SELECTOR
      [ entry "90" "90" (PInt ANKERWORK_MIC_PICKUP_90);
        entry "360" "360" (PInt ANKERWORK_MIC_PICKUP_360) ]
      ANKERWORK_MIC_PICKUP_MODE_LENGTH PNone PNone PNone;
    AnkerWorkCtrl "ankerwork_hdr" "HDR" menu ANKERWORK_HDR_SELECTOR
      [ entry "off" "Off" (PInt 0x00); entry "on" "On" (PInt 0x01) ]
      ANKERWORK_HDR_LENGTH PNone PNone PNone;
    AnkerWorkCtrl "ankerwork_face_compensation_enable" "Face Compensation Enable" menu
      ANKERWORK_FACE_EXPOSURE_COMP_SELECTOR
      [ entry "off" "Off" (PInt 0x00); entry "on" "On" (PInt 0x01) ]
      ANKERWORK_FACE_EXPOSURE_COMP_LENGTH PNone PNone PNone;
    AnkerWorkCtrl "ankerwork_face_compensation" "Face Compensation" integer
      ANKERWORK_FACE_EXPOSURE_COMP_SELECTOR []
      ANKERWORK_FACE_EXPOSURE_COMP_LENGTH (PStr "0") (PStr "100") (PStr "35");
    AnkerWorkCtrl "ankerwork_hor_flip" "Flip Horizontal" menu ANKERWORK_HOR_SELECTOR
      [ entry "off" "Off" (PInt 0x00); entry "on" "On" (PInt 0x01) ]
      ANKERWORK_HOR_LENGTH PNone PNone PNone ].

(** [int.from_bytes(bytes, byteorder='little', signed=False)] *)
Fixpoint _int_from_bytes (bytes : list Z) : Z :=
  match bytes with
  | [] => 0
  | b :: rest => b + 256 * _int_from_bytes rest
  end.

(** [number.to_bytes(1, byteorder='little', signed=False)] *)
Definition _bytes_from_int (number : Z) : res pyval :=
  if (0 <=? number) && (number <? 256) then Ok (PBytes [number])
  else Raise OverflowError.

Definition _map_comp_to_int (value : Z) : res Z :=
  if (0 <=? value) && (value <=? 100) then Ok (Z.shiftl value 8)
  else Raise AssertionError.

(** [to_buf(b)], that is [ctypes.create_string_buffer(b)]: for [bytes]
    a buffer with the bytes and a final NUL, for an [int] a zeroed buffer
    of that size. *)
Definition to_buf (b : pyval) : res (list Z) :=
  match b with
  | PBytes bs => Ok (bs ++ [0])
  | PInt n => if n <? 0 then Raise ValueError else Ok (replicate (Z.to_nat n) 0)
  | _ => Raise TypeError
  end.

(** The one ioctl of the extension unit protocol: unit, selector,
    request, size and the buffer [data] points to; the answer is the
    buffer as the kernel left it. *)
Class Device (D : Type) := {
  UVCIOC_CTRL_QUERY : D -> Z -> Z -> Z -> Z -> list Z -> D * res (list Z);
}.

Inductive request :=
| XU (unit_id selector query size : Z) (data : list Z).

Section WithDevice.
Context {D : Type} `{Device D}.

Record t := {
  fd : D;
  unit_id : Z;
  usb_ids : string;
  ctrls : list BaseCtrl;
  issued : list request;
}.

Definition supported (self : t) : bool :=
  Sysfs.supported (unit_id self) (usb_ids self) ANKERWORK_DEV_MATCH.

Definition query (self : t) (selector q size : Z) (data : list Z) : t * res (list Z) :=
  let '(dev, r) := UVCIOC_CTRL_QUERY (fd self) (unit_id self) selector q size data in
  ({| fd := dev; unit_id := unit_id self; usb_ids := usb_ids self;
      ctrls := ctrls self;
      issued := issued self ++ [XU (unit_id self) selector q size data] |}, r).

(** [get_length_xu_control(fd, unit_id, selector)]: a failure is
    logged and the length stays 0. *)
Definition get_length_xu_control (self : t) (selector : Z) : t * Z :=
  let '(self', r) := query self selector UVC_GET_LEN 2 [0; 0] in
  (self', match r with Ok data => _int_from_bytes data | Raise _ => 0 end).

(** [query_xu_control(fd, unit_id, selector, query, data)]: a failure
    is logged and [data] stays as it was. *)
Definition query_xu_control (self : t) (selector q : Z) (data : list Z) : t * list Z :=
  let '(self1, len) := get_length_xu_control self selector in
  let '(self2, r) := query self1 selector q len data in
  (self2, match r with Ok data' => data' | Raise _ => data end).

Definition with_ctrls (self : t) (cs : list BaseCtrl) : t :=
  {| fd := fd self; unit_id := unit_id self; usb_ids := usb_ids self;
     ctrls := cs; issued := issued self |}.

(** Lines 2059-2078: [desired]. For the integer control that is not
    the face compensation the source leaves an [int] in [desired]. *)
Inductive dispatch :=
| Desired (buf : list Z)
| DesiredInt (n : Z)
| Skip (w : warning)
| Raised (e : exn).

Definition of_res (r : res (list Z)) : dispatch :=
  match r with Ok b => Desired b | Raise e => Raised e end.

Definition select_desired (k : string) (ctrl : BaseCtrl) (v : pyval)
    (current_config : list Z) : dispatch :=
  if bool_decide (c_type ctrl = menu) || bool_decide (c_type ctrl = button) then
    match find_by_text_id (c_menu ctrl) v with
    | None => Skip (W_Anker_no_menu v (m_text_id <$> c_menu ctrl))
    | Some m =>
        if String.eqb (c_text_id ctrl) "ankerwork_face_compensation_enable" then
          match current_config, m_value m with
          | [], _ => Raised IndexError
          | _ :: rest, PInt b =>
              if (0 <=? b) && (b <? 256) then Desired (b :: rest) else Raised TypeError
          | _ :: rest, PBytes [b] => Desired (b :: rest)
          | _, _ => Raised TypeError
          end
        else of_res (to_buf (m_value m))
    end
  else if bool_decide (c_type ctrl = integer) then
    if String.eqb (c_text_id ctrl) "ankerwork_face_compensation" then
      let cur_enable := Z.land (_int_from_bytes current_config) 0xff in
      of_res (n ← py_int v;
              comp ← _map_comp_to_int n;
              b ← _bytes_from_int (comp + cur_enable);
              to_buf b)
    else
      match py_int v with
      | Ok n => DesiredInt n
      | Raise e => Raised e
      end
  else Skip (W_Anker_unsupported_type k v (c_type ctrl)).

(** The body of the loop of [setup_ctrls]. *)
Definition setup_ctrl (self : t) (errs : list warning) (k : string) (v : pyval)
    : t * list warning * flow :=
  match find_ref (ctrls self) (PStr k) with
  | None => (self, errs, Next)
  | Some (idx, ctrl) =>
      match c_length ctrl, c_selector ctrl with
      | Some length, Some selector =>
          if length <? 0 then (self, errs, Escape ValueError)
          else
            let '(self1, current_config) :=
              query_xu_control self selector UVC_GET_CUR
                (replicate (Z.to_nat length) 0 ++ [0]) in
            match select_desired k ctrl v current_config with
            | Raised e => (self1, errs, Escape e)
            | Skip w => (self1, collect_warning w errs, Next)
            | DesiredInt _ =>
                (* [query_xu_control] asks for the length, then
                   [ctypes.pointer(data)] rejects the [int] *)
                let '(self2, _) := get_length_xu_control self1 selector in
                (self2, errs, Escape TypeError)
            | Desired desired =>
                if bool_decide (c_type ctrl = button) then
                  (* [to_buf(desired)] of a ctypes buffer *)
                  (self1, errs, Escape TypeError)
                else
                  let '(self2, d1) := query_xu_control self1 selector UVC_SET_CUR desired in
                  let '(self3, d2) := query_xu_control self2 selector UVC_GET_CUR d1 in
                  (* [current] and [desired] are the same buffer object, and
                     no menu value equals a buffer: [current != desired]
                     is false *)
                  (with_ctrls self3 (<[idx := set_value (PBuf d2) ctrl]> (ctrls self3)),
                   errs, Next)
            end
      | _, _ => (self, errs, Escape AttributeError)
      end
  end.

Fixpoint setup_items (self : t) (ps : params) (errs : list warning)
    : t * list warning * flow :=
  match ps with
  | [] => (self, errs, Next)
  | (k, v) :: rest =>
      match setup_ctrl self errs k v with
      | (self', errs', Next) => setup_items self' rest errs'
      | escaped => escaped
      end
  end.

(** [AnkerWorkCtrls.setup_ctrls(self, params, errs)] *)
Definition setup_ctrls (self : t) (ps : params) (errs : list warning)
    : t * list warning * flow :=
  if negb (supported self) then (self, errs, Next)
  else setup_items self ps errs.

Definition get_ctrls (self : t) : list BaseCtrl := ctrls self.

(** *** Vocabulary of the properties *)

(** The backend has the face compensation control that
    [get_device_controls] builds. *)
Definition has_face_compensation (self : t) : Prop :=
  exists idx ctrl,
    find_ref (ctrls self) (PStr "ankerwork_face_compensation") = Some (idx, ctrl) /\
    c_type ctrl = integer /\
    c_selector ctrl = Some ANKERWORK_FACE_EXPOSURE_COMP_SELECTOR /\
    c_length ctrl = Some ANKERWORK_FACE_EXPOSURE_COMP_LENGTH.

(** The buffer read back at the end of an item: the first [UVC_GET_CUR]
    into a fresh buffer, then [desired] as [UVC_SET_CUR] leaves it, then
    as the second [UVC_GET_CUR] leaves it. *)
Definition read_back (self : t) (selector length : Z) (desired : list Z) : list Z :=
  let '(self1, _) :=
    query_xu_control self selector UVC_GET_CUR (replicate (Z.to_nat length) 0 ++ [0]) in
  let '(self2, d1) := query_xu_control self1 selector UVC_SET_CUR desired in
  (query_xu_control self2 selector UVC_GET_CUR d1).2.

End WithDevice.
Arguments t D : clear implicits.

End AnkerWorkCtrls.

(** ** The aggregator: [CameraCtrls] *)

Module CameraCtrls.

Section Aggregator.
(** [W] is everything the backends hold and reach: their control
    lists and the device. *)
Context {W : Type}.

(** What the aggregator uses of a backend object. *)
Record backend := {
  b_setup_ctrls : params -> W -> list warning -> W * list warning * flow;
  b_get_ctrls : W -> list BaseCtrl;
}.

(** Ghost record: which backend was called, and with which batch. *)
Definition call := (nat * params)%type.

(** The loop [for c in self.ctrls: c.setup_ctrls(params, errs)];
    [n] is the index of the first backend of [bs]. *)
Fixpoint run_backends (bs : list backend) (n : nat) (ps : params) (w : W)
    (errs : list warning) (calls : list call)
    : W * list warning * list call * flow :=
  match bs with
  | [] => (w, errs, calls, Next)
  | b :: rest =>
      match b_setup_ctrls b ps w errs with
      | (w', errs', Next) => run_backends rest (S n) ps w' errs' (calls ++ [(n, ps)])
      | (w', errs', Escape e) => (w', errs', calls ++ [(n, ps)], Escape e)
      end
  end.

(** [CameraCtrls.get_ctrls(self)] *)
Definition get_ctrls (self : list backend) (w : W) : list BaseCtrl :=
  concat ((fun b => b_get_ctrls b w) <$> self).

(** [set(params.keys()) - set([c.text_id for c in self.get_ctrls()])] *)
Definition unknown_ctrls (self : list backend) (ps : params) (w : W) : gset string :=
  list_to_set (fst <$> ps) ∖ list_to_set (c_text_id <$> get_ctrls self w).

(** [CameraCtrls.setup_ctrls(self, params, errs)] *)
Definition setup_ctrls (self : list backend) (ps : params) (w : W)
    (errs : list warning) : W * list warning * list call * flow :=
  match run_backends self 0 ps w errs [] with
  | (w', errs', calls, Next) =>
      let unknown := unknown_ctrls self ps w' in
      if (0 <? size unknown)%nat
      then (w', collect_warning (W_unknown_ctrls unknown) errs', calls, Next)
      else (w', errs', calls, Next)
  | escaped => escaped
  end.

(** *** Vocabulary of the properties *)

(** A backend only appends to [errs], and what it does is the same
    whatever [errs] holds. Every [setup_ctrls] of the source reaches
    [errs] through [collect_warning] or [errs.extend] only. *)
Definition appends_only (b : backend) : Prop :=
  forall ps w errs,
    b_setup_ctrls b ps w errs
    = ((b_setup_ctrls b ps w []).1.1, errs ++ (b_setup_ctrls b ps w []).1.2,
       (b_setup_ctrls b ps w []).2).

(** The warnings of each backend in turn, the state they leave, and
    whether each of them returned. *)
Fixpoint backend_warnings (bs : list backend) (ps : params) (w : W) : list (list warning) :=
  match bs with
  | [] => []
  | b :: rest =>
      (b_setup_ctrls b ps w []).1.2 :: backend_warnings rest ps (b_setup_ctrls b ps w []).1.1
  end.

Fixpoint final_state (bs : list backend) (ps : params) (w : W) : W :=
  match bs with
  | [] => w
  | b :: rest => final_state rest ps (b_setup_ctrls b ps w []).1.1
  end.

Fixpoint all_return (bs : list backend) (ps : params) (w : W) : Prop :=
  match bs with
  | [] => True
  | b :: rest =>
      (b_setup_ctrls b ps w []).2 = Next /\
      all_return rest ps (b_setup_ctrls b ps w []).1.1
  end.

(** The one collective warning, or none. *)
Definition unknown_warning (unknown : gset string) : list warning :=
  if decide (unknown = ∅) then [] else [W_unknown_ctrls unknown].

End Aggregator.
Arguments backend W : clear implicits.

(** The generic and the AnkerWork backend as members of [self.ctrls]. *)
Record world (D : Type) := {
  v4l_ctrls : V4L2Ctrls.t D;
  ankerwork_ctrls : AnkerWorkCtrls.t D;
}.
Arguments v4l_ctrls {D} w.
Arguments ankerwork_ctrls {D} w.

Definition v4l2_backend {D : Type} `{V4L2Ctrls.Device D} : backend (world D) :=
  {| b_setup_ctrls ps w errs :=
       let r := V4L2Ctrls.setup_ctrls (v4l_ctrls w) ps errs in
       ({| v4l_ctrls := r.1.1; ankerwork_ctrls := ankerwork_ctrls w |}, r.1.2, r.2);
     b_get_ctrls w := V4L2Ctrls.ctrls (v4l_ctrls w) |}.

Definition ankerwork_backend {D : Type} `{AnkerWorkCtrls.Device D} : backend (world D) :=
  {| b_setup_ctrls ps w errs :=
       let r := AnkerWorkCtrls.setup_ctrls (ankerwork_ctrls w) ps errs in
       ({| v4l_ctrls := v4l_ctrls w; ankerwork_ctrls := r.1.1 |}, r.1.2, r.2);
     b_get_ctrls w := AnkerWorkCtrls.get_ctrls (ankerwork_ctrls w) |}.

End CameraCtrls.

(** ** The ioctl request codes: [_IOC], [_IOR], [_IOW], [_IOWR] *)

Module Ioctl.

Definition _IOC_NRBITS := 8.
Definition _IOC_TYPEBITS := 8.
Definition _IOC_SIZEBITS := 14.
Definition _IOC_NRSHIFT := 0.
Definition _IOC_TYPESHIFT := _IOC_NRSHIFT + _IOC_NRBITS.
Definition _IOC_SIZESHIFT := _IOC_TYPESHIFT + _IOC_TYPEBITS.
Definition _IOC_DIRSHIFT := _IOC_SIZESHIFT + _IOC_SIZEBITS.
Definition _IOC_WRITE := 1.
Definition _IOC_READ := 2.

(** [_IOC(dir_, type_, nr, size)]; [type_] is [ord(type_)], and
    [ctypes.c_int32(x).value] is [wrap_s32 x]. *)
Definition _IOC (dir_ type_ nr size : Z) : Z :=
  Z.lor (Z.lor (Z.lor (wrap_s32 (Z.shiftl dir_ _IOC_DIRSHIFT))
                      (wrap_s32 (Z.shiftl type_ _IOC_TYPESHIFT)))
               (wrap_s32 (Z.shiftl nr _IOC_NRSHIFT)))
        (wrap_s32 (Z.shiftl size _IOC_SIZESHIFT)).

(** [size] stands for [ctypes.sizeof] of the structure. *)
Definition _IOR (type_ nr size : Z) : Z := _IOC _IOC_READ type_ nr size.
Definition _IOW (type_ nr size : Z) : Z := _IOC _IOC_WRITE type_ nr size.
Definition _IOWR (type_ nr size : Z) : Z := _IOC (Z.lor _IOC_READ _IOC_WRITE) type_ nr size.

(** The request code of the kernel's [_IOC] macro, as an unsigned number. *)
Definition kernel_code (dir_ type_ nr size : Z) : Z :=
  dir_ * 2 ^ 30 + size * 2 ^ 16 + type_ * 2 ^ 8 + nr.

End Ioctl.

(** ** Control ids of the kernel (lines 595-699) *)

Module Cid.

Definition V4L2_CTRL_CLASS_MASK := 0x00ff0000.
Definition V4L2_CTRL_CLASS_USER := 0x00980000.
Definition V4L2_CTRL_CLASS_CODEC := 0x00990000.
Definition V4L2_CTRL_CLASS_CAMERA := 0x009a0000.
Definition V4L2_CTRL_CLASS_JPEG := 0x009d0000.
Definition V4L2_CTRL_CLASS_IMAGE_SOURCE := 0x9e0000.
Definition V4L2_CTRL_CLASS_IMAGE_PROC := 0x9f0000.
Definition V4L2_CID_BASE := Z.lor V4L2_CTRL_CLASS_USER 0x900.
Definition V4L2_CID_BRIGHTNESS := V4L2_CID_BASE + 0.
Definition V4L2_CID_CONTRAST := V4L2_CID_BASE + 1.
Definition V4L2_CID_SATURATION := V4L2_CID_BASE + 2.
Definition V4L2_CID_HUE := V4L2_CID_BASE + 3.
Definition V4L2_CID_AUTO_WHITE_BALANCE := V4L2_CID_BASE + 12.
Definition V4L2_CID_DO_WHITE_BALANCE := V4L2_CID_BASE + 13.
Definition V4L2_CID_RED_BALANCE := V4L2_CID_BASE + 14.
Definition V4L2_CID_BLUE_BALANCE := V4L2_CID_BASE + 15.
Definition V4L2_CID_GAMMA := V4L2_CID_BASE + 16.
Definition V4L2_CID_EXPOSURE := V4L2_CID_BASE + 17.
Definition V4L2_CID_AUTOGAIN := V4L2_CID_BASE + 18.
Definition V4L2_CID_GAIN := V4L2_CID_BASE + 19.
Definition V4L2_CID_HFLIP := V4L2_CID_BASE + 20.
Definition V4L2_CID_VFLIP := V4L2_CID_BASE + 21.
Definition V4L2_CID_POWER_LINE_FREQUENCY := V4L2_CID_BASE + 24.
Definition V4L2_CID_HUE_AUTO := V4L2_CID_BASE + 25.
Definition V4L2_CID_WHITE_BALANCE_TEMPERATURE := V4L2_CID_BASE + 26.
Definition V4L2_CID_SHARPNESS := V4L2_CID_BASE + 27.
Definition V4L2_CID_BACKLIGHT_COMPENSATION := V4L2_CID_BASE + 28.
Definition V4L2_CID_CHROMA_AGC := V4L2_CID_BASE + 29.
Definition V4L2_CID_COLOR_KILLER := V4L2_CID_BASE + 30.
Definition V4L2_CID_COLORFX := V4L2_CID_BASE + 31.
Definition V4L2_CID_AUTOBRIGHTNESS := V4L2_CID_BASE + 32.
Definition V4L2_CID_BAND_STOP_FILTER := V4L2_CID_BASE + 33.
Definition V4L2_CID_ROTATE := V4L2_CID_BASE + 34.
Definition V4L2_CID_BG_COLOR := V4L2_CID_BASE + 35.
Definition V4L2_CID_CHROMA_GAIN := V4L2_CID_BASE + 36.
Definition V4L2_CID_ILLUMINATORS_1 := V4L2_CID_BASE + 37.
Definition V4L2_CID_ILLUMINATORS_2 := V4L2_CID_BASE + 38.
Definition V4L2_CID_ALPHA_COMPONENT := V4L2_CID_BASE + 41.
Definition V4L2_CID_COLORFX_CBCR := V4L2_CID_BASE + 42.
Definition V4L2_CID_COLORFX_RGB := V4L2_CID_BASE + 43.
Definition V4L2_CID_CODEC_BASE := Z.lor V4L2_CTRL_CLASS_CODEC 0x900.
Definition V4L2_CID_CAMERA_CLASS_BASE := Z.lor V4L2_CTRL_CLASS_CAMERA 0x900.
Definition V4L2_CID_EXPOSURE_AUTO := V4L2_CID_CAMERA_CLASS_BASE + 1.
Definition V4L2_CID_EXPOSURE_ABSOLUTE := V4L2_CID_CAMERA_CLASS_BASE + 2.
Definition V4L2_CID_EXPOSURE_AUTO_PRIORITY := V4L2_CID_CAMERA_CLASS_BASE + 3.
Definition V4L2_CID_PAN_RELATIVE := V4L2_CID_CAMERA_CLASS_BASE + 4.
Definition V4L2_CID_TILT_RELATIVE := V4L2_CID_CAMERA_CLASS_BASE + 5.
Definition V4L2_CID_PAN_RESET := V4L2_CID_CAMERA_CLASS_BASE + 6.
Definition V4L2_CID_TILT_RESET := V4L2_CID_CAMERA_CLASS_BASE + 7.
Definition V4L2_CID_PAN_ABSOLUTE := V4L2_CID_CAMERA_CLASS_BASE + 8.
Definition V4L2_CID_TILT_ABSOLUTE := V4L2_CID_CAMERA_CLASS_BASE + 9.
Definition V4L2_CID_FOCUS_ABSOLUTE := V4L2_CID_CAMERA_CLASS_BASE + 10.
Definition V4L2_CID_FOCUS_RELATIVE := V4L2_CID_CAMERA_CLASS_BASE + 11.
Definition V4L2_CID_FOCUS_AUTO := V4L2_CID_CAMERA_CLASS_BASE + 12.
Definition V4L2_CID_ZOOM_ABSOLUTE := V4L2_CID_CAMERA_CLASS_BASE + 13.
Definition V4L2_CID_ZOOM_RELATIVE := V4L2_CID_CAMERA_CLASS_BASE + 14.
Definition V4L2_CID_ZOOM_CONTINUOUS := V4L2_CID_CAMERA_CLASS_BASE + 15.
Definition V4L2_CID_PRIVACY := V4L2_CID_CAMERA_CLASS_BASE + 16.
Definition V4L2_CID_IRIS_ABSOLUTE := V4L2_CID_CAMERA_CLASS_BASE + 17.
Definition V4L2_CID_IRIS_RELATIVE := V4L2_CID_CAMERA_CLASS_BASE + 18.
Definition V4L2_CID_AUTO_EXPOSURE_BIAS := V4L2_CID_CAMERA_CLASS_BASE + 19.
Definition V4L2_CID_AUTO_N_PRESET_WHITE_BALANCE := V4L2_CID_CAMERA_CLASS_BASE + 20.
Definition V4L2_CID_WIDE_DYNAMIC_RANGE := V4L2_CID_CAMERA_CLASS_BASE + 21.
Definition V4L2_CID_IMAGE_STABILIZATION := V4L2_CID_CAMERA_CLASS_BASE + 22.
Definition V4L2_CID_ISO_SENSITIVITY := V4L2_CID_CAMERA_CLASS_BASE + 23.
Definition V4L2_CID_ISO_SENSITIVITY_AUTO := V4L2_CID_CAMERA_CLASS_BASE + 24.
Definition V4L2_CID_EXPOSURE_METERING := V4L2_CID_CAMERA_CLASS_BASE + 25.
Definition V4L2_CID_SCENE_MODE := V4L2_CID_CAMERA_CLASS_BASE + 26.
Definition V4L2_CID_3A_LOCK := V4L2_CID_CAMERA_CLASS_BASE + 27.
Definition V4L2_CID_AUTO_FOCUS_START := V4L2_CID_CAMERA_CLASS_BASE + 28.
Definition V4L2_CID_AUTO_FOCUS_STOP := V4L2_CID_CAMERA_CLASS_BASE + 29.
Definition V4L2_CID_AUTO_FOCUS_STATUS := V4L2_CID_CAMERA_CLASS_BASE + 30.
Definition V4L2_CID_AUTO_FOCUS_RANGE := V4L2_CID_CAMERA_CLASS_BASE + 31.
Definition V4L2_CID_PAN_SPEED := V4L2_CID_CAMERA_CLASS_BASE + 32.
Definition V4L2_CID_TILT_SPEED := V4L2_CID_CAMERA_CLASS_BASE + 33.
Definition V4L2_CID_CAMERA_ORIENTATION := V4L2_CID_CAMERA_CLASS_BASE + 34.
Definition V4L2_CID_CAMERA_SENSOR_ROTATION := V4L2_CID_CAMERA_CLASS_BASE + 35.
Definition V4L2_CID_HDR_SENSOR_MODE := V4L2_CID_CAMERA_CLASS_BASE + 36.
Definition V4L2_CID_JPEG_CLASS_BASE := Z.lor V4L2_CTRL_CLASS_JPEG 0x900.
Definition V4L2_CID_JPEG_CHROMA_SUBSAMPLING := V4L2_CID_JPEG_CLASS_BASE + 1.
Definition V4L2_CID_JPEG_RESTART_INTERVAL := V4L2_CID_JPEG_CLASS_BASE + 2.
Definition V4L2_CID_JPEG_COMPRESSION_QUALITY := V4L2_CID_JPEG_CLASS_BASE + 3.
Definition V4L2_CID_JPEG_ACTIVE_MARKER := V4L2_CID_JPEG_CLASS_BASE + 4.
Definition V4L2_CID_IMAGE_SOURCE_CLASS_BASE := Z.lor V4L2_CTRL_CLASS_IMAGE_SOURCE 0x900.
Definition V4L2_CID_VBLANK := V4L2_CID_IMAGE_SOURCE_CLASS_BASE + 1.
Definition V4L2_CID_HBLANK := V4L2_CID_IMAGE_SOURCE_CLASS_BASE + 2.
Definition V4L2_CID_ANALOGUE_GAIN := V4L2_CID_IMAGE_SOURCE_CLASS_BASE + 3.
Definition V4L2_CID_TEST_PATTERN_RED := V4L2_CID_IMAGE_SOURCE_CLASS_BASE + 4.
Definition V4L2_CID_TEST_PATTERN_GREENR := V4L2_CID_IMAGE_SOURCE_CLASS_BASE + 5.
Definition V4L2_CID_TEST_PATTERN_BLUE := V4L2_CID_IMAGE_SOURCE_CLASS_BASE + 6.
Definition V4L2_CID_TEST_PATTERN_GREENB := V4L2_CID_IMAGE_SOURCE_CLASS_BASE + 7.
Definition V4L2_CID_UNIT_CELL_SIZE := V4L2_CID_IMAGE_SOURCE_CLASS_BASE + 8.
Definition V4L2_CID_NOTIFY_GAINS := V4L2_CID_IMAGE_SOURCE_CLASS_BASE + 9.
Definition V4L2_CID_IMAGE_PROC_CLASS_BASE := Z.lor V4L2_CTRL_CLASS_IMAGE_PROC 0x900.
Definition V4L2_CID_LINK_FREQ := V4L2_CID_IMAGE_PROC_CLASS_BASE + 1.
Definition V4L2_CID_PIXEL_RATE := V4L2_CID_IMAGE_PROC_CLASS_BASE + 2.
Definition V4L2_CID_TEST_PATTERN := V4L2_CID_IMAGE_PROC_CLASS_BASE + 3.
Definition V4L2_CID_DEINTERLACING_MODE := V4L2_CID_IMAGE_PROC_CLASS_BASE + 4.
Definition V4L2_CID_DIGITAL_GAIN := V4L2_CID_IMAGE_PROC_CLASS_BASE + 5.

End Cid.

(** ** The pages of the user interfaces: [get_ctrl_pages] *)

Module Pages.
Import Cid.

(** The loop
    [while True: idx = find_idx(ctrls, pred); if idx is not None:
    ret.append(ctrls.pop(idx)) else: break] on the lists [ctrls] and
    [ret]. Every pass but the last removes an element, so the loop makes at
    most one pass more than [ctrls] has elements; [passes] bounds
    them. The pair is [ret] and [ctrls] as the loop leaves them. *)
Fixpoint pop_while {A} (passes : nat) (pred : A -> bool) (ctrls ret : list A)
    : list A * list A :=
  match passes with
  | O => (ret, ctrls)
  | S passes' =>
      match find_idx ctrls pred with
      | Some idx =>
          match ctrls !! idx with
          | Some c => pop_while passes' pred (delete idx ctrls) (ret ++ [c])
          | None => (ret, ctrls)
          end
      | None => (ret, ctrls)
      end
  end.

(** [for key in keys: while True: ...], the loop that
    [pop_list_by_text_ids] and [pop_list_by_ids] share. *)
Fixpoint pop_for_each {A K} (pred : K -> A -> bool) (keys : list K) (ctrls ret : list A)
    : list A * list A :=
  match keys with
  | [] => (ret, ctrls)
  | key :: rest =>
      let '(ret', ctrls') := pop_while (S (length ctrls)) (pred key) ctrls ret in
      pop_for_each pred rest ctrls' ret'
  end.

(** [c.text_id.startswith(text_id)] *)
Definition text_id_startswith (text_id : string) (c : BaseCtrl) : bool :=
  String.prefix text_id (c_text_id c).

(** [hasattr(c, 'v4l2_id') and c.v4l2_id == id] *)
Definition has_v4l2_id (id : Z) (c : BaseCtrl) : bool :=
  match c_v4l2_id c with
  | Some x => x =? id
  | None => false
  end.

(** [hasattr(c, 'v4l2_id') and
    c.v4l2_id & V4L2_CTRL_CLASS_MASK == base_id & V4L2_CTRL_CLASS_MASK] *)
Definition in_class_of (base_id : Z) (c : BaseCtrl) : bool :=
  match c_v4l2_id c with
  | Some x => Z.land x V4L2_CTRL_CLASS_MASK =? Z.land base_id V4L2_CTRL_CLASS_MASK
  | None => false
  end.

(** [pop_list_by_text_ids(ctrls, text_ids)]: the list returned, and
    [ctrls] as the call leaves it. *)
Definition pop_list_by_text_ids (ctrls : list BaseCtrl) (text_ids : list string)
    : list BaseCtrl * list BaseCtrl :=
  pop_for_each text_id_startswith text_ids ctrls [].

(** [pop_list_by_base_id(ctrls, base_id)] *)
Definition pop_list_by_base_id (ctrls : list BaseCtrl) (base_id : Z)
    : list BaseCtrl * list BaseCtrl :=
  pop_while (S (length ctrls)) (in_class_of base_id) ctrls [].

(** [pop_list_by_ids(ctrls, ids)] *)
Definition pop_list_by_ids (ctrls : list BaseCtrl) (ids : list Z)
    : list BaseCtrl * list BaseCtrl :=
  pop_for_each has_v4l2_id ids ctrls [].

Inductive target := main | footer.

Record CtrlCategory := {
  cat_title : string;
  cat_ctrls : list BaseCtrl;
}.

Record CtrlPage := {
  page_title : string;
  page_categories : list CtrlCategory;
  page_target : target;
}.

Definition set_categories (cats : list CtrlCategory) (page : CtrlPage) : CtrlPage :=
  {| page_title := page_title page; page_categories := cats;
     page_target := page_target page |}.

(** [l.insert(-1, x)]: before the last element, or in an empty list. *)
Definition insert_before_last {A} (x : A) (l : list A) : list A :=
  take (length l - 1) l ++ x :: drop (length l - 1) l.

(** Lines 3195-3321: the pages with all their categories. The calls of
    the [pop_list_...] functions are evaluated in the order of the text,
    each on the list the one before it left. *)
Definition all_pages (all : list BaseCtrl) : list CtrlPage :=
  let ctrls := all in
  let '(crop_a, ctrls) :=
    pop_list_by_text_ids ctrls
      [ "kiyo_pro_fov"; "logitech_brio_fov"; "dell_ultrasharp_fov";
        "dell_ultrasharp_auto_framing"; "dell_ultrasharp_camera_transition";
        "dell_ultrasharp_tracking_sensitivity"; "dell_ultrasharp_tracking_frame_size";
        "ankerwork_fov"; "ankerwork_auto_framing"; "ankerwork_hor_flip" ]%string in
  let '(crop_b, ctrls) :=
    pop_list_by_ids ctrls
      [ V4L2_CID_ZOOM_ABSOLUTE; V4L2_CID_ZOOM_CONTINUOUS; V4L2_CID_ZOOM_ABSOLUTE;
        V4L2_CID_ZOOM_RELATIVE; V4L2_CID_PAN_ABSOLUTE; V4L2_CID_PAN_RELATIVE;
        V4L2_CID_PAN_RESET; V4L2_CID_PAN_SPEED; V4L2_CID_TILT_ABSOLUTE;
        V4L2_CID_TILT_RELATIVE; V4L2_CID_TILT_RESET; V4L2_CID_TILT_SPEED ] in
  let '(crop_c, ctrls) :=
    pop_list_by_text_ids ctrls
      [ "logitech_pan_"; "logitech_tilt_"; "logitech_pantilt" ]%string in
  let '(focus_a, ctrls) :=
    pop_list_by_ids ctrls
      [ V4L2_CID_FOCUS_AUTO; V4L2_CID_FOCUS_RELATIVE; V4L2_CID_FOCUS_ABSOLUTE;
        V4L2_CID_AUTO_FOCUS_START; V4L2_CID_AUTO_FOCUS_STOP; V4L2_CID_AUTO_FOCUS_RANGE;
        V4L2_CID_AUTO_FOCUS_STATUS ] in
  let '(focus_b, ctrls) :=
    pop_list_by_text_ids ctrls
      [ "kiyo_pro_af_mode"; "logitech_motor_focus"; "ankerwork_face_focus" ]%string in
  let '(exposure, ctrls) :=
    pop_list_by_ids ctrls
      [ V4L2_CID_EXPOSURE_AUTO; V4L2_CID_EXPOSURE_ABSOLUTE;
        V4L2_CID_EXPOSURE_AUTO_PRIORITY; V4L2_CID_AUTOGAIN; V4L2_CID_EXPOSURE;
        V4L2_CID_EXPOSURE_METERING; V4L2_CID_AUTO_EXPOSURE_BIAS; V4L2_CID_GAIN;
        V4L2_CID_ANALOGUE_GAIN; V4L2_CID_DIGITAL_GAIN; V4L2_CID_CHROMA_AGC;
        V4L2_CID_CHROMA_GAIN; V4L2_CID_IRIS_ABSOLUTE; V4L2_CID_IRIS_RELATIVE;
        V4L2_CID_IMAGE_STABILIZATION; V4L2_CID_SCENE_MODE; V4L2_CID_3A_LOCK;
        V4L2_CID_CAMERA_ORIENTATION; V4L2_CID_CAMERA_SENSOR_ROTATION ] in
  let '(iso, ctrls) :=
    pop_list_by_ids ctrls [ V4L2_CID_ISO_SENSITIVITY; V4L2_CID_ISO_SENSITIVITY_AUTO ] in
  let '(dynamic_a, ctrls) :=
    pop_list_by_ids ctrls
      [ V4L2_CID_BACKLIGHT_COMPENSATION; V4L2_CID_WIDE_DYNAMIC_RANGE;
        V4L2_CID_HDR_SENSOR_MODE ] in
  let '(dynamic_b, ctrls) :=
    pop_list_by_text_ids ctrls
      [ "kiyo_pro_hdr"; "dell_ultrasharp_hdr"; "ankerwork_hdr";
        "ankerowrk_face_compensation_enable"; "ankerwork_face_compensation" ]%string in
  let '(color_preset, ctrls) := pop_list_by_text_ids ctrls [ "color_preset"%string ] in
  let '(balance, ctrls) :=
    pop_list_by_ids ctrls
      [ V4L2_CID_AUTO_WHITE_BALANCE; V4L2_CID_AUTO_N_PRESET_WHITE_BALANCE;
        V4L2_CID_WHITE_BALANCE_TEMPERATURE; V4L2_CID_DO_WHITE_BALANCE;
        V4L2_CID_RED_BALANCE; V4L2_CID_BLUE_BALANCE ] in
  let '(color, ctrls) :=
    pop_list_by_ids ctrls
      [ V4L2_CID_AUTOBRIGHTNESS; V4L2_CID_BRIGHTNESS; V4L2_CID_CONTRAST;
        V4L2_CID_SATURATION; V4L2_CID_SHARPNESS; V4L2_CID_HUE_AUTO; V4L2_CID_HUE;
        V4L2_CID_GAMMA; V4L2_CID_COLOR_KILLER; V4L2_CID_BAND_STOP_FILTER;
        V4L2_CID_BG_COLOR ] in
  let '(effects, ctrls) :=
    pop_list_by_ids ctrls
      [ V4L2_CID_COLORFX; V4L2_CID_COLORFX_CBCR; V4L2_CID_COLORFX_RGB ] in
  let '(power_line, ctrls) := pop_list_by_ids ctrls [ V4L2_CID_POWER_LINE_FREQUENCY ] in
  let '(privacy, ctrls) := pop_list_by_ids ctrls [ V4L2_CID_PRIVACY ] in
  let '(rotate_flip, ctrls) :=
    pop_list_by_ids ctrls [ V4L2_CID_ROTATE; V4L2_CID_HFLIP; V4L2_CID_VFLIP ] in
  let '(image_source, ctrls) :=
    pop_list_by_base_id ctrls V4L2_CID_IMAGE_SOURCE_CLASS_BASE in
  let '(image_proc, ctrls) := pop_list_by_base_id ctrls V4L2_CID_IMAGE_PROC_CLASS_BASE in
  let '(cameractrlsd, ctrls) :=
    pop_list_by_text_ids ctrls
      [ "systemd_cameractrlsd"; "desktop_portal_cameractrlsd" ]%string in
  let '(codec, ctrls) := pop_list_by_base_id ctrls V4L2_CID_CODEC_BASE in
  let '(jpeg, ctrls) := pop_list_by_base_id ctrls V4L2_CID_JPEG_CLASS_BASE in
  let '(information, ctrls) :=
    pop_list_by_text_ids ctrls [ "card"; "driver"; "path"; "real_path" ]%string in
  let '(save, ctrls) :=
    pop_list_by_text_ids ctrls [ "kiyo_pro_save"; "preset" ]%string in
  let pages :=
    [ {| page_title := "Basic";
         page_categories :=
           [ {| cat_title := "Crop"; cat_ctrls := crop_a ++ crop_b ++ crop_c |};
             {| cat_title := "Focus"; cat_ctrls := focus_a ++ focus_b |} ];
         page_target := main |};
      {| page_title := "Exposure";
         page_categories :=
           [ {| cat_title := "Exposure"; cat_ctrls := exposure |};
             {| cat_title := "ISO"; cat_ctrls := iso |};
             {| cat_title := "Dynamic Range"; cat_ctrls := dynamic_a ++ dynamic_b |} ];
         page_target := main |};
      {| page_title := "Color";
         page_categories :=
           [ {| cat_title := "Color Preset"; cat_ctrls := color_preset |};
             {| cat_title := "Balance"; cat_ctrls := balance |};
             {| cat_title := "Color"; cat_ctrls := color |};
             {| cat_title := "Effects"; cat_ctrls := effects |} ];
         page_target := main |};
      {| page_title := "Advanced";
         page_categories :=
           [ {| cat_title := "Power Line"; cat_ctrls := power_line |};
             {| cat_title := "Privacy"; cat_ctrls := privacy |};
             {| cat_title := "Rotate/Flip"; cat_ctrls := rotate_flip |};
             {| cat_title := "Image Source Control"; cat_ctrls := image_source |};
             {| cat_title := "Image Process Control"; cat_ctrls := image_proc |};
             {| cat_title := "Cameractrlsd"; cat_ctrls := cameractrlsd |} ];
         page_target := main |};
      {| page_title := "Compression";
         page_categories :=
           [ {| cat_title := "Codec"; cat_ctrls := codec |};
             {| cat_title := "JPEG"; cat_ctrls := jpeg |} ];
         page_target := main |};
      {| page_title := "Info";
         page_categories := [ {| cat_title := "Info"; cat_ctrls := information |} ];
         page_target := main |};
      {| page_title := "Settings";
         page_categories := [ {| cat_title := "Save"; cat_ctrls := save |} ];
         page_target := footer |} ] in
  (* pages[3].categories.insert(-1, CtrlCategory('Other', ctrls)) *)
  alter
    (fun page =>
       set_categories
         (insert_before_last {| cat_title := "Other"; cat_ctrls := ctrls |}
            (page_categories page))
         page)
    3%nat pages.

(** [len(cat.ctrls)] and [len(page.categories)] as conditions. *)
Definition has_ctrls (cat : CtrlCategory) : bool :=
  negb (bool_decide (cat_ctrls cat = [])).

Definition has_categories (page : CtrlPage) : bool :=
  negb (bool_decide (page_categories page = [])).

(** Lines 3323-3326. *)
Definition without_empty (pages : list CtrlPage) : list CtrlPage :=
  let pages :=
    (fun page =>
       set_categories (List.filter has_ctrls (page_categories page)) page) <$> pages in
  List.filter has_categories pages.

(** [CameraCtrls.get_ctrl_pages(self)], on the list that
    [self.get_ctrls()] builds. *)
Definition get_ctrl_pages (all : list BaseCtrl) : list CtrlPage :=
  without_empty (all_pages all).

(** *** Vocabulary of the properties *)

(** The controls of the categories of the pages, in order. *)
Definition shown (pages : list CtrlPage) : list BaseCtrl :=
  concat (cat_ctrls <$> concat (page_categories <$> pages)).

End Pages.

(** ** A camera to run the model on *)

Module Sample.

(** A camera that answers every request. It keeps the frame interval it is
    given, stores a control value after limiting it to [cam_limit], offers
    menu entries at the indices 1 and 3 only, and has one extension unit
    register per selector. *)
Record sample_cam := {
  cam_fmt : V4L2FmtCtrls.v4l2_pix_format;
  cam_parm : V4L2FmtCtrls.v4l2_fract;
  cam_sizes : list V4L2FmtCtrls.v4l2_frmsizeenum;
  cam_limit : Z;
  cam_value : Z;
  cam_registers : list (Z * list Z);
}.

#[export] Instance sample_fmt_device : V4L2FmtCtrls.Device sample_cam := {|
  V4L2FmtCtrls.VIDIOC_G_FMT d := (d, Ok (cam_fmt d));
  V4L2FmtCtrls.VIDIOC_G_PARM d := (d, Ok (cam_parm d));
  V4L2FmtCtrls.VIDIOC_S_PARM d p :=
    ({| cam_fmt := cam_fmt d; cam_parm := p; cam_sizes := cam_sizes d;
        cam_limit := cam_limit d; cam_value := cam_value d;
        cam_registers := cam_registers d |}, Ok p);
  V4L2FmtCtrls.ENUM_FRAMESIZES d _ := cam_sizes d;
|}.

#[export] Instance sample_ctrl_device : V4L2Ctrls.Device sample_cam := {|
  V4L2Ctrls.VIDIOC_S_CTRL d id value :=
    let stored := Z.min value (cam_limit d) in
    ({| cam_fmt := cam_fmt d; cam_parm := cam_parm d; cam_sizes := cam_sizes d;
        cam_limit := cam_limit d; cam_value := stored;
        cam_registers := cam_registers d |}, Ok stored);
  V4L2Ctrls.VIDIOC_G_CTRL d id := (d, Ok (cam_value d));
  V4L2Ctrls.VIDIOC_QUERYMENU d id index :=
    (d,
     if index =? 1 then
       Ok {| V4L2Ctrls.qm_index := 1; V4L2Ctrls.qm_name := "Manual Mode";
             V4L2Ctrls.qm_value := 0 |}
     else if index =? 3 then
       Ok {| V4L2Ctrls.qm_index := 3; V4L2Ctrls.qm_name := "Aperture Priority Mode";
             V4L2Ctrls.qm_value := 0 |}
     else Raise OSError);
|}.

Fixpoint register (regs : list (Z * list Z)) (selector : Z) : option (list Z) :=
  match regs with
  | [] => None
  | (sel, bytes) :: rest => if sel =? selector then Some bytes else register rest selector
  end.

#[export] Instance sample_xu_device : AnkerWorkCtrls.Device sample_cam := {|
  AnkerWorkCtrls.UVCIOC_CTRL_QUERY d unit_id selector query size data :=
    match register (cam_registers d) selector with
    | None => (d, Raise OSError)
    | Some bytes =>
        if query =? AnkerWorkCtrls.UVC_GET_LEN then
          (d, Ok [Z.of_nat (length bytes) mod 256; Z.of_nat (length bytes) / 256])
        else if query =? AnkerWorkCtrls.UVC_GET_CUR then
          (d, Ok (bytes ++ drop (length bytes) data))
        else
          ({| cam_fmt := cam_fmt d; cam_parm := cam_parm d; cam_sizes := cam_sizes d;
              cam_limit := cam_limit d; cam_value := cam_value d;
              cam_registers := (selector, take (length bytes) data) :: cam_registers d |},
           Ok data)
    end;
|}.

Definition discrete (w h : Z) : V4L2FmtCtrls.v4l2_frmsizeenum :=
  {| V4L2FmtCtrls.frm_type := V4L2FmtCtrls.V4L2_FRMSIZE_TYPE_DISCRETE;
     V4L2FmtCtrls.frm_width := w; V4L2FmtCtrls.frm_height := h |}.

Definition YUYV_code : Z := 1448695129.

(** The camera: 1280x720 YUYV at 15 frames per second, control values up
    to [limit], the current control value 2, and the face exposure
    register holding the enable flag 1 and the compensation 0x23. *)
Definition cam (limit : Z) : sample_cam :=
  {| cam_fmt := {| V4L2FmtCtrls.width := 1280; V4L2FmtCtrls.height := 720;
                   V4L2FmtCtrls.pixelformat := YUYV_code |};
     cam_parm := {| V4L2FmtCtrls.numerator := 1; V4L2FmtCtrls.denominator := 15 |};
     cam_sizes := [discrete 1024 1024; discrete 1280 720];
     cam_limit := limit;
     cam_value := 2;
     cam_registers := [(AnkerWorkCtrls.ANKERWORK_FACE_EXPOSURE_COMP_SELECTOR, [0x01; 0x23])] |}.

Definition menu_ctrl (text_id name : string) (value : pyval) (entries : list string)
    : BaseCtrl :=
  {| c_text_id := text_id; c_name := name; c_type := menu; c_value := value;
     c_default := PNone; c_min := PNone; c_max := PNone; c_step := PNone;
     c_inactive := false; c_readonly := false; c_reopener := true;
     c_zeroer := false;
     c_menu := (fun e => {| m_text_id := e; m_name := e; m_value := PNone |}) <$> entries;
     c_v4l2_id := None; c_selector := None; c_length := None |}.

Definition fps_ctrl : BaseCtrl := menu_ctrl "fps" "FPS" (PStr "15") ["30"; "15"].

(** Format controls whose cached values are those of the camera. *)
Definition sample_fmt_ctrls : V4L2FmtCtrls.t sample_cam :=
  {| V4L2FmtCtrls.fd := cam 255;
     V4L2FmtCtrls.ctrls :=
       [ menu_ctrl "pixelformat" "Pixel format" (PStr "YUYV") ["YUYV"; "MJPG"];
         menu_ctrl "resolution" "Resolution" (PStr "1280x720") ["1280x720"; "1024x1024"];
         fps_ctrl ];
     V4L2FmtCtrls.pxf_ctrl := Some 0%nat; V4L2FmtCtrls.res_ctrl := Some 1%nat;
     V4L2FmtCtrls.fps_ctrl := Some 2%nat;
     V4L2FmtCtrls.issued := [] |}.

(** Format controls whose cached resolution and frame rate are stale. *)
Definition stale_fmt_ctrls : V4L2FmtCtrls.t sample_cam :=
  {| V4L2FmtCtrls.fd := cam 255;
     V4L2FmtCtrls.ctrls :=
       [ menu_ctrl "pixelformat" "Pixel format" (PStr "YUYV") ["YUYV"; "MJPG"];
         menu_ctrl "resolution" "Resolution" (PStr "640x480") ["1280x720"; "640x480"];
         menu_ctrl "fps" "FPS" (PStr "30") ["30"; "15"] ];
     V4L2FmtCtrls.pxf_ctrl := Some 0%nat; V4L2FmtCtrls.res_ctrl := Some 1%nat;
     V4L2FmtCtrls.fps_ctrl := Some 2%nat;
     V4L2FmtCtrls.issued := [] |}.

(** What [VIDIOC_QUERYCTRL] enumerates: a brightness from 0 to 255 with
    default 50, and an exposure menu over the indices 0 to 3 with default
    3. *)
Definition V4L2_CID_BRIGHTNESS := 0x00980900.
Definition V4L2_CID_EXPOSURE_AUTO := 0x009a0901.

Definition sample_answers : list V4L2Ctrls.v4l2_queryctrl :=
  [ {| V4L2Ctrls.q_id := V4L2_CID_BRIGHTNESS;
       V4L2Ctrls.q_type := V4L2Ctrls.V4L2_CTRL_TYPE_INTEGER;
       V4L2Ctrls.q_name := "Brightness";
       V4L2Ctrls.q_minimum := 0; V4L2Ctrls.q_maximum := 255; V4L2Ctrls.q_step := 1;
       V4L2Ctrls.q_default := 50; V4L2Ctrls.q_flags := 0 |};
    {| V4L2Ctrls.q_id := V4L2_CID_EXPOSURE_AUTO;
       V4L2Ctrls.q_type := V4L2Ctrls.V4L2_CTRL_TYPE_MENU;
       V4L2Ctrls.q_name := "Exposure, Auto";
       V4L2Ctrls.q_minimum := 0; V4L2Ctrls.q_maximum := 3; V4L2Ctrls.q_step := 1;
       V4L2Ctrls.q_default := 3; V4L2Ctrls.q_flags := 0 |} ].

Definition sample_v4l2_ctrls (limit : Z) : V4L2Ctrls.t sample_cam :=
  V4L2Ctrls.get_device_controls (cam limit) sample_answers.

(** The brightness control as enumeration builds it. *)
Definition brightness_ctrl : BaseCtrl :=
  {| c_text_id := "brightness"; c_name := "Brightness"; c_type := integer;
     c_value := PInt 2; c_default := PInt 50; c_min := PInt 0; c_max := PInt 255;
     c_step := PInt 1; c_inactive := false; c_readonly := false;
     c_reopener := false; c_zeroer := false; c_menu := [];
     c_v4l2_id := Some V4L2_CID_BRIGHTNESS; c_selector := None; c_length := None |}.

Definition sample_listener : V4L2Listener.t sample_cam :=
  {| V4L2Listener.ctrls := sample_v4l2_ctrls 255;
     V4L2Listener.fmt_ctrls := stale_fmt_ctrls;
     V4L2Listener.closed := false |}.

Definition sample_anker : AnkerWorkCtrls.t sample_cam :=
  {| AnkerWorkCtrls.fd := cam 255;
     AnkerWorkCtrls.unit_id := 5;
     AnkerWorkCtrls.usb_ids := "291a:3367";
     AnkerWorkCtrls.ctrls := AnkerWorkCtrls.device_controls;
     AnkerWorkCtrls.issued := [] |}.

Definition face_compensation_ctrl : BaseCtrl :=
  AnkerWorkCtrls.AnkerWorkCtrl "ankerwork_face_compensation" "Face Compensation" integer
    AnkerWorkCtrls.ANKERWORK_FACE_EXPOSURE_COMP_SELECTOR []
    AnkerWorkCtrls.ANKERWORK_FACE_EXPOSURE_COMP_LENGTH (PStr "0") (PStr "100") (PStr "35").

Definition sample_world : CameraCtrls.world sample_cam :=
  {| CameraCtrls.v4l_ctrls := sample_v4l2_ctrls 100;
     CameraCtrls.ankerwork_ctrls := sample_anker |}.

Definition sample_backends : list (CameraCtrls.backend (CameraCtrls.world sample_cam)) :=
  [CameraCtrls.v4l2_backend; CameraCtrls.ankerwork_backend].

(** A batch with a value the camera limits, a good menu entry and two
    names no backend has. *)
Definition sample_batch : params :=
  [ ("brightness", PStr "200%"); ("exposure_auto", PStr "manual_mode");
    ("zoom", PInt 1); ("tilt", PInt 0) ].

(** Two events on the exposure menu: the code 1 has an entry, the code 2
    has none. *)
Definition POLLPRI := 0x002.

Definition exposure_event (code : Z) : V4L2Listener.v4l2_event :=
  {| V4L2Listener.ev_id := V4L2_CID_EXPOSURE_AUTO; V4L2Listener.ev_flags := 0;
     V4L2Listener.ev_value := code |}.

Definition listener_in_manual_mode : V4L2Listener.t sample_cam :=
  (V4L2Listener.handle_event sample_listener POLLPRI (Ok (exposure_event 1))).1.1.

End Sample.

(** ** Setting the format: [V4L2FmtCtrls.setup_ctrls] *)

Module FmtSetup.
Import V4L2FmtCtrls.

(** The ioctl that sets the format, and [str(e)] for the exception an
    ioctl raised (the warnings quote it). *)
Class SetDevice (D : Type) := {
  VIDIOC_S_FMT : D -> v4l2_pix_format -> D * res v4l2_pix_format;
  strerror : exn -> string;
}.

(** The code points of a [str]. *)
Definition of_string (s : string) : Fourcc.pystr :=
  (fun a => Z.of_N (N_of_ascii a)) <$> list_ascii_of_string s.

(** [str2pxf(str)] on a value: an item of a character buffer is one
    byte, which [ord] takes; an item of [bytes] is an [int], which it
    does not; an [int] or [None] is not subscriptable. *)
Definition str2pxf (str : pyval) : res Z :=
  match str with
  | PStr s => Fourcc.str2pxf (of_string s)
  | PBuf bs => Fourcc.str2pxf bs
  | PBytes [] => Raise IndexError
  | _ => Raise TypeError
  end.

Definition pxf2str (pxf : Z) : string := Fourcc.to_string (Fourcc.pxf2str pxf).

(** [str2wh(str, wh)]: the fields are 32 bits wide. [bytes] cannot be
    split at a [str], and the other values have no [split]. *)
Definition str2wh (str : pyval) (wh : v4l2_pix_format) : res v4l2_pix_format :=
  match str with
  | PStr s =>
      let split := split "x" s in
      w ← match split !! 0%nat with Some x => int_of_str x | None => Raise IndexError end;
      h ← match split !! 1%nat with Some x => int_of_str x | None => Raise IndexError end;
      Ok {| width := wrap_u32 w; height := wrap_u32 h; pixelformat := pixelformat wh |}
  | PBytes _ => Raise TypeError
  | _ => Raise AttributeError
  end.

Definition set_pixelformat_of (pxf : Z) (pix : v4l2_pix_format) : v4l2_pix_format :=
  {| width := width pix; height := height pix; pixelformat := wrap_u32 pxf |}.

Section WithDevice.
Context {D : Type} `{Device D} `{SetDevice D}.

(** The device after an ioctl that the request log does not name. *)
Definition with_fd (self : t D) (dev : D) : t D :=
  {| fd := dev; ctrls := ctrls self; pxf_ctrl := pxf_ctrl self;
     res_ctrl := res_ctrl self; fps_ctrl := fps_ctrl self; issued := issued self |}.

(** [V4L2FmtCtrls.set_pixelformat(self, ctrl, pixelformat, errs)];
    [idx] is the reference to [ctrl]. *)
Definition set_pixelformat (self : t D) (idx : nat) (ctrl : BaseCtrl) (pixelformat : pyval)
    (errs : list warning) : t D * list warning * flow :=
  let '(dev1, r) := VIDIOC_G_FMT (fd self) in
  let self1 := with_dev self dev1 G_FMT in
  match r with
  | Raise e =>
      (self1,
       collect_warning (W_other ("V4L2FmtCtrls: Can't get fmt " +:+ strerror e)) errs,
       Next)
  | Ok pix =>
      if py_eq pixelformat (PStr (pxf2str (V4L2FmtCtrls.pixelformat pix))) then
        (self1, errs, Next)
      else
        match str2pxf pixelformat with
        | Raise e => (self1, errs, Escape e)
        | Ok pxf =>
            let '(dev2, r2) := VIDIOC_S_FMT (fd self1) (set_pixelformat_of pxf pix) in
            let self2 := with_fd self1 dev2 in
            match r2 with
            | Raise e =>
                (self2,
                 collect_warning
                   (W_other ("V4L2FmtCtrls: Can't set fmt " +:+ strerror e)) errs,
                 Next)
            | Ok pix2 =>
                if negb (py_eq (PStr (pxf2str (V4L2FmtCtrls.pixelformat pix2)))
                           pixelformat) then
                  (self2,
                   collect_warning
                     (W_other ("V4L2FmtCtrls: Can't set pixelformat to "
                               +:+ py_str pixelformat +:+ " using "
                               +:+ pxf2str (V4L2FmtCtrls.pixelformat pix2))) errs,
                   Next)
                else
                  (with_ctrls self2 (<[idx := set_value pixelformat ctrl]> (ctrls self2)),
                   errs, Next)
            end
        end
  end.

(** [V4L2FmtCtrls.set_resolution(self, ctrl, resolution, errs)] *)
Definition set_resolution (self : t D) (idx : nat) (ctrl : BaseCtrl) (resolution : pyval)
    (errs : list warning) : t D * list warning * flow :=
  let '(dev1, r) := VIDIOC_G_FMT (fd self) in
  let self1 := with_dev self dev1 G_FMT in
  match r with
  | Raise e =>
      (self1,
       collect_warning (W_other ("V4L2FmtCtrls: Can't get fmt " +:+ strerror e)) errs,
       Next)
  | Ok pix =>
      if py_eq (PStr (wh2str (width pix) (height pix))) resolution then
        (self1, errs, Next)
      else
        match str2wh resolution pix with
        | Raise e => (self1, errs, Escape e)
        | Ok pix1 =>
            let '(dev2, r2) := VIDIOC_S_FMT (fd self1) pix1 in
            let self2 := with_fd self1 dev2 in
            match r2 with
            | Raise e =>
                (self2,
                 collect_warning
                   (W_other ("V4L2FmtCtrls: Can't set fmt " +:+ strerror e)) errs,
                 Next)
            | Ok pix2 =>
                if negb (py_eq (PStr (wh2str (width pix2) (height pix2))) resolution) then
                  (self2,
                   collect_warning
                     (W_other ("V4L2FmtCtrls: Can't set resolution to "
                               +:+ py_str resolution +:+ " using "
                               +:+ wh2str (width pix2) (height pix2))) errs,
                   Next)
                else
                  (with_ctrls self2 (<[idx := set_value resolution ctrl]> (ctrls self2)),
                   errs, Next)
            end
        end
  end.

(** The body of the loop of [V4L2FmtCtrls.setup_ctrls], for the item
    [k, v]. The controls this backend builds have a menu unless they are
    of type ['info']. *)
Definition setup_ctrl (self : t D) (errs : list warning) (k : string) (v : pyval)
    : t D * list warning * flow :=
  match find_ref (ctrls self) (PStr k) with
  | None => (self, errs, Next)
  | Some (idx, ctrl) =>
      if bool_decide (c_type ctrl = info) then
        (self, collect_warning (W_Fmt_info k) errs, Next)
      else
        match find_by_text_id (c_menu ctrl) v with
        | None =>
            (self, collect_warning (W_Fmt_no_menu v (m_text_id <$> c_menu ctrl)) errs, Next)
        | Some _ =>
            if String.eqb (c_text_id ctrl) "pixelformat" then
              set_pixelformat self idx ctrl v errs
            else if String.eqb (c_text_id ctrl) "resolution" then
              set_resolution self idx ctrl v errs
            else if String.eqb (c_text_id ctrl) "fps" then
              set_fps self idx ctrl v errs
            else (self, errs, Next)
        end
  end.

(** [V4L2FmtCtrls.setup_ctrls(self, params, errs)] *)
Fixpoint setup_ctrls (self : t D) (ps : params) (errs : list warning)
    : t D * list warning * flow :=
  match ps with
  | [] => (self, errs, Next)
  | (k, v) :: rest =>
      match setup_ctrl self errs k v with
      | (self', errs', Next) => setup_ctrls self' rest errs'
      | escaped => escaped
      end
  end.

End WithDevice.

End FmtSetup.

(** ** Extension unit queries (module level functions) *)

Module Xu.
Import AnkerWorkCtrls.

Section WithDevice.
Context {D : Type} `{Device D}.

(** The open device, with the ghost record of the queries issued. *)
Record port := {
  fd : D;
  issued : list request;
}.

Definition query (p : port) (unit_id selector q size : Z) (data : list Z)
    : port * res (list Z) :=
  let '(dev, r) := UVCIOC_CTRL_QUERY (fd p) unit_id selector q size data in
  ({| fd := dev; issued := issued p ++ [XU unit_id selector q size data] |}, r).

(** [try_xu_control(fd, unit_id, selector)] *)
Definition try_xu_control (p : port) (unit_id selector : Z) : port * bool :=
  let '(p', r) := query p unit_id selector UVC_GET_LEN 2 [0; 0] in
  (p', match r with Ok _ => true | Raise _ => false end).

(** [get_length_xu_control(fd, unit_id, selector)] *)
Definition get_length_xu_control (p : port) (unit_id selector : Z) : port * Z :=
  let '(p', r) := query p unit_id selector UVC_GET_LEN 2 [0; 0] in
  (p', match r with Ok data => _int_from_bytes data | Raise _ => 0 end).

(** [query_xu_control(fd, unit_id, selector, query, data)]: the device
    and [data] as the call leaves them. *)
Definition query_xu_control (p : port) (unit_id selector q : Z) (data : list Z)
    : port * list Z :=
  let '(p1, len) := get_length_xu_control p unit_id selector in
  let '(p2, r) := query p1 unit_id selector q len data in
  (p2, match r with Ok data' => data' | Raise _ => data end).

End WithDevice.
Arguments port D : clear implicits.

(** [seq[i]] on a sequence of [n] items: the position, counting from
    the end for a negative [i], or nothing where [IndexError] is
    raised. *)
Definition py_index (n : nat) (i : Z) : option nat :=
  if (0 <=? i) && (i <? Z.of_nat n) then Some (Z.to_nat i)
  else if (- Z.of_nat n <=? i) && (i <? 0) then Some (Z.to_nat (i + Z.of_nat n))
  else None.

(** What an item of a character buffer can be assigned: an [int] from 0
    to 255, or one byte. *)
Definition as_char (v : pyval) : res Z :=
  match v with
  | PInt b => if (0 <=? b) && (b <? 256) then Ok b else Raise TypeError
  | PBytes [b] => Ok b
  | _ => Raise TypeError
  end.

(** [buf[i] = v] on a character buffer. *)
Definition set_item (buf : list Z) (i : Z) (v : pyval) : res (list Z) :=
  match py_index (length buf) i with
  | None => Raise IndexError
  | Some n => b ← as_char v; Ok (<[n := b]> buf)
  end.

(** [buf[i][0]] on a character buffer. *)
Definition get_item (buf : list Z) (i : Z) : res Z :=
  match py_index (length buf) i with
  | None => Raise IndexError
  | Some n => match buf !! n with Some b => Ok b | None => Raise IndexError end
  end.

(** [repr] of a list of text ids that have no quote, backslash or
    unprintable character, as an f-string shows it. *)
Fixpoint join (sep : string) (l : list string) : string :=
  match l with
  | [] => EmptyString
  | [x] => x
  | x :: rest => (x +:+ sep +:+ join sep rest)%string
  end.

(** The type of a control as an f-string shows it. *)
Definition type_str (t : ctrl_type) : string :=
  match t with
  | integer => "integer"
  | boolean => "boolean"
  | menu => "menu"
  | button => "button"
  | info => "info"
  end.

Definition repr_ids (ids : list string) : string :=
  ("[" +:+ join ", " ((fun x => "'" +:+ x +:+ "'") <$> ids) +:+ "]")%string.

End Xu.

(** ** The Logitech backend: [LogitechCtrls] *)

Module LogitechCtrls.
Import AnkerWorkCtrls Xu.

(** [LogitechCtrl]: a control with the unit, the selector, the length of
    the register and the offset of its byte in the register. *)
Record LogitechCtrl := {
  base : BaseCtrl;
  _unit_id : Z;
  _selector : Z;
  _len : Z;
  _offset : Z;
}.

#[export] Instance logitech_text_id : HasTextId LogitechCtrl := fun c => c_text_id (base c).

Definition set_ctrl_value (v : pyval) (c : LogitechCtrl) : LogitechCtrl :=
  {| base := set_value v (base c); _unit_id := _unit_id c; _selector := _selector c;
     _len := _len c; _offset := _offset c |}.

Section WithDevice.
Context {D : Type} `{Device D}.

Record t := {
  dev : port D;
  usb_ids : string;
  ctrls : list LogitechCtrl;
}.

Definition with_dev (self : t) (p : port D) : t :=
  {| dev := p; usb_ids := usb_ids self; ctrls := ctrls self |}.

(** [LogitechCtrls.supported(self)] *)
Definition supported (self : t) : bool := negb (length (ctrls self) =? 0)%nat.

Definition find_ctrl (cs : list LogitechCtrl) (k : pyval) : option (nat * LogitechCtrl) :=
  i ← find_idx cs (text_id_is k);
  c ← cs !! i;
  Some (i, c).

(** Lines 1619-1629: [desired]. *)
Inductive dispatch :=
| Desired (v : pyval)
| Skip (w : warning)
| Raised (e : exn).

Definition select_desired (k : string) (ctrl : LogitechCtrl) (v : pyval) : dispatch :=
  if bool_decide (c_type (base ctrl) = menu) || bool_decide (c_type (base ctrl) = button)
  then
    match find_by_text_id (c_menu (base ctrl)) v with
    | None =>
        Skip (W_other ("LogitechCtrls: can't find " +:+ py_str v +:+ " in "
                       +:+ repr_ids (m_text_id <$> c_menu (base ctrl))))
    | Some m => Desired (m_value m)
    end
  else if bool_decide (c_type (base ctrl) = integer) then
    match py_int v with
    | Ok n => Desired (PInt n)
    | Raise e => Raised e
    end
  else
    Skip (W_other ("Can't set " +:+ k +:+ " to " +:+ py_str v
                   +:+ " (Unsupported control type " +:+ type_str (c_type (base ctrl))
                   +:+ ")")).

(** Lines 1641-1646: [desired] and [current] as they are compared. *)
Definition shown_as (ctrl : LogitechCtrl) (v : pyval) : pyval :=
  if bool_decide (c_type (base ctrl) = menu) then
    match find_by_value (c_menu (base ctrl)) v with
    | Some m => PStr (m_text_id m)
    | None => v
    end
  else v.

(** The body of the loop of [setup_ctrls]. *)
Definition setup_ctrl (self : t) (errs : list warning) (k : string) (v : pyval)
    : t * list warning * flow :=
  match find_ctrl (ctrls self) (PStr k) with
  | None => (self, errs, Next)
  | Some (idx, ctrl) =>
      match select_desired k ctrl v with
      | Raised e => (self, errs, Escape e)
      | Skip w => (self, collect_warning w errs, Next)
      | Desired desired =>
          if bool_decide (c_type (base ctrl) = button) then
            match to_buf desired with
            | Raise e => (self, errs, Escape e)
            | Ok buf =>
                let '(p1, _) :=
                  query_xu_control (dev self) (_unit_id ctrl) (_selector ctrl)
                    UVC_SET_CUR buf in
                (with_dev self p1, errs, Next)
            end
          else if _len ctrl <? 0 then (self, errs, Escape ValueError)
          else
            let '(p1, current_config) :=
              query_xu_control (dev self) (_unit_id ctrl) (_selector ctrl) UVC_GET_CUR
                (replicate (Z.to_nat (_len ctrl)) 0 ++ [0]) in
            match set_item current_config (_offset ctrl) desired with
            | Raise e => (with_dev self p1, errs, Escape e)
            | Ok current_config =>
                let '(p2, d1) :=
                  query_xu_control p1 (_unit_id ctrl) (_selector ctrl) UVC_SET_CUR
                    current_config in
                let '(p3, d2) :=
                  query_xu_control p2 (_unit_id ctrl) (_selector ctrl) UVC_GET_CUR d1 in
                match get_item d2 (_offset ctrl) with
                | Raise e => (with_dev self p3, errs, Escape e)
                | Ok current =>
                    let desired := shown_as ctrl desired in
                    let current := shown_as ctrl (PInt current) in
                    if negb (py_eq current desired) then
                      (with_dev self p3,
                       collect_warning
                         (W_other ("LogitechCtrls: failed to set " +:+ k +:+ " to "
                                   +:+ py_str desired +:+ ", current value "
                                   +:+ py_str current +:+ String "010" EmptyString))
                         errs,
                       Next)
                    else
                      ({| dev := p3; usb_ids := usb_ids self;
                          ctrls := <[idx := set_ctrl_value desired ctrl]> (ctrls self) |},
                       errs, Next)
                end
            end
      end
  end.

Fixpoint setup_items (self : t) (ps : params) (errs : list warning)
    : t * list warning * flow :=
  match ps with
  | [] => (self, errs, Next)
  | (k, v) :: rest =>
      match setup_ctrl self errs k v with
      | (self', errs', Next) => setup_items self' rest errs'
      | escaped => escaped
      end
  end.

(** [LogitechCtrls.setup_ctrls(self, params, errs)] *)
Definition setup_ctrls (self : t) (ps : params) (errs : list warning)
    : t * list warning * flow :=
  if negb (supported self) then (self, errs, Next)
  else setup_items self ps errs.

End WithDevice.
Arguments t D : clear implicits.

End LogitechCtrls.

(** ** Presets: [resolve_v4l_ids] *)

Module Presets.

(** A [dict] with [str] keys is the list of its items in insertion
    order. [d[k] = v] replaces the value of an existing key where it
    stands and appends a new key. *)
Fixpoint dict_set (d : params) (k : string) (v : pyval) : params :=
  match d with
  | [] => [(k, v)]
  | (k', v') :: rest =>
      if String.eqb k' k then (k', v) :: rest else (k', v') :: dict_set rest k v
  end.

(** Several assignments, one after the other. *)
Definition set_all (d items : params) : params :=
  foldl (fun ret kv => dict_set ret kv.1 kv.2) d items.

Section WithDevice.
Context {D : Type} `{V4L2Ctrls.Device D}.

(** [resolve_v4l_ids(v4l_ctrls, preset)]; [preset] is the list of the
    items of the dict, whose keys are control ids. *)
Fixpoint resolve_into (ret : params) (v4l_ctrls : V4L2Ctrls.t D) (preset : list (Z * pyval))
    : params :=
  match preset with
  | [] => ret
  | (k, v) :: rest =>
      match V4L2Ctrls.find_by_v4l2_id v4l_ctrls k with
      | Some (_, c) => resolve_into (dict_set ret (c_text_id c) v) v4l_ctrls rest
      | None => resolve_into ret v4l_ctrls rest
      end
  end.

Definition resolve_v4l_ids (v4l_ctrls : V4L2Ctrls.t D) (preset : list (Z * pyval)) : params :=
  resolve_into [] v4l_ctrls preset.

(** The condition of the filter of [ColorPreset.__init__] (line 2697):
    [len(p.v4l_presets) == len(p.presets)]. *)
Definition offered (v4l_ctrls : V4L2Ctrls.t D) (v4l_presets : list (Z * pyval)) : bool :=
  (length v4l_presets =? length (resolve_v4l_ids v4l_ctrls v4l_presets))%nat.

(** *** Vocabulary of the properties *)

(** The items of a preset whose id names a control, under the text id of
    that control. *)
Definition named (v4l_ctrls : V4L2Ctrls.t D) (preset : list (Z * pyval)) : params :=
  omap (fun kv => (fun ic => (c_text_id ic.2, kv.2))
                    <$> V4L2Ctrls.find_by_v4l2_id v4l_ctrls kv.1) preset.

End WithDevice.

End Presets.

(** ** Vocabulary of the invariants *)

Module Invariants.

(** What a batch may do to a list of controls: the list keeps its length,
    every control keeps all its attributes but [value], and a control
    whose text id is none of [names] keeps its [value] too. *)
Definition values_only (names : list string) (before after : list BaseCtrl) : Prop :=
  length after = length before /\
  forall i c, before !! i = Some c ->
    exists v, after !! i = Some (set_value v c) /\
              (c_text_id c ∉ names -> v = c_value c).

(** A character a text id can have: none of those [to_text_id] deletes
    or replaces, and no capital letter. *)
Definition text_id_char (a : ascii) : Prop :=
  (a ∉ [" "; "-"; ","; "&"; "("; "."; ")"; "/"]%char) /\
  ~ (65 <= N_of_ascii a <= 90)%N.

(** What a batch may do to the format controls: a control is left as it
    is, or it is one of [names], not of type ['info'], and its value
    becomes the text id of an entry of its menu. *)
Definition entries_only (names : list string) (before after : list BaseCtrl) : Prop :=
  length after = length before /\
  forall i c, before !! i = Some c ->
    after !! i = Some c \/
    exists m, m ∈ c_menu c /\ after !! i = Some (set_value (PStr (m_text_id m)) c) /\
              c_type c <> info /\ c_text_id c ∈ names.

End Invariants.

(** ** More sample runs *)

Module Runs.
Import Sample.

(** The sample camera takes every format it is asked for, but no width
    above 1920, which it answers with 1920. *)
#[export] Instance sample_set_device : FmtSetup.SetDevice sample_cam := {|
  FmtSetup.VIDIOC_S_FMT d pix :=
    let got :=
      {| V4L2FmtCtrls.width := Z.min (V4L2FmtCtrls.width pix) 1920;
         V4L2FmtCtrls.height := V4L2FmtCtrls.height pix;
         V4L2FmtCtrls.pixelformat := V4L2FmtCtrls.pixelformat pix |} in
    ({| cam_fmt := got; cam_parm := cam_parm d; cam_sizes := cam_sizes d;
        cam_limit := cam_limit d; cam_value := cam_value d;
        cam_registers := cam_registers d |}, Ok got);
  FmtSetup.strerror e := "[Errno 22] Invalid argument";
|}.

(** A batch whose second name reaches the face compensation of the
    AnkerWork backend. *)
Definition escaping_batch : params :=
  [ ("brightness", PStr "50%"); ("ankerwork_face_compensation", PStr "35") ].

(** A batch with a name that is no control, and the face compensation of
    the AnkerWork backend. *)
Definition unclaimed_escaping_batch : params :=
  [ ("zoom", PInt 1); ("ankerwork_face_compensation", PStr "35") ].

(** A batch for the exposure menu and for a name that is no control. *)
Definition menu_batch : params :=
  [ ("exposure_auto", PStr "manual_mode"); ("zoom", PInt 1) ].

(** A batch with a number that [int] cannot read, between two good
    items. *)
Definition bad_number_batch : params :=
  [ ("exposure_auto", PStr "manual_mode") ] ++
  ("brightness", PStr "bright") :: [ ("exposure_auto", PStr "aperture_priority_mode") ].

(** Two controls of the AnkerWork backend, as [get_device_controls]
    builds them. *)
Definition hdr_ctrl : BaseCtrl :=
  AnkerWorkCtrls.AnkerWorkCtrl "ankerwork_hdr" "HDR" menu
    AnkerWorkCtrls.ANKERWORK_HDR_SELECTOR
    [ AnkerWorkCtrls.entry "off" "Off" (PInt 0x00);
      AnkerWorkCtrls.entry "on" "On" (PInt 0x01) ]
    AnkerWorkCtrls.ANKERWORK_HDR_LENGTH PNone PNone PNone.

Definition enable_ctrl : BaseCtrl :=
  AnkerWorkCtrls.AnkerWorkCtrl "ankerwork_face_compensation_enable"
    "Face Compensation Enable" menu
    AnkerWorkCtrls.ANKERWORK_FACE_EXPOSURE_COMP_SELECTOR
    [ AnkerWorkCtrls.entry "off" "Off" (PInt 0x00);
      AnkerWorkCtrls.entry "on" "On" (PInt 0x01) ]
    AnkerWorkCtrls.ANKERWORK_FACE_EXPOSURE_COMP_LENGTH PNone PNone PNone.

(** A Logitech camera whose LED register holds the mode 1 and the
    frequency 5, with the frequency control as [get_device_controls]
    builds it. *)
Definition led_cam : sample_cam :=
  {| cam_fmt := cam_fmt (cam 255); cam_parm := cam_parm (cam 255);
     cam_sizes := cam_sizes (cam 255); cam_limit := 255; cam_value := 2;
     cam_registers := [(0x09, [0; 1; 0; 5; 0])] |}.

Definition led_frequency_ctrl : LogitechCtrls.LogitechCtrl :=
  {| LogitechCtrls.base :=
       {| c_text_id := "logitech_led1_frequency"; c_name := "LED1 Frequency";
          c_type := integer; c_value := PInt 5; c_default := PNone;
          c_min := PInt 0; c_max := PInt 255; c_step := PNone;
          c_inactive := false; c_readonly := false; c_reopener := false;
          c_zeroer := false; c_menu := []; c_v4l2_id := None;
          c_selector := None; c_length := None |};
     LogitechCtrls._unit_id := 3; LogitechCtrls._selector := 0x09;
     LogitechCtrls._len := 5; LogitechCtrls._offset := 3 |}.

Definition sample_logitech : LogitechCtrls.t sample_cam :=
  {| LogitechCtrls.dev := {| Xu.fd := led_cam; Xu.issued := [] |};
     LogitechCtrls.usb_ids := "046d:085e";
     LogitechCtrls.ctrls := [led_frequency_ctrl] |}.

(** A camera that fails every extension unit query. *)
Inductive dead_cam := Dead.

#[export] Instance dead_xu_device : AnkerWorkCtrls.Device dead_cam := {|
  AnkerWorkCtrls.UVCIOC_CTRL_QUERY d unit_id selector query size data := (d, Raise OSError);
|}.

Definition dead_logitech : LogitechCtrls.t dead_cam :=
  {| LogitechCtrls.dev := {| Xu.fd := Dead; Xu.issued := [] |};
     LogitechCtrls.usb_ids := "046d:085e";
     LogitechCtrls.ctrls := [led_frequency_ctrl] |}.

(** The frame intervals the sample camera enumerates: 1/30 and 1/15 of a
    second. *)
Definition sample_intervals : list V4L2FmtCtrls.v4l2_frmivalenum :=
  [ {| V4L2FmtCtrls.frmi_type := V4L2FmtCtrls.V4L2_FRMIVAL_TYPE_DISCRETE;
       V4L2FmtCtrls.frmi_discrete :=
         {| V4L2FmtCtrls.numerator := 1; V4L2FmtCtrls.denominator := 30 |} |};
    {| V4L2FmtCtrls.frmi_type := V4L2FmtCtrls.V4L2_FRMIVAL_TYPE_DISCRETE;
       V4L2FmtCtrls.frmi_discrete :=
         {| V4L2FmtCtrls.numerator := 1; V4L2FmtCtrls.denominator := 15 |} |} ].

(** The sample camera with a brightness whose default is 45. *)
Definition answers_45 : list V4L2Ctrls.v4l2_queryctrl :=
  [ {| V4L2Ctrls.q_id := V4L2_CID_BRIGHTNESS;
       V4L2Ctrls.q_type := V4L2Ctrls.V4L2_CTRL_TYPE_INTEGER;
       V4L2Ctrls.q_name := "Brightness";
       V4L2Ctrls.q_minimum := 0; V4L2Ctrls.q_maximum := 255; V4L2Ctrls.q_step := 1;
       V4L2Ctrls.q_default := 45; V4L2Ctrls.q_flags := 0 |} ].

Definition v4l2_ctrls_45 : V4L2Ctrls.t sample_cam :=
  V4L2Ctrls.get_device_controls (cam 255) answers_45.

(** A camera whose extension unit registers are one byte long and read
    1 whatever is written to them. *)
Inductive stubborn_cam := Stubborn.

#[export] Instance stubborn_xu_device : AnkerWorkCtrls.Device stubborn_cam := {|
  AnkerWorkCtrls.UVCIOC_CTRL_QUERY d unit_id selector query size data :=
    if query =? AnkerWorkCtrls.UVC_GET_LEN then (d, Ok [1; 0])
    else if query =? AnkerWorkCtrls.UVC_GET_CUR then (d, Ok (1 :: drop 1 data))
    else (d, Ok data);
|}.

Definition stubborn_anker : AnkerWorkCtrls.t stubborn_cam :=
  {| AnkerWorkCtrls.fd := Stubborn;
     AnkerWorkCtrls.unit_id := 5;
     AnkerWorkCtrls.usb_ids := "291a:3367";
     AnkerWorkCtrls.ctrls := AnkerWorkCtrls.device_controls;
     AnkerWorkCtrls.issued := [] |}.

(** An event on the brightness: the value 77, and the control
    inactive. *)
Definition brightness_event : V4L2Listener.v4l2_event :=
  {| V4L2Listener.ev_id := V4L2_CID_BRIGHTNESS;
     V4L2Listener.ev_flags := V4L2Ctrls.V4L2_CTRL_FLAG_INACTIVE;
     V4L2Listener.ev_value := 77 |}.

(** The code of ["MJPG"]. *)
Definition MJPG_code : Z := 1196444237.

End Runs.

(** * Properties *)

(** ** Pixel format codes *)

Section FourccProperties.
Import Fourcc.

Lemma byte_high_bits (a n : Z) : is_byte a -> 8 <= n -> Z.testbit a n = false.
Proof.
  intros [Hlo Hhi] Hn.
  destruct (Z.eq_dec a 0) as [-> | Hne].
  - apply Z.bits_0.
  - apply Z.bits_above_log2; [lia |].
    assert (Z.log2 a < 8) by (apply Z.log2_lt_pow2; lia). lia.
Qed.

Lemma testbit_255 (n : Z) : 0 <= n -> Z.testbit 255 n = (n <? 8).
Proof.
  intros Hn. change 255 with (Z.ones 8).
  destruct (Z.ltb_spec n 8).
  - apply Z.ones_spec_low. lia.
  - apply Z.ones_spec_high. lia.
Qed.

(** The bit [n] of the packed word, by the byte it falls in. *)
Lemma packed_bit (c0 c1 c2 c3 n : Z) :
  is_byte c0 -> is_byte c1 -> is_byte c2 -> is_byte c3 -> 0 <= n ->
  Z.testbit (Z.lor (Z.lor (Z.lor c0 (Z.shiftl c1 8)) (Z.shiftl c2 16)) (Z.shiftl c3 24)) n
  = if n <? 8 then Z.testbit c0 n
    else if n <? 16 then Z.testbit c1 (n - 8)
    else if n <? 24 then Z.testbit c2 (n - 16)
    else Z.testbit c3 (n - 24).
Proof.
  intros H0 H1 H2 H3 Hn.
  rewrite !Z.lor_spec, !Z.shiftl_spec by lia.
  destruct (Z.ltb_spec n 8).
  { rewrite (Z.testbit_neg_r c1), (Z.testbit_neg_r c2), (Z.testbit_neg_r c3) by lia.
    now rewrite !orb_false_r. }
  rewrite (byte_high_bits c0) by (auto; lia).
  destruct (Z.ltb_spec n 16).
  { rewrite (Z.testbit_neg_r c2), (Z.testbit_neg_r c3) by lia.
    now rewrite !orb_false_r. }
  rewrite (byte_high_bits c1) by (auto; lia).
  destruct (Z.ltb_spec n 24).
  { rewrite (Z.testbit_neg_r c3) by lia. now rewrite !orb_false_r. }
  rewrite (byte_high_bits c2) by (auto; lia). reflexivity.
Qed.

Lemma unpack_byte (c0 c1 c2 c3 k b : Z) :
  is_byte c0 -> is_byte c1 -> is_byte c2 -> is_byte c3 -> is_byte b ->
  0 <= k ->
  (forall n, 0 <= n < 8 ->
     Z.testbit (Z.lor (Z.lor (Z.lor c0 (Z.shiftl c1 8)) (Z.shiftl c2 16)) (Z.shiftl c3 24)) (n + k)
     = Z.testbit b n) ->
  Z.land (Z.shiftr (Z.lor (Z.lor (Z.lor c0 (Z.shiftl c1 8)) (Z.shiftl c2 16)) (Z.shiftl c3 24)) k) 255
  = b.
Proof.
  intros H0 H1 H2 H3 Hb Hk Hbits.
  apply Z.bits_inj'. intros n Hn.
  rewrite Z.land_spec, Z.shiftr_spec, testbit_255 by lia.
  destruct (Z.ltb_spec n 8).
  - rewrite andb_true_r. apply Hbits. lia.
  - rewrite andb_false_r. symmetry. apply byte_high_bits; auto.
Qed.

(** C9. [pxf2str] is a left inverse of [str2pxf] on every [str] of
    exactly four code points below 256: encoding such a string succeeds
    and decoding the code gives the string back. *)
Theorem pxf2str_str2pxf (s : pystr) :
  length s = 4%nat ->
  Forall is_byte s ->
  exists pxf, str2pxf s = Ok pxf /\ pxf2str pxf = s.
Proof.
  intros Hlen Hall.
  destruct s as [| c0 [| c1 [| c2 [| c3 [| ? ?]]]]]; simpl in Hlen; try lia.
  apply Forall_cons in Hall as [H0 Hall].
  apply Forall_cons in Hall as [H1 Hall].
  apply Forall_cons in Hall as [H2 Hall].
  apply Forall_cons in Hall as [H3 _].
  eexists. split; [reflexivity |].
  unfold pxf2str.
  rewrite <- (Z.shiftr_0_r (Z.lor _ _)) at 1.
  f_equal; [| f_equal; [| f_equal; [| f_equal]]].
  - apply unpack_byte; auto; [lia |]. intros n Hn.
    rewrite packed_bit by (auto; lia).
    replace (n + 0 <? 8) with true by (symmetry; apply Z.ltb_lt; lia).
    f_equal; lia.
  - apply unpack_byte; auto; [lia |]. intros n Hn.
    rewrite packed_bit by (auto; lia).
    replace (n + 8 <? 8) with false by (symmetry; apply Z.ltb_ge; lia).
    replace (n + 8 <? 16) with true by (symmetry; apply Z.ltb_lt; lia).
    f_equal; lia.
  - apply unpack_byte; auto; [lia |]. intros n Hn.
    rewrite packed_bit by (auto; lia).
    replace (n + 16 <? 8) with false by (symmetry; apply Z.ltb_ge; lia).
    replace (n + 16 <? 16) with false by (symmetry; apply Z.ltb_ge; lia).
    replace (n + 16 <? 24) with true by (symmetry; apply Z.ltb_lt; lia).
    f_equal; lia.
  - apply unpack_byte; auto; [lia |]. intros n Hn.
    rewrite packed_bit by (auto; lia).
    replace (n + 24 <? 8) with false by (symmetry; apply Z.ltb_ge; lia).
    replace (n + 24 <? 16) with false by (symmetry; apply Z.ltb_ge; lia).
    replace (n + 24 <? 24) with false by (symmetry; apply Z.ltb_ge; lia).
    f_equal; lia.
Qed.

(** The code ["YUYV"] of the specification. *)
Lemma pxf2str_str2pxf_YUYV :
  length YUYV = 4%nat /\ Forall is_byte YUYV /\
  exists pxf, str2pxf YUYV = Ok pxf /\ pxf2str pxf = YUYV.
Proof.
  assert (Hlen : length YUYV = 4%nat) by reflexivity.
  assert (Hall : Forall is_byte YUYV)
    by (repeat constructor; unfold is_byte; lia).
  exact (conj Hlen (conj Hall (pxf2str_str2pxf YUYV Hlen Hall))).
Defined.

End FourccProperties.

(** ** Extension unit discovery *)

Section SysfsProperties.
Import Sysfs.

Lemma startswith_app (g post : list Z) : startswith (g ++ post) g = true.
Proof.
  induction g as [| a g IH]; simpl.
  - destruct post; reflexivity.
  - rewrite Z.eqb_refl. exact IH.
Qed.

Lemma startswith_true (d g : list Z) :
  startswith d g = true -> exists post, d = g ++ post.
Proof.
  revert d. induction g as [| b g IH]; intros d Hs.
  - exists d. reflexivity.
  - destruct d as [| a d]; simpl in Hs; [discriminate |].
    apply andb_true_iff in Hs as [Hab Hs]. apply Z.eqb_eq in Hab. subst b.
    destruct (IH d Hs) as [post ->]. exists post. reflexivity.
Qed.

Lemma occurs_at_0 (d g : list Z) : occurs_at d g 0 <-> startswith d g = true.
Proof.
  split.
  - intros (pre & post & -> & Hlen). destruct pre; [| discriminate].
    simpl. apply startswith_app.
  - intros Hs. destruct (startswith_true d g Hs) as [post ->].
    exists [], post. split; reflexivity.
Qed.

Lemma occurs_at_S (a : Z) (d g : list Z) (n : nat) :
  occurs_at (a :: d) g (S n) <-> occurs_at d g n.
Proof.
  split.
  - intros (pre & post & Heq & Hlen). destruct pre as [| a' pre]; [discriminate |].
    simpl in Heq, Hlen. injection Heq as -> ->. exists pre, post. split; [reflexivity | lia].
  - intros (pre & post & -> & Hlen). exists (a :: pre), post. simpl. split; [reflexivity | lia].
Qed.

Lemma find_from_first (g d : list Z) (n : nat) (i : Z) :
  occurs_at d g n ->
  (forall j, (j < n)%nat -> ~ occurs_at d g j) ->
  find_from i d g = i + Z.of_nat n.
Proof.
  revert d i. induction n as [| n IH]; intros d i Hocc Hfirst.
  - apply occurs_at_0 in Hocc.
    destruct d; simpl in *; rewrite Hocc; lia.
  - destruct d as [| a d].
    { destruct Hocc as (pre & post & Heq & Hlen). destruct pre; discriminate. }
    assert (Hno : startswith (a :: d) g = false).
    { destruct (startswith (a :: d) g) eqn:E; [| reflexivity].
      exfalso. apply (Hfirst 0%nat); [lia |]. now apply occurs_at_0. }
    change (find_from i (a :: d) g)
      with (if startswith (a :: d) g then i else find_from (i + 1) d g).
    rewrite Hno, (IH d (i + 1)).
    + lia.
    + now apply occurs_at_S in Hocc.
    + intros j Hj Hocc'. apply (Hfirst (S j)); [lia |]. now apply occurs_at_S.
Qed.

Lemma find_from_none (g d : list Z) (i : Z) :
  (forall j, ~ occurs_at d g j) -> find_from i d g = -1.
Proof.
  revert i. induction d as [| a d IH]; intros i Hnone.
  - assert (Hno : startswith [] g = false).
    { destruct (startswith [] g) eqn:E; [| reflexivity].
      exfalso. apply (Hnone 0%nat). now apply occurs_at_0. }
    simpl. simpl in Hno. rewrite Hno. reflexivity.
  - assert (Hno : startswith (a :: d) g = false).
    { destruct (startswith (a :: d) g) eqn:E; [| reflexivity].
      exfalso. apply (Hnone 0%nat). now apply occurs_at_0. }
    change (find_from i (a :: d) g)
      with (if startswith (a :: d) g then i else find_from (i + 1) d g).
    rewrite Hno. apply IH.
    intros j Hocc. apply (Hnone (S j)). now apply occurs_at_S.
Qed.

(** C7. When the descriptors hold the identifier and its first occurrence
    has a byte before it, [find_unit_id_in_sysfs] returns that byte; when
    they do not hold it, or the descriptor file is absent, it returns 0
    without raising. With unit id 0 the backends gated on it report
    themselves unsupported: [supported()] of the Kiyo Pro, Dell and
    AnkerWork backends is false for every USB id, and the Logitech backend
    has no control, so its [supported()] is false too. *)
Theorem find_unit_id_in_sysfs_resolves (guid : list Z) (f : descfile) (unit_id : Z) :
  resolves guid f unit_id ->
  find_unit_id_in_sysfs f guid = Ok unit_id /\
  (unit_id = 0 ->
   (forall usb_ids dev_match, supported unit_id usb_ids dev_match = false) /\
   (forall probe preset focus fov,
      logitech_supported
        (logitech_groups unit_id unit_id unit_id unit_id probe preset focus fov) = false)).
Proof.
  intros Hres. split.
  - destruct Hres as [d n b Hocc Hfirst Hb | d Hnone |].
    + unfold find_unit_id_in_sysfs, find.
      rewrite (find_from_first guid d (S n) 0 Hocc Hfirst).
      replace (0 <? 0 + Z.of_nat (S n)) with true by (symmetry; apply Z.ltb_lt; lia).
      replace (Z.to_nat (0 + Z.of_nat (S n) - 1)) with n by lia.
      rewrite Hb. reflexivity.
    + unfold find_unit_id_in_sysfs, find.
      rewrite (find_from_none guid d 0 Hnone). reflexivity.
    + reflexivity.
  - intros ->. split.
    + intros usb_ids dev_match. reflexivity.
    + intros probe preset focus fov. reflexivity.
Qed.

Lemma sample_descriptors_first (j : nat) :
  (j < 2)%nat -> ~ occurs_at sample_descriptors ANKERWORK_GUID j.
Proof.
  intros Hj (pre & post & Heq & Hlen).
  destruct pre as [| p0 [| p1 pre]]; simpl in Hlen; [| | lia].
  - discriminate Heq.
  - discriminate Heq.
Qed.

(** The example of the specification: the byte before the identifier is
    0x05, and resolution gives 5. *)
Lemma find_unit_id_in_sysfs_sample :
  resolves ANKERWORK_GUID (Content sample_descriptors) 5 /\
  find_unit_id_in_sysfs (Content sample_descriptors) ANKERWORK_GUID = Ok 5.
Proof.
  assert (H : resolves ANKERWORK_GUID (Content sample_descriptors) 5).
  { apply (resolves_found ANKERWORK_GUID sample_descriptors 1 5).
    - exists [0x09; 0x05], [0x01; 0x00]. split; reflexivity.
    - exact sample_descriptors_first.
    - reflexivity. }
  exact (conj H (proj1 (find_unit_id_in_sysfs_resolves _ _ _ H))).
Defined.

End SysfsProperties.

(** ** Decimal strings *)

Section DecimalStrings.

Lemma str_of_Z_nonneg (z : Z) :
  0 <= z ->
  exists d, d <> Nil /\ str_of_Z z = NilEmpty.string_of_uint d /\ Z.of_N (N.of_uint d) = z.
Proof.
  intros Hz. destruct z as [| p | p]; [| | lia].
  - exists (D0 Nil). repeat split. discriminate.
  - exists (Pos.to_uint p). split; [apply DecimalPos.Unsigned.to_uint_nonnil |]. split.
    + unfold str_of_Z. simpl.
      pose proof (DecimalPos.Unsigned.to_uint_nonnil p) as Hnn.
      destruct (Pos.to_uint p); [congruence | reflexivity ..].
    + unfold N.of_uint. rewrite DecimalPos.Unsigned.of_to. reflexivity.
Qed.

Lemma digits_of_string_of_uint (d : uint) :
  digits_of true (NilEmpty.string_of_uint d) = Some (NilEmpty.string_of_uint d).
Proof.
  induction d; cbn [NilEmpty.string_of_uint]; [reflexivity | ..];
    (cbn [digits_of]; rewrite IHd; reflexivity).
Qed.

Lemma number_of_string_of_uint (d : uint) :
  number_of (NilEmpty.string_of_uint d) = Some (Z.of_N (N.of_uint d)).
Proof. unfold number_of. rewrite NilEmpty.usu. reflexivity. Qed.

Lemma parse_digits_string_of_uint (d : uint) :
  d <> Nil -> parse_digits (NilEmpty.string_of_uint d) = Some (Z.of_N (N.of_uint d)).
Proof.
  intros Hd. unfold parse_digits.
  assert (Hds : digits_of false (NilEmpty.string_of_uint d)
                = Some (NilEmpty.string_of_uint d)).
  { destruct d; [congruence | ..];
      (cbn [NilEmpty.string_of_uint digits_of];
       rewrite digits_of_string_of_uint; reflexivity). }
  rewrite Hds. apply number_of_string_of_uint.
Qed.

Lemma lstrip_string_of_uint (text : bool) (d : uint) :
  lstrip (is_space text) (NilEmpty.string_of_uint d) = NilEmpty.string_of_uint d.
Proof. destruct d, text; reflexivity. Qed.

Lemma rstrip_string_of_uint (text : bool) (d : uint) :
  rstrip (is_space text) (NilEmpty.string_of_uint d) = NilEmpty.string_of_uint d.
Proof.
  induction d; cbn [NilEmpty.string_of_uint]; [reflexivity | ..];
    (cbn [rstrip]; rewrite IHd;
     destruct (NilEmpty.string_of_uint d); [destruct text |]; reflexivity).
Qed.

Lemma strip_string_of_uint (text : bool) (d : uint) :
  strip (is_space text) (NilEmpty.string_of_uint d) = NilEmpty.string_of_uint d.
Proof. unfold strip. now rewrite lstrip_string_of_uint, rstrip_string_of_uint. Qed.

Lemma split_sign_string_of_uint (d : uint) :
  split_sign (NilEmpty.string_of_uint d) = (false, NilEmpty.string_of_uint d).
Proof. destruct d; reflexivity. Qed.

Lemma length_string_of_uint (d : uint) :
  String.length (NilEmpty.string_of_uint d) = nb_digits d.
Proof. induction d; cbn [NilEmpty.string_of_uint String.length nb_digits]; congruence. Qed.

Lemma int_of_str_string_of_uint (d : uint) :
  d <> Nil -> Z.of_nat (nb_digits d) <= int_max_str_digits ->
  int_of_str (NilEmpty.string_of_uint d) = Ok (Z.of_N (N.of_uint d)).
Proof.
  intros Hd Hlen. unfold int_of_str, int_of_text.
  rewrite strip_string_of_uint, split_sign_string_of_uint.
  assert (Hds : digits_of false (NilEmpty.string_of_uint d)
                = Some (NilEmpty.string_of_uint d)).
  { destruct d; [congruence | ..];
      (cbn [NilEmpty.string_of_uint digits_of];
       rewrite digits_of_string_of_uint; reflexivity). }
  rewrite Hds, length_string_of_uint.
  replace (int_max_str_digits <? Z.of_nat (nb_digits d)) with false
    by (symmetry; apply Z.ltb_ge; exact Hlen).
  rewrite number_of_string_of_uint. reflexivity.
Qed.

(** A number of [n] digits whose first digit is not 0 is at least
    [10 ^ (n - 1)]. *)
Lemma of_uint_acc_lower (d : uint) :
  forall acc : positive,
  Zpos acc * 10 ^ Z.of_nat (nb_digits d) <= Zpos (Pos.of_uint_acc d acc).
Proof.
  induction d; intros acc; cbn [Pos.of_uint_acc nb_digits];
    [rewrite Z.mul_1_r; lia | ..];
    (rewrite Nat2Z.inj_succ, Z.pow_succ_r by lia;
     etransitivity; [| apply IHd];
     assert (0 < 10 ^ Z.of_nat (nb_digits d)) by (apply Z.pow_pos_nonneg; lia);
     nia).
Qed.

Lemma nb_digits_to_uint (p : positive) :
  10 ^ (Z.of_nat (nb_digits (Pos.to_uint p)) - 1) <= Zpos p.
Proof.
  pose proof (DecimalPos.Unsigned.of_to p) as Hof.
  pose proof (DecimalPos.Unsigned.to_uint_nonzero p) as Hnz.
  assert (Hnorm : unorm (Pos.to_uint p) = Pos.to_uint p).
  { rewrite <- DecimalPos.Unsigned.to_of, Hof. reflexivity. }
  destruct (Pos.to_uint p) as [| l | l | l | l | l | l | l | l | l | l] eqn:E;
    [discriminate Hof | ..].
  1: { exfalso. pose proof (DecimalFacts.nb_digits_nzhead l) as Hlen.
       unfold unorm in Hnorm. cbn [nzhead] in Hnorm.
       destruct (nzhead l) eqn:Hl; cbn iota in Hnorm;
         [apply Hnz; symmetry; exact Hnorm | | discriminate Hnorm ..].
       injection Hnorm as <-. cbn [nb_digits] in Hlen. lia. }
  all: cbn [Pos.of_uint] in Hof; injection Hof as Hof;
    cbn [nb_digits]; rewrite Nat2Z.inj_succ;
    replace (Z.succ (Z.of_nat (nb_digits l)) - 1) with (Z.of_nat (nb_digits l)) by lia;
    rewrite <- Hof;
    (etransitivity; [| apply of_uint_acc_lower]);
    assert (0 < 10 ^ Z.of_nat (nb_digits l)) by (apply Z.pow_pos_nonneg; lia);
    nia.
Qed.

Lemma str_of_Z_digits (z : Z) (k : Z) :
  0 <= z < 10 ^ k -> 1 <= k ->
  exists d, d <> Nil /\ str_of_Z z = NilEmpty.string_of_uint d /\
            Z.of_N (N.of_uint d) = z /\ Z.of_nat (nb_digits d) <= k.
Proof.
  intros Hz Hk. destruct z as [| p | p]; [| | lia].
  - exists (D0 Nil). repeat split; [discriminate | cbn; lia].
  - exists (Pos.to_uint p). split; [apply DecimalPos.Unsigned.to_uint_nonnil |].
    split; [| split].
    + unfold str_of_Z. simpl.
      pose proof (DecimalPos.Unsigned.to_uint_nonnil p) as Hnn.
      destruct (Pos.to_uint p); [congruence | reflexivity ..].
    + unfold N.of_uint. rewrite DecimalPos.Unsigned.of_to. reflexivity.
    + pose proof (nb_digits_to_uint p) as Hlow.
      destruct (Z.le_gt_cases (Z.of_nat (nb_digits (Pos.to_uint p))) k) as [| Hgt];
        [assumption |].
      assert (10 ^ k <= 10 ^ (Z.of_nat (nb_digits (Pos.to_uint p)) - 1))
        by (apply Z.pow_le_mono_r; lia).
      lia.
Qed.

Lemma int_of_str_str_of_Z (z : Z) :
  0 <= z < 10 ^ int_max_str_digits -> int_of_str (str_of_Z z) = Ok z.
Proof.
  intros Hz.
  destruct (str_of_Z_digits z int_max_str_digits Hz ltac:(unfold int_max_str_digits; lia))
    as (d & Hd & -> & <- & Hlen).
  now apply int_of_str_string_of_uint.
Qed.

Lemma u32_within_limit (z : Z) : z < 2 ^ 32 -> z < 10 ^ int_max_str_digits.
Proof.
  intros Hz. apply Z.lt_le_trans with (10 ^ 10); [lia |].
  apply Z.pow_le_mono_r; unfold int_max_str_digits; lia.
Qed.

Lemma split_x_digits (d : uint) :
  split "x" (NilEmpty.string_of_uint d) = [NilEmpty.string_of_uint d].
Proof.
  induction d; cbn [NilEmpty.string_of_uint split]; [reflexivity | ..];
    (rewrite IHd; reflexivity).
Qed.

Lemma split_x_digits_x (d : uint) (s : string) :
  split "x" (NilEmpty.string_of_uint d +:+ String "x" s)
  = NilEmpty.string_of_uint d :: split "x" s.
Proof.
  induction d; [reflexivity | ..].
  all: simpl; simpl in IHd; rewrite IHd; reflexivity.
Qed.

End DecimalStrings.

(** ** The order of the resolution list *)

Section ResolutionOrder.
Import V4L2FmtCtrls Sample.

Lemma sort_key_res_str (p : Z * Z) :
  is_u32 p.1 -> is_u32 p.2 -> sort_key (res_str p) = Ok [p.1; p.2].
Proof.
  intros [Hw Hw'] [Hh Hh']. unfold sort_key, res_str, wh2str.
  apply u32_within_limit in Hw', Hh'.
  destruct (str_of_Z_digits p.1 int_max_str_digits (conj Hw Hw')
              ltac:(unfold int_max_str_digits; lia)) as (dw & Hdw & Ew & Vw & Lw).
  destruct (str_of_Z_digits p.2 int_max_str_digits (conj Hh Hh')
              ltac:(unfold int_max_str_digits; lia)) as (dh & Hdh & Eh & Vh & Lh).
  rewrite Ew, Eh.
  change ("x" +:+ NilEmpty.string_of_uint dh)%string
    with (String "x" (NilEmpty.string_of_uint dh)).
  rewrite split_x_digits_x, split_x_digits.
  cbn [map_int].
  rewrite (int_of_str_string_of_uint dw Hdw Lw), (int_of_str_string_of_uint dh Hdh Lh).
  rewrite Vw, Vh. reflexivity.
Qed.

Lemma with_keys_res_str (sizes : list (Z * Z)) :
  Forall (fun p => is_u32 p.1 /\ is_u32 p.2) sizes ->
  with_keys (res_str <$> sizes) = Ok (keyed <$> sizes).
Proof.
  induction 1 as [| p sizes [Hw Hh] _ IH]; [reflexivity |].
  cbn [fmap list_fmap with_keys]. rewrite (sort_key_res_str p Hw Hh).
  cbn [mbind res_bind Py.bind]. fold (fmap (M := list) res_str sizes).
  rewrite IH. reflexivity.
Qed.

Lemma discrete_prefix_sizes (answers : list v4l2_frmsizeenum) :
  discrete_prefix answers = res_str <$> discrete_sizes answers.
Proof.
  induction answers as [| frm rest IH]; [reflexivity |].
  simpl. destruct (negb _); [reflexivity |]. simpl. now rewrite IH.
Qed.

Lemma list_lt_pair (w1 h1 w2 h2 : Z) :
  list_lt [w1; h1] [w2; h2] = true <-> w1 < w2 \/ (w1 = w2 /\ h1 < h2).
Proof.
  simpl. rewrite andb_false_r, orb_false_r, orb_true_iff, andb_true_iff.
  rewrite !Z.ltb_lt, Z.eqb_eq. tauto.
Qed.

Lemma lex_ge_trans (a b c : Z * Z) : lex_ge a b -> lex_ge b c -> lex_ge a c.
Proof. unfold lex_ge. lia. Qed.

(** Inserting into a list that is in order keeps the elements and the
    order. *)
Lemma insert_desc_keyed (p : Z * Z) (sizes : list (Z * Z)) :
  exists sizes',
    insert_desc (keyed p) (keyed <$> sizes) = keyed <$> sizes' /\
    sizes' ≡ₚ p :: sizes /\
    (StronglySorted lex_ge sizes -> StronglySorted lex_ge sizes').
Proof.
  induction sizes as [| q sizes (sizes' & Heq & Hperm & Hsorted)].
  - exists [p]. split; [reflexivity |]. split; [reflexivity |].
    intros _. repeat constructor.
  - cbn [fmap list_fmap insert_desc]. fold (fmap (M := list) keyed sizes).
    destruct (list_lt (keyed p).1 (keyed q).1) eqn:Hlt.
    + exists (q :: sizes'). rewrite Heq. split; [reflexivity |]. split.
      { rewrite Hperm. apply Permutation_swap. }
      intros Hss. apply StronglySorted_inv in Hss as [Hss Hall].
      constructor; [auto |].
      rewrite Hperm. constructor; [| exact Hall].
      apply list_lt_pair in Hlt. unfold lex_ge. lia.
    + exists (p :: q :: sizes). split; [reflexivity |]. split; [reflexivity |].
      intros Hss. constructor; [exact Hss |].
      assert (Hpq : lex_ge p q).
      { unfold lex_ge.
        destruct (Z_lt_dec p.1 q.1) as [H1 | H1].
        - assert (list_lt (keyed p).1 (keyed q).1 = true)
            by (apply list_lt_pair; lia). congruence.
        - destruct (Z.eq_dec p.1 q.1) as [E | E]; [| lia].
          destruct (Z_lt_dec p.2 q.2) as [H2 | H2]; [| lia].
          assert (list_lt (keyed p).1 (keyed q).1 = true)
            by (apply list_lt_pair; lia). congruence. }
      constructor; [exact Hpq |].
      apply StronglySorted_inv in Hss as [_ Hall].
      eapply Forall_impl; [exact Hall |].
      intros z Hz. exact (lex_ge_trans p q z Hpq Hz).
Qed.

Lemma sort_desc_keyed (sizes : list (Z * Z)) :
  exists sorted,
    sort_desc (keyed <$> sizes) = keyed <$> sorted /\
    sorted ≡ₚ sizes /\ StronglySorted lex_ge sorted.
Proof.
  induction sizes as [| p sizes (sorted & Heq & Hperm & Hss)].
  - exists []. repeat split; constructor.
  - unfold sort_desc in *. cbn [fmap list_fmap foldr].
    fold (fmap (M := list) keyed sizes). rewrite Heq.
    destruct (insert_desc_keyed p sorted) as (sorted' & Heq' & Hperm' & Hss').
    exists sorted'. split; [exact Heq' |]. split; [| auto].
    rewrite Hperm', Hperm. reflexivity.
Qed.

(** C4, as the code has it. The list [get_resolutions] returns holds the
    discrete sizes the device enumerates, each once per answer, in
    descending order of width, and of height among equal widths. *)
Theorem get_resolutions_sorted_by_width_then_height
    {D : Type} `{Device D} (self : t D) (pixelformat : Z) :
  Forall (fun p => is_u32 p.1 /\ is_u32 p.2)
    (discrete_sizes (ENUM_FRAMESIZES (fd self) pixelformat)) ->
  exists sorted,
    (get_resolutions self pixelformat).2 = Ok (res_str <$> sorted) /\
    sorted ≡ₚ discrete_sizes (ENUM_FRAMESIZES (fd self) pixelformat) /\
    StronglySorted lex_ge sorted.
Proof.
  intros Hu32.
  destruct (sort_desc_keyed (discrete_sizes (ENUM_FRAMESIZES (fd self) pixelformat)))
    as (sorted & Heq & Hperm & Hss).
  exists sorted. split; [| split; assumption].
  unfold get_resolutions. cbn [snd].
  rewrite discrete_prefix_sizes, (with_keys_res_str _ Hu32).
  cbn [mbind res_bind Py.bind]. rewrite Heq.
  rewrite <- list_fmap_compose. reflexivity.
Qed.

Lemma get_resolutions_sorted_sample :
  Forall (fun p => is_u32 p.1 /\ is_u32 p.2)
    (discrete_sizes (ENUM_FRAMESIZES (fd sample_fmt_ctrls) YUYV_code)) /\
  exists sorted,
    (get_resolutions sample_fmt_ctrls YUYV_code).2 = Ok (res_str <$> sorted) /\
    sorted ≡ₚ discrete_sizes (ENUM_FRAMESIZES (fd sample_fmt_ctrls) YUYV_code) /\
    StronglySorted lex_ge sorted.
Proof.
  assert (Hu32 : Forall (fun p => is_u32 p.1 /\ is_u32 p.2)
            (discrete_sizes (ENUM_FRAMESIZES (fd sample_fmt_ctrls) YUYV_code))).
  { repeat constructor; simpl; lia. }
  exact (conj Hu32
           (get_resolutions_sorted_by_width_then_height sample_fmt_ctrls YUYV_code Hu32)).
Defined.

(** C4, as the specification words it, fails: a camera offering 1024x1024
    and 1280x720 gets the list [1280x720; 1024x1024], whose first entry has
    the smaller area. *)
Lemma get_resolutions_not_area_descending :
  exists l,
    (get_resolutions sample_fmt_ctrls YUYV_code).2 = Ok l /\ ~ area_descending l.
Proof.
  exists ["1280x720"; "1024x1024"]%string. split; [vm_compute; reflexivity |].
  intros Hclaim.
  specialize (Hclaim 0%nat 1%nat "1280x720"%string "1024x1024"%string 921600 1048576).
  assert (1048576 <= 921600); [| lia].
  apply Hclaim; [lia | reflexivity | reflexivity | vm_compute; reflexivity ..].
Qed.

End ResolutionOrder.

(** ** The frame interval written by [set_fps] *)

Section FrameRate.
Import V4L2FmtCtrls.
Context {D : Type} `{Device D}.

Lemma get_fps_issued (self : t D) :
  issued (get_fps self).1 = issued self ++ [G_PARM].
Proof.
  unfold get_fps. destruct (VIDIOC_G_PARM (fd self)) as [dev [tf | e]]; simpl.
  - destruct (_ || _); reflexivity.
  - reflexivity.
Qed.

(** Whenever [set_fps] is given a frame rate other than the current one
    that [float] reads, it issues one [VIDIOC_S_PARM] whose time per
    frame has numerator 10 and, as denominator, the 32-bit field value of
    [int(float(fps) * 10)]. *)
Lemma set_fps_writes_truncated_tenths
    (self : t D) (idx : nat) (ctrl : BaseCtrl) (fps cur : pyval)
    (errs : list warning) (den : Z) :
  (get_fps self).2 = Ok cur ->
  py_eq fps cur = false ->
  truncated_denominator fps = Ok den ->
  issued (set_fps self idx ctrl fps errs).1.1
    = issued self ++ [G_PARM; S_PARM {| numerator := 10; denominator := wrap_u32 den |}]
  /\ (fps = PStr "30" -> wrap_u32 den = 300).
Proof.
  intros Hcur Hne Hden. split.
  - unfold set_fps.
    pose proof (get_fps_issued self) as Hiss.
    destruct (get_fps self) as [self1 cur']. simpl in Hcur, Hiss. subst cur'.
    rewrite Hne. unfold truncated_denominator in Hden. rewrite Hden.
    destruct (VIDIOC_S_PARM (fd self1) _) as [dev [tf | e]]; cbn [fst snd].
    + destruct (_ || _); cbn [fst snd with_dev issued].
      * rewrite Hiss, <- app_assoc. reflexivity.
      * match goal with
        | |- context [match ?r with Ok _ => _ | Raise _ => _ end] =>
            destruct r as [[|] | e]
        end; cbn [fst snd with_dev with_ctrls issued];
          rewrite Hiss, <- app_assoc; reflexivity.
    + cbn [with_dev issued]. rewrite Hiss, <- app_assoc. reflexivity.
  - intros ->. vm_compute in Hden. injection Hden as <-. reflexivity.
Qed.

End FrameRate.

Section FrameRateExamples.
Import V4L2FmtCtrls Sample.

(** [set_fps] by itself truncates: called with ["29.97"], which no menu
    of the backend holds, it writes the denominator 299, where
    [round(29.97 * 10)] is 300. *)
Lemma set_fps_truncates :
  issued (set_fps sample_fmt_ctrls 2 Sample.fps_ctrl
            (PStr "29.97") []).1.1
    = [G_PARM; S_PARM {| numerator := 10; denominator := 299 |}]
  /\ rounded_denominator (PStr "29.97") = Ok 300
  /\ truncated_denominator (PStr "29.97") = Ok 299.
Proof. vm_compute. repeat split; reflexivity. Qed.

End FrameRateExamples.

(** ** The listener's poll for format changes *)

Section ListenerPoll.
Import V4L2Listener.
Context {D : Type} `{V4L2Ctrls.Device D} `{V4L2FmtCtrls.Device D}.

Lemma py_eq_true (a b : pyval) : py_eq a b = true -> a = b.
Proof.
  destruct a, b; simpl; try discriminate; intros Heq.
  - reflexivity.
  - apply Z.eqb_eq in Heq. now subst.
  - apply String.eqb_eq in Heq. now subst.
  - apply bool_decide_eq_true in Heq. now subst.
Qed.

Lemma set_value_same (c : BaseCtrl) : set_value (c_value c) c = c.
Proof. destruct c; reflexivity. Qed.

Lemma update_ctrl_spec (cs : list BaseCtrl) (r : option nat) (v : pyval)
    (ups : list nat) :
  (forall j, r <> Some j -> (update_ctrl cs r v ups).1 !! j = cs !! j) /\
  (forall i, r = Some i -> (update_ctrl cs r v ups).1 !! i = set_value v <$> cs !! i) /\
  (update_ctrl cs r v ups).2
    = ups ++ omap fst (filter (fun o => differs cs o = true) [(r, v)]).
Proof.
  unfold update_ctrl, differs.
  destruct r as [i |]; cbn [fst snd].
  2: { repeat split; try reflexivity; [congruence |].
       rewrite filter_cons_False by (simpl; congruence).
       simpl. now rewrite app_nil_r. }
  destruct (cs !! i) as [c |] eqn:Hc.
  2: { repeat split; try reflexivity.
       - intros i' [= <-]. now rewrite Hc.
       - rewrite filter_cons_False by (simpl; rewrite Hc; congruence).
         simpl. now rewrite app_nil_r. }
  destruct (py_eq (c_value c) v) eqn:Heq; cbn [negb fst snd].
  - repeat split; try reflexivity.
    + intros i' [= <-]. rewrite Hc. simpl.
      apply py_eq_true in Heq. subst v. now rewrite set_value_same.
    + rewrite filter_cons_False by (simpl; rewrite Hc, Heq; simpl; congruence).
      simpl. now rewrite app_nil_r.
  - repeat split.
    + intros j Hj. apply list_lookup_insert_ne. congruence.
    + intros i' [= <-]. rewrite Hc. simpl.
      apply list_lookup_insert_eq. eapply lookup_lt_Some; eauto.
    + rewrite filter_cons_True by (simpl; rewrite Hc, Heq; reflexivity).
      reflexivity.
Qed.

Lemma differs_ext (cs cs' : list BaseCtrl) (o : option nat * pyval) :
  (forall i, o.1 = Some i -> cs' !! i = cs !! i) -> differs cs' o = differs cs o.
Proof.
  intros Hsame. unfold differs. destruct o.1 as [i |]; [| reflexivity].
  now rewrite (Hsame i eq_refl).
Qed.

Lemma filter_differs_ext (cs cs' : list BaseCtrl) (obs : list (option nat * pyval)) :
  (forall o, o ∈ obs -> differs cs' o = differs cs o) ->
  filter (fun o => differs cs' o = true) obs = filter (fun o => differs cs o = true) obs.
Proof.
  induction obs as [| o obs IH]; intros Hext; [reflexivity |].
  rewrite !filter_cons, (Hext o) by left.
  rewrite IH by (intros o' Ho'; apply Hext; now right).
  reflexivity.
Qed.

Lemma update_all_spec (obs : list (option nat * pyval)) :
  forall (cs : list BaseCtrl) (ups : list nat),
  NoDup (omap fst obs) ->
  (forall j, j ∉ omap fst obs -> (update_all cs obs ups).1 !! j = cs !! j) /\
  (forall i v, (Some i, v) ∈ obs ->
     (update_all cs obs ups).1 !! i = set_value v <$> cs !! i) /\
  (update_all cs obs ups).2
    = ups ++ omap fst (filter (fun o => differs cs o = true) obs).
Proof.
  induction obs as [| [r v] rest IH]; intros cs ups Hnd.
  - repeat split; simpl.
    + intros i v Hin. apply elem_of_nil in Hin. contradiction.
    + now rewrite app_nil_r.
  - destruct (update_ctrl_spec cs r v ups) as (Hother & Hhere & Hups).
    cbn [update_all].
    destruct (update_ctrl cs r v ups) as [cs1 ups1]. cbn [fst snd] in *.
    assert (Hnd' : NoDup (omap fst rest)).
    { destruct r; simpl in Hnd; [now apply NoDup_cons in Hnd as [_ ?] | exact Hnd]. }
    assert (Hfresh : forall i, r = Some i -> i ∉ omap fst rest).
    { intros i ->. simpl in Hnd. now apply NoDup_cons in Hnd as [? _]. }
    destruct (IH cs1 ups1 Hnd') as (IH1 & IH2 & IH3).
    split; [| split].
    + intros j Hj. rewrite IH1.
      * apply Hother. intros ->. apply Hj. simpl. left.
      * intros Hin. apply Hj. destruct r; simpl; [right |]; exact Hin.
    + intros i v' Hin. apply elem_of_cons in Hin as [[= <- <-] | Hin].
      * rewrite IH1 by (apply Hfresh; reflexivity). now apply Hhere.
      * rewrite (IH2 i v' Hin). f_equal. apply Hother.
        intros ->. apply (Hfresh i eq_refl).
        apply list_elem_of_omap. exists (Some i, v'). split; [exact Hin | reflexivity].
    + rewrite IH3, Hups, <- app_assoc. f_equal.
      rewrite <- omap_app. f_equal.
      change ((r, v) :: rest) with ([(r, v)] ++ rest).
      rewrite (filter_app _ [(r, v)] rest). f_equal.
      apply filter_differs_ext. intros o Ho.
      apply differs_ext.
      intros i Hi. apply Hother. intros ->. apply (Hfresh i eq_refl).
      apply list_elem_of_omap. exists o. split; [exact Ho | exact Hi].
Qed.

Lemma get_fps_with_ctrls (f : V4L2FmtCtrls.t D) (cs : list BaseCtrl) :
  V4L2FmtCtrls.get_fps (V4L2FmtCtrls.with_ctrls f cs)
  = (V4L2FmtCtrls.with_ctrls (V4L2FmtCtrls.get_fps f).1 cs, (V4L2FmtCtrls.get_fps f).2).
Proof.
  unfold V4L2FmtCtrls.get_fps. cbn [V4L2FmtCtrls.with_ctrls V4L2FmtCtrls.fd].
  destruct (V4L2FmtCtrls.VIDIOC_G_PARM (V4L2FmtCtrls.fd f)) as [dev [tf | e]];
    [destruct (_ || _) |]; reflexivity.
Qed.

(** [get_fps] always returns: the guard keeps [dn2str] from dividing by
    zero. *)
Lemma get_fps_returns (f : V4L2FmtCtrls.t D) :
  exists fps, (V4L2FmtCtrls.get_fps f).2 = Ok fps.
Proof.
  unfold V4L2FmtCtrls.get_fps.
  destruct (V4L2FmtCtrls.VIDIOC_G_PARM (V4L2FmtCtrls.fd f)) as [dev [tf | e]];
    [| eexists; reflexivity].
  destruct (V4L2FmtCtrls.numerator tf =? 0) eqn:Hn; [eexists; reflexivity |].
  destruct (V4L2FmtCtrls.denominator tf =? 0) eqn:Hd; [eexists; reflexivity |].
  cbn [orb snd]. unfold V4L2FmtCtrls.dn2str, V4L2FmtCtrls.true_div. rewrite Hn.
  destruct (V4L2FmtCtrls.denominator tf), (V4L2FmtCtrls.numerator tf);
    try discriminate; eexists; reflexivity.
Qed.

Lemma first_change_some (cs : list BaseCtrl) (obs : list (option nat * pyval)) :
  (exists o, o ∈ obs /\ differs cs o = true) -> exists c, first_change cs obs = [cb c].
Proof.
  intros (o & Ho & Hd). unfold first_change.
  assert (Hin : o ∈ filter (fun o => differs cs o = true) obs)
    by (apply list_elem_of_filter; auto).
  destruct (filter _ obs) as [| [r v] rest] eqn:Hf.
  - apply elem_of_nil in Hin. contradiction.
  - assert (Hhead : (r, v) ∈ filter (fun o => differs cs o = true) obs)
      by (rewrite Hf; left).
    apply list_elem_of_filter in Hhead as [Hhead _].
    unfold differs in Hhead. cbn [fst snd] in Hhead.
    destruct r as [i |]; [| discriminate].
    destruct (cs !! i) as [c |]; [| discriminate].
    eexists; reflexivity.
Qed.

Lemma first_change_none (cs : list BaseCtrl) (obs : list (option nat * pyval)) :
  (forall o, o ∈ obs -> differs cs o = false) -> first_change cs obs = [].
Proof.
  intros Hall. unfold first_change.
  destruct (filter _ obs) as [| o rest] eqn:Hf; [reflexivity |].
  assert (Hhead : o ∈ filter (fun o => differs cs o = true) obs) by (rewrite Hf; left).
  apply list_elem_of_filter in Hhead as [Hd Hin].
  rewrite (Hall o Hin) in Hd. discriminate.
Qed.

Lemma observed_refs (f : V4L2FmtCtrls.t D) (fmt : option V4L2FmtCtrls.v4l2_pix_format)
    (fps : pyval) :
  NoDup (refs f) -> NoDup (omap fst (observed f fmt fps)).
Proof.
  unfold refs, observed.
  destruct fmt; [trivial |]. cbn [app].
  destruct (V4L2FmtCtrls.pxf_ctrl f), (V4L2FmtCtrls.res_ctrl f), (V4L2FmtCtrls.fps_ctrl f);
    simpl; intros Hnd; repeat constructor;
    repeat (apply NoDup_cons in Hnd as [? Hnd]); set_solver.
Qed.

(** The three calls of [update_ctrl] in [query_fmt_changes] are
    [update_all] on what was observed. *)
Lemma query_fmt_changes_unfold (self : t D) (fps : pyval) :
  let f := fmt_ctrls self in
  let g := V4L2FmtCtrls.get_fmt f in
  let p := V4L2FmtCtrls.get_fps g.1 in
  p.2 = Ok fps ->
  let u := update_all (V4L2FmtCtrls.ctrls f) (observed f g.2 fps) [] in
  query_fmt_changes self
  = let self' :=
      {| ctrls := ctrls self; fmt_ctrls := V4L2FmtCtrls.with_ctrls p.1 u.1;
         closed := closed self |} in
    match u.2 with
    | [] => (self', [], Continue)
    | i :: _ =>
        match u.1 !! i with
        | Some ctrl => (self', [cb ctrl], Continue)
        | None => (self', [], Died IndexError)
        end
    end.
Proof.
  intros f g p Hfps u. subst u p g. unfold query_fmt_changes. fold f.
  unfold V4L2FmtCtrls.get_fmt in *.
  destruct (V4L2FmtCtrls.VIDIOC_G_FMT (V4L2FmtCtrls.fd f)) as [d1 [pix | e]];
    cbn [fst snd] in *.
  - unfold observed. cbn [app update_all V4L2FmtCtrls.with_dev V4L2FmtCtrls.ctrls
                           V4L2FmtCtrls.pxf_ctrl V4L2FmtCtrls.res_ctrl V4L2FmtCtrls.fps_ctrl].
    destruct (update_ctrl _ (V4L2FmtCtrls.pxf_ctrl f) _ _) as [cs0 ups0].
    destruct (update_ctrl cs0 _ _ _) as [cs1 ups1].
    rewrite get_fps_with_ctrls, Hfps. cbn [V4L2FmtCtrls.with_ctrls V4L2FmtCtrls.ctrls
                                           V4L2FmtCtrls.fps_ctrl fst snd].
    replace (V4L2FmtCtrls.fps_ctrl (V4L2FmtCtrls.get_fps _).1)
      with (V4L2FmtCtrls.fps_ctrl f).
    2: { unfold V4L2FmtCtrls.get_fps. cbn [V4L2FmtCtrls.with_dev V4L2FmtCtrls.fd].
         destruct (V4L2FmtCtrls.VIDIOC_G_PARM d1) as [? [? |?]];
           [destruct (_ || _) |]; reflexivity. }
    destruct (update_ctrl cs1 _ _ _) as [cs2 ups2]. cbn [fst snd].
    destruct ups2; reflexivity.
  - unfold observed. cbn [app update_all V4L2FmtCtrls.with_dev V4L2FmtCtrls.ctrls
                           V4L2FmtCtrls.pxf_ctrl V4L2FmtCtrls.res_ctrl V4L2FmtCtrls.fps_ctrl].
    rewrite get_fps_with_ctrls, Hfps. cbn [V4L2FmtCtrls.with_ctrls V4L2FmtCtrls.ctrls
                                           V4L2FmtCtrls.fps_ctrl fst snd].
    replace (V4L2FmtCtrls.fps_ctrl (V4L2FmtCtrls.get_fps _).1)
      with (V4L2FmtCtrls.fps_ctrl f).
    2: { unfold V4L2FmtCtrls.get_fps. cbn [V4L2FmtCtrls.with_dev V4L2FmtCtrls.fd].
         destruct (V4L2FmtCtrls.VIDIOC_G_PARM d1) as [? [? |?]];
           [destruct (_ || _) |]; reflexivity. }
    destruct (update_ctrl _ _ _ _) as [cs2 ups2]. cbn [fst snd].
    destruct ups2; reflexivity.
Qed.

(** C8. In a poll cycle that ends in a timeout, with the listener not
    stopped, the listener reads pixel format, resolution and frame rate,
    brings every cached format control to the value read, and calls the
    change callback for the first control that differed, with its new
    value, and for no other; when none differed it calls nothing. ([refs]
    are the three control objects, which are distinct.) *)
Theorem query_fmt_changes_reports_first_change (self : t D) :
  NoDup (refs (fmt_ctrls self)) ->
  exists fps self',
    let f := fmt_ctrls self in
    let cs := V4L2FmtCtrls.ctrls f in
    let obs := observed f (V4L2FmtCtrls.get_fmt f).2 fps in
    (V4L2FmtCtrls.get_fps (V4L2FmtCtrls.get_fmt f).1).2 = Ok fps /\
    run_iteration self Timeout false = (self', first_change cs obs, Continue) /\
    (forall i v, (Some i, v) ∈ obs ->
       V4L2FmtCtrls.ctrls (fmt_ctrls self') !! i = set_value v <$> cs !! i) /\
    ((exists o, o ∈ obs /\ differs cs o = true) ->
       exists c, first_change cs obs = [cb c]) /\
    ((forall o, o ∈ obs -> differs cs o = false) -> first_change cs obs = []).
Proof.
  intros Hnd.
  destruct (get_fps_returns (V4L2FmtCtrls.get_fmt (fmt_ctrls self)).1) as [fps Hfps].
  exists fps. eexists. cbn zeta.
  split; [exact Hfps |].
  pose proof (observed_refs (fmt_ctrls self) (V4L2FmtCtrls.get_fmt (fmt_ctrls self)).2
                fps Hnd) as Hnd'.
  destruct (update_all_spec _ (V4L2FmtCtrls.ctrls (fmt_ctrls self)) [] Hnd')
    as (_ & Hvals & Hups).
  split; [| split; [| split; [apply first_change_some | apply first_change_none]]].
  - unfold run_iteration. cbn [negb].
    rewrite (query_fmt_changes_unfold self fps Hfps). cbn zeta.
    rewrite Hups. cbn [app]. unfold first_change.
    destruct (filter _ _) as [| [r v] rest] eqn:Hf; [reflexivity |].
    assert (Hhead : (r, v) ∈ filter
              (fun o => differs (V4L2FmtCtrls.ctrls (fmt_ctrls self)) o = true)
              (observed (fmt_ctrls self) (V4L2FmtCtrls.get_fmt (fmt_ctrls self)).2 fps))
      by (rewrite Hf; left).
    apply list_elem_of_filter in Hhead as [Hd Hin].
    unfold differs in Hd. cbn [fst snd] in Hd.
    destruct r as [i |]; [| discriminate].
    cbn [omap list_omap fst]. rewrite (Hvals i v Hin).
    destruct (V4L2FmtCtrls.ctrls (fmt_ctrls self) !! i) as [c |]; [| discriminate].
    reflexivity.
  - intros i v Hin. cbn [fmt_ctrls V4L2FmtCtrls.with_ctrls V4L2FmtCtrls.ctrls].
    exact (Hvals i v Hin).
Qed.

End ListenerPoll.

(** ** Menu values of the generic backend *)

Section MenuValues.
Import V4L2Ctrls.
Context {D : Type} `{V4L2Ctrls.Device D} `{V4L2FmtCtrls.Device D}.

Lemma resolves_code_resolved (code : Z) (v : pyval) (mn : list BaseCtrlMenu) :
  resolves_code code v mn -> resolved v mn.
Proof.
  intros [[-> _] | (m & Hin & -> & _)]; [left; reflexivity | right; eauto].
Qed.

Lemma resolving_step (code index : Z) (v : pyval) (mn : list BaseCtrlMenu)
    (id name : string) :
  resolving code v mn ->
  resolving code (if py_eq v (PInt index) then PStr id else v)
    (mn ++ [{| m_text_id := id; m_name := name; m_value := PInt index |}]).
Proof.
  intros [[-> Hnone] | (m & Hin & -> & Hcode)].
  - simpl. destruct (Z.eqb_spec code index) as [-> | Hne].
    + right. eexists. split; [apply elem_of_app; right; left |]. split; reflexivity.
    + left. split; [reflexivity |]. intros m Hin.
      apply elem_of_app in Hin as [Hin | Hin]; [now apply Hnone |].
      apply list_elem_of_singleton in Hin. subst m. simpl. congruence.
  - right. exists m. split; [apply elem_of_app; now left |]. split; [reflexivity | exact Hcode].
Qed.

Lemma query_menus_resolving (q : v4l2_queryctrl) (indices : list Z) :
  forall (dev : D) (log : list request) (c : BaseCtrl) (live dflt : Z),
  resolving live (c_value c) (c_menu c) ->
  resolving dflt (c_default c) (c_menu c) ->
  let c' := (query_menus dev log q indices c).2 in
  resolving live (c_value c') (c_menu c') /\
  resolving dflt (c_default c') (c_menu c') /\
  c_type c' = c_type c.
Proof.
  induction indices as [| i rest IH]; intros dev log c live dflt Hv Hd; [auto |].
  cbn [query_menus].
  destruct (VIDIOC_QUERYMENU dev (q_id q) (wrap_u32 i)) as [dev' [qmenu | e]].
  - match goal with
    | |- context [query_menus dev' ?l q rest ?c1] =>
        destruct (IH dev' l c1 live dflt) as (H1 & H2 & H3)
    end.
    + cbn [set_menu_value_default c_value c_menu]. now apply resolving_step.
    + cbn [set_menu_value_default c_default c_menu]. now apply resolving_step.
    + split; [exact H1 |]. split; [exact H2 |]. rewrite H3. reflexivity.
  - now apply IH.
Qed.

Lemma resolving_done (code : Z) (v : pyval) (mn : list BaseCtrlMenu) :
  resolving code v mn -> resolves_code code (if is_int v then PNone else v) mn.
Proof.
  intros [[-> Hnone] | (m & Hin & -> & Hcode)].
  - left. split; [reflexivity | exact Hnone].
  - right. exists m. repeat split; assumption.
Qed.

Lemma resolve_menu_resolves (dev : D) (log : list request) (q : v4l2_queryctrl)
    (c : BaseCtrl) (live dflt : Z) :
  c_value c = PInt live -> c_default c = PInt dflt ->
  q_type q ∈ [V4L2_CTRL_TYPE_MENU; V4L2_CTRL_TYPE_INTEGER_MENU] ->
  let c' := (resolve_menu dev log q c).2 in
  resolves_code live (c_value c') (c_menu c') /\
  resolves_code dflt (c_default c') (c_menu c').
Proof.
  intros Hv Hd Hq. unfold resolve_menu.
  rewrite (bool_decide_eq_true_2 _ Hq).
  match goal with
  | |- context [query_menus dev log q ?l ?c0] =>
      pose proof (query_menus_resolving q l dev log c0 live dflt) as Hinv;
      destruct (query_menus dev log q l c0) as [[dev' log'] c1]
  end.
  cbn [snd set_menu_value_default c_value c_default c_menu] in *.
  destruct Hinv as (H1 & H2 & _).
  - left. split; [exact Hv |]. intros m Hin. apply elem_of_nil in Hin. contradiction.
  - left. split; [exact Hd |]. intros m Hin. apply elem_of_nil in Hin. contradiction.
  - split; now apply resolving_done.
Qed.

Lemma to_type_menu (qtype : Z) :
  to_type qtype = Some menu ->
  qtype ∈ [V4L2_CTRL_TYPE_MENU; V4L2_CTRL_TYPE_INTEGER_MENU].
Proof.
  unfold to_type.
  destruct (Z.eqb_spec qtype V4L2_CTRL_TYPE_INTEGER); [discriminate |].
  destruct (Z.eqb_spec qtype V4L2_CTRL_TYPE_BOOLEAN); [discriminate |].
  destruct (Z.eqb_spec qtype V4L2_CTRL_TYPE_MENU) as [-> |]; [intros _; left |].
  destruct (Z.eqb_spec qtype V4L2_CTRL_TYPE_INTEGER_MENU) as [-> |];
    [intros _; right; left |].
  destruct (Z.eqb_spec qtype V4L2_CTRL_TYPE_BUTTON); discriminate.
Qed.

Lemma resolve_menu_type (dev : D) (log : list request) (q : v4l2_queryctrl) (c : BaseCtrl) :
  c_type (resolve_menu dev log q c).2 = c_type c.
Proof.
  unfold resolve_menu. destruct (bool_decide _); [| reflexivity].
  match goal with
  | |- context [query_menus dev log q ?l ?c0] =>
      pose proof (query_menus_resolving q l dev log c0 0 0) as Hinv;
      destruct (query_menus dev log q l c0) as [[dev' log'] c1] eqn:E
  end.
  cbn [snd set_menu_value_default c_type].
  clear Hinv.
  assert (Ht : forall indices dev log c0,
             c_type (query_menus dev log q indices c0).2 = c_type c0).
  { clear. induction indices as [| i rest IH]; intros dev log c0; [reflexivity |].
    cbn [query_menus].
    destruct (VIDIOC_QUERYMENU dev (q_id q) (wrap_u32 i)) as [dev' [qmenu | e]];
      rewrite IH; reflexivity. }
  specialize (Ht (seqZ (q_minimum q) (q_maximum q + 1 - q_minimum q)) dev log
                 (set_menu_value_default [] (c_value c) (c_default c) c)).
  rewrite E in Ht. exact Ht.
Qed.

Lemma build_ctrl_resolves (dev : D) (log : list request) (q : v4l2_queryctrl) (c : BaseCtrl) :
  (build_ctrl dev log q).2 = Some c ->
  menu_resolves_codes c (live_code dev q, default_code q).
Proof.
  unfold build_ctrl, live_code, default_code, menu_resolves_codes.
  destruct (to_type (q_type q)) as [t0 |] eqn:Ht; [| discriminate].
  destruct (negb (bool_decide (_ = button))) eqn:Hb.
  - destruct (VIDIOC_G_CTRL dev (q_id q)) as [dev1 r].
    match goal with
    | |- context [resolve_menu dev1 ?l q ?c0] =>
        pose proof (resolve_menu_resolves dev1 l q c0) as Hres;
        pose proof (resolve_menu_type dev1 l q c0) as Hty;
        destruct (resolve_menu dev1 l q c0) as [[dev2 log2] c1]
    end.
    cbn [fst snd c_value c_default c_type] in *. intros [= <-] Hmenu.
    rewrite Hty in Hmenu.
    assert (Ht0 : t0 = menu).
    { destruct (bool_decide (t0 = integer) && _ && _ && _) eqn:E;
        [discriminate | exact Hmenu]. }
    subst t0. apply Hres; [reflexivity | reflexivity |].
    now apply to_type_menu.
  - match goal with
    | |- context [resolve_menu dev log q ?c0] =>
        pose proof (resolve_menu_type dev log q c0) as Hty;
        destruct (resolve_menu dev log q c0) as [[dev2 log2] c1]
    end.
    cbn [snd c_type] in *. intros [= <-] Hmenu. rewrite Hty in Hmenu.
    apply negb_false_iff, bool_decide_eq_true in Hb. congruence.
Qed.

Lemma enumerate_resolves (answers : list v4l2_queryctrl) :
  forall (dev : D) (log : list request) (acc : list BaseCtrl) (codes : list (Z * Z)),
  Forall2 menu_resolves_codes acc codes ->
  Forall2 menu_resolves_codes (ctrls (enumerate dev log answers acc))
    (codes ++ enumerated_codes dev log answers).
Proof.
  induction answers as [| q rest IH]; intros dev log acc codes Hacc.
  - cbn [enumerate enumerated_codes ctrls]. rewrite app_nil_r. exact Hacc.
  - cbn [enumerate enumerated_codes].
    pose proof (build_ctrl_resolves dev log q) as Hb.
    destruct (build_ctrl dev log q) as [[dev' log'] [c |]]; cbn [snd] in Hb.
    + replace (codes ++ (live_code dev q, default_code q) :: enumerated_codes dev' log' rest)
        with ((codes ++ [(live_code dev q, default_code q)])
              ++ enumerated_codes dev' log' rest)
        by (rewrite <- app_assoc; reflexivity).
      apply IH. apply Forall2_app; [exact Hacc |].
      constructor; [now apply Hb | constructor].
    + now apply IH.
Qed.

Lemma find_by_value_some (mn : list BaseCtrlMenu) (v : pyval) (m : BaseCtrlMenu) :
  find_by_value mn v = Some m -> m ∈ mn.
Proof.
  induction mn as [| a mn IH]; simpl; [discriminate |].
  destruct (py_eq (m_value a) v).
  - intros [= ->]. left.
  - intros Hf. right. now apply IH.
Qed.

Lemma find_by_value_none (mn : list BaseCtrlMenu) (code : Z) :
  (forall m, m ∈ mn -> m_value m <> PInt code) -> find_by_value mn (PInt code) = None.
Proof.
  induction mn as [| a mn IH]; intros Hnone; [reflexivity |].
  simpl. destruct (py_eq (m_value a) (PInt code)) eqn:Heq.
  - apply py_eq_true in Heq. exfalso. apply (Hnone a); [left | exact Heq].
  - apply IH. intros m Hin. apply Hnone. now right.
Qed.

Lemma find_by_v4l2_id_lookup (self : t D) (id : Z) (idx : nat) (ctrl : BaseCtrl) :
  find_by_v4l2_id self id = Some (idx, ctrl) -> ctrls self !! idx = Some ctrl.
Proof.
  unfold find_by_v4l2_id. destruct (find_idx _ _) as [i |]; [| discriminate].
  cbn [mbind option_bind]. destruct (ctrls self !! i) as [c |] eqn:Hc; [| discriminate].
  intros [= <- <-]. exact Hc.
Qed.

Lemma menu_resolved_set_flags (a b : bool) (c : BaseCtrl) :
  menu_resolved c -> menu_resolved (set_flags a b c).
Proof. intros Hc. exact Hc. Qed.

(** C6, as the code has it. For the Menu controls of the generic backend:
    enumeration leaves in [value] the text id of the menu entry that has
    the code [VIDIOC_G_CTRL] gave for the control (0 when it failed), or
    [None] when no entry has that code, and in [default] the same for the
    default of the descriptor; an event handled by the listener keeps
    every value the text id of an entry or [None]; and when the code of
    an event matches no entry of its menu control, the listener reports
    the error through [err_cb] and leaves the value as it was. The raw
    number is never stored. *)
Theorem generic_menu_values_resolved
    (self : V4L2Listener.t D) (revents : Z) (dq : res V4L2Listener.v4l2_event) :
  Forall menu_resolved (ctrls (V4L2Listener.ctrls self)) ->
  let r := V4L2Listener.handle_event self revents dq in
  (forall (dev : D) log q c,
     (build_ctrl dev log q).2 = Some c -> c_type c = menu ->
     resolves_code (live_code dev q) (c_value c) (c_menu c) /\
     resolves_code (default_code q) (c_default c) (c_menu c)) /\
  (forall (dev : D) answers,
     Forall2 menu_resolves_codes (ctrls (get_device_controls dev answers))
       (enumerated_codes dev [] answers)) /\
  Forall menu_resolved (ctrls (V4L2Listener.ctrls r.1.1)) /\
  (forall event idx ctrl,
     (revents =? V4L2Listener.POLLNVAL) || (revents =? V4L2Listener.POLLERR) = false ->
     dq = Ok event ->
     find_by_v4l2_id (V4L2Listener.ctrls self) (V4L2Listener.ev_id event) = Some (idx, ctrl) ->
     c_type ctrl = menu ->
     (forall m, m ∈ c_menu ctrl -> m_value m <> PInt (V4L2Listener.ev_value event)) ->
     r.1.2 = [V4L2Listener.err_cb
                [W_V4L2_no_value (V4L2Listener.ev_value event) (m_value <$> c_menu ctrl)]] /\
     r.2 = V4L2Listener.Continue /\
     c_value <$> ctrls (V4L2Listener.ctrls r.1.1) !! idx = Some (c_value ctrl)).
Proof.
  intros Hall r. split; [| split; [| split]].
  - intros dev log q c Hc Hty. exact (build_ctrl_resolves dev log q c Hc Hty).
  - intros dev answers.
    exact (enumerate_resolves answers dev [] [] [] (List.Forall2_nil _)).
  - subst r. unfold V4L2Listener.handle_event.
    destruct (_ || _); [exact Hall |].
    destruct dq as [event | e]; [| exact Hall].
    destruct (find_by_v4l2_id _ _) as [[idx ctrl] |] eqn:Hfind; [| exact Hall].
    apply find_by_v4l2_id_lookup in Hfind.
    assert (Hctrl : menu_resolved ctrl).
    { eapply (proj1 (Forall_forall _ _) Hall). eapply list_elem_of_lookup_2; eauto. }
    unfold set_ctrl_int_value. cbn [c_type set_flags fd ctrls issued].
    destruct (negb (bool_decide (c_type ctrl = menu))) eqn:Hty.
    + cbn [fst snd V4L2Listener.ctrls ctrls].
      assert (Hgoal : Forall menu_resolved
                (<[idx := set_value (PInt (V4L2Listener.ev_value event))
                            (set_flags
                               (negb (Z.land (V4L2Listener.ev_flags event)
                                        V4L2_CTRL_FLAG_INACTIVE =? 0))
                               (negb (Z.land (V4L2Listener.ev_flags event)
                                        V4L2_CTRL_FLAG_READ_ONLY =? 0)) ctrl)]>
                   (<[idx := set_flags
                               (negb (Z.land (V4L2Listener.ev_flags event)
                                        V4L2_CTRL_FLAG_INACTIVE =? 0))
                               (negb (Z.land (V4L2Listener.ev_flags event)
                                        V4L2_CTRL_FLAG_READ_ONLY =? 0)) ctrl]>
                      (ctrls (V4L2Listener.ctrls self))))).
      { apply Forall_insert; [apply Forall_insert; [exact Hall | exact Hctrl] |].
        intros Hmenu. cbn [set_value set_flags c_type] in Hmenu.
        apply negb_true_iff, bool_decide_eq_false in Hty. contradiction. }
      clear Hfind. destruct (_ !! idx); exact Hgoal.
    + cbn [c_menu set_flags].
      destruct (find_by_value (c_menu ctrl) _) as [m |] eqn:Hm.
      * cbn [fst snd V4L2Listener.ctrls ctrls].
        assert (Hgoal : Forall menu_resolved
                  (<[idx := set_value (PStr (m_text_id m))
                              (set_flags
                                 (negb (Z.land (V4L2Listener.ev_flags event)
                                          V4L2_CTRL_FLAG_INACTIVE =? 0))
                                 (negb (Z.land (V4L2Listener.ev_flags event)
                                          V4L2_CTRL_FLAG_READ_ONLY =? 0)) ctrl)]>
                     (<[idx := set_flags
                                 (negb (Z.land (V4L2Listener.ev_flags event)
                                          V4L2_CTRL_FLAG_INACTIVE =? 0))
                                 (negb (Z.land (V4L2Listener.ev_flags event)
                                          V4L2_CTRL_FLAG_READ_ONLY =? 0)) ctrl]>
                        (ctrls (V4L2Listener.ctrls self))))).
        { apply Forall_insert; [apply Forall_insert; [exact Hall | exact Hctrl] |].
          intros Hmenu. cbn [set_value set_flags c_type c_value c_default c_menu] in *.
          split; [| exact (proj2 (Hctrl Hmenu))].
          right. exists m. split; [eapply find_by_value_some; eauto | reflexivity]. }
        clear Hfind. destruct (_ !! idx); exact Hgoal.
      * cbn [fst snd V4L2Listener.ctrls ctrls collect_warning app].
        apply Forall_insert; [exact Hall | exact Hctrl].
  - intros event idx ctrl Hrev -> Hfind Hmenu Hnone. subst r.
    unfold V4L2Listener.handle_event. rewrite Hrev, Hfind.
    unfold set_ctrl_int_value. cbn [c_type c_menu set_flags fd ctrls issued].
    rewrite (bool_decide_eq_true_2 _ Hmenu). cbn [negb].
    rewrite (find_by_value_none _ _ Hnone).
    cbn [fst snd V4L2Listener.ctrls ctrls collect_warning app].
    split; [reflexivity |]. split; [reflexivity |].
    apply find_by_v4l2_id_lookup in Hfind.
    rewrite list_lookup_insert_eq by (eapply lookup_lt_Some; eauto).
    reflexivity.
Qed.

End MenuValues.

Section ListenerExamples.
Import Sample.

(** The stale listener: resolution and frame rate both changed on the
    camera, and the callback is called once, for the resolution. *)
Lemma query_fmt_changes_sample :
  NoDup (V4L2Listener.refs (V4L2Listener.fmt_ctrls sample_listener)) /\
  exists self' c,
    V4L2Listener.run_iteration sample_listener V4L2Listener.Timeout false
      = (self', [V4L2Listener.cb c], V4L2Listener.Continue) /\
    c_text_id c = "resolution"%string /\ c_value c = PStr "1280x720" /\
    c_value <$> V4L2FmtCtrls.ctrls (V4L2Listener.fmt_ctrls self') !! 2%nat
      = Some (PStr "15").
Proof.
  assert (Hnd : NoDup (V4L2Listener.refs (V4L2Listener.fmt_ctrls sample_listener))).
  { apply (bool_decide_unpack _). vm_compute. exact I. }
  split; [exact Hnd |].
  destruct (query_fmt_changes_reports_first_change sample_listener Hnd)
    as (fps & self' & Hfps & Hrun & Hvals & _).
  vm_compute in Hfps. injection Hfps as <-.
  exists self'. eexists. split; [| split; [| split]].
  - rewrite Hrun. vm_compute. reflexivity.
  - reflexivity.
  - reflexivity.
  - rewrite (Hvals 2%nat (PStr "15")); [reflexivity |].
    vm_compute. right. right. left.
Defined.

Lemma sample_listener_resolved :
  Forall V4L2Ctrls.menu_resolved (V4L2Ctrls.ctrls (V4L2Listener.ctrls sample_listener)).
Proof.
  vm_compute. constructor; [intros Hty; discriminate Hty |].
  constructor; [| constructor].
  intros _. split; [left; reflexivity |].
  right. eexists. split; [right; left | reflexivity].
Qed.

(** The sample camera holds the code 2 for its exposure menu, which has
    entries for 1 and 3 only: enumeration leaves [None] as the value and
    the entry of the code 3 as the default. An event with the code 1 then
    makes the entry of the code 1 the value. *)
Lemma generic_menu_values_sample :
  Forall V4L2Ctrls.menu_resolved (V4L2Ctrls.ctrls (V4L2Listener.ctrls sample_listener)) /\
  V4L2Ctrls.enumerated_codes (cam 255) [] sample_answers = [(2, 50); (2, 3)] /\
  c_value <$> V4L2Ctrls.ctrls (V4L2Ctrls.get_device_controls (cam 255) sample_answers) !! 1%nat
    = Some PNone /\
  c_default <$> V4L2Ctrls.ctrls (V4L2Ctrls.get_device_controls (cam 255) sample_answers) !! 1%nat
    = Some (PStr "aperture_priority_mode") /\
  Forall2 V4L2Ctrls.menu_resolves_codes
    (V4L2Ctrls.ctrls (V4L2Ctrls.get_device_controls (cam 255) sample_answers))
    [(2, 50); (2, 3)] /\
  Forall V4L2Ctrls.menu_resolved
    (V4L2Ctrls.ctrls
       (V4L2Listener.ctrls
          (V4L2Listener.handle_event sample_listener POLLPRI
             (Ok (exposure_event 1))).1.1)) /\
  c_value <$> V4L2Ctrls.ctrls
                (V4L2Listener.ctrls
                   (V4L2Listener.handle_event sample_listener POLLPRI
                      (Ok (exposure_event 1))).1.1) !! 1%nat
    = Some (PStr "manual_mode").
Proof.
  assert (Hcodes : V4L2Ctrls.enumerated_codes (cam 255) [] sample_answers
                   = [(2, 50); (2, 3)]) by (vm_compute; reflexivity).
  destruct (generic_menu_values_resolved sample_listener POLLPRI
              (Ok (exposure_event 1)) sample_listener_resolved)
    as (_ & Henum & Hafter & _).
  specialize (Henum (cam 255) sample_answers). rewrite Hcodes in Henum.
  split; [exact sample_listener_resolved |]. split; [exact Hcodes |].
  split; [vm_compute; reflexivity |]. split; [vm_compute; reflexivity |].
  split; [exact Henum |]. split; [exact Hafter |]. vm_compute. reflexivity.
Defined.

(** C6, as the specification words it, fails for the listener: with the
    exposure menu at ["manual_mode"], an event carrying the code 2, for
    which the menu has no entry, is reported through [err_cb] and the
    value stays ["manual_mode"]; it does not become [None]. *)
Lemma listener_keeps_value_on_unmatched_code :
  let r := V4L2Listener.handle_event listener_in_manual_mode POLLPRI
             (Ok (exposure_event 2)) in
  c_value <$> V4L2Ctrls.ctrls (V4L2Listener.ctrls listener_in_manual_mode) !! 1%nat
    = Some (PStr "manual_mode") /\
  r.1.2 = [V4L2Listener.err_cb
             [W_V4L2_no_value 2 [PInt 1; PInt 3]]] /\
  c_value <$> V4L2Ctrls.ctrls (V4L2Listener.ctrls r.1.1) !! 1%nat
    = Some (PStr "manual_mode") /\
  c_value <$> V4L2Ctrls.ctrls (V4L2Listener.ctrls r.1.1) !! 1%nat <> Some PNone.
Proof. vm_compute. repeat split; discriminate. Qed.

End ListenerExamples.

(** ** Writes of the generic backend *)

Section GenericWrite.
Import V4L2Ctrls.
Context {D : Type} `{Device D}.

Lemma endswith_percent (s : string) : endswith (s +:+ "%") "%" = true.
Proof.
  induction s as [| a s IH]; [reflexivity |].
  change (String a s +:+ "%")%string with (String a (s +:+ "%")).
  cbn [endswith]. destruct (s +:+ "%")%string eqn:E; [| exact IH].
  destruct s; discriminate E.
Qed.

Lemma drop_last_percent (s : string) : drop_last (s +:+ "%") = s.
Proof.
  induction s as [| a s IH]; [reflexivity |].
  change (String a s +:+ "%")%string with (String a (s +:+ "%")).
  cbn [drop_last]. destruct (s +:+ "%")%string eqn:E.
  - destruct s; discriminate E.
  - now rewrite IH.
Qed.

Lemma percent_is_not_default (s : string) :
  py_eq (PStr (s +:+ "%")) (PStr "default") = false.
Proof.
  simpl. destruct (String.eqb_spec (s +:+ "%") "default") as [E |]; [| reflexivity].
  pose proof (endswith_percent s) as Hend. rewrite E in Hend. discriminate Hend.
Qed.

Lemma find_ref_lookup (cs : list BaseCtrl) (k : pyval) (idx : nat) (ctrl : BaseCtrl) :
  find_ref cs k = Some (idx, ctrl) -> cs !! idx = Some ctrl.
Proof.
  unfold find_ref. destruct (find_idx _ _) as [i |]; [| discriminate].
  cbn [mbind option_bind]. destruct (cs !! i) as [c |] eqn:Hc; [| discriminate].
  intros [= <- <-]. exact Hc.
Qed.

Lemma percent_value_target (ctrl : BaseCtrl) (s : string) (mn d mx : Z) (p : float) :
  c_min ctrl = PInt mn -> c_default ctrl = PInt d -> c_max ctrl = PInt mx ->
  float_of_str s = Ok p ->
  integer_value ctrl (PStr (s +:+ "%")) = percent_target mn d mx p.
Proof.
  intros Hmn Hd Hmx Hp. unfold integer_value, percent_value, percent_target.
  cbn [py_str]. rewrite endswith_percent, drop_last_percent, Hp, Hmn, Hd, Hmx.
  reflexivity.
Qed.

(** C1, as the code has it. For an integer control of the generic backend
    with the range [mn .. mx] and the default [d], applying ["NN%"]
    requests from the device the value of the Python expression
    [round(mn + (d - mn) * (float(NN) / 100) * 2)], each operation rounded
    to the nearest double and [round] taking a half to the even
    neighbour, brought into the range; when the device reads that value
    back, it becomes the value of the control, and no warning is added.
    With the range 0 .. 255 and the default 50, ["0%"] gives 0, ["50%"]
    gives 50, ["100%"] gives 100 and ["200%"] gives 200. *)
Theorem setup_ctrl_percent
    (self : t D) (errs : list warning) (k s : string) (idx : nat) (ctrl : BaseCtrl)
    (mn d mx id : Z) (p : float) (iv : Z) :
  find_ref (ctrls self) (PStr k) = Some (idx, ctrl) ->
  c_type ctrl = integer ->
  c_min ctrl = PInt mn -> c_default ctrl = PInt d -> c_max ctrl = PInt mx ->
  c_v4l2_id ctrl = Some id ->
  float_of_str s = Ok p ->
  percent_target mn d mx p = Ok iv ->
  let r := setup_ctrl self errs k (PStr (s +:+ "%")) in
  (mn <= mx -> mn <= iv <= mx) /\
  r.2 = Next /\
  issued r.1.1 = issued self ++ [S_CTRL (wrap_u32 id) (wrap_s32 iv)] /\
  (forall dev',
     VIDIOC_S_CTRL (fd self) (wrap_u32 id) (wrap_s32 iv) = (dev', Ok iv) ->
     ctrls r.1.1 !! idx = Some (set_value (PInt iv) ctrl) /\ r.1.2 = errs /\
     c_value <$> ctrls r.1.1 !! idx = Some (PInt iv)) /\
  (mn = 0 -> d = 50 -> mx = 255 ->
   (s = "0"%string -> iv = 0) /\ (s = "50"%string -> iv = 50) /\
   (s = "100"%string -> iv = 100) /\ (s = "200"%string -> iv = 200)).
Proof.
  intros Hfind Hty Hmn Hd Hmx Hid Hp Htarget r.
  assert (Hsel : select_value k ctrl (PStr (s +:+ "%")) = Write (PInt iv)).
  { unfold select_value. rewrite Hty.
    rewrite (percent_value_target ctrl s mn d mx p Hmn Hd Hmx Hp), Htarget.
    reflexivity. }
  split; [| split; [| split; [| split]]].
  - intros Hle. unfold percent_target, mbind, res_bind, Py.bind in Htarget.
    repeat match type of Htarget with
           | context [match ?x with Ok _ => _ | Raise _ => _ end] =>
               destruct x; [| discriminate Htarget]
           end.
    injection Htarget as <-. lia.
  - subst r. unfold setup_ctrl. rewrite Hfind, percent_is_not_default, Hsel.
    destruct (write_ctrl _ _ _ _ _ _ _). reflexivity.
  - subst r. unfold setup_ctrl. rewrite Hfind, percent_is_not_default, Hsel.
    unfold write_ctrl. rewrite Hid.
    destruct (VIDIOC_S_CTRL _ _ _) as [dev' [readback | e]]; [| reflexivity].
    destruct (negb _); reflexivity.
  - intros dev' Hdev. subst r. unfold setup_ctrl.
    rewrite Hfind, percent_is_not_default, Hsel.
    unfold write_ctrl. rewrite Hid, Hdev, Z.eqb_refl. cbn [negb fst snd ctrls].
    rewrite Hty. cbn [decide].
    destruct (decide (integer = menu)) as [E |]; [discriminate E |].
    assert (Hlt : (idx < length (ctrls self))%nat)
      by (eapply lookup_lt_Some; eapply find_ref_lookup; eauto).
    rewrite list_lookup_insert_eq by exact Hlt.
    split; [reflexivity |]. split; reflexivity.
  - intros -> -> ->. repeat split; intros ->;
      vm_compute in Hp; injection Hp as <-;
      vm_compute in Htarget; injection Htarget as <-; reflexivity.
Qed.

Lemma writes_app (self : t D) (fd' : D) (cs : list BaseCtrl) (r : request) :
  writes {| fd := fd'; ctrls := cs; issued := issued self ++ [r] |}
  = (writes self + (if is_write r then 1 else 0))%nat.
Proof.
  unfold writes. cbn [issued]. rewrite filter_app, length_app.
  destruct r; reflexivity.
Qed.

Lemma setup_ctrl_writes (self : t D) (errs : list warning) (k : string) (v : pyval) :
  (writes (setup_ctrl self errs k v).1.1 <= writes self + 1)%nat.
Proof.
  unfold setup_ctrl.
  destruct (find_ref _ _) as [[idx ctrl] |]; [| cbn [fst]; lia].
  destruct (select_value _ _ _); try (cbn [fst]; lia).
  unfold write_ctrl.
  destruct (c_v4l2_id ctrl) as [id |]; [| cbn [fst]; lia].
  destruct intvalue; try (cbn [fst]; lia).
  destruct (VIDIOC_S_CTRL _ _ _) as [dev' [readback | e]].
  - destruct (negb _); cbn [fst]; rewrite writes_app; cbn [is_write]; lia.
  - cbn [fst]. rewrite writes_app. cbn [is_write]. lia.
Qed.

Lemma setup_ctrls_writes (ps : params) :
  forall (self : t D) (errs : list warning),
  (writes (setup_ctrls self ps errs).1.1 <= writes self + length ps)%nat.
Proof.
  induction ps as [| [k v] rest IH]; intros self errs; [cbn; lia |].
  cbn [setup_ctrls length].
  pose proof (setup_ctrl_writes self errs k v) as Hone.
  destruct (setup_ctrl self errs k v) as [[self' errs'] [| e]]; cbn [fst] in *.
  - specialize (IH self' errs'). lia.
  - lia.
Qed.

(** C2. When the value read back after the write differs from the value
    requested, [setup_ctrls] appends one warning, leaves the controls as
    they were, has issued exactly one write for the item, and goes on
    with the rest of the batch from there. No batch issues more writes
    than it has items: nothing is written twice. *)
Theorem setup_ctrls_readback_mismatch
    (self : t D) (errs : list warning) (k : string) (v : pyval) (rest : params)
    (idx : nat) (ctrl : BaseCtrl) (iv id readback : Z) (dev' : D) :
  find_ref (ctrls self) (PStr k) = Some (idx, ctrl) ->
  select_value k ctrl (if py_eq v (PStr "default") then c_default ctrl else v)
    = Write (PInt iv) ->
  c_v4l2_id ctrl = Some id ->
  VIDIOC_S_CTRL (fd self) (wrap_u32 id) (wrap_s32 iv) = (dev', Ok readback) ->
  readback <> iv ->
  let self1 :=
    {| fd := dev'; ctrls := ctrls self;
       issued := issued self ++ [S_CTRL (wrap_u32 id) (wrap_s32 iv)] |} in
  let errs1 :=
    errs ++ [W_V4L2_set_using k (if py_eq v (PStr "default") then c_default ctrl else v)
               readback] in
  setup_ctrl self errs k v = (self1, errs1, Next) /\
  setup_ctrls self ((k, v) :: rest) errs = setup_ctrls self1 rest errs1 /\
  (forall ps self0 errs0,
     (writes (setup_ctrls self0 ps errs0).1.1 <= writes self0 + length ps)%nat).
Proof.
  intros Hfind Hsel Hid Hdev Hne self1 errs1.
  assert (Hstep : setup_ctrl self errs k v = (self1, errs1, Next)).
  { unfold setup_ctrl. rewrite Hfind, Hsel. unfold write_ctrl. rewrite Hid, Hdev.
    destruct (Z.eqb_spec readback iv) as [E | _]; [contradiction |]. reflexivity. }
  split; [exact Hstep |]. split.
  - cbn [setup_ctrls]. rewrite Hstep. reflexivity.
  - intros ps self0 errs0. apply setup_ctrls_writes.
Qed.

End GenericWrite.

Section GenericWriteExamples.
Import V4L2Ctrls Sample Runs.

(** ["200%"] of the brightness on a camera that takes values up to 255. *)
Lemma setup_ctrl_percent_sample :
  find_ref (ctrls (sample_v4l2_ctrls 255)) (PStr "brightness") = Some (0%nat, brightness_ctrl) /\
  float_of_str "200" = Ok (S754_finite false 7036874417766400 (-45)) /\
  percent_target 0 50 255 (S754_finite false 7036874417766400 (-45)) = Ok 200 /\
  c_value <$> ctrls (setup_ctrl (sample_v4l2_ctrls 255) [] "brightness" (PStr "200%")).1.1
              !! 0%nat
    = Some (PInt 200) /\
  (setup_ctrl (sample_v4l2_ctrls 255) [] "brightness" (PStr "200%")).1.2 = [] /\
  issued (setup_ctrl (sample_v4l2_ctrls 255) [] "brightness" (PStr "200%")).1.1
    = issued (sample_v4l2_ctrls 255) ++ [S_CTRL (wrap_u32 V4L2_CID_BRIGHTNESS) (wrap_s32 200)].
Proof.
  assert (H1 : find_ref (ctrls (sample_v4l2_ctrls 255)) (PStr "brightness")
               = Some (0%nat, brightness_ctrl)) by (vm_compute; reflexivity).
  assert (H2 : float_of_str "200" = Ok (S754_finite false 7036874417766400 (-45)))
    by (vm_compute; reflexivity).
  assert (H3 : percent_target 0 50 255 (S754_finite false 7036874417766400 (-45)) = Ok 200)
    by (vm_compute; reflexivity).
  assert (H4 : VIDIOC_S_CTRL (fd (sample_v4l2_ctrls 255)) (wrap_u32 V4L2_CID_BRIGHTNESS)
                 (wrap_s32 200)
               = ((VIDIOC_S_CTRL (fd (sample_v4l2_ctrls 255)) (wrap_u32 V4L2_CID_BRIGHTNESS)
                     (wrap_s32 200)).1, Ok 200)) by (vm_compute; reflexivity).
  split; [exact H1 |]. split; [exact H2 |]. split; [exact H3 |].
  destruct (setup_ctrl_percent (sample_v4l2_ctrls 255) [] "brightness" "200" 0%nat
              brightness_ctrl 0 50 255 V4L2_CID_BRIGHTNESS
              (S754_finite false 7036874417766400 (-45)) 200
              H1 eq_refl eq_refl eq_refl eq_refl eq_refl H2 H3)
    as (_ & _ & Hissued & Hstored & _).
  destruct (Hstored _ H4) as (_ & Herrs & Hvalue).
  split; [exact Hvalue |]. split; [exact Herrs | exact Hissued].
Defined.

(** C1, as the specification words it, fails: with the range 0 .. 255 and
    the default 45, the formula gives 31.5 for ["35%"], which [round]
    takes to 32; the source multiplies 45 by the double nearest to 0.35,
    which is below 0.35, requests 31 and stores 31. *)
Lemma setup_ctrl_percent_not_exact :
  (fun c => (c_text_id c, c_type c, c_min c, c_default c, c_max c))
    <$> ctrls v4l2_ctrls_45 !! 0%nat
    = Some ("brightness"%string, integer, PInt 0, PInt 45, PInt 255) /\
  percent_exact 0 45 255 35 = 32 /\
  issued (setup_ctrl v4l2_ctrls_45 [] "brightness" (PStr "35%")).1.1
    = issued v4l2_ctrls_45 ++ [S_CTRL (wrap_u32 V4L2_CID_BRIGHTNESS) 31] /\
  (setup_ctrl v4l2_ctrls_45 [] "brightness" (PStr "35%")).1.2 = [] /\
  c_value <$> ctrls (setup_ctrl v4l2_ctrls_45 [] "brightness" (PStr "35%")).1.1 !! 0%nat
    = Some (PInt 31).
Proof. vm_compute. repeat split; reflexivity. Qed.

(** ["200%"] of the brightness on a camera that takes values up to 100:
    200 is requested and 100 is read back. *)
Lemma setup_ctrls_readback_mismatch_sample :
  find_ref (ctrls (sample_v4l2_ctrls 100)) (PStr "brightness") = Some (0%nat, brightness_ctrl) /\
  fst (VIDIOC_S_CTRL (fd (sample_v4l2_ctrls 100)) (wrap_u32 V4L2_CID_BRIGHTNESS) (wrap_s32 200))
    = fd (setup_ctrl (sample_v4l2_ctrls 100) [] "brightness" (PStr "200%")).1.1 /\
  (setup_ctrl (sample_v4l2_ctrls 100) [] "brightness" (PStr "200%")).1.2
    = [W_V4L2_set_using "brightness" (PStr "200%") 100] /\
  ctrls (setup_ctrl (sample_v4l2_ctrls 100) [] "brightness" (PStr "200%")).1.1
    = ctrls (sample_v4l2_ctrls 100).
Proof.
  assert (H1 : find_ref (ctrls (sample_v4l2_ctrls 100)) (PStr "brightness")
               = Some (0%nat, brightness_ctrl)) by (vm_compute; reflexivity).
  assert (H2 : select_value "brightness" brightness_ctrl
                 (if py_eq (PStr "200%") (PStr "default")
                  then c_default brightness_ctrl else PStr "200%")
               = Write (PInt 200)) by (vm_compute; reflexivity).
  assert (H4 : VIDIOC_S_CTRL (fd (sample_v4l2_ctrls 100)) (wrap_u32 V4L2_CID_BRIGHTNESS)
                 (wrap_s32 200)
               = ((VIDIOC_S_CTRL (fd (sample_v4l2_ctrls 100)) (wrap_u32 V4L2_CID_BRIGHTNESS)
                     (wrap_s32 200)).1, Ok 100)) by (vm_compute; reflexivity).
  assert (H5 : 100 <> 200) by lia.
  pose proof (proj1 (setup_ctrls_readback_mismatch (sample_v4l2_ctrls 100) []
                       "brightness" (PStr "200%") [] 0%nat brightness_ctrl 200
                       V4L2_CID_BRIGHTNESS 100 _ H1 H2 eq_refl H4 H5)) as Hstep.
  split; [exact H1 |]. rewrite Hstep. repeat split.
Defined.

End GenericWriteExamples.

(** ** The aggregator *)

Section Aggregator.
Import CameraCtrls.
Context {W : Type}.

Lemma run_backends_spec (bs : list (backend W)) (ps : params) :
  forall (n : nat) (w : W) (errs : list warning) (calls : list call),
  Forall appends_only bs ->
  all_return bs ps w ->
  run_backends bs n ps w errs calls
  = (final_state bs ps w, errs ++ concat (backend_warnings bs ps w),
     calls ++ ((fun i => (i, ps)) <$> seq n (length bs)), Next).
Proof.
  induction bs as [| b rest IH]; intros n w errs calls Happ Hret.
  - cbn. now rewrite !app_nil_r.
  - apply Forall_cons in Happ as [Hb Happ]. destruct Hret as [Hnext Hret].
    cbn [run_backends]. rewrite (Hb ps w errs), Hnext.
    rewrite (IH (S n) _ _ _ Happ Hret).
    cbn [final_state backend_warnings concat length seq fmap list_fmap].
    rewrite <- !app_assoc. reflexivity.
Qed.

Lemma run_backends_app (pre bs : list (backend W)) (ps : params) :
  forall (n : nat) (w : W) (errs : list warning) (calls : list call),
  run_backends (pre ++ bs) n ps w errs calls
  = match run_backends pre n ps w errs calls with
    | (w1, errs1, calls1, Next) => run_backends bs (n + length pre) ps w1 errs1 calls1
    | escaped => escaped
    end.
Proof.
  induction pre as [| b pre IH]; intros n w errs calls.
  - cbn. now rewrite Nat.add_0_r.
  - cbn [app run_backends length].
    destruct (b_setup_ctrls b ps w errs) as [[w' errs'] [| e]]; [| reflexivity].
    rewrite IH. replace (S n + length pre)%nat with (n + S (length pre))%nat by lia.
    reflexivity.
Qed.

Lemma unknown_ctrls_spec (bs : list (backend W)) (ps : params) (w : W) (k : string) :
  k ∈ unknown_ctrls bs ps w <->
  k ∈ ps.*1 /\ forall b c, b ∈ bs -> c ∈ b_get_ctrls b w -> c_text_id c <> k.
Proof.
  unfold unknown_ctrls, get_ctrls.
  rewrite elem_of_difference, !elem_of_list_to_set.
  split; intros [Hk Hno]; (split; [exact Hk |]).
  - intros b c Hb Hc Heq. apply Hno.
    apply list_elem_of_fmap. exists c. split; [now symmetry |].
    apply list_elem_of_In, in_concat. exists (b_get_ctrls b w). split.
    + apply list_elem_of_In, list_elem_of_fmap. exists b. split; [reflexivity | exact Hb].
    + now apply list_elem_of_In.
  - intros Hin. apply list_elem_of_fmap in Hin as (c & -> & Hc).
    apply list_elem_of_In, in_concat in Hc as (l & Hl & Hc).
    apply list_elem_of_In, list_elem_of_fmap in Hl as (b & -> & Hb).
    apply (Hno b c Hb); [now apply list_elem_of_In | reflexivity].
Qed.

(** C5, as the code has it. When every backend returns, [setup_ctrls] of
    the aggregator has called every backend once, in the order of
    [self.ctrls], each with the whole batch; [errs] has grown by the
    warnings of the backends in that order, followed by one collective
    warning that carries the keys of the batch that are the text id of no
    control of any backend, or by nothing when there is no such key. *)
Theorem setup_ctrls_broadcasts
    (self : list (backend W)) (ps : params) (w : W) (errs : list warning) :
  Forall appends_only self ->
  all_return self ps w ->
  let w' := final_state self ps w in
  let unknown := unknown_ctrls self ps w' in
  setup_ctrls self ps w errs
  = (w', errs ++ concat (backend_warnings self ps w) ++ unknown_warning unknown,
     (fun i => (i, ps)) <$> seq 0 (length self), Next) /\
  (forall k, k ∈ unknown <->
     k ∈ ps.*1 /\ forall b c, b ∈ self -> c ∈ b_get_ctrls b w' -> c_text_id c <> k) /\
  (unknown = ∅ -> unknown_warning unknown = []) /\
  (unknown <> ∅ -> unknown_warning unknown = [W_unknown_ctrls unknown]).
Proof.
  intros Happ Hret w' unknown. split; [| split; [| split]].
  - unfold setup_ctrls. rewrite (run_backends_spec self ps 0 w errs [] Happ Hret).
    fold w'. fold unknown. unfold unknown_warning, collect_warning.
    destruct (decide (unknown = ∅)) as [E | E].
    + rewrite E, size_empty. cbn. now rewrite !app_nil_r.
    + assert (Hpos : (0 <? size unknown)%nat = true).
      { apply Nat.ltb_lt. apply Nat.neq_0_lt_0. intros Hz.
        apply E. apply leibniz_equiv. now apply size_empty_iff. }
      rewrite Hpos. cbn. now rewrite <- app_assoc.
  - intros k. apply unknown_ctrls_spec.
  - intros E. unfold unknown_warning. now rewrite decide_True.
  - intros E. unfold unknown_warning. now rewrite decide_False.
Qed.

End Aggregator.

(** ** Backends append to the warnings *)

Section AppendsOnly.
Context {D : Type} `{V4L2Ctrls.Device D} `{AnkerWorkCtrls.Device D}.

Lemma v4l2_setup_ctrl_appends (self : V4L2Ctrls.t D) (errs : list warning)
    (k : string) (v : pyval) :
  V4L2Ctrls.setup_ctrl self errs k v
  = ((V4L2Ctrls.setup_ctrl self [] k v).1.1,
     errs ++ (V4L2Ctrls.setup_ctrl self [] k v).1.2,
     (V4L2Ctrls.setup_ctrl self [] k v).2).
Proof.
  unfold V4L2Ctrls.setup_ctrl.
  destruct (find_ref _ _) as [[idx ctrl] |]; [| cbn; now rewrite app_nil_r].
  destruct (V4L2Ctrls.select_value _ _ _); [| reflexivity | cbn; now rewrite app_nil_r].
  unfold V4L2Ctrls.write_ctrl.
  destruct (c_v4l2_id ctrl); [| reflexivity].
  destruct intvalue; try reflexivity.
  destruct (V4L2Ctrls.VIDIOC_S_CTRL _ _ _) as [dev' [readback | e]]; [| reflexivity].
  destruct (negb _); [reflexivity | cbn; now rewrite app_nil_r].
Qed.

Lemma v4l2_setup_ctrls_appends (ps : params) :
  forall (self : V4L2Ctrls.t D) (errs : list warning),
  V4L2Ctrls.setup_ctrls self ps errs
  = ((V4L2Ctrls.setup_ctrls self ps []).1.1,
     errs ++ (V4L2Ctrls.setup_ctrls self ps []).1.2,
     (V4L2Ctrls.setup_ctrls self ps []).2).
Proof.
  induction ps as [| [k v] rest IH]; intros self errs; [cbn; now rewrite app_nil_r |].
  cbn [V4L2Ctrls.setup_ctrls]. rewrite (v4l2_setup_ctrl_appends self errs).
  destruct (V4L2Ctrls.setup_ctrl self [] k v) as [[self' ws] [| e]]; cbn [fst snd].
  - rewrite (IH self' (errs ++ ws)), (IH self' ws). cbn [fst snd].
    now rewrite app_assoc.
  - reflexivity.
Qed.

Lemma ankerwork_setup_ctrl_appends (self : AnkerWorkCtrls.t D) (errs : list warning)
    (k : string) (v : pyval) :
  AnkerWorkCtrls.setup_ctrl self errs k v
  = ((AnkerWorkCtrls.setup_ctrl self [] k v).1.1,
     errs ++ (AnkerWorkCtrls.setup_ctrl self [] k v).1.2,
     (AnkerWorkCtrls.setup_ctrl self [] k v).2).
Proof.
  unfold AnkerWorkCtrls.setup_ctrl.
  destruct (find_ref _ _) as [[idx ctrl] |]; [| cbn; now rewrite app_nil_r].
  destruct (c_length ctrl); [| cbn; now rewrite app_nil_r].
  destruct (c_selector ctrl); [| cbn; now rewrite app_nil_r].
  destruct (_ <? 0); [cbn; now rewrite app_nil_r |].
  destruct (AnkerWorkCtrls.query_xu_control self _ _ _) as [self1 current].
  destruct (AnkerWorkCtrls.select_desired _ _ _ _);
    [| destruct (AnkerWorkCtrls.get_length_xu_control self1 _); cbn; now rewrite app_nil_r
     | reflexivity | cbn; now rewrite app_nil_r].
  destruct (bool_decide _); [cbn; now rewrite app_nil_r |].
  destruct (AnkerWorkCtrls.query_xu_control self1 _ _ _) as [self2 d1].
  destruct (AnkerWorkCtrls.query_xu_control self2 _ _ _) as [self3 d2].
  cbn. now rewrite app_nil_r.
Qed.

Lemma ankerwork_setup_items_appends (ps : params) :
  forall (self : AnkerWorkCtrls.t D) (errs : list warning),
  AnkerWorkCtrls.setup_items self ps errs
  = ((AnkerWorkCtrls.setup_items self ps []).1.1,
     errs ++ (AnkerWorkCtrls.setup_items self ps []).1.2,
     (AnkerWorkCtrls.setup_items self ps []).2).
Proof.
  induction ps as [| [k v] rest IH]; intros self errs; [cbn; now rewrite app_nil_r |].
  cbn [AnkerWorkCtrls.setup_items]. rewrite (ankerwork_setup_ctrl_appends self errs).
  destruct (AnkerWorkCtrls.setup_ctrl self [] k v) as [[self' ws] [| e]]; cbn [fst snd].
  - rewrite (IH self' (errs ++ ws)), (IH self' ws). cbn [fst snd].
    now rewrite app_assoc.
  - reflexivity.
Qed.

Lemma v4l2_backend_appends_only :
  CameraCtrls.appends_only (CameraCtrls.v4l2_backend (D := D)).
Proof.
  intros ps w errs. cbn [CameraCtrls.b_setup_ctrls CameraCtrls.v4l2_backend].
  rewrite (v4l2_setup_ctrls_appends ps (CameraCtrls.v4l_ctrls w) errs). reflexivity.
Qed.

Lemma ankerwork_backend_appends_only :
  CameraCtrls.appends_only (CameraCtrls.ankerwork_backend (D := D)).
Proof.
  intros ps w errs. cbn [CameraCtrls.b_setup_ctrls CameraCtrls.ankerwork_backend].
  unfold AnkerWorkCtrls.setup_ctrls.
  destruct (negb _); [cbn; now rewrite app_nil_r |].
  rewrite (ankerwork_setup_items_appends ps (CameraCtrls.ankerwork_ctrls w) errs).
  reflexivity.
Qed.

End AppendsOnly.

Section AggregatorExamples.
Import CameraCtrls Sample Runs.

Lemma sample_backends_append : Forall appends_only sample_backends.
Proof.
  repeat constructor;
    [apply v4l2_backend_appends_only | apply ankerwork_backend_appends_only].
Qed.

(** The sample batch on the generic and the AnkerWork backend: both are
    called with the batch, and the warning of the generic backend is
    followed by the one for the names no backend has. *)
Lemma setup_ctrls_broadcasts_sample :
  Forall appends_only sample_backends /\
  all_return sample_backends sample_batch sample_world /\
  concat (backend_warnings sample_backends sample_batch sample_world)
    = [W_V4L2_set_using "brightness" (PStr "200%") 100] /\
  (setup_ctrls sample_backends sample_batch sample_world []).1.2
    = [ (0%nat, sample_batch); (1%nat, sample_batch) ] /\
  (forall k,
     k ∈ unknown_ctrls sample_backends sample_batch
           (final_state sample_backends sample_batch sample_world) <->
     k ∈ sample_batch.*1 /\
     forall b c, b ∈ sample_backends ->
       c ∈ b_get_ctrls b (final_state sample_backends sample_batch sample_world) ->
       c_text_id c <> k).
Proof.
  assert (H2 : all_return sample_backends sample_batch sample_world).
  { vm_compute. repeat split. }
  split; [exact sample_backends_append |]. split; [exact H2 |].
  split; [vm_compute; reflexivity |].
  pose proof (setup_ctrls_broadcasts sample_backends sample_batch sample_world []
                sample_backends_append H2) as (Hrun & Hunknown & _).
  split; [rewrite Hrun; reflexivity | exact Hunknown].
Defined.

(** C5, as the specification words it, fails when a backend raises: the
    batch names ["zoom"], which is no control of any backend, and the face
    compensation 35, at which the AnkerWork backend raises. The aggregator
    ends with the exception, and no warning reports ["zoom"]. *)
Lemma setup_ctrls_escape_reports_no_unknown :
  "zoom"%string ∈ unclaimed_escaping_batch.*1 /\
  Forall (fun c => c_text_id c <> "zoom"%string)
    (get_ctrls sample_backends
       (setup_ctrls sample_backends unclaimed_escaping_batch sample_world []).1.1.1) /\
  (setup_ctrls sample_backends unclaimed_escaping_batch sample_world []).2
    = Escape OverflowError /\
  (setup_ctrls sample_backends unclaimed_escaping_batch sample_world []).1.1.2 = [] /\
  (setup_ctrls sample_backends unclaimed_escaping_batch sample_world []).1.2
    = [(0%nat, unclaimed_escaping_batch); (1%nat, unclaimed_escaping_batch)].
Proof.
  split; [left |]. split; [| vm_compute; repeat split; reflexivity].
  vm_compute. repeat constructor; discriminate.
Qed.

End AggregatorExamples.

(** ** The face compensation of the AnkerWork backend *)

Section FaceCompensation.
Import AnkerWorkCtrls.
Context {D : Type} `{Device D}.

Lemma land_255_byte (x : Z) : 0 <= Z.land x 0xff < 256.
Proof.
  change 0xff with (Z.ones 8). rewrite Z.land_ones by lia.
  apply Z.mod_pos_bound. lia.
Qed.

(** What the encoder makes of a compensation [n] and the enable flag:
    only [n = 0] fits the one byte. *)
Lemma face_compensation_desired (v : pyval) (n enable : Z) :
  py_int v = Ok n ->
  0 <= enable < 256 ->
  of_res (n ← py_int v;
          comp ← _map_comp_to_int n;
          b ← _bytes_from_int (comp + enable);
          to_buf b)
  = if (0 <=? n) && (n <=? 100) then
      if n =? 0 then Desired [enable; 0] else Raised OverflowError
    else Raised AssertionError.
Proof.
  intros Hint Hen. rewrite Hint.
  unfold mbind, res_bind, Py.bind, _map_comp_to_int, _bytes_from_int.
  destruct ((0 <=? n) && (n <=? 100)) eqn:Hrange; [| reflexivity].
  apply andb_true_iff in Hrange as [Hlo Hhi].
  apply Z.leb_le in Hlo. apply Z.leb_le in Hhi.
  rewrite Z.shiftl_mul_pow2 by lia.
  destruct (Z.eqb_spec n 0) as [-> | Hne].
  - replace (0 * 2 ^ 8 + enable) with enable by lia.
    replace ((0 <=? enable) && (enable <? 256)) with true; [reflexivity |].
    symmetry. apply andb_true_iff. split; [apply Z.leb_le | apply Z.ltb_lt]; lia.
  - replace ((0 <=? n * 2 ^ 8 + enable) && (n * 2 ^ 8 + enable <? 256)) with false;
      [reflexivity |].
    symmetry. apply andb_false_iff. right. apply Z.ltb_ge. lia.
Qed.

(** C10. Applying an integer [n] to the face compensation control of a
    supported AnkerWork backend: for [1 <= n <= 100] the encoder raises
    [OverflowError], outside [0 .. 100] the assertion fails, and neither
    is caught, so [setup_ctrls] ends there without a warning and without
    looking at the rest of the batch; only [n = 0] is written. The
    aggregator, which catches nothing either, ends with the same
    exception. *)
Theorem face_compensation_escapes
    (self : t D) (errs : list warning) (v : pyval) (n : Z) (rest : params) :
  supported self = true ->
  has_face_compensation self ->
  py_int v = Ok n ->
  let ps := ("ankerwork_face_compensation"%string, v) :: rest in
  (1 <= n <= 100 ->
   (setup_ctrls self ps errs).2 = Escape OverflowError /\
   (setup_ctrls self ps errs).1.2 = errs /\
   forall (pre post : list (CameraCtrls.backend (CameraCtrls.world D)))
          (w w1 : CameraCtrls.world D) (errs0 errs1 : list warning)
          (calls1 : list CameraCtrls.call),
     CameraCtrls.run_backends pre 0 ps w errs0 [] = (w1, errs1, calls1, Next) ->
     CameraCtrls.ankerwork_ctrls w1 = self ->
     (CameraCtrls.setup_ctrls (pre ++ CameraCtrls.ankerwork_backend :: post) ps w errs0).2
     = Escape OverflowError) /\
  (n < 0 \/ 100 < n ->
   (setup_ctrls self ps errs).2 = Escape AssertionError /\
   (setup_ctrls self ps errs).1.2 = errs) /\
  (n = 0 ->
   (setup_ctrl self errs "ankerwork_face_compensation" v).2 = Next /\
   (setup_ctrl self errs "ankerwork_face_compensation" v).1.2 = errs).
Proof.
  intros Hsup (idx & ctrl & Hfind & Hty & Hsel & Hlen) Hint ps.
  assert (Hid : c_text_id ctrl = "ankerwork_face_compensation"%string).
  { unfold find_ref in Hfind.
    destruct (find_idx _ _) as [i |] eqn:Hi; [| discriminate].
    cbn [mbind option_bind] in Hfind.
    destruct (ctrls self !! i) as [c |] eqn:Hc; [| discriminate].
    injection Hfind as <- <-.
    clear - Hi Hc. revert i Hi Hc.
    induction (ctrls self) as [| a l IH]; intros i Hi Hc; [discriminate |].
    cbn [find_idx] in Hi. destruct (text_id_is _ a) eqn:Ha.
    - injection Hi as <-. injection Hc as <-.
      unfold text_id_is in Ha. apply py_eq_true in Ha. now injection Ha.
    - destruct (find_idx l _) as [j |] eqn:Hj; [| discriminate].
      injection Hi as <-. exact (IH j eq_refl Hc). }
  assert (Hstep : forall errs',
            setup_ctrl self errs' "ankerwork_face_compensation" v
            = let q := query_xu_control self ANKERWORK_FACE_EXPOSURE_COMP_SELECTOR
                         UVC_GET_CUR [0; 0; 0] in
              let enable := Z.land (_int_from_bytes q.2) 0xff in
              if (0 <=? n) && (n <=? 100) then
                if n =? 0 then
                  let s2 := query_xu_control q.1 ANKERWORK_FACE_EXPOSURE_COMP_SELECTOR
                              UVC_SET_CUR [enable; 0] in
                  let s3 := query_xu_control s2.1 ANKERWORK_FACE_EXPOSURE_COMP_SELECTOR
                              UVC_GET_CUR s2.2 in
                  (with_ctrls s3.1 (<[idx := set_value (PBuf s3.2) ctrl]> (ctrls s3.1)),
                   errs', Next)
                else (q.1, errs', Escape OverflowError)
              else (q.1, errs', Escape AssertionError)).
  { intros errs'. unfold setup_ctrl. rewrite Hfind, Hlen, Hsel.
    change (ANKERWORK_FACE_EXPOSURE_COMP_LENGTH <? 0) with false. cbv iota.
    change (replicate (Z.to_nat ANKERWORK_FACE_EXPOSURE_COMP_LENGTH) 0 ++ [0])
      with [0; 0; 0].
    destruct (query_xu_control self _ _ _) as [self1 current]. cbn [fst snd].
    unfold select_desired. rewrite Hty, Hid.
    change (bool_decide (integer = menu) || bool_decide (integer = button)) with false.
    change (bool_decide (integer = integer)) with true.
    change (String.eqb "ankerwork_face_compensation" "ankerwork_face_compensation")
      with true.
    cbv iota.
    rewrite (face_compensation_desired v n _ Hint
               (land_255_byte (_int_from_bytes current))).
    destruct ((0 <=? n) && (n <=? 100)); [| reflexivity].
    destruct (n =? 0); [| reflexivity].
    change (bool_decide (integer = button)) with false. cbv iota.
    destruct (query_xu_control self1 _ _ _) as [self2 d1]. cbn [fst snd].
    destruct (query_xu_control self2 _ _ _) as [self3 d2]. reflexivity. }
  assert (Hover : 1 <= n <= 100 ->
            forall errs',
              (setup_ctrls self ps errs').2 = Escape OverflowError /\
              (setup_ctrls self ps errs').1.2 = errs').
  { intros Hn errs'. unfold setup_ctrls. rewrite Hsup. cbn [negb]. subst ps.
    cbn [setup_items]. rewrite (Hstep errs'). cbv zeta.
    replace ((0 <=? n) && (n <=? 100)) with true
      by (symmetry; apply andb_true_iff; split; apply Z.leb_le; lia).
    replace (n =? 0) with false by (symmetry; apply Z.eqb_neq; lia).
    split; reflexivity. }
  split; [| split].
  - intros Hn. split; [apply (Hover Hn) |]. split; [apply (Hover Hn) |].
    intros pre post w w1 errs0 errs1 calls1 Hpre Hw1.
    unfold CameraCtrls.setup_ctrls. rewrite run_backends_app, Hpre.
    cbn [CameraCtrls.run_backends CameraCtrls.b_setup_ctrls CameraCtrls.ankerwork_backend].
    rewrite Hw1. destruct (Hover Hn errs1) as [Hfl _].
    destruct (setup_ctrls self ps errs1) as [[self' errs'] fl]. cbn [fst snd] in *.
    subst fl. reflexivity.
  - intros Hn. unfold setup_ctrls. rewrite Hsup. cbn [negb]. subst ps.
    cbn [setup_items]. rewrite (Hstep errs). cbv zeta.
    replace ((0 <=? n) && (n <=? 100)) with false; [split; reflexivity |].
    symmetry. apply andb_false_iff.
    destruct Hn; [left; apply Z.leb_gt | right; apply Z.leb_gt]; lia.
  - intros ->. rewrite (Hstep errs). cbv zeta. cbn [Z.leb Z.eqb andb].
    split; reflexivity.
Qed.

End FaceCompensation.

Section FaceCompensationExamples.
Import AnkerWorkCtrls Sample.

Lemma sample_anker_has_face_compensation : has_face_compensation sample_anker.
Proof.
  exists 6%nat, face_compensation_ctrl. repeat split.
Qed.

(** The default 35 on the sample camera. *)
Lemma face_compensation_escapes_sample :
  supported sample_anker = true /\
  has_face_compensation sample_anker /\
  py_int (PStr "35") = Ok 35 /\
  (setup_ctrls sample_anker [("ankerwork_face_compensation"%string, PStr "35")] []).2
    = Escape OverflowError.
Proof.
  assert (H1 : supported sample_anker = true) by reflexivity.
  assert (H3 : py_int (PStr "35") = Ok 35) by reflexivity.
  split; [exact H1 |]. split; [exact sample_anker_has_face_compensation |].
  split; [exact H3 |].
  refine (proj1 (proj1 (face_compensation_escapes sample_anker [] (PStr "35") 35 []
                          H1 sample_anker_has_face_compensation H3) _)).
  lia.
Defined.

End FaceCompensationExamples.
(** ** The aggregator and exceptions *)

Section AggregatorEscape.
Import CameraCtrls.
Context {W : Type}.

(** X3. When a backend raises, [setup_ctrls] of the aggregator ends with
    that exception where the backend left off: the backends after it are
    not called, and the warning for unknown names is not produced. *)
Theorem setup_ctrls_stops_at_exception
    (pre post : list (backend W)) (b : backend W) (ps : params) (w w2 : W)
    (errs errs2 : list warning) (e : exn) :
  Forall appends_only pre ->
  all_return pre ps w ->
  b_setup_ctrls b ps (final_state pre ps w)
    (errs ++ concat (backend_warnings pre ps w)) = (w2, errs2, Escape e) ->
  setup_ctrls (pre ++ b :: post) ps w errs
  = (w2, errs2, (fun i => (i, ps)) <$> seq 0 (S (length pre)), Escape e).
Proof.
  intros Happ Hret Hb. unfold setup_ctrls.
  rewrite run_backends_app, (run_backends_spec pre ps 0 w errs [] Happ Hret).
  cbn [run_backends]. rewrite Hb. cbn [app Nat.add].
  rewrite seq_S, fmap_app. reflexivity.
Qed.

End AggregatorEscape.

Section AggregatorEscapeExamples.
Import CameraCtrls Sample Runs.

Lemma setup_ctrls_stops_at_exception_sample :
  Forall appends_only [v4l2_backend (D := sample_cam)] /\
  all_return [v4l2_backend] escaping_batch sample_world /\
  (setup_ctrls ([v4l2_backend] ++ ankerwork_backend :: [v4l2_backend])
     escaping_batch sample_world []).2 = Escape OverflowError /\
  (setup_ctrls ([v4l2_backend] ++ ankerwork_backend :: [v4l2_backend])
     escaping_batch sample_world []).1.2
    = [(0%nat, escaping_batch); (1%nat, escaping_batch)].
Proof.
  assert (H1 : Forall appends_only [v4l2_backend (D := sample_cam)]).
  { repeat constructor. apply v4l2_backend_appends_only. }
  assert (H2 : all_return [v4l2_backend] escaping_batch sample_world).
  { vm_compute. repeat split. }
  split; [exact H1 |]. split; [exact H2 |].
  rewrite (setup_ctrls_stops_at_exception [v4l2_backend] [v4l2_backend]
             ankerwork_backend escaping_batch sample_world
             (b_setup_ctrls ankerwork_backend escaping_batch
                (final_state [v4l2_backend] escaping_batch sample_world)
                ([] ++ concat (backend_warnings [v4l2_backend] escaping_batch sample_world))).1.1
             []
             (b_setup_ctrls ankerwork_backend escaping_batch
                (final_state [v4l2_backend] escaping_batch sample_world)
                ([] ++ concat (backend_warnings [v4l2_backend] escaping_batch sample_world))).1.2
             OverflowError H1 H2).
  - split; reflexivity.
  - vm_compute. reflexivity.
Defined.

End AggregatorEscapeExamples.

(** ** Pixel format codes, the other way round *)

Section FourccDecodeEncode.
Import Fourcc.

Lemma land_shiftr_255_byte (p k : Z) : is_byte (Z.land (Z.shiftr p k) 255).
Proof.
  unfold is_byte. change 255 with (Z.ones 8). rewrite Z.land_ones by lia.
  apply Z.mod_pos_bound. lia.
Qed.

Lemma land_shiftr_255_bit (p k m : Z) :
  0 <= k -> 0 <= m ->
  Z.testbit (Z.land (Z.shiftr p k) 255) m = (m <? 8) && Z.testbit p (m + k).
Proof.
  intros Hk Hm. rewrite Z.land_spec, Z.shiftr_spec, testbit_255 by lia.
  apply andb_comm.
Qed.

Lemma str2pxf_pxf2str_mod (pxf : Z) :
  str2pxf (pxf2str pxf) = Ok (pxf mod 2 ^ 32).
Proof.
  unfold pxf2str, str2pxf. cbn [ord_at lookup list_lookup mbind res_bind Py.bind].
  f_equal. rewrite <- (Z.shiftr_0_r pxf) at 1.
  apply Z.bits_inj'. intros n Hn.
  rewrite packed_bit by (try apply land_shiftr_255_byte; lia).
  rewrite Z.testbit_mod_pow2 by lia.
  destruct (Z.ltb_spec n 8).
  { rewrite land_shiftr_255_bit by lia.
    replace (n <? 32) with true by (symmetry; apply Z.ltb_lt; lia).
    replace (n <? 8) with true by (symmetry; apply Z.ltb_lt; lia).
    rewrite Z.add_0_r. reflexivity. }
  destruct (Z.ltb_spec n 16).
  { rewrite land_shiftr_255_bit by lia.
    replace (n <? 32) with true by (symmetry; apply Z.ltb_lt; lia).
    replace (n - 8 <? 8) with true by (symmetry; apply Z.ltb_lt; lia).
    replace (n - 8 + 8) with n by lia. reflexivity. }
  destruct (Z.ltb_spec n 24).
  { rewrite land_shiftr_255_bit by lia.
    replace (n <? 32) with true by (symmetry; apply Z.ltb_lt; lia).
    replace (n - 16 <? 8) with true by (symmetry; apply Z.ltb_lt; lia).
    replace (n - 16 + 16) with n by lia. reflexivity. }
  rewrite land_shiftr_255_bit by lia.
  replace (n - 24 + 24) with n by lia.
  destruct (Z.ltb_spec n 32).
  - replace (n - 24 <? 8) with true by (symmetry; apply Z.ltb_lt; lia). reflexivity.
  - replace (n - 24 <? 8) with false by (symmetry; apply Z.ltb_ge; lia). reflexivity.
Qed.

Lemma pxf2str_bytes (pxf : Z) : Forall is_byte (pxf2str pxf).
Proof.
  unfold pxf2str. rewrite <- (Z.shiftr_0_r pxf) at 1.
  repeat constructor; apply land_shiftr_255_byte.
Qed.

(** X4. Encoding what [pxf2str] decoded gives the low 32 bits of the code
    back: [str2pxf(pxf2str(pxf)) = pxf mod 2^32] for every integer, and
    [pxf2str] always gives four code points below 256. So the two functions
    are inverse to each other on 32-bit codes, in both directions. *)
Theorem str2pxf_pxf2str (pxf : Z) :
  str2pxf (pxf2str pxf) = Ok (pxf mod 2 ^ 32) /\
  length (pxf2str pxf) = 4%nat /\
  Forall is_byte (pxf2str pxf).
Proof.
  split; [apply str2pxf_pxf2str_mod |].
  split; [reflexivity | apply pxf2str_bytes].
Qed.

End FourccDecodeEncode.

(** ** Unit id discovery never fails *)

Section SysfsTotal.
Import Sysfs.

Lemma find_from_range (guid d : list Z) :
  forall i, find_from i d guid = -1 \/ i <= find_from i d guid <= i + Z.of_nat (length d).
Proof.
  induction d as [| a d IH]; intros i.
  - change (find_from i [] guid) with (if startswith [] guid then i else -1).
    destruct (startswith [] guid); [right; cbn [length]; lia | left; reflexivity].
  - change (find_from i (a :: d) guid)
      with (if startswith (a :: d) guid then i else find_from (i + 1) d guid).
    destruct (startswith (a :: d) guid).
    + right. cbn [length]. lia.
    + destruct (IH (i + 1)) as [-> | Hr]; [left; reflexivity | right].
      cbn [length]. lia.
Qed.

(** X5. [find_unit_id_in_sysfs] raises for no descriptor source and no
    identifier: it returns 0, or a byte of the descriptors. When the
    descriptors begin with the identifier, so that no byte comes before
    its first occurrence, it returns 0. *)
Theorem find_unit_id_in_sysfs_total (f : descfile) (guid : list Z) :
  (exists unit_id,
     find_unit_id_in_sysfs f guid = Ok unit_id /\
     (unit_id = 0 \/ exists descriptors, f = Content descriptors /\ unit_id ∈ descriptors)) /\
  (forall descriptors post,
     f = Content descriptors -> descriptors = guid ++ post ->
     find_unit_id_in_sysfs f guid = Ok 0).
Proof.
  split.
  - destruct f as [| | d]; [exists 0; split; [reflexivity | now left] .. |].
    unfold find_unit_id_in_sysfs, find.
    destruct (find_from_range guid d 0) as [-> | Hr]; [exists 0; split; [reflexivity | now left] |].
    destruct (Z.ltb_spec 0 (find_from 0 d guid)); [| exists 0; split; [reflexivity | now left]].
    destruct (d !! Z.to_nat (find_from 0 d guid - 1)) as [b |] eqn:Hb.
    + exists b. split; [reflexivity |]. right. exists d. split; [reflexivity |].
      eapply list_elem_of_lookup_2; eauto.
    + apply lookup_ge_None in Hb. lia.
  - intros d post -> ->. unfold find_unit_id_in_sysfs, find.
    rewrite (find_from_first guid (guid ++ post) 0 0).
    + reflexivity.
    + exists [], post. split; reflexivity.
    + intros j Hj. lia.
Qed.

End SysfsTotal.

(** ** The request codes are the kernel's *)

Section IoctlCodes.
Import Ioctl.

Lemma lor_disjoint_add (c b k : Z) :
  0 <= k -> 0 <= b < 2 ^ k -> Z.lor (c * 2 ^ k) b = c * 2 ^ k + b.
Proof.
  intros Hk Hb.
  assert (Hland : Z.land (c * 2 ^ k) b = 0).
  { apply Z.bits_inj'. intros n Hn. rewrite Z.land_spec, Z.bits_0.
    destruct (Z.ltb_spec n k).
    - rewrite Z.mul_pow2_bits_low by lia. reflexivity.
    - rewrite <- (Z.mod_small b (2 ^ k)) by lia.
      rewrite Z.mod_pow2_bits_high by lia. apply andb_false_r. }
  pose proof (Z.add_lor_land (c * 2 ^ k) b). lia.
Qed.

Lemma wrap_s32_small (x : Z) : - 2 ^ 31 <= x < 2 ^ 31 -> wrap_s32 x = x.
Proof. intros Hx. unfold wrap_s32. rewrite Z.mod_small; lia. Qed.

Lemma packed_fields (d s t n : Z) :
  0 <= s < 2 ^ 14 -> 0 <= t < 256 -> 0 <= n < 256 ->
  Z.lor (Z.lor (Z.lor (d * 2 ^ 30) (t * 2 ^ 8)) (n * 2 ^ 0)) (s * 2 ^ 16)
  = d * 2 ^ 30 + s * 2 ^ 16 + t * 2 ^ 8 + n.
Proof.
  intros Hs Ht Hn.
  rewrite <- !Z.lor_assoc.
  replace (Z.lor (t * 2 ^ 8) (Z.lor (n * 2 ^ 0) (s * 2 ^ 16)))
    with (Z.lor (s * 2 ^ 16) (Z.lor (t * 2 ^ 8) (n * 2 ^ 0)))
    by (rewrite (Z.lor_comm (s * 2 ^ 16)), Z.lor_assoc; reflexivity).
  rewrite !Z.lor_assoc.
  rewrite (lor_disjoint_add d (s * 2 ^ 16) 30) by lia.
  replace (d * 2 ^ 30 + s * 2 ^ 16) with ((d * 2 ^ 14 + s) * 2 ^ 16) by lia.
  rewrite (lor_disjoint_add _ (t * 2 ^ 8) 16) by lia.
  replace ((d * 2 ^ 14 + s) * 2 ^ 16 + t * 2 ^ 8)
    with (((d * 2 ^ 14 + s) * 2 ^ 8 + t) * 2 ^ 8) by lia.
  rewrite (lor_disjoint_add _ (n * 2 ^ 0) 8) by lia.
  lia.
Qed.

(** X6. For a direction below 4, a type character and a number below 256
    and a size below 2^14, [_IOC] is the request code of the kernel's
    macro read as a signed 32-bit number: its low 32 bits are
    [dir * 2^30 + size * 2^16 + type * 2^8 + nr], and it lies in the
    range of a C [int]. *)
Theorem _IOC_kernel_code (dir_ type_ nr size : Z) :
  0 <= dir_ < 4 -> 0 <= type_ < 256 -> 0 <= nr < 256 -> 0 <= size < 2 ^ 14 ->
  _IOC dir_ type_ nr size = wrap_s32 (kernel_code dir_ type_ nr size) /\
  wrap_u32 (_IOC dir_ type_ nr size) = kernel_code dir_ type_ nr size /\
  - 2 ^ 31 <= _IOC dir_ type_ nr size < 2 ^ 31.
Proof.
  intros Hd Ht Hn Hs.
  assert (Hioc : _IOC dir_ type_ nr size
                 = (if dir_ <? 2 then dir_ else dir_ - 4) * 2 ^ 30
                   + size * 2 ^ 16 + type_ * 2 ^ 8 + nr).
  { unfold _IOC.
    change _IOC_DIRSHIFT with 30. change _IOC_SIZESHIFT with 16.
    change _IOC_TYPESHIFT with 8. change _IOC_NRSHIFT with 0.
    rewrite !Z.shiftl_mul_pow2 by lia.
    rewrite (wrap_s32_small (type_ * 2 ^ 8)) by lia.
    rewrite (wrap_s32_small (nr * 2 ^ 0)) by lia.
    rewrite (wrap_s32_small (size * 2 ^ 16)) by lia.
    replace (wrap_s32 (dir_ * 2 ^ 30))
      with ((if dir_ <? 2 then dir_ else dir_ - 4) * 2 ^ 30).
    - apply packed_fields; lia.
    - unfold wrap_s32. destruct (Z.ltb_spec dir_ 2).
      + rewrite Z.mod_small; lia.
      + replace (dir_ * 2 ^ 30 + 2 ^ 31)
          with ((dir_ * 2 ^ 30 - 2 ^ 31) + 1 * 2 ^ 32) by lia.
        rewrite Z.mod_add by lia. rewrite Z.mod_small; lia. }
  rewrite Hioc. unfold kernel_code, wrap_s32, wrap_u32.
  destruct (Z.ltb_spec dir_ 2).
  - split; [| split]; [| | lia].
    + rewrite Z.mod_small; lia.
    + rewrite Z.mod_small; lia.
  - split; [| split]; [| | lia].
    + replace (dir_ * 2 ^ 30 + size * 2 ^ 16 + type_ * 2 ^ 8 + nr + 2 ^ 31)
        with (((dir_ - 2) * 2 ^ 30 + size * 2 ^ 16 + type_ * 2 ^ 8 + nr) + 1 * 2 ^ 32)
        by lia.
      rewrite Z.mod_add by lia. rewrite Z.mod_small; lia.
    + replace ((dir_ - 4) * 2 ^ 30 + size * 2 ^ 16 + type_ * 2 ^ 8 + nr)
        with ((dir_ * 2 ^ 30 + size * 2 ^ 16 + type_ * 2 ^ 8 + nr) + (-1) * 2 ^ 32)
        by lia.
      rewrite Z.mod_add by lia. rewrite Z.mod_small; lia.
Qed.

(** [VIDIOC_S_CTRL = _IOWR('V', 28, v4l2_control)], a structure of 8 bytes:
    the kernel's 0xc008561c. *)
Lemma _IOC_kernel_code_VIDIOC_S_CTRL :
  0 <= 3 < 4 /\ 0 <= 86 < 256 /\ 0 <= 28 < 256 /\ 0 <= 8 < 2 ^ 14 /\
  _IOWR 86 28 8 = wrap_s32 3221771804 /\
  wrap_u32 (_IOWR 86 28 8) = 3221771804 /\
  - 2 ^ 31 <= _IOWR 86 28 8 < 2 ^ 31.
Proof.
  assert (H1 : 0 <= 3 < 4) by lia.
  assert (H2 : 0 <= 86 < 256) by lia.
  assert (H3 : 0 <= 28 < 256) by lia.
  assert (H4 : 0 <= 8 < 2 ^ 14) by lia.
  exact (conj H1 (conj H2 (conj H3 (conj H4 (_IOC_kernel_code 3 86 28 8 H1 H2 H3 H4))))).
Defined.

End IoctlCodes.

(** ** What a batch of generic controls can and cannot do *)

Section GenericBatch.
Import V4L2Ctrls Invariants.
Context {D : Type} `{Device D}.

Lemma find_idx_some {A} (l : list A) (pred : A -> bool) (i : nat) :
  find_idx l pred = Some i -> exists c, l !! i = Some c /\ pred c = true.
Proof.
  revert i. induction l as [| a l IH]; intros i; [discriminate |].
  cbn [find_idx]. destruct (pred a) eqn:Ha.
  - intros [= <-]. exists a. split; [reflexivity | exact Ha].
  - destruct (find_idx l pred) as [j |]; [| discriminate].
    intros [= <-]. destruct (IH j eq_refl) as (c & Hc & Hp).
    exists c. split; [exact Hc | exact Hp].
Qed.

Lemma find_ref_text_id (cs : list BaseCtrl) (k : string) (idx : nat) (ctrl : BaseCtrl) :
  find_ref cs (PStr k) = Some (idx, ctrl) -> c_text_id ctrl = k.
Proof.
  unfold find_ref. destruct (find_idx _ _) as [i |] eqn:Hi; [| discriminate].
  cbn [mbind option_bind]. destruct (cs !! i) as [c |] eqn:Hc; [| discriminate].
  intros [= <- <-]. destruct (find_idx_some _ _ _ Hi) as (c' & Hc' & Hp).
  rewrite Hc in Hc'. injection Hc' as <-.
  unfold text_id_is in Hp. apply py_eq_true in Hp. now injection Hp.
Qed.

Lemma find_by_text_id_some (mn : list BaseCtrlMenu) (v : pyval) (m : BaseCtrlMenu) :
  find_by_text_id mn v = Some m -> m ∈ mn /\ v = PStr (m_text_id m).
Proof.
  induction mn as [| a mn IH]; [discriminate |].
  cbn [find_by_text_id]. destruct (text_id_is v a) eqn:Ha.
  - intros [= <-]. split; [left |].
    unfold text_id_is in Ha. apply py_eq_true in Ha. now symmetry.
  - intros Hf. destruct (IH Hf) as [Hin Hv]. split; [now right | exact Hv].
Qed.

(** One item of a batch: the list of controls is left alone, or the
    control found for the name gets a new value; for a menu that value is
    the text id of one of its entries. *)
Lemma setup_ctrl_frame (self : t D) (errs : list warning) (k : string) (v : pyval) :
  ctrls (setup_ctrl self errs k v).1.1 = ctrls self \/
  exists idx ctrl stored,
    find_ref (ctrls self) (PStr k) = Some (idx, ctrl) /\
    ctrls (setup_ctrl self errs k v).1.1 = <[idx := set_value stored ctrl]> (ctrls self) /\
    (c_type ctrl = menu -> exists m, m ∈ c_menu ctrl /\ stored = PStr (m_text_id m)).
Proof.
  unfold setup_ctrl.
  destruct (find_ref (ctrls self) (PStr k)) as [[idx ctrl] |] eqn:Hfind; [| now left].
  set (v' := if py_eq v (PStr "default") then c_default ctrl else v).
  unfold select_value.
  assert (Hwrite : forall iv,
            (c_type ctrl = menu -> exists m, m ∈ c_menu ctrl /\ v' = PStr (m_text_id m)) ->
            ctrls (write_ctrl self errs k v' idx ctrl iv).1 = ctrls self \/
            exists idx0 ctrl0 stored,
              Some (idx, ctrl) = Some (idx0, ctrl0) /\
              ctrls (write_ctrl self errs k v' idx ctrl iv).1
              = <[idx0 := set_value stored ctrl0]> (ctrls self) /\
              (c_type ctrl0 = menu -> exists m, m ∈ c_menu ctrl0 /\ stored = PStr (m_text_id m))).
  { intros iv Hmenu. unfold write_ctrl.
    destruct (c_v4l2_id ctrl) as [id |]; [| now left].
    destruct iv as [| z | | |]; try now left.
    destruct (VIDIOC_S_CTRL _ _ _) as [dev' [readback | e]]; [| now left].
    destruct (negb _); [now left |].
    right. eexists idx, ctrl, _. split; [reflexivity |]. split; [reflexivity |].
    intros Hm. destruct (decide (c_type ctrl = menu)); [auto | contradiction]. }
  destruct (c_type ctrl) eqn:Ht.
  - destruct (integer_value ctrl v'); [| now left].
    destruct (write_ctrl _ _ _ _ _ _ _) as [s' e'] eqn:Hw. cbn [fst].
    specialize (Hwrite (PInt a)). rewrite Hw in Hwrite. apply Hwrite. discriminate.
  - destruct (write_ctrl _ _ _ _ _ _ _) as [s' e'] eqn:Hw. cbn [fst].
    specialize (Hwrite (PInt (if to_bool v' then 1 else 0))).
    rewrite Hw in Hwrite. apply Hwrite. discriminate.
  - destruct (find_by_text_id (c_menu ctrl) v') as [m |] eqn:Hm; [| now left].
    destruct (write_ctrl _ _ _ _ _ _ _) as [s' e'] eqn:Hw. cbn [fst].
    specialize (Hwrite (m_value m)). rewrite Hw in Hwrite. apply Hwrite.
    intros _. exists m. apply find_by_text_id_some. exact Hm.
  - destruct (write_ctrl _ _ _ _ _ _ _) as [s' e'] eqn:Hw. cbn [fst].
    specialize (Hwrite (PInt 0)). rewrite Hw in Hwrite. apply Hwrite. discriminate.
  - now left.
Qed.

Lemma set_value_set_value (v w : pyval) (c : BaseCtrl) :
  set_value v (set_value w c) = set_value v c.
Proof. reflexivity. Qed.

Lemma values_only_refl (names : list string) (l : list BaseCtrl) : values_only names l l.
Proof.
  split; [reflexivity |]. intros i c Hc. exists (c_value c).
  rewrite set_value_same. auto.
Qed.

Lemma values_only_insert (l : list BaseCtrl) (idx : nat) (ctrl : BaseCtrl) (v : pyval) :
  l !! idx = Some ctrl ->
  values_only [c_text_id ctrl] l (<[idx := set_value v ctrl]> l).
Proof.
  intros Hidx. split; [apply length_insert |].
  intros i c Hc. destruct (decide (i = idx)) as [-> | Hne].
  - rewrite Hidx in Hc. injection Hc as <-. exists v. split.
    + apply list_lookup_insert_eq. eapply lookup_lt_Some; eauto.
    + intros Hnot. exfalso. apply Hnot. left.
  - exists (c_value c). rewrite list_lookup_insert_ne by congruence.
    rewrite set_value_same. auto.
Qed.

Lemma values_only_trans (n1 n2 : list string) (l1 l2 l3 : list BaseCtrl) :
  values_only n1 l1 l2 -> values_only n2 l2 l3 -> values_only (n1 ++ n2) l1 l3.
Proof.
  intros [Hlen1 H1] [Hlen2 H2]. split; [congruence |].
  intros i c Hc. destruct (H1 i c Hc) as (v & Hv & Hkeep1).
  destruct (H2 i _ Hv) as (w & Hw & Hkeep2).
  exists w. rewrite set_value_set_value in Hw. split; [exact Hw |].
  intros Hnot. rewrite Hkeep2.
  - cbn. apply Hkeep1. intros Hin. apply Hnot. apply elem_of_app. now left.
  - cbn. intros Hin. apply Hnot. apply elem_of_app. now right.
Qed.

Lemma setup_ctrl_values_only (self : t D) (errs : list warning) (k : string) (v : pyval) :
  values_only [k] (ctrls self) (ctrls (setup_ctrl self errs k v).1.1).
Proof.
  destruct (setup_ctrl_frame self errs k v) as [-> | (idx & ctrl & stored & Hfind & -> & _)].
  - apply values_only_refl.
  - rewrite <- (find_ref_text_id _ _ _ _ Hfind).
    apply values_only_insert. eapply find_ref_lookup; eauto.
Qed.

Lemma setup_ctrls_values_only (ps : params) :
  forall (self : t D) (errs : list warning),
  values_only ps.*1 (ctrls self) (ctrls (setup_ctrls self ps errs).1.1).
Proof.
  induction ps as [| [k v] rest IH]; intros self errs; [apply values_only_refl |].
  cbn [setup_ctrls]. pose proof (setup_ctrl_values_only self errs k v) as Hone.
  change (((k, v) :: rest).*1) with ([k] ++ rest.*1).
  destruct (setup_ctrl self errs k v) as [[self' errs'] [| e]]; cbn [fst] in *.
  - apply (values_only_trans [k] rest.*1 _ _ _ Hone (IH self' errs')).
  - apply (values_only_trans [k] rest.*1 _ _ _ Hone (values_only_refl _ _)).
Qed.

(** X7. Whatever the device answers, and whether or not an exception
    ends it, [V4L2Ctrls.setup_ctrls] changes nothing of the list of
    controls but values: the list keeps its length, each control keeps
    every attribute other than [value], and a control that the batch does
    not name keeps its value. *)
Theorem setup_ctrls_changes_values_only (self : t D) (ps : params) (errs : list warning) :
  let after := ctrls (setup_ctrls self ps errs).1.1 in
  length after = length (ctrls self) /\
  forall i c, ctrls self !! i = Some c ->
    exists v, after !! i = Some (set_value v c) /\
              (c_text_id c ∉ ps.*1 -> after !! i = Some c).
Proof.
  destruct (setup_ctrls_values_only ps self errs) as [Hlen Hall].
  split; [exact Hlen |]. intros i c Hc.
  destruct (Hall i c Hc) as (v & Hv & Hkeep). exists v. split; [exact Hv |].
  intros Hnot. rewrite Hv, (Hkeep Hnot), set_value_same. reflexivity.
Qed.

Lemma values_only_elem (names : list string) (l l' : list BaseCtrl) (c' : BaseCtrl) :
  values_only names l l' -> c' ∈ l' ->
  exists c v, c ∈ l /\ c' = set_value v c.
Proof.
  intros [Hlen Hall] Hin. apply list_elem_of_lookup_1 in Hin as [i Hi].
  destruct (l !! i) as [c |] eqn:Hc.
  - destruct (Hall i c Hc) as (v & Hv & _). rewrite Hv in Hi. injection Hi as <-.
    exists c, v. split; [eapply list_elem_of_lookup_2; eauto | reflexivity].
  - apply lookup_ge_None in Hc. apply lookup_lt_Some in Hi. lia.
Qed.

Lemma setup_ctrl_not_integer (self : t D) (errs : list warning) (k : string) (v : pyval) :
  (forall c, c ∈ ctrls self -> c_text_id c = k -> c_type c <> integer) ->
  (setup_ctrl self errs k v).2 = Next.
Proof.
  intros Hty. unfold setup_ctrl.
  destruct (find_ref (ctrls self) (PStr k)) as [[idx ctrl] |] eqn:Hfind; [| reflexivity].
  assert (Hnot : c_type ctrl <> integer).
  { apply Hty.
    - eapply list_elem_of_lookup_2. eapply find_ref_lookup; eauto.
    - eapply find_ref_text_id; eauto. }
  unfold select_value. destruct (c_type ctrl); try contradiction.
  - destruct (write_ctrl _ _ _ _ _ _ _). reflexivity.
  - destruct (find_by_text_id _ _); [| reflexivity].
    destruct (write_ctrl _ _ _ _ _ _ _). reflexivity.
  - destruct (write_ctrl _ _ _ _ _ _ _). reflexivity.
  - reflexivity.
Qed.

(** X8. A batch that names no control of type ['integer'] cannot end in
    an exception: whatever the values are and whatever the device
    answers, [V4L2Ctrls.setup_ctrls] runs through the whole batch, and
    every failure becomes a warning. *)
Theorem setup_ctrls_raises_only_for_integer (ps : params) :
  forall (self : t D) (errs : list warning),
  (forall c, c ∈ ctrls self -> c_text_id c ∈ ps.*1 -> c_type c <> integer) ->
  (setup_ctrls self ps errs).2 = Next.
Proof.
  induction ps as [| [k v] rest IH]; intros self errs Hty; [reflexivity |].
  cbn [setup_ctrls].
  pose proof (setup_ctrl_not_integer self errs k v) as Hone.
  pose proof (setup_ctrl_values_only self errs k v) as Hframe.
  destruct (setup_ctrl self errs k v) as [[self' errs'] f]; cbn [fst snd] in *.
  rewrite Hone.
  - apply IH. intros c' Hin Hname.
    destruct (values_only_elem _ _ _ _ Hframe Hin) as (c & w & Hc & ->).
    cbn. apply Hty; [exact Hc |]. cbn. right. exact Hname.
  - intros c Hc <-. apply Hty; [exact Hc |]. cbn. left.
Qed.

Lemma setup_ctrl_keeps_menus_resolved (self : t D) (errs : list warning) (k : string)
    (v : pyval) :
  Forall menu_resolved (ctrls self) ->
  Forall menu_resolved (ctrls (setup_ctrl self errs k v).1.1).
Proof.
  intros Hres.
  destruct (setup_ctrl_frame self errs k v) as [-> | (idx & ctrl & stored & Hfind & -> & Hmenu)];
    [exact Hres |].
  apply find_ref_lookup in Hfind.
  apply Forall_insert; [exact Hres |].
  intros Ht. cbn in Ht. destruct (Hmenu Ht) as (m & Hm & ->). split.
  - right. exists m. split; [exact Hm | reflexivity].
  - rewrite Forall_lookup in Hres. apply (Hres _ _ Hfind Ht).
Qed.

(** X9. [V4L2Ctrls.setup_ctrls] keeps menu controls resolved: if, before
    the batch, the value and the default of every menu control are [None]
    or the text id of an entry of its menu, the same holds after the
    batch, whatever the batch asks for and whatever the device answers. A
    numeric code is never stored in a menu control. *)
Theorem setup_ctrls_keeps_menus_resolved (ps : params) :
  forall (self : t D) (errs : list warning),
  Forall menu_resolved (ctrls self) ->
  Forall menu_resolved (ctrls (setup_ctrls self ps errs).1.1).
Proof.
  induction ps as [| [k v] rest IH]; intros self errs Hres; [exact Hres |].
  cbn [setup_ctrls].
  pose proof (setup_ctrl_keeps_menus_resolved self errs k v Hres) as Hone.
  destruct (setup_ctrl self errs k v) as [[self' errs'] [| e]]; cbn [fst] in *.
  - apply IH. exact Hone.
  - exact Hone.
Qed.

End GenericBatch.

Section GenericBatchExamples.
Import V4L2Ctrls Sample Runs.

Lemma setup_ctrls_raises_only_for_integer_sample :
  (forall c, c ∈ ctrls (sample_v4l2_ctrls 255) -> c_text_id c ∈ menu_batch.*1 ->
             c_type c <> integer) /\
  (setup_ctrls (sample_v4l2_ctrls 255) menu_batch []).2 = Next.
Proof.
  assert (Hty : forall c, c ∈ ctrls (sample_v4l2_ctrls 255) ->
                          c_text_id c ∈ menu_batch.*1 -> c_type c <> integer).
  { intros c Hc Hname. apply list_elem_of_In in Hc. vm_compute in Hc.
    destruct Hc as [<- | [<- | []]].
    - apply list_elem_of_In in Hname. vm_compute in Hname.
      destruct Hname as [Hn | [Hn | []]]; discriminate Hn.
    - discriminate. }
  exact (conj Hty (setup_ctrls_raises_only_for_integer menu_batch
                     (sample_v4l2_ctrls 255) [] Hty)).
Defined.

Lemma setup_ctrls_keeps_menus_resolved_sample :
  Forall menu_resolved (ctrls (V4L2Listener.ctrls sample_listener)) /\
  Forall menu_resolved
    (ctrls (setup_ctrls (V4L2Listener.ctrls sample_listener) menu_batch []).1.1).
Proof.
  exact (conj sample_listener_resolved
           (setup_ctrls_keeps_menus_resolved menu_batch
              (V4L2Listener.ctrls sample_listener) [] sample_listener_resolved)).
Defined.

End GenericBatchExamples.

(** ** The word [default], and numbers that are none *)

Section GenericValues.
Import V4L2Ctrls.
Context {D : Type} `{Device D}.

Lemma endswith_digits (d : uint) : endswith (NilEmpty.string_of_uint d) "%" = false.
Proof.
  induction d; [reflexivity | ..];
    cbn [NilEmpty.string_of_uint endswith];
    (destruct (NilEmpty.string_of_uint d); [reflexivity | exact IHd]).
Qed.

Lemma endswith_str_of_Z (z : Z) : endswith (str_of_Z z) "%" = false.
Proof.
  unfold str_of_Z. destruct z as [| p | p]; [reflexivity | |].
  - cbn [Z.to_int NilZero.string_of_int NilZero.string_of_uint].
    pose proof (endswith_digits (Pos.to_uint p)) as Hd.
    destruct (Pos.to_uint p); first [reflexivity | exact Hd].
  - cbn [Z.to_int NilZero.string_of_int NilZero.string_of_uint].
    pose proof (endswith_digits (Pos.to_uint p)) as Hd.
    pose proof (DecimalPos.Unsigned.to_uint_nonnil p) as Hnn.
    destruct (Pos.to_uint p); [congruence | ..];
      (cbn [endswith]; cbn [NilEmpty.string_of_uint endswith] in Hd; exact Hd).
Qed.

(** X10. The value ['default'] for an ['integer'] control stands for the
    stored default: the write request carries the default (in the 32-bit
    fields of the structure), and when the device reads it back the
    control's value is the default. No warning is added. *)
Theorem setup_ctrl_default_integer (self : t D) (errs : list warning) (k : string)
    (idx : nat) (ctrl : BaseCtrl) (id d : Z) (dev' : D) :
  find_ref (ctrls self) (PStr k) = Some (idx, ctrl) ->
  c_type ctrl = integer ->
  c_default ctrl = PInt d ->
  c_v4l2_id ctrl = Some id ->
  VIDIOC_S_CTRL (fd self) (wrap_u32 id) (wrap_s32 d) = (dev', Ok d) ->
  setup_ctrl self errs k (PStr "default")
  = ({| fd := dev';
        ctrls := <[idx := set_value (PInt d) ctrl]> (ctrls self);
        issued := issued self ++ [S_CTRL (wrap_u32 id) (wrap_s32 d)] |},
     errs, Next).
Proof.
  intros Hfind Hty Hdef Hid Hdev. unfold setup_ctrl. rewrite Hfind.
  change (py_eq (PStr "default") (PStr "default")) with true. cbv iota.
  unfold select_value, integer_value. rewrite Hty, Hdef.
  cbn [py_str py_int]. rewrite endswith_str_of_Z.
  unfold write_ctrl. rewrite Hid, Hdev, Z.eqb_refl. cbn [negb].
  destruct (decide (c_type ctrl = menu)) as [Hm |]; [congruence |].
  reflexivity.
Qed.

Lemma int_of_str_raises (s : string) (e : exn) : int_of_str s = Raise e -> e = ValueError.
Proof.
  unfold int_of_str, int_of_text.
  destruct (split_sign _) as [neg body].
  destruct (digits_of false body) as [ds |]; [| congruence].
  destruct (_ <? _); [congruence |]. destruct (number_of ds); congruence.
Qed.

Lemma setup_ctrls_app (p1 p2 : params) :
  forall (self : t D) (errs : list warning),
  setup_ctrls self (p1 ++ p2) errs
  = match setup_ctrls self p1 errs with
    | (self1, errs1, Next) => setup_ctrls self1 p2 errs1
    | escaped => escaped
    end.
Proof.
  induction p1 as [| [k v] rest IH]; intros self errs; [reflexivity |].
  cbn [app setup_ctrls].
  destruct (setup_ctrl self errs k v) as [[self' errs'] [| e]]; [apply IH | reflexivity].
Qed.

(** X11. A value that [int] cannot read, given for an ['integer']
    control, ends [V4L2Ctrls.setup_ctrls] with [ValueError]: what the
    items before it did stays done, no warning is added for it, nothing is
    written for it, and the items after it are not looked at. *)
Theorem setup_ctrls_stops_at_bad_number (pre rest : params) (self self1 : t D)
    (errs errs1 : list warning) (k s : string) (idx : nat) (ctrl : BaseCtrl) :
  setup_ctrls self pre errs = (self1, errs1, Next) ->
  find_ref (ctrls self1) (PStr k) = Some (idx, ctrl) ->
  c_type ctrl = integer ->
  s <> "default"%string ->
  endswith s "%" = false ->
  (forall z, int_of_str s <> Ok z) ->
  setup_ctrls self (pre ++ (k, PStr s) :: rest) errs = (self1, errs1, Escape ValueError).
Proof.
  intros Hpre Hfind Hty Hdef Hend Hbad.
  rewrite setup_ctrls_app, Hpre. cbn [setup_ctrls]. unfold setup_ctrl. rewrite Hfind.
  replace (py_eq (PStr s) (PStr "default")) with false
    by (symmetry; apply String.eqb_neq; exact Hdef).
  unfold select_value, integer_value. rewrite Hty. cbn [py_str py_int]. rewrite Hend.
  destruct (int_of_str s) as [z | e] eqn:Hint; [now destruct (Hbad z) |].
  apply int_of_str_raises in Hint as ->. reflexivity.
Qed.

End GenericValues.

Section GenericValuesExamples.
Import V4L2Ctrls Sample Runs.

Lemma setup_ctrl_default_integer_sample :
  find_ref (ctrls (sample_v4l2_ctrls 255)) (PStr "brightness")
    = Some (0%nat, brightness_ctrl) /\
  c_value <$> ctrls (setup_ctrl (sample_v4l2_ctrls 255) [] "brightness"
                       (PStr "default")).1.1 !! 0%nat = Some (PInt 50).
Proof.
  assert (Hfind : find_ref (ctrls (sample_v4l2_ctrls 255)) (PStr "brightness")
                  = Some (0%nat, brightness_ctrl)) by (vm_compute; reflexivity).
  split; [exact Hfind |].
  rewrite (setup_ctrl_default_integer (sample_v4l2_ctrls 255) [] "brightness" 0
             brightness_ctrl V4L2_CID_BRIGHTNESS 50
             (VIDIOC_S_CTRL (fd (sample_v4l2_ctrls 255))
                (wrap_u32 V4L2_CID_BRIGHTNESS) (wrap_s32 50)).1
             Hfind eq_refl eq_refl eq_refl).
  - vm_compute. reflexivity.
  - vm_compute. reflexivity.
Defined.

Lemma setup_ctrls_stops_at_bad_number_sample :
  (forall z, int_of_str "bright" <> Ok z) /\
  (setup_ctrls (sample_v4l2_ctrls 255) bad_number_batch []).2 = Escape ValueError /\
  (setup_ctrls (sample_v4l2_ctrls 255) bad_number_batch []).1.2 = [] /\
  c_value <$> ctrls (setup_ctrls (sample_v4l2_ctrls 255) bad_number_batch []).1.1 !! 1%nat
    = Some (PStr "manual_mode").
Proof.
  assert (Hbad : forall z, int_of_str "bright" <> Ok z) by (intros z; discriminate).
  assert (Hpre : setup_ctrls (sample_v4l2_ctrls 255)
                   [("exposure_auto"%string, PStr "manual_mode")] []
                 = ((setup_ctrls (sample_v4l2_ctrls 255)
                       [("exposure_auto"%string, PStr "manual_mode")] []).1.1, [], Next))
    by (vm_compute; reflexivity).
  assert (Hfind : find_ref
                    (ctrls (setup_ctrls (sample_v4l2_ctrls 255)
                              [("exposure_auto"%string, PStr "manual_mode")] []).1.1)
                    (PStr "brightness") = Some (0%nat, brightness_ctrl))
    by (vm_compute; reflexivity).
  assert (Hdef : "bright"%string <> "default"%string) by discriminate.
  split; [exact Hbad |]. unfold bad_number_batch.
  rewrite (setup_ctrls_stops_at_bad_number _ _ _ _ _ _ _ _ _ _
             Hpre Hfind eq_refl Hdef eq_refl Hbad).
  split; [reflexivity |]. split; [reflexivity |]. vm_compute. reflexivity.
Defined.

End GenericValuesExamples.

(** ** Text ids *)

Section TextIds.
Import V4L2Ctrls Invariants.

Lemma lower_ascii_not_upper (a : ascii) : ~ (65 <= N_of_ascii (lower_ascii a) <= 90)%N.
Proof.
  destruct a as [[] [] [] [] [] [] [] []]; vm_compute; intros [H1 H2];
    first [now apply H1 | now apply H2].
Qed.

Lemma replace_uu_eq (a : ascii) (r : string) :
  replace_uu (String a r)
  = if Ascii.eqb a "_" then
      match r with
      | String b r' =>
          if Ascii.eqb b "_" then String "_" (replace_uu r')
          else String a (replace_uu r)
      | EmptyString => String a (replace_uu r)
      end
    else String a (replace_uu r).
Proof.
  destruct a as [[] [] [] [] [] [] [] []]; try reflexivity.
  destruct r as [| b r']; [reflexivity |].
  destruct b as [[] [] [] [] [] [] [] []]; reflexivity.
Qed.

Lemma replace_uu_chars (P : ascii -> Prop) (s : string) :
  (Forall P (list_ascii_of_string s) -> Forall P (list_ascii_of_string (replace_uu s))) /\
  (forall a, Forall P (a :: list_ascii_of_string s) ->
             Forall P (list_ascii_of_string (replace_uu (String a s)))).
Proof.
  induction s as [| b r [IH1 IH2]].
  - split; [intros _; constructor |].
    intros a Ha. rewrite replace_uu_eq. destruct (Ascii.eqb a "_"); exact Ha.
  - split; [intros Hall; apply IH2; exact Hall |].
    intros a Ha. rewrite replace_uu_eq.
    inversion Ha as [| ? ? Pa Hrest]; subst.
    inversion Hrest as [| ? ? Pb Hr]; subst.
    destruct (Ascii.eqb_spec a "_") as [-> |].
    + destruct (Ascii.eqb_spec b "_") as [-> |].
      * cbn [list_ascii_of_string]. constructor; [exact Pa | now apply IH1].
      * cbn [list_ascii_of_string]. constructor; [exact Pa | now apply IH2].
    + cbn [list_ascii_of_string]. constructor; [exact Pa | now apply IH2].
Qed.

Lemma translate_lower_chars (text : string) :
  Forall text_id_char (list_ascii_of_string (translate (lower text))).
Proof.
  induction text as [| a r IH]; [constructor |].
  cbn [lower translate].
  destruct (bool_decide _) eqn:Hdel; [exact IH |].
  destruct (bool_decide (lower_ascii a ∈ [" "; "-"]%char)) eqn:Hmap.
  - cbn [list_ascii_of_string]. constructor; [| exact IH].
    split; [| vm_compute; intros [H1 H2]; now apply H1].
    intros Hin. repeat (apply elem_of_cons in Hin as [Hin | Hin]; [discriminate Hin |]).
    inversion Hin.
  - cbn [list_ascii_of_string]. constructor; [| exact IH].
    apply bool_decide_eq_false in Hdel. apply bool_decide_eq_false in Hmap.
    split; [| apply lower_ascii_not_upper].
    intros Hin. apply elem_of_cons in Hin as [Hin | Hin].
    { apply Hmap. rewrite Hin. left. }
    apply elem_of_cons in Hin as [Hin | Hin].
    { apply Hmap. rewrite Hin. right. left. }
    apply Hdel. exact Hin.
Qed.

(** X12. A text id made by [to_text_id] has no blank, no dash, none of
    the characters [,&(.)/] and no capital letter, whatever the name of
    the control is. *)
Theorem to_text_id_chars (text : string) :
  Forall text_id_char (list_ascii_of_string (to_text_id text)).
Proof.
  unfold to_text_id. apply replace_uu_chars. apply translate_lower_chars.
Qed.

End TextIds.

(** ** The pages lose no control *)

Section PopLists.
Import Pages.

Lemma find_idx_split {A} (l : list A) (pred : A -> bool) (i : nat) :
  find_idx l pred = Some i ->
  exists l1 c l2,
    l = l1 ++ c :: l2 /\ length l1 = i /\ pred c = true /\
    Forall (fun x => pred x = false) l1.
Proof.
  revert i. induction l as [| a l IH]; intros i; [discriminate |].
  cbn [find_idx]. destruct (pred a) eqn:Ha.
  - intros [= <-]. exists [], a, l. repeat split; [exact Ha | constructor].
  - destruct (find_idx l pred) as [j |]; [| discriminate].
    intros [= <-]. destruct (IH j eq_refl) as (l1 & c & l2 & -> & <- & Hc & Hl1).
    exists (a :: l1), c, l2. repeat split; [exact Hc | now constructor].
Qed.

Lemma find_idx_none {A} (l : list A) (pred : A -> bool) :
  find_idx l pred = None -> Forall (fun x => pred x = false) l.
Proof.
  induction l as [| a l IH]; [constructor |].
  cbn [find_idx]. destruct (pred a) eqn:Ha; [discriminate |].
  destruct (find_idx l pred); [discriminate |]. intros _. constructor; auto.
Qed.

Lemma filter_none {A} (pred : A -> bool) (l : list A) :
  Forall (fun x => pred x = false) l ->
  List.filter pred l = [] /\ List.filter (fun x => negb (pred x)) l = l.
Proof.
  induction 1 as [| a l Ha _ [IH1 IH2]]; [split; reflexivity |].
  cbn [List.filter]. rewrite Ha. cbn [negb]. rewrite IH1, IH2. split; reflexivity.
Qed.

(** The loop ends by its [break], with the matching elements moved to
    [ret] in their order. *)
Lemma pop_while_spec {A} (pred : A -> bool) (passes : nat) :
  forall ctrls ret : list A,
  (length ctrls < passes)%nat ->
  pop_while passes pred ctrls ret
  = (ret ++ List.filter pred ctrls, List.filter (fun x => negb (pred x)) ctrls).
Proof.
  induction passes as [| passes IH]; intros ctrls ret Hlen; [lia |].
  cbn [pop_while]. destruct (find_idx ctrls pred) as [idx |] eqn:Hidx.
  - destruct (find_idx_split _ _ _ Hidx) as (l1 & c & l2 & -> & <- & Hc & Hl1).
    rewrite list_lookup_middle by reflexivity.
    rewrite delete_middle.
    rewrite IH by (rewrite length_app in *; cbn [length] in Hlen; lia).
    destruct (filter_none pred l1 Hl1) as [E1 E2].
    rewrite !List.filter_app. cbn [List.filter]. rewrite Hc, E1. cbn [negb app].
    rewrite <- app_assoc. reflexivity.
  - destruct (filter_none pred ctrls (find_idx_none _ _ Hidx)) as [-> ->].
    now rewrite app_nil_r.
Qed.

Lemma filter_partition {A} (pred : A -> bool) (l : list A) :
  List.filter pred l ++ List.filter (fun x => negb (pred x)) l ≡ₚ l.
Proof.
  induction l as [| a l IH]; [reflexivity |].
  cbn [List.filter]. destruct (pred a); cbn [negb app].
  - now constructor.
  - rewrite <- Permutation_middle. now constructor.
Qed.

Lemma filter_grouped {A K} (pred : K -> A -> bool) (k : K) (ks : list K) (l : list A) :
  List.filter (pred k) l
    ++ List.filter (fun c => existsb (fun k' => pred k' c) ks)
         (List.filter (fun c => negb (pred k c)) l)
  ≡ₚ List.filter (fun c => existsb (fun k' => pred k' c) (k :: ks)) l.
Proof.
  induction l as [| a l IH]; [reflexivity |].
  cbn [List.filter existsb]. destruct (pred k a) eqn:Ha; cbn [negb orb app].
  - now constructor.
  - cbn [List.filter]. destruct (existsb (fun k' => pred k' a) ks).
    + rewrite <- Permutation_middle. now constructor.
    + exact IH.
Qed.

Lemma filter_filter_none {A K} (pred : K -> A -> bool) (k : K) (ks : list K) (l : list A) :
  List.filter (fun c => negb (existsb (fun k' => pred k' c) ks))
    (List.filter (fun c => negb (pred k c)) l)
  = List.filter (fun c => negb (existsb (fun k' => pred k' c) (k :: ks))) l.
Proof.
  induction l as [| a l IH]; [reflexivity |].
  cbn [List.filter existsb]. destruct (pred k a); cbn [negb orb].
  - exact IH.
  - cbn [List.filter]. rewrite IH. reflexivity.
Qed.

Lemma pop_for_each_spec {A K} (pred : K -> A -> bool) (keys : list K) :
  forall ctrls ret : list A,
  exists popped,
    pop_for_each pred keys ctrls ret
    = (ret ++ popped,
       List.filter (fun c => negb (existsb (fun k => pred k c) keys)) ctrls) /\
    popped ≡ₚ List.filter (fun c => existsb (fun k => pred k c) keys) ctrls.
Proof.
  induction keys as [| k ks IH]; intros ctrls ret.
  - exists []. cbn [pop_for_each existsb negb]. split.
    + rewrite app_nil_r. f_equal. induction ctrls as [| a l IHl]; [reflexivity |].
      cbn [List.filter]. now rewrite <- IHl.
    + induction ctrls as [| a l IHl]; [reflexivity | exact IHl].
  - cbn [pop_for_each]. rewrite pop_while_spec by lia.
    destruct (IH (List.filter (fun x => negb (pred k x)) ctrls)
                (ret ++ List.filter (pred k) ctrls)) as (popped & -> & Hperm).
    exists (List.filter (pred k) ctrls ++ popped). split.
    + rewrite <- app_assoc, filter_filter_none. reflexivity.
    + rewrite Hperm. apply filter_grouped.
Qed.

Lemma pop_for_each_perm {A K} (pred : K -> A -> bool) (keys : list K) (ctrls : list A) :
  (pop_for_each pred keys ctrls []).1 ++ (pop_for_each pred keys ctrls []).2 ≡ₚ ctrls.
Proof.
  destruct (pop_for_each_spec pred keys ctrls []) as (popped & -> & Hperm).
  cbn [fst snd app]. rewrite Hperm. apply filter_partition.
Qed.

Lemma pop_list_by_text_ids_perm (ctrls : list BaseCtrl) (text_ids : list string)
    (ret rest : list BaseCtrl) :
  pop_list_by_text_ids ctrls text_ids = (ret, rest) -> ret ++ rest ≡ₚ ctrls.
Proof.
  intros E. pose proof (pop_for_each_perm text_id_startswith text_ids ctrls) as Hp.
  unfold pop_list_by_text_ids in E. now rewrite E in Hp.
Qed.

Lemma pop_list_by_ids_perm (ctrls : list BaseCtrl) (ids : list Z)
    (ret rest : list BaseCtrl) :
  pop_list_by_ids ctrls ids = (ret, rest) -> ret ++ rest ≡ₚ ctrls.
Proof.
  intros E. pose proof (pop_for_each_perm has_v4l2_id ids ctrls) as Hp.
  unfold pop_list_by_ids in E. now rewrite E in Hp.
Qed.

Lemma pop_list_by_base_id_perm (ctrls : list BaseCtrl) (base_id : Z)
    (ret rest : list BaseCtrl) :
  pop_list_by_base_id ctrls base_id = (ret, rest) -> ret ++ rest ≡ₚ ctrls.
Proof.
  unfold pop_list_by_base_id. rewrite pop_while_spec by lia.
  intros [= <- <-]. apply filter_partition.
Qed.

(** X13. The three [pop_list_...] functions split the list and lose
    nothing. [pop_list_by_text_ids] returns, up to order, the controls
    whose text id starts with one of the given texts, and leaves the
    others in [ctrls] in their order; [pop_list_by_ids] does the same
    for the controls that have one of the given ids; [pop_list_by_base_id]
    returns the controls of the class of the id, in their order, and
    leaves the others. Every loop ends by its [break]. *)
Theorem pop_lists_partition (ctrls : list BaseCtrl) :
  (forall text_ids,
     let r := pop_list_by_text_ids ctrls text_ids in
     r.1 ≡ₚ List.filter (fun c => existsb (fun t => text_id_startswith t c) text_ids) ctrls /\
     r.2 = List.filter
             (fun c => negb (existsb (fun t => text_id_startswith t c) text_ids)) ctrls) /\
  (forall ids,
     let r := pop_list_by_ids ctrls ids in
     r.1 ≡ₚ List.filter (fun c => existsb (fun id => has_v4l2_id id c) ids) ctrls /\
     r.2 = List.filter (fun c => negb (existsb (fun id => has_v4l2_id id c) ids)) ctrls) /\
  (forall base_id,
     let r := pop_list_by_base_id ctrls base_id in
     r.1 = List.filter (in_class_of base_id) ctrls /\
     r.2 = List.filter (fun c => negb (in_class_of base_id c)) ctrls).
Proof.
  split; [| split].
  - intros text_ids r. subst r. unfold pop_list_by_text_ids.
    destruct (pop_for_each_spec text_id_startswith text_ids ctrls [])
      as (popped & -> & Hperm).
    split; [exact Hperm | reflexivity].
  - intros ids r. subst r. unfold pop_list_by_ids.
    destruct (pop_for_each_spec has_v4l2_id ids ctrls []) as (popped & -> & Hperm).
    split; [exact Hperm | reflexivity].
  - intros base_id r. subst r. unfold pop_list_by_base_id.
    rewrite pop_while_spec by lia. split; reflexivity.
Qed.

End PopLists.

Section CtrlPages.
Import Pages.

Lemma shown_cons (page : CtrlPage) (pages : list CtrlPage) :
  shown (page :: pages) = concat (cat_ctrls <$> page_categories page) ++ shown pages.
Proof. unfold shown. cbn [fmap list_fmap concat]. now rewrite fmap_app, concat_app. Qed.

Lemma concat_has_ctrls (cats : list CtrlCategory) :
  concat (cat_ctrls <$> List.filter has_ctrls cats) = concat (cat_ctrls <$> cats).
Proof.
  induction cats as [| cat cats IH]; [reflexivity |].
  cbn [List.filter]. unfold has_ctrls at 1.
  destruct (bool_decide_reflect (cat_ctrls cat = [])) as [E |]; cbn [negb].
  - cbn [fmap list_fmap concat]. rewrite E. exact IH.
  - cbn [fmap list_fmap concat]. now rewrite <- IH.
Qed.

Lemma shown_without_empty (pages : list CtrlPage) : shown (without_empty pages) = shown pages.
Proof.
  unfold without_empty. induction pages as [| page pages IH]; [reflexivity |].
  cbn [fmap list_fmap List.filter]. unfold has_categories at 1.
  cbn [set_categories page_categories].
  destruct (bool_decide_reflect (List.filter has_ctrls (page_categories page) = []))
    as [E |]; cbn [negb].
  - rewrite shown_cons, <- concat_has_ctrls, E. exact IH.
  - rewrite !shown_cons. cbn [set_categories page_categories].
    rewrite concat_has_ctrls. f_equal. exact IH.
Qed.

Lemma without_empty_nonempty (pages : list CtrlPage) :
  Forall (fun page =>
            page_categories page <> [] /\
            Forall (fun cat => cat_ctrls cat <> []) (page_categories page))
    (without_empty pages).
Proof.
  unfold without_empty. apply Forall_forall. intros page Hin.
  apply list_elem_of_In, List.filter_In in Hin as [Hin Hcats].
  apply list_elem_of_In, list_elem_of_fmap in Hin as (page0 & -> & _).
  unfold has_categories in Hcats. cbn [set_categories page_categories] in *.
  split.
  - intros E. rewrite E in Hcats. discriminate Hcats.
  - apply Forall_forall. intros cat Hcat.
    apply list_elem_of_In, List.filter_In in Hcat as [_ Hc].
    unfold has_ctrls in Hc. intros E. rewrite E in Hc. discriminate Hc.
Qed.

Ltac pop_next :=
  match goal with
  | |- context [pop_list_by_text_ids ?c ?k] =>
      let r := fresh "r" in let c' := fresh "c" in let E := fresh "E" in
      destruct (pop_list_by_text_ids c k) as [r c'] eqn:E;
      apply pop_list_by_text_ids_perm in E
  | |- context [pop_list_by_ids ?c ?k] =>
      let r := fresh "r" in let c' := fresh "c" in let E := fresh "E" in
      destruct (pop_list_by_ids c k) as [r c'] eqn:E;
      apply pop_list_by_ids_perm in E
  | |- context [pop_list_by_base_id ?c ?k] =>
      let r := fresh "r" in let c' := fresh "c" in let E := fresh "E" in
      destruct (pop_list_by_base_id c k) as [r c'] eqn:E;
      apply pop_list_by_base_id_perm in E
  end.

Ltac cancel_next :=
  match goal with
  | E : ?r ++ ?c ≡ₚ ?x |- ?r ++ _ ≡ₚ ?x =>
      rewrite <- E; apply Permutation_app_head; clear E
  | E : ?r ++ ?c ≡ₚ ?x |- ?o ++ ?r ++ _ ≡ₚ ?x =>
      rewrite <- E, Permutation_app_swap_app; apply Permutation_app_head; clear E
  | E : ?r ++ ?c ≡ₚ ?x |- ?o ++ ?r ≡ₚ ?x =>
      rewrite <- E, Permutation_app_comm; apply Permutation_app_head; clear E
  end.

(** X14. [get_ctrl_pages] shows every control once: the controls of the
    categories of the pages it returns are, up to order, exactly the
    controls it was given, whatever their text ids and ids are (what no
    category asks for is in ['Other']). No page it returns is without
    categories and no category without controls. *)
Theorem get_ctrl_pages_partition (all : list BaseCtrl) :
  shown (get_ctrl_pages all) ≡ₚ all /\
  Forall (fun page =>
            page_categories page <> [] /\
            Forall (fun cat => cat_ctrls cat <> []) (page_categories page))
    (get_ctrl_pages all).
Proof.
  split; [| apply without_empty_nonempty].
  unfold get_ctrl_pages. rewrite shown_without_empty. unfold all_pages.
  repeat pop_next.
  unfold shown. cbn. rewrite ?app_nil_r, <- ?app_assoc.
  repeat cancel_next. reflexivity.
Qed.

End CtrlPages.

(** ** Setting the resolution and the pixel format *)

Section FormatSetters.
Import V4L2FmtCtrls FmtSetup.
Context {D : Type} `{Device D} `{SetDevice D}.

Lemma wh2str_split (w h : Z) :
  0 <= w -> 0 <= h -> split "x" (wh2str w h) = [str_of_Z w; str_of_Z h].
Proof.
  intros Hw Hh. unfold wh2str.
  destruct (str_of_Z_nonneg w Hw) as (dw & _ & -> & _).
  destruct (str_of_Z_nonneg h Hh) as (dh & _ & -> & _).
  change ("x" +:+ NilEmpty.string_of_uint dh)%string
    with (String "x" (NilEmpty.string_of_uint dh)).
  now rewrite split_x_digits_x, split_x_digits.
Qed.

Lemma wrap_u32_small (z : Z) : 0 <= z < 2 ^ 32 -> wrap_u32 z = z.
Proof. intros Hz. unfold wrap_u32. now apply Z.mod_small. Qed.

(** [str2wh] reads back what [wh2str] wrote. *)
Lemma str2wh_wh2str (w h : Z) (pix : v4l2_pix_format) :
  0 <= w < 2 ^ 32 -> 0 <= h < 2 ^ 32 ->
  str2wh (PStr (wh2str w h)) pix
  = Ok {| width := w; height := h; pixelformat := pixelformat pix |}.
Proof.
  intros Hw Hh. unfold str2wh. rewrite wh2str_split by lia.
  cbn [lookup list_lookup].
  rewrite !int_of_str_str_of_Z by (split; [lia | apply u32_within_limit; lia]).
  unfold mbind, res_bind, Py.bind. now rewrite !wrap_u32_small.
Qed.

Lemma wh2str_inj (a b c d : Z) :
  0 <= a -> 0 <= b -> 0 <= c -> 0 <= d ->
  wh2str a b = wh2str c d -> a = c /\ b = d.
Proof.
  intros Ha Hb Hc Hd E.
  pose proof (wh2str_split a b Ha Hb) as K1.
  pose proof (wh2str_split c d Hc Hd) as K2.
  rewrite E, K2 in K1. injection K1 as Ew Eh.
  destruct (str_of_Z_nonneg a Ha) as (da & _ & Ea & <-).
  destruct (str_of_Z_nonneg b Hb) as (db & _ & Eb & <-).
  destruct (str_of_Z_nonneg c Hc) as (dc & _ & Ec & <-).
  destruct (str_of_Z_nonneg d Hd) as (dd & _ & Ed & <-).
  rewrite Ea, Ec in Ew. rewrite Eb, Ed in Eh.
  apply (f_equal NilEmpty.uint_of_string) in Ew, Eh.
  rewrite !NilEmpty.usu in Ew, Eh. injection Ew as ->. injection Eh as ->.
  split; reflexivity.
Qed.

(** X15. [set_resolution], asked for the size [w]x[h] as [wh2str]
    writes it: when the device is at this size already, nothing is set
    and the control is left as it is; otherwise one [VIDIOC_S_FMT] asks
    for exactly the width [w] and the height [h] with the pixel format
    the device has, and the control's value becomes the new resolution
    when the device answers with this size, while any other answer gives
    one warning and leaves the value. *)
Theorem set_resolution_sets_size (self : t D) (idx : nat) (ctrl : BaseCtrl) (w h : Z)
    (errs : list warning) (dev1 : D) (cur : v4l2_pix_format) :
  0 <= w < 2 ^ 32 -> 0 <= h < 2 ^ 32 ->
  VIDIOC_G_FMT (fd self) = (dev1, Ok cur) ->
  0 <= width cur -> 0 <= height cur ->
  let r := set_resolution self idx ctrl (PStr (wh2str w h)) errs in
  (width cur = w /\ height cur = h -> r = (with_dev self dev1 G_FMT, errs, Next)) /\
  (forall dev2 got,
     ~ (width cur = w /\ height cur = h) ->
     VIDIOC_S_FMT dev1 {| width := w; height := h; pixelformat := pixelformat cur |}
       = (dev2, Ok got) ->
     0 <= width got -> 0 <= height got ->
     fd r.1.1 = dev2 /\ r.2 = Next /\
     (width got = w /\ height got = h ->
      ctrls r.1.1 = <[idx := set_value (PStr (wh2str w h)) ctrl]> (ctrls self) /\
      r.1.2 = errs) /\
     (~ (width got = w /\ height got = h) ->
      ctrls r.1.1 = ctrls self /\
      r.1.2 = errs ++ [W_other ("V4L2FmtCtrls: Can't set resolution to "
                                +:+ wh2str w h +:+ " using "
                                +:+ wh2str (width got) (height got))])).
Proof.
  intros Hw Hh Hget Hcw Hch r. subst r. unfold set_resolution. rewrite Hget.
  split.
  - intros [<- <-]. cbn [py_eq]. now rewrite String.eqb_refl.
  - intros dev2 got Hne Hset Hgw Hgh. cbn [py_eq].
    destruct (String.eqb_spec (wh2str (width cur) (height cur)) (wh2str w h)) as [E | _].
    { apply wh2str_inj in E; [contradiction | lia ..]. }
    rewrite str2wh_wh2str by lia. cbn [with_dev fd]. rewrite Hset.
    destruct (String.eqb_spec (wh2str (width got) (height got)) (wh2str w h)) as [E | n0];
      cbn [negb fst snd with_fd with_ctrls fd ctrls].
    + apply wh2str_inj in E as [E1 E2]; [| lia ..].
      split; [reflexivity |]. split; [reflexivity |]. split.
      * intros _. split; reflexivity.
      * intros Hn. exfalso. apply Hn. split; assumption.
    + split; [reflexivity |]. split; [reflexivity |]. split.
      * intros [E1 E2]. exfalso. apply n0. now rewrite E1, E2.
      * intros _. split; reflexivity.
Qed.

Lemma of_string_to_string (l : Fourcc.pystr) :
  Forall Fourcc.is_byte l -> of_string (Fourcc.to_string l) = l.
Proof.
  intros Hall. unfold of_string, Fourcc.to_string.
  rewrite list_ascii_of_string_of_list_ascii.
  induction Hall as [| c l Hc _ IH]; [reflexivity |].
  cbn [map fmap list_fmap]. f_equal; [| exact IH].
  unfold Fourcc.is_byte in Hc.
  rewrite N_ascii_embedding by lia. lia.
Qed.

Lemma str2pxf_pxf2str_u32 (p : Z) :
  0 <= p < 2 ^ 32 -> str2pxf (PStr (pxf2str p)) = Ok p.
Proof.
  intros Hp. unfold str2pxf, pxf2str.
  rewrite of_string_to_string by apply pxf2str_bytes.
  rewrite str2pxf_pxf2str_mod. now rewrite Z.mod_small.
Qed.

Lemma pxf2str_inj (p q : Z) :
  0 <= p < 2 ^ 32 -> 0 <= q < 2 ^ 32 -> pxf2str p = pxf2str q -> p = q.
Proof.
  intros Hp Hq E. pose proof (str2pxf_pxf2str_u32 p Hp) as K.
  rewrite E, (str2pxf_pxf2str_u32 q Hq) in K. now injection K.
Qed.

(** X16. [set_pixelformat], asked for the four characters of a 32-bit
    code [p]: when the device is at this pixel format already, nothing
    is set and the control is left as it is; otherwise one
    [VIDIOC_S_FMT] asks for exactly the code [p] with the size the
    device has, and the control's value becomes the new pixel format
    when the device answers with [p], while any other answer gives one
    warning and leaves the value. *)
Theorem set_pixelformat_sets_code (self : t D) (idx : nat) (ctrl : BaseCtrl) (p : Z)
    (errs : list warning) (dev1 : D) (cur : v4l2_pix_format) :
  0 <= p < 2 ^ 32 ->
  VIDIOC_G_FMT (fd self) = (dev1, Ok cur) ->
  0 <= pixelformat cur < 2 ^ 32 ->
  let r := set_pixelformat self idx ctrl (PStr (pxf2str p)) errs in
  (pixelformat cur = p -> r = (with_dev self dev1 G_FMT, errs, Next)) /\
  (forall dev2 got,
     pixelformat cur <> p ->
     VIDIOC_S_FMT dev1 {| width := width cur; height := height cur; pixelformat := p |}
       = (dev2, Ok got) ->
     0 <= pixelformat got < 2 ^ 32 ->
     fd r.1.1 = dev2 /\ r.2 = Next /\
     (pixelformat got = p ->
      ctrls r.1.1 = <[idx := set_value (PStr (pxf2str p)) ctrl]> (ctrls self) /\
      r.1.2 = errs) /\
     (pixelformat got <> p ->
      ctrls r.1.1 = ctrls self /\
      r.1.2 = errs ++ [W_other ("V4L2FmtCtrls: Can't set pixelformat to "
                                +:+ pxf2str p +:+ " using "
                                +:+ pxf2str (pixelformat got))])).
Proof.
  intros Hp Hget Hcur r. subst r. unfold set_pixelformat. rewrite Hget.
  split.
  - intros <-. cbn [py_eq]. now rewrite String.eqb_refl.
  - intros dev2 got Hne Hset Hgot. cbn [py_eq].
    destruct (String.eqb_spec (pxf2str p) (pxf2str (pixelformat cur))) as [E | _].
    { apply pxf2str_inj in E; [congruence | lia ..]. }
    rewrite str2pxf_pxf2str_u32 by lia. unfold set_pixelformat_of.
    rewrite wrap_u32_small by lia. cbn [with_dev fd]. rewrite Hset.
    destruct (String.eqb_spec (pxf2str (pixelformat got)) (pxf2str p)) as [E | n0];
      cbn [negb fst snd with_fd with_ctrls fd ctrls].
    + apply pxf2str_inj in E; [| lia ..].
      split; [reflexivity |]. split; [reflexivity |]. split.
      * intros _. split; reflexivity.
      * intros Hn. contradiction.
    + split; [reflexivity |]. split; [reflexivity |]. split.
      * intros E1. exfalso. apply n0. now rewrite E1.
      * intros _. split; reflexivity.
Qed.

End FormatSetters.

Section FormatSettersExamples.
Import V4L2FmtCtrls FmtSetup Sample Runs.

Lemma set_resolution_sets_size_sample :
  VIDIOC_G_FMT (fd sample_fmt_ctrls) = (cam 255, Ok (cam_fmt (cam 255))) /\
  ~ (width (cam_fmt (cam 255)) = 1024 /\ height (cam_fmt (cam 255)) = 1024) /\
  c_value <$> ctrls (set_resolution sample_fmt_ctrls 1
                       (menu_ctrl "resolution" "Resolution" (PStr "1280x720")
                          ["1280x720"; "1024x1024"]%string)
                       (PStr (wh2str 1024 1024)) []).1.1 !! 1%nat
    = Some (PStr "1024x1024").
Proof.
  assert (Hw : 0 <= 1024 < 2 ^ 32) by lia.
  assert (Hget : VIDIOC_G_FMT (fd sample_fmt_ctrls) = (cam 255, Ok (cam_fmt (cam 255))))
    by reflexivity.
  assert (Hcw : 0 <= width (cam_fmt (cam 255))) by (vm_compute; discriminate).
  assert (Hch : 0 <= height (cam_fmt (cam 255))) by (vm_compute; discriminate).
  assert (Hne : ~ (width (cam_fmt (cam 255)) = 1024 /\ height (cam_fmt (cam 255)) = 1024))
    by (intros [E _]; discriminate E).
  split; [exact Hget |]. split; [exact Hne |].
  destruct (set_resolution_sets_size sample_fmt_ctrls 1
              (menu_ctrl "resolution" "Resolution" (PStr "1280x720")
                 ["1280x720"; "1024x1024"]%string)
              1024 1024 [] (cam 255) (cam_fmt (cam 255)) Hw Hw Hget Hcw Hch)
    as [_ Hset].
  destruct (Hset _ _ Hne eq_refl) as (_ & _ & Hok & _);
    [vm_compute; discriminate | vm_compute; discriminate |].
  destruct (Hok (conj eq_refl eq_refl)) as [-> _]. reflexivity.
Defined.

Lemma set_pixelformat_sets_code_sample :
  VIDIOC_G_FMT (fd sample_fmt_ctrls) = (cam 255, Ok (cam_fmt (cam 255))) /\
  pixelformat (cam_fmt (cam 255)) <> MJPG_code /\
  pxf2str MJPG_code = "MJPG"%string /\
  c_value <$> ctrls (set_pixelformat sample_fmt_ctrls 0
                       (menu_ctrl "pixelformat" "Pixel format" (PStr "YUYV")
                          ["YUYV"; "MJPG"]%string)
                       (PStr (pxf2str MJPG_code)) []).1.1 !! 0%nat
    = Some (PStr "MJPG").
Proof.
  assert (Hp : 0 <= MJPG_code < 2 ^ 32) by (unfold MJPG_code; lia).
  assert (Hget : VIDIOC_G_FMT (fd sample_fmt_ctrls) = (cam 255, Ok (cam_fmt (cam 255))))
    by reflexivity.
  assert (Hcur : 0 <= pixelformat (cam_fmt (cam 255)) < 2 ^ 32)
    by (change (0 <= YUYV_code < 2 ^ 32); unfold YUYV_code; lia).
  assert (Hne : pixelformat (cam_fmt (cam 255)) <> MJPG_code) by discriminate.
  split; [exact Hget |]. split; [exact Hne |]. split; [reflexivity |].
  destruct (set_pixelformat_sets_code sample_fmt_ctrls 0
              (menu_ctrl "pixelformat" "Pixel format" (PStr "YUYV")
                 ["YUYV"; "MJPG"]%string)
              MJPG_code [] (cam 255) (cam_fmt (cam 255)) Hp Hget Hcur)
    as [_ Hset].
  destruct (Hset _ _ Hne eq_refl) as (_ & _ & Hok & _);
    [change (0 <= MJPG_code < 2 ^ 32); exact Hp |].
  destruct (Hok eq_refl) as [-> _]. reflexivity.
Defined.

End FormatSettersExamples.

(** ** What a batch of format controls can and cannot do *)

Section FormatBatch.
Import V4L2FmtCtrls FmtSetup Invariants.
Context {D : Type} `{Device D} `{SetDevice D}.

Ltac frame_cases :=
  repeat match goal with
         | |- context [let '(_, _) := ?x in _] => destruct x
         | |- context [match ?x with _ => _ end] => destruct x
         end;
  cbn [fst snd with_dev with_fd with_ctrls ctrls]; auto.

Lemma set_fps_frame (self : t D) (idx : nat) (ctrl : BaseCtrl) (fps : pyval)
    (errs : list warning) :
  ctrls (set_fps self idx ctrl fps errs).1.1 = ctrls self \/
  ctrls (set_fps self idx ctrl fps errs).1.1 = <[idx := set_value fps ctrl]> (ctrls self).
Proof.
  unfold set_fps, get_fps.
  destruct (VIDIOC_G_PARM (fd self)) as [dev [tf | e]].
  - destruct (_ || _).
    + cbn [py_eq]. frame_cases.
    + destruct (dn2str tf); [| now left]. cbn [mbind res_bind Py.bind]. frame_cases.
  - frame_cases.
Qed.

Lemma set_resolution_frame (self : t D) (idx : nat) (ctrl : BaseCtrl) (v : pyval)
    (errs : list warning) :
  ctrls (set_resolution self idx ctrl v errs).1.1 = ctrls self \/
  ctrls (set_resolution self idx ctrl v errs).1.1 = <[idx := set_value v ctrl]> (ctrls self).
Proof. unfold set_resolution. frame_cases. Qed.

Lemma set_pixelformat_frame (self : t D) (idx : nat) (ctrl : BaseCtrl) (v : pyval)
    (errs : list warning) :
  ctrls (set_pixelformat self idx ctrl v errs).1.1 = ctrls self \/
  ctrls (set_pixelformat self idx ctrl v errs).1.1 = <[idx := set_value v ctrl]> (ctrls self).
Proof. unfold set_pixelformat. frame_cases. Qed.

Lemma fmt_setup_ctrl_frame (self : t D) (errs : list warning) (k : string) (v : pyval) :
  ctrls (setup_ctrl self errs k v).1.1 = ctrls self \/
  exists idx ctrl m,
    ctrls self !! idx = Some ctrl /\ c_text_id ctrl = k /\ c_type ctrl <> info /\
    m ∈ c_menu ctrl /\ k ∈ ["pixelformat"; "resolution"; "fps"]%string /\
    ctrls (setup_ctrl self errs k v).1.1
    = <[idx := set_value (PStr (m_text_id m)) ctrl]> (ctrls self).
Proof.
  unfold setup_ctrl.
  destruct (find_ref (ctrls self) (PStr k)) as [[idx ctrl] |] eqn:Hfind; [| now left].
  destruct (bool_decide_reflect (c_type ctrl = info)) as [| Hty]; [now left |].
  destruct (find_by_text_id (c_menu ctrl) v) as [m |] eqn:Hm; [| now left].
  apply find_by_text_id_some in Hm as [Hin ->].
  pose proof (find_ref_text_id _ _ _ _ Hfind) as Hk.
  assert (Hcase : forall r : t D * list warning * flow,
            k ∈ ["pixelformat"; "resolution"; "fps"]%string ->
            ctrls r.1.1 = ctrls self \/
            ctrls r.1.1 = <[idx := set_value (PStr (m_text_id m)) ctrl]> (ctrls self) ->
            ctrls r.1.1 = ctrls self \/
            exists idx0 ctrl0 m0,
              ctrls self !! idx0 = Some ctrl0 /\ c_text_id ctrl0 = k /\
              c_type ctrl0 <> info /\ m0 ∈ c_menu ctrl0 /\
              k ∈ ["pixelformat"; "resolution"; "fps"]%string /\
              ctrls r.1.1 = <[idx0 := set_value (PStr (m_text_id m0)) ctrl0]> (ctrls self)).
  { intros r Hn [E | E]; [now left | right].
    exists idx, ctrl, m. repeat split; auto.
    eapply find_ref_lookup; eauto. }
  destruct (String.eqb_spec (c_text_id ctrl) "pixelformat") as [E1 |].
  { apply Hcase; [rewrite <- Hk, E1; left | apply set_pixelformat_frame]. }
  destruct (String.eqb_spec (c_text_id ctrl) "resolution") as [E2 |].
  { apply Hcase; [rewrite <- Hk, E2; right; left | apply set_resolution_frame]. }
  destruct (String.eqb_spec (c_text_id ctrl) "fps") as [E3 |]; [| now left].
  apply Hcase; [rewrite <- Hk, E3; right; right; left | apply set_fps_frame].
Qed.

Lemma entries_only_refl (names : list string) (l : list BaseCtrl) : entries_only names l l.
Proof. split; [reflexivity |]. intros i c Hc. now left. Qed.

Lemma entries_only_weaken (n1 n2 : list string) (l l' : list BaseCtrl) :
  (forall x, x ∈ n1 -> x ∈ n2) -> entries_only n1 l l' -> entries_only n2 l l'.
Proof.
  intros Hsub [Hlen Hall]. split; [exact Hlen |].
  intros i c Hc. destruct (Hall i c Hc) as [E | (m & Hm & E & Hty & Hn)]; [now left |].
  right. exists m. auto.
Qed.

Lemma entries_only_trans (names : list string) (l1 l2 l3 : list BaseCtrl) :
  entries_only names l1 l2 -> entries_only names l2 l3 -> entries_only names l1 l3.
Proof.
  intros [Hlen1 H1] [Hlen2 H2]. split; [congruence |].
  intros i c Hc. destruct (H1 i c Hc) as [E | (m & Hm & E & Hty & Hn)].
  - apply (H2 i c E).
  - destruct (H2 i _ E) as [E' | (m' & Hm' & E' & Hty' & Hn')].
    + right. exists m. auto.
    + right. exists m'. cbn in *. auto.
Qed.

Lemma fmt_setup_ctrl_entries_only (self : t D) (errs : list warning) (k : string)
    (v : pyval) :
  entries_only (List.filter (fun n => bool_decide (n = k))
                  ["pixelformat"; "resolution"; "fps"]%string)
    (ctrls self) (ctrls (setup_ctrl self errs k v).1.1).
Proof.
  destruct (fmt_setup_ctrl_frame self errs k v)
    as [E | (idx & ctrl & m & Hidx & Hk & Hty & Hm & Hn & E)].
  - rewrite E. apply entries_only_refl.
  - rewrite E. split; [apply length_insert |].
    intros i c Hc. destruct (decide (i = idx)) as [-> | Hne].
    + rewrite Hidx in Hc. injection Hc as <-.
      right. exists m. repeat split; auto.
      * apply list_lookup_insert_eq. eapply lookup_lt_Some; eauto.
      * apply list_elem_of_In, List.filter_In. split.
        -- apply list_elem_of_In. rewrite Hk. exact Hn.
        -- apply bool_decide_eq_true. exact Hk.
    + left. rewrite list_lookup_insert_ne by congruence. exact Hc.
Qed.

Lemma fmt_setup_ctrls_entries_only (ps : params) :
  forall (self : t D) (errs : list warning),
  entries_only (List.filter (fun n => bool_decide (n ∈ ps.*1))
                  ["pixelformat"; "resolution"; "fps"]%string)
    (ctrls self) (ctrls (setup_ctrls self ps errs).1.1).
Proof.
  induction ps as [| [k v] rest IH]; intros self errs; [apply entries_only_refl |].
  cbn [setup_ctrls]. pose proof (fmt_setup_ctrl_entries_only self errs k v) as Hone.
  assert (Hk : forall x,
            x ∈ List.filter (fun n => bool_decide (n = k))
                  ["pixelformat"; "resolution"; "fps"]%string ->
            x ∈ List.filter (fun n => bool_decide (n ∈ ((k, v) :: rest).*1))
                  ["pixelformat"; "resolution"; "fps"]%string).
  { intros x Hx. apply list_elem_of_In, List.filter_In in Hx as [Hx Hb].
    apply list_elem_of_In, List.filter_In. split; [exact Hx |].
    apply bool_decide_eq_true in Hb as ->. apply bool_decide_eq_true. left. }
  assert (Hrest : forall x,
            x ∈ List.filter (fun n => bool_decide (n ∈ rest.*1))
                  ["pixelformat"; "resolution"; "fps"]%string ->
            x ∈ List.filter (fun n => bool_decide (n ∈ ((k, v) :: rest).*1))
                  ["pixelformat"; "resolution"; "fps"]%string).
  { intros x Hx. apply list_elem_of_In, List.filter_In in Hx as [Hx Hb].
    apply list_elem_of_In, List.filter_In. split; [exact Hx |].
    apply bool_decide_eq_true in Hb. apply bool_decide_eq_true. now right. }
  destruct (setup_ctrl self errs k v) as [[self' errs'] [| e]]; cbn [fst] in *.
  - eapply entries_only_trans.
    + eapply entries_only_weaken; [exact Hk | exact Hone].
    + eapply entries_only_weaken; [exact Hrest | apply IH].
  - eapply entries_only_weaken; [exact Hk | exact Hone].
Qed.

(** X17. Whatever the device answers, [V4L2FmtCtrls.setup_ctrls] leaves
    every control as it is or gives it, as its new value, the text id of
    an entry of its own menu; a control it changes is named in the batch,
    is one of ['pixelformat'], ['resolution'] and ['fps'], and is not of
    type ['info']. The list keeps its length. *)
Theorem fmt_setup_ctrls_stores_menu_entries (self : t D) (ps : params)
    (errs : list warning) :
  let after := ctrls (setup_ctrls self ps errs).1.1 in
  length after = length (ctrls self) /\
  forall i c, ctrls self !! i = Some c ->
    after !! i = Some c \/
    exists m, m ∈ c_menu c /\ after !! i = Some (set_value (PStr (m_text_id m)) c) /\
              c_type c <> info /\ c_text_id c ∈ ps.*1 /\
              c_text_id c ∈ ["pixelformat"; "resolution"; "fps"]%string.
Proof.
  destruct (fmt_setup_ctrls_entries_only ps self errs) as [Hlen Hall].
  split; [exact Hlen |]. intros i c Hc.
  destruct (Hall i c Hc) as [E | (m & Hm & E & Hty & Hn)]; [now left |].
  right. exists m. apply list_elem_of_In, List.filter_In in Hn as [Hn Hb].
  apply bool_decide_eq_true in Hb. apply list_elem_of_In in Hn. auto.
Qed.

End FormatBatch.

(** ** What the AnkerWork backend sends *)

Section AnkerWorkWrites.
Import AnkerWorkCtrls.
Context {D : Type} `{Device D}.

(** [query_xu_control] asks for the length and then sends the query with
    the length it was told, or 0. *)
Lemma query_xu_control_issued (self : t D) (selector q : Z) (data : list Z) :
  exists len,
    issued (query_xu_control self selector q data).1
    = issued self ++ [XU (unit_id self) selector UVC_GET_LEN 2 [0; 0];
                      XU (unit_id self) selector q len data] /\
    unit_id (query_xu_control self selector q data).1 = unit_id self /\
    ctrls (query_xu_control self selector q data).1 = ctrls self.
Proof.
  unfold query_xu_control, get_length_xu_control, query.
  destruct (UVCIOC_CTRL_QUERY (fd self) _ _ _ _ _) as [dev1 r1]. cbn [fd unit_id].
  destruct (UVCIOC_CTRL_QUERY dev1 _ _ _ _ _) as [dev2 r2].
  eexists. cbn [fst issued unit_id ctrls]. rewrite <- app_assoc. repeat split.
Qed.

(** What [setup_ctrl] does once [desired] is a buffer and the control
    is no button. *)
Lemma setup_ctrl_reads_back (self : t D) (errs : list warning) (k : string) (v : pyval)
    (idx : nat) (ctrl : BaseCtrl) (selector length : Z) (desired : list Z) :
  find_ref (ctrls self) (PStr k) = Some (idx, ctrl) ->
  c_selector ctrl = Some selector ->
  c_length ctrl = Some length ->
  0 <= length ->
  c_type ctrl <> button ->
  select_desired k ctrl v
    (query_xu_control self selector UVC_GET_CUR (replicate (Z.to_nat length) 0 ++ [0])).2
  = Desired desired ->
  let r := setup_ctrl self errs k v in
  (exists len, XU (unit_id self) selector UVC_SET_CUR len desired ∈ issued r.1.1) /\
  r.1.2 = errs /\ r.2 = Next /\
  ctrls r.1.1
  = <[idx := set_value (PBuf (read_back self selector length desired)) ctrl]> (ctrls self).
Proof.
  intros Hfind Hsel Hlen Hpos Hty Hdes r. subst r. unfold setup_ctrl, read_back.
  rewrite Hfind, Hlen, Hsel.
  replace (length <? 0) with false by (symmetry; apply Z.ltb_ge; lia).
  destruct (query_xu_control_issued self selector UVC_GET_CUR
              (replicate (Z.to_nat length) 0 ++ [0])) as (len0 & I0 & U0 & C0).
  destruct (query_xu_control self selector UVC_GET_CUR _) as [self1 cur].
  cbn [fst snd] in *. rewrite Hdes.
  destruct (bool_decide_reflect (c_type ctrl = button)) as [| _]; [contradiction |].
  destruct (query_xu_control_issued self1 selector UVC_SET_CUR desired)
    as (len1 & I1 & U1 & C1).
  destruct (query_xu_control self1 selector UVC_SET_CUR desired) as [self2 d1].
  cbn [fst snd] in *.
  destruct (query_xu_control_issued self2 selector UVC_GET_CUR d1)
    as (len2 & I2 & U2 & C2).
  destruct (query_xu_control self2 selector UVC_GET_CUR d1) as [self3 d2].
  cbn [fst snd with_ctrls issued ctrls] in *.
  split; [| split; [reflexivity | split; [reflexivity |]]].
  - exists len1. rewrite I2, I1, U0.
    apply elem_of_app. left. apply elem_of_app. right. right. left.
  - now rewrite C2, C1, C0.
Qed.

Lemma setup_ctrl_sends (self : t D) (errs : list warning) (k : string) (v : pyval)
    (idx : nat) (ctrl : BaseCtrl) (selector length : Z) (desired : list Z) :
  find_ref (ctrls self) (PStr k) = Some (idx, ctrl) ->
  c_selector ctrl = Some selector ->
  c_length ctrl = Some length ->
  0 <= length ->
  c_type ctrl <> button ->
  select_desired k ctrl v
    (query_xu_control self selector UVC_GET_CUR (replicate (Z.to_nat length) 0 ++ [0])).2
  = Desired desired ->
  let r := setup_ctrl self errs k v in
  (exists len, XU (unit_id self) selector UVC_SET_CUR len desired ∈ issued r.1.1) /\
  r.1.2 = errs /\ r.2 = Next /\
  exists buf, ctrls r.1.1 = <[idx := set_value (PBuf buf) ctrl]> (ctrls self).
Proof.
  intros Hfind Hsel Hlen Hpos Hty Hdes r.
  destruct (setup_ctrl_reads_back self errs k v idx ctrl selector length desired
              Hfind Hsel Hlen Hpos Hty Hdes) as (Hs & He & Hn & Hc).
  repeat (split; [assumption |]). eexists. exact Hc.
Qed.

Lemma value_after_set (cs : list BaseCtrl) (idx : nat) (ctrl : BaseCtrl) (v : pyval) :
  cs !! idx = Some ctrl ->
  c_value <$> <[idx := set_value v ctrl]> cs !! idx = Some v.
Proof.
  intros Hc. rewrite list_lookup_insert_eq by (eapply lookup_lt_Some; exact Hc).
  reflexivity.
Qed.

(** X18. A menu control of the AnkerWork backend (other than the enable
    switch of the face compensation) whose entry has an [int] value [n]
    sends, as the payload of [UVC_SET_CUR], a buffer of [n] zero bytes:
    [to_buf] of an [int] is a zeroed buffer of that size, so the value
    itself never reaches the camera. An entry with a [bytes] value sends
    these bytes and a final NUL. In both cases no warning is added,
    whatever the camera answers, and the control's value becomes the
    buffer that was read back: the payload as the [UVC_SET_CUR] and the
    [UVC_GET_CUR] after it left it. *)
Theorem ankerwork_menu_payload (self : t D) (errs : list warning) (k : string) (v : pyval)
    (idx : nat) (ctrl : BaseCtrl) (selector length : Z) (m : BaseCtrlMenu) :
  find_ref (ctrls self) (PStr k) = Some (idx, ctrl) ->
  c_type ctrl = menu ->
  c_text_id ctrl <> "ankerwork_face_compensation_enable"%string ->
  c_selector ctrl = Some selector ->
  c_length ctrl = Some length ->
  0 <= length ->
  find_by_text_id (c_menu ctrl) v = Some m ->
  let r := setup_ctrl self errs k v in
  let sent payload :=
    (exists len, XU (unit_id self) selector UVC_SET_CUR len payload ∈ issued r.1.1) /\
    r.1.2 = errs /\ r.2 = Next /\
    ctrls r.1.1
    = <[idx := set_value (PBuf (read_back self selector length payload)) ctrl]>
        (ctrls self) /\
    c_value <$> ctrls r.1.1 !! idx = Some (PBuf (read_back self selector length payload)) in
  (forall n, m_value m = PInt n -> 0 <= n -> sent (replicate (Z.to_nat n) 0)) /\
  (forall bs, m_value m = PBytes bs -> sent (bs ++ [0])).
Proof.
  intros Hfind Hty Hname Hsel Hlen Hpos Hm r sent. subst sent r.
  assert (Hdes : forall cur,
            select_desired k ctrl v cur = of_res (to_buf (m_value m))).
  { intros cur. unfold select_desired. rewrite Hty, Hm.
    destruct (String.eqb_spec (c_text_id ctrl) "ankerwork_face_compensation_enable");
      [contradiction | reflexivity]. }
  assert (Hall : forall payload,
            to_buf (m_value m) = Ok payload ->
            (exists len, XU (unit_id self) selector UVC_SET_CUR len payload
                         ∈ issued (setup_ctrl self errs k v).1.1) /\
            (setup_ctrl self errs k v).1.2 = errs /\ (setup_ctrl self errs k v).2 = Next /\
            ctrls (setup_ctrl self errs k v).1.1
            = <[idx := set_value (PBuf (read_back self selector length payload)) ctrl]>
                (ctrls self) /\
            c_value <$> ctrls (setup_ctrl self errs k v).1.1 !! idx
            = Some (PBuf (read_back self selector length payload))).
  { intros payload Hbuf.
    destruct (setup_ctrl_reads_back self errs k v idx ctrl selector length payload
                Hfind Hsel Hlen Hpos) as (Hs & He & Hn & Hc);
      [rewrite Hty; discriminate | rewrite Hdes, Hbuf; reflexivity |].
    repeat (split; [assumption |]).
    rewrite Hc. apply value_after_set. eapply find_ref_lookup. exact Hfind. }
  split.
  - intros n Hn Hn0. apply Hall. rewrite Hn. cbn [to_buf].
    replace (n <? 0) with false by (symmetry; apply Z.ltb_ge; lia). reflexivity.
  - intros bs Hbs. apply Hall. rewrite Hbs. reflexivity.
Qed.

(** X19. The enable switch of the face compensation is a
    read-modify-write: the payload of [UVC_SET_CUR] is the buffer that
    [UVC_GET_CUR] filled, with its first byte replaced by the value of
    the menu entry, so the other bytes (the compensation itself) are
    sent back as they were read. No warning is added. *)
Theorem ankerwork_enable_keeps_compensation (self : t D) (errs : list warning) (v : pyval)
    (idx : nat) (ctrl : BaseCtrl) (selector length : Z) (m : BaseCtrlMenu)
    (b first : Z) (others : list Z) :
  find_ref (ctrls self) (PStr "ankerwork_face_compensation_enable") = Some (idx, ctrl) ->
  c_type ctrl = menu ->
  c_selector ctrl = Some selector ->
  c_length ctrl = Some length ->
  0 <= length ->
  find_by_text_id (c_menu ctrl) v = Some m ->
  m_value m = PInt b ->
  0 <= b < 256 ->
  (query_xu_control self selector UVC_GET_CUR (replicate (Z.to_nat length) 0 ++ [0])).2
    = first :: others ->
  let r := setup_ctrl self errs "ankerwork_face_compensation_enable" v in
  (exists len, XU (unit_id self) selector UVC_SET_CUR len (b :: others) ∈ issued r.1.1) /\
  r.1.2 = errs /\ r.2 = Next /\
  exists buf, ctrls r.1.1 = <[idx := set_value (PBuf buf) ctrl]> (ctrls self).
Proof.
  intros Hfind Hty Hsel Hlen Hpos Hm Hval Hb Hcur.
  apply (setup_ctrl_sends self errs _ v idx ctrl selector length _ Hfind Hsel Hlen Hpos);
    [rewrite Hty; discriminate |].
  rewrite Hcur. unfold select_desired. rewrite Hty, Hm.
  rewrite (find_ref_text_id _ _ _ _ Hfind). cbn [bool_decide orb].
  change (String.eqb "ankerwork_face_compensation_enable"
            "ankerwork_face_compensation_enable") with true. cbv iota.
  rewrite Hval.
  replace ((0 <=? b) && (b <? 256)) with true; [reflexivity |].
  symmetry. apply andb_true_iff. split; [apply Z.leb_le | apply Z.ltb_lt]; lia.
Qed.

End AnkerWorkWrites.

Section AnkerWorkWritesExamples.
Import AnkerWorkCtrls Sample Runs.

(** Switching HDR on sends one zero byte; the camera's register reads 1
    afterwards, which becomes the value of the control, without a
    warning. *)
Lemma ankerwork_menu_payload_sample :
  find_ref (ctrls stubborn_anker) (PStr "ankerwork_hdr") = Some (4%nat, hdr_ctrl) /\
  find_by_text_id (c_menu hdr_ctrl) (PStr "on") = Some (entry "on" "On" (PInt 1)) /\
  (exists len,
     XU 5 ANKERWORK_HDR_SELECTOR UVC_SET_CUR len [0]
     ∈ issued (setup_ctrl stubborn_anker [] "ankerwork_hdr" (PStr "on")).1.1) /\
  (setup_ctrl stubborn_anker [] "ankerwork_hdr" (PStr "on")).1.2 = [] /\
  c_value <$> ctrls (setup_ctrl stubborn_anker [] "ankerwork_hdr" (PStr "on")).1.1 !! 4%nat
    = Some (PBuf [1]).
Proof.
  assert (Hfind : find_ref (ctrls stubborn_anker) (PStr "ankerwork_hdr")
                  = Some (4%nat, hdr_ctrl)) by (vm_compute; reflexivity).
  assert (Hname : c_text_id hdr_ctrl <> "ankerwork_face_compensation_enable"%string)
    by discriminate.
  assert (Hpos : 0 <= ANKERWORK_HDR_LENGTH) by (unfold ANKERWORK_HDR_LENGTH; lia).
  assert (Hm : find_by_text_id (c_menu hdr_ctrl) (PStr "on")
               = Some (entry "on" "On" (PInt 1))) by (vm_compute; reflexivity).
  assert (Hback : read_back stubborn_anker ANKERWORK_HDR_SELECTOR ANKERWORK_HDR_LENGTH
                    (replicate (Z.to_nat 1) 0) = [1]) by (vm_compute; reflexivity).
  split; [exact Hfind |]. split; [exact Hm |].
  destruct (ankerwork_menu_payload stubborn_anker [] "ankerwork_hdr" (PStr "on") 4 hdr_ctrl
              ANKERWORK_HDR_SELECTOR ANKERWORK_HDR_LENGTH (entry "on" "On" (PInt 1))
              Hfind eq_refl Hname eq_refl eq_refl Hpos Hm) as [Hint _].
  destruct (Hint 1 eq_refl) as (Hsent & Herrs & _ & _ & Hval); [lia |].
  rewrite Hback in Hval.
  split; [exact Hsent |]. split; [exact Herrs | exact Hval].
Defined.

(** Switching the face compensation off while the camera holds the
    compensation 0x23 sends 0x23 back. *)
Lemma ankerwork_enable_keeps_compensation_sample :
  find_ref (ctrls sample_anker) (PStr "ankerwork_face_compensation_enable")
    = Some (5%nat, enable_ctrl) /\
  (query_xu_control sample_anker ANKERWORK_FACE_EXPOSURE_COMP_SELECTOR UVC_GET_CUR
     (replicate (Z.to_nat ANKERWORK_FACE_EXPOSURE_COMP_LENGTH) 0 ++ [0])).2
    = 1 :: [0x23; 0] /\
  exists len,
    XU 5 ANKERWORK_FACE_EXPOSURE_COMP_SELECTOR UVC_SET_CUR len [0; 0x23; 0]
    ∈ issued (setup_ctrl sample_anker [] "ankerwork_face_compensation_enable"
                (PStr "off")).1.1.
Proof.
  assert (Hfind : find_ref (ctrls sample_anker) (PStr "ankerwork_face_compensation_enable")
                  = Some (5%nat, enable_ctrl)) by (vm_compute; reflexivity).
  assert (Hpos : 0 <= ANKERWORK_FACE_EXPOSURE_COMP_LENGTH)
    by (unfold ANKERWORK_FACE_EXPOSURE_COMP_LENGTH; lia).
  assert (Hm : find_by_text_id (c_menu enable_ctrl) (PStr "off")
               = Some (entry "off" "Off" (PInt 0))) by (vm_compute; reflexivity).
  assert (Hb : 0 <= 0 < 256) by lia.
  assert (Hcur : (query_xu_control sample_anker ANKERWORK_FACE_EXPOSURE_COMP_SELECTOR
                    UVC_GET_CUR
                    (replicate (Z.to_nat ANKERWORK_FACE_EXPOSURE_COMP_LENGTH) 0 ++ [0])).2
                 = 1 :: [0x23; 0]) by (vm_compute; reflexivity).
  split; [exact Hfind |]. split; [exact Hcur |].
  exact (proj1 (ankerwork_enable_keeps_compensation sample_anker [] (PStr "off") 5
                  enable_ctrl ANKERWORK_FACE_EXPOSURE_COMP_SELECTOR
                  ANKERWORK_FACE_EXPOSURE_COMP_LENGTH (entry "off" "Off" (PInt 0))
                  0 1 [0x23; 0] Hfind eq_refl eq_refl eq_refl Hpos Hm eq_refl Hb Hcur)).
Defined.

End AnkerWorkWritesExamples.

(** ** What the Logitech backend sends, and what it checks *)

Section LogitechWrites.
Import Xu LogitechCtrls.
Context {D : Type} `{AnkerWorkCtrls.Device D}.

Lemma py_index_nonneg (n : nat) (i : Z) :
  0 <= i < Z.of_nat n -> py_index n i = Some (Z.to_nat i).
Proof.
  intros Hi. unfold py_index.
  replace ((0 <=? i) && (i <? Z.of_nat n)) with true; [reflexivity |].
  symmetry. apply andb_true_iff. split; [apply Z.leb_le | apply Z.ltb_lt]; lia.
Qed.

Lemma as_char_int (c : Z) :
  as_char (PInt c) = if (0 <=? c) && (c <? 256) then Ok c else Raise TypeError.
Proof. reflexivity. Qed.

Lemma select_desired_byte (k : string) (ctrl : LogitechCtrl) (v : pyval) (c : Z) :
  (c_type (base ctrl) = integer /\ py_int v = Ok c) \/
  (c_type (base ctrl) = menu /\
   exists m, find_by_text_id (c_menu (base ctrl)) v = Some m /\ m_value m = PInt c) ->
  select_desired k ctrl v = Desired (PInt c) /\ c_type (base ctrl) <> button.
Proof.
  unfold select_desired. intros [[Hty Hint] | (Hty & m & Hm & Hval)]; rewrite Hty.
  - cbn. rewrite Hint. split; [reflexivity | discriminate].
  - cbn. rewrite Hm, Hval. split; [reflexivity | discriminate].
Qed.

(** X20. [LogitechCtrls.setup_ctrls] writes one byte of a register by
    read-modify-write and checks it. For an ['integer'] control the byte
    [c] is [int(v)], for a menu the value of the entry; outside
    0..255 the assignment to the buffer raises [TypeError], which
    nothing catches, after the register was read and before anything is
    written. Otherwise the payload of [UVC_SET_CUR] is what [UVC_GET_CUR]
    gave with the byte at the control's offset replaced by [c], and the
    register is read again: the control's value is set when the byte
    read back shows as the desired one (for a menu, as the same text
    id), and else one warning is added and the value is left. *)
Theorem logitech_read_modify_write (self : t D) (errs : list warning) (k : string)
    (v : pyval) (idx : nat) (ctrl : LogitechCtrl) (c : Z) :
  find_ctrl (ctrls self) (PStr k) = Some (idx, ctrl) ->
  (c_type (base ctrl) = integer /\ py_int v = Ok c) \/
  (c_type (base ctrl) = menu /\
   exists m, find_by_text_id (c_menu (base ctrl)) v = Some m /\ m_value m = PInt c) ->
  0 <= _len ctrl ->
  let get :=
    query_xu_control (dev self) (_unit_id ctrl) (_selector ctrl) AnkerWorkCtrls.UVC_GET_CUR
      (replicate (Z.to_nat (_len ctrl)) 0 ++ [0]) in
  0 <= _offset ctrl < Z.of_nat (length get.2) ->
  let r := setup_ctrl self errs k v in
  (c < 0 \/ 256 <= c -> r = (with_dev self get.1, errs, Escape TypeError)) /\
  (0 <= c < 256 ->
   let sent := <[Z.to_nat (_offset ctrl) := c]> get.2 in
   let set :=
     query_xu_control get.1 (_unit_id ctrl) (_selector ctrl) AnkerWorkCtrls.UVC_SET_CUR
       sent in
   let back :=
     query_xu_control set.1 (_unit_id ctrl) (_selector ctrl) AnkerWorkCtrls.UVC_GET_CUR
       set.2 in
   forall b, back.2 !! Z.to_nat (_offset ctrl) = Some b ->
     dev r.1.1 = back.1 /\ r.2 = Next /\
     (c_type (base ctrl) = integer ->
      shown_as ctrl (PInt b) = PInt b /\ shown_as ctrl (PInt c) = PInt c) /\
     (py_eq (shown_as ctrl (PInt b)) (shown_as ctrl (PInt c)) = true ->
      ctrls r.1.1 = <[idx := set_ctrl_value (shown_as ctrl (PInt c)) ctrl]> (ctrls self) /\
      r.1.2 = errs) /\
     (py_eq (shown_as ctrl (PInt b)) (shown_as ctrl (PInt c)) = false ->
      ctrls r.1.1 = ctrls self /\ exists w, r.1.2 = errs ++ [w])).
Proof.
  intros Hfind Hdes Hlen get Hoff r. subst r.
  destruct (select_desired_byte k ctrl v c Hdes) as [Hsel Hnb].
  unfold setup_ctrl. rewrite Hfind, Hsel.
  destruct (bool_decide_reflect (c_type (base ctrl) = button)) as [| _]; [contradiction |].
  replace (_len ctrl <? 0) with false by (symmetry; apply Z.ltb_ge; lia).
  fold get. destruct get as [p1 cfg] eqn:Hget. cbn [fst snd] in *.
  unfold set_item. rewrite py_index_nonneg by lia. rewrite as_char_int.
  split.
  - intros Hout.
    replace ((0 <=? c) && (c <? 256)) with false; [reflexivity |].
    symmetry. apply andb_false_iff.
    destruct Hout; [left; apply Z.leb_gt | right; apply Z.ltb_ge]; lia.
  - intros Hin. cbv zeta. intros b Hb.
    replace ((0 <=? c) && (c <? 256)) with true
      by (symmetry; apply andb_true_iff; split; [apply Z.leb_le | apply Z.ltb_lt]; lia).
    cbn [mbind res_bind Py.bind].
    destruct (query_xu_control p1 _ _ AnkerWorkCtrls.UVC_SET_CUR _) as [p2 d1].
    cbn [fst snd] in *.
    destruct (query_xu_control p2 _ _ AnkerWorkCtrls.UVC_GET_CUR d1) as [p3 d2].
    cbn [fst snd] in *.
    unfold get_item.
    rewrite py_index_nonneg by (apply lookup_lt_Some in Hb; lia).
    rewrite Hb.
    split; [| split; [| split; [| split]]].
    + destruct (negb _); reflexivity.
    + destruct (negb _); reflexivity.
    + intros Hty. unfold shown_as. rewrite Hty. split; reflexivity.
    + intros Heq. rewrite Heq. split; reflexivity.
    + intros Hne. rewrite Hne. split; [reflexivity |]. eexists. reflexivity.
Qed.

Lemma query_xu_control_dead (p : port D) (unit_id selector q : Z) (data : list Z) :
  (forall d u s q' sz dt, exists d' e,
     AnkerWorkCtrls.UVCIOC_CTRL_QUERY d u s q' sz dt = (d', Raise e)) ->
  (query_xu_control p unit_id selector q data).2 = data.
Proof.
  intros Hdead. unfold query_xu_control, get_length_xu_control, query.
  destruct (Hdead (fd p) unit_id selector AnkerWorkCtrls.UVC_GET_LEN 2 [0; 0])
    as (d1 & e1 & ->).
  cbn [fd]. destruct (Hdead d1 unit_id selector q 0 data) as (d2 & e2 & ->).
  reflexivity.
Qed.

(** X21. A camera that answers no query is not noticed. When every
    [UVCIOC_CTRL_QUERY] fails, [query_xu_control] only logs the failure
    and leaves the buffer as it is, so the byte read back is the byte
    just put in: for an ['integer'] control and a value from 0 to 255,
    [LogitechCtrls.setup_ctrls] adds no warning and records the value as
    set. *)
Theorem logitech_dead_device_unnoticed (self : t D) (errs : list warning) (k : string)
    (v : pyval) (idx : nat) (ctrl : LogitechCtrl) (n : Z) :
  (forall d u s q sz dt, exists d' e,
     AnkerWorkCtrls.UVCIOC_CTRL_QUERY d u s q sz dt = (d', Raise e)) ->
  find_ctrl (ctrls self) (PStr k) = Some (idx, ctrl) ->
  c_type (base ctrl) = integer ->
  py_int v = Ok n ->
  0 <= n < 256 ->
  0 <= _offset ctrl <= _len ctrl ->
  let r := setup_ctrl self errs k v in
  r.1.2 = errs /\ r.2 = Next /\
  ctrls r.1.1 = <[idx := set_ctrl_value (PInt n) ctrl]> (ctrls self).
Proof.
  intros Hdead Hfind Hty Hint Hn Hoff r. subst r.
  destruct (select_desired_byte k ctrl v n (or_introl (conj Hty Hint))) as [Hsel Hnb].
  unfold setup_ctrl. rewrite Hfind, Hsel.
  destruct (bool_decide_reflect (c_type (base ctrl) = button)) as [| _]; [contradiction |].
  replace (_len ctrl <? 0) with false by (symmetry; apply Z.ltb_ge; lia).
  pose proof (query_xu_control_dead (dev self) (_unit_id ctrl) (_selector ctrl)
                AnkerWorkCtrls.UVC_GET_CUR
                (replicate (Z.to_nat (_len ctrl)) 0 ++ [0]) Hdead) as E0.
  destruct (query_xu_control (dev self) _ _ AnkerWorkCtrls.UVC_GET_CUR _) as [p1 cfg].
  cbn [snd] in E0. subst cfg.
  assert (Hlen : length (replicate (Z.to_nat (_len ctrl)) 0 ++ [0])
                 = S (Z.to_nat (_len ctrl))).
  { rewrite length_app, length_replicate. cbn [length]. lia. }
  unfold set_item. rewrite py_index_nonneg by (rewrite Hlen; lia).
  rewrite as_char_int.
  replace ((0 <=? n) && (n <? 256)) with true
    by (symmetry; apply andb_true_iff; split; [apply Z.leb_le | apply Z.ltb_lt]; lia).
  cbn [mbind res_bind Py.bind].
  set (sent := <[Z.to_nat (_offset ctrl) := n]> (replicate (Z.to_nat (_len ctrl)) 0 ++ [0])).
  pose proof (query_xu_control_dead p1 (_unit_id ctrl) (_selector ctrl)
                AnkerWorkCtrls.UVC_SET_CUR sent Hdead) as E1.
  destruct (query_xu_control p1 _ _ AnkerWorkCtrls.UVC_SET_CUR sent) as [p2 d1].
  cbn [snd] in E1. subst d1.
  pose proof (query_xu_control_dead p2 (_unit_id ctrl) (_selector ctrl)
                AnkerWorkCtrls.UVC_GET_CUR sent Hdead) as E2.
  destruct (query_xu_control p2 _ _ AnkerWorkCtrls.UVC_GET_CUR sent) as [p3 d2].
  cbn [snd] in E2. subst d2.
  assert (Hsent : length sent = S (Z.to_nat (_len ctrl))).
  { unfold sent. now rewrite length_insert. }
  assert (Hlook : sent !! Z.to_nat (_offset ctrl) = Some n).
  { unfold sent. apply list_lookup_insert_eq. rewrite Hlen. lia. }
  unfold get_item. rewrite py_index_nonneg by (rewrite Hsent; lia).
  rewrite Hlook. unfold shown_as. rewrite Hty. cbn [bool_decide decide_rel py_eq].
  destruct (bool_decide (integer = menu)) eqn:Hb;
    [apply bool_decide_eq_true in Hb; discriminate Hb |].
  cbn [py_eq]. rewrite Z.eqb_refl. cbn [negb fst snd ctrls]. repeat split.
Qed.

End LogitechWrites.

Section LogitechWritesExamples.
Import Xu LogitechCtrls Sample Runs.

(** Setting the LED frequency to 20 on a camera that takes it. *)
Lemma logitech_read_modify_write_sample :
  find_ctrl (ctrls sample_logitech) (PStr "logitech_led1_frequency")
    = Some (0%nat, led_frequency_ctrl) /\
  AnkerWorkCtrls.XU 3 0x09 AnkerWorkCtrls.UVC_SET_CUR 5 [0; 1; 0; 20; 0; 0]
    ∈ issued (dev (setup_ctrl sample_logitech [] "logitech_led1_frequency"
                     (PStr "20")).1.1) /\
  (fun c => c_value (base c))
    <$> ctrls (setup_ctrl sample_logitech [] "logitech_led1_frequency" (PStr "20")).1.1
        !! 0%nat
    = Some (PInt 20).
Proof.
  assert (Hfind : find_ctrl (ctrls sample_logitech) (PStr "logitech_led1_frequency")
                  = Some (0%nat, led_frequency_ctrl)) by (vm_compute; reflexivity).
  assert (Hlen : 0 <= _len led_frequency_ctrl) by (vm_compute; discriminate).
  assert (Hoff : 0 <= _offset led_frequency_ctrl
                 < Z.of_nat (length (query_xu_control (dev sample_logitech)
                                       (_unit_id led_frequency_ctrl)
                                       (_selector led_frequency_ctrl)
                                       AnkerWorkCtrls.UVC_GET_CUR
                                       (replicate (Z.to_nat (_len led_frequency_ctrl)) 0
                                          ++ [0])).2))
    by (vm_compute; split; [discriminate | reflexivity]).
  assert (Hc : 0 <= 20 < 256) by lia.
  split; [exact Hfind |]. split; [vm_compute; right; right; right; left |].
  destruct (logitech_read_modify_write sample_logitech [] "logitech_led1_frequency"
              (PStr "20") 0 led_frequency_ctrl 20 Hfind
              (or_introl (conj eq_refl eq_refl)) Hlen Hoff) as [_ Hin].
  destruct (Hin Hc 20 eq_refl) as (_ & _ & _ & Hok & _).
  destruct (Hok eq_refl) as [-> _]. reflexivity.
Defined.

(** The same on a camera that answers nothing. *)
Lemma logitech_dead_device_unnoticed_sample :
  (setup_ctrl dead_logitech [] "logitech_led1_frequency" (PStr "20")).1.2 = [] /\
  (fun c => c_value (base c))
    <$> ctrls (setup_ctrl dead_logitech [] "logitech_led1_frequency" (PStr "20")).1.1
        !! 0%nat
    = Some (PInt 20).
Proof.
  assert (Hdead : forall (d : dead_cam) (u s q sz : Z) (dt : list Z), exists d' e,
            AnkerWorkCtrls.UVCIOC_CTRL_QUERY d u s q sz dt = (d', Raise e))
    by (intros d u s q sz dt; exists d, OSError; reflexivity).
  assert (Hfind : find_ctrl (ctrls dead_logitech) (PStr "logitech_led1_frequency")
                  = Some (0%nat, led_frequency_ctrl)) by (vm_compute; reflexivity).
  assert (Hn : 0 <= 20 < 256) by lia.
  assert (Hoff : 0 <= _offset led_frequency_ctrl <= _len led_frequency_ctrl)
    by (vm_compute; split; discriminate).
  destruct (logitech_dead_device_unnoticed dead_logitech [] "logitech_led1_frequency"
              (PStr "20") 0 led_frequency_ctrl 20 Hdead Hfind eq_refl eq_refl Hn Hoff)
    as (Herrs & _ & Hctrls).
  split; [exact Herrs |]. rewrite Hctrls. reflexivity.
Defined.

End LogitechWritesExamples.

(** ** What a control event changes *)

Section ListenerEvents.
Import V4L2Ctrls.
Context {D : Type} `{Device D} `{V4L2FmtCtrls.Device D}.

(** X22. One control event, read without error: when no control has
    the event's id, the thread dies of [AttributeError] with no callback
    made; otherwise exactly one callback is made and the loop goes on,
    the other controls, the format controls and the device are left as
    they are, nothing is asked of the device, and the control of the
    event has its two flags set from the bits of the event's flags. If
    it is no menu, its value is the event's value and the callback is
    [cb] with the control as updated. *)
Theorem handle_event_updates_one_control (self : V4L2Listener.t D) (revents : Z)
    (event : V4L2Listener.v4l2_event) :
  (revents =? V4L2Listener.POLLNVAL) || (revents =? V4L2Listener.POLLERR) = false ->
  let r := V4L2Listener.handle_event self revents (Ok event) in
  let flag x := negb (Z.land (V4L2Listener.ev_flags event) x =? 0) in
  (find_by_v4l2_id (V4L2Listener.ctrls self) (V4L2Listener.ev_id event) = None ->
   r = (self, [], V4L2Listener.Died AttributeError)) /\
  (forall idx ctrl,
     find_by_v4l2_id (V4L2Listener.ctrls self) (V4L2Listener.ev_id event)
       = Some (idx, ctrl) ->
     r.2 = V4L2Listener.Continue /\
     length r.1.2 = 1%nat /\
     V4L2Listener.fmt_ctrls r.1.1 = V4L2Listener.fmt_ctrls self /\
     fd (V4L2Listener.ctrls r.1.1) = fd (V4L2Listener.ctrls self) /\
     issued (V4L2Listener.ctrls r.1.1) = issued (V4L2Listener.ctrls self) /\
     (forall j, j <> idx ->
        ctrls (V4L2Listener.ctrls r.1.1) !! j = ctrls (V4L2Listener.ctrls self) !! j) /\
     exists v,
       let c := set_value v (set_flags (flag V4L2_CTRL_FLAG_INACTIVE)
                                      (flag V4L2_CTRL_FLAG_READ_ONLY) ctrl) in
       ctrls (V4L2Listener.ctrls r.1.1) !! idx = Some c /\
       (c_type ctrl <> menu ->
        v = PInt (V4L2Listener.ev_value event) /\ r.1.2 = [V4L2Listener.cb c])).
Proof.
  intros Hrev r flag. subst r. unfold V4L2Listener.handle_event. rewrite Hrev.
  split.
  - intros ->. reflexivity.
  - intros idx ctrl Hfind. rewrite Hfind. subst flag. cbv zeta.
    apply find_by_v4l2_id_lookup in Hfind.
    pose proof (lookup_lt_Some _ _ _ Hfind) as Hlt.
    set (ctrl1 := set_flags _ _ ctrl) in *.
    assert (Hty1 : c_type ctrl1 = c_type ctrl) by reflexivity.
    assert (Hmenu1 : c_menu ctrl1 = c_menu ctrl) by reflexivity.
    unfold set_ctrl_int_value. cbn [fd ctrls issued]. rewrite Hty1, Hmenu1.
    destruct (bool_decide_reflect (c_type ctrl = menu)) as [Hm | Hm]; cbn [negb].
    + destruct (find_by_value (c_menu ctrl) (PInt (V4L2Listener.ev_value event)))
        as [m |]; cbn [collect_warning app fst snd V4L2Listener.ctrls
                       V4L2Listener.fmt_ctrls fd ctrls issued].
      * rewrite list_insert_insert_eq, list_lookup_insert_eq by exact Hlt.
        cbn [fst snd V4L2Listener.ctrls V4L2Listener.fmt_ctrls fd ctrls issued length].
        repeat split.
        -- intros j Hj. now rewrite list_lookup_insert_ne by congruence.
        -- eexists. split; [rewrite list_lookup_insert_eq by exact Hlt; reflexivity |].
           intros Hn. contradiction.
      * repeat split.
        -- intros j Hj. now rewrite list_lookup_insert_ne by congruence.
        -- exists (c_value ctrl).
           split; [rewrite list_lookup_insert_eq by exact Hlt; reflexivity |].
           intros Hn. contradiction.
    + cbn [fst snd V4L2Listener.ctrls V4L2Listener.fmt_ctrls fd ctrls issued].
      rewrite list_insert_insert_eq, list_lookup_insert_eq by exact Hlt.
      cbn [fst snd V4L2Listener.ctrls V4L2Listener.fmt_ctrls fd ctrls issued length].
      repeat split.
      * intros j Hj. now rewrite list_lookup_insert_ne by congruence.
      * eexists. split; [rewrite list_lookup_insert_eq by exact Hlt; reflexivity |].
        intros _. split; reflexivity.
Qed.

End ListenerEvents.

Section ListenerEventsExamples.
Import V4L2Ctrls Sample Runs.

Lemma handle_event_updates_one_control_sample :
  (POLLPRI =? V4L2Listener.POLLNVAL) || (POLLPRI =? V4L2Listener.POLLERR) = false /\
  find_by_v4l2_id (V4L2Listener.ctrls sample_listener)
    (V4L2Listener.ev_id brightness_event) = Some (0%nat, brightness_ctrl) /\
  exists c,
    (V4L2Listener.handle_event sample_listener POLLPRI (Ok brightness_event)).1.2
      = [V4L2Listener.cb c] /\
    c_value c = PInt 77 /\ c_inactive c = true /\ c_readonly c = false.
Proof.
  assert (Hrev : (POLLPRI =? V4L2Listener.POLLNVAL) || (POLLPRI =? V4L2Listener.POLLERR)
                 = false) by reflexivity.
  assert (Hfind : find_by_v4l2_id (V4L2Listener.ctrls sample_listener)
                    (V4L2Listener.ev_id brightness_event) = Some (0%nat, brightness_ctrl))
    by (vm_compute; reflexivity).
  split; [exact Hrev |]. split; [exact Hfind |].
  destruct (handle_event_updates_one_control sample_listener POLLPRI brightness_event Hrev)
    as [_ Hsome].
  destruct (Hsome 0%nat brightness_ctrl Hfind) as (_ & _ & _ & _ & _ & _ & v & _ & Hint).
  destruct Hint as [-> Hcb]; [discriminate |].
  eexists. split; [exact Hcb |]. repeat split.
Defined.

End ListenerEventsExamples.

(** ** Which presets are offered *)

Section PresetIds.
Import Presets.
Context {D : Type} `{V4L2Ctrls.Device D}.

Lemma dict_set_old (d : params) (k : string) (v : pyval) :
  k ∈ d.*1 -> length (dict_set d k v) = length d /\ (dict_set d k v).*1 = d.*1.
Proof.
  induction d as [| [k' v'] rest IH]; [intros Hin; inversion Hin |].
  cbn [dict_set]. destruct (String.eqb_spec k' k) as [-> | Hne].
  - intros _. split; reflexivity.
  - intros Hin. cbn in Hin. apply elem_of_cons in Hin as [-> | Hin]; [congruence |].
    destruct (IH Hin) as [IHl IHk]. cbn. rewrite IHl, IHk. split; reflexivity.
Qed.

Lemma dict_set_new (d : params) (k : string) (v : pyval) :
  k ∉ d.*1 -> dict_set d k v = d ++ [(k, v)].
Proof.
  induction d as [| [k' v'] rest IH]; [reflexivity |].
  intros Hnot. cbn [dict_set]. destruct (String.eqb_spec k' k) as [-> | Hne].
  - exfalso. apply Hnot. cbn. left.
  - cbn. rewrite IH; [reflexivity |]. intros Hin. apply Hnot. cbn. now right.
Qed.

Lemma set_all_length (items : params) :
  forall d : params,
  NoDup d.*1 ->
  NoDup (set_all d items).*1 /\
  (length (set_all d items) <= length d + length items)%nat /\
  (length (set_all d items) = (length d + length items)%nat ->
   NoDup (d.*1 ++ items.*1)) /\
  (NoDup (d.*1 ++ items.*1) -> set_all d items = d ++ items).
Proof.
  induction items as [| [t v] rest IH]; intros d Hd.
  - cbn. rewrite !app_nil_r. repeat split; auto; lia.
  - cbn [set_all foldl fst snd]. fold (set_all (dict_set d t v) rest).
    destruct (decide (t ∈ d.*1)) as [Hin | Hnot].
    + destruct (dict_set_old d t v Hin) as [El Ek].
      assert (Hd' : NoDup (dict_set d t v).*1) by now rewrite Ek.
      destruct (IH _ Hd') as (I1 & I2 & _ & _). rewrite El in I2.
      cbn [length fmap list_fmap fst].
      split; [exact I1 |]. split; [lia |]. split; [lia |].
      intros Hnd. apply NoDup_app in Hnd as (_ & Hdis & _).
      exfalso. apply (Hdis t Hin). left.
    + rewrite (dict_set_new d t v Hnot) in *.
      assert (Hd' : NoDup (d ++ [(t, v)]).*1).
      { rewrite fmap_app. apply NoDup_app. split; [exact Hd |]. split.
        - intros x Hx Hy. cbn in Hy. apply list_elem_of_singleton in Hy as ->.
          contradiction.
        - apply NoDup_singleton. }
      destruct (IH _ Hd') as (I1 & I2 & I3 & I4).
      rewrite length_app in I2, I3. cbn [length] in I2, I3.
      rewrite fmap_app, <- app_assoc in I3, I4. cbn [length fmap list_fmap fst app] in *.
      split; [exact I1 |]. split; [lia |]. split.
      * intros E. apply I3. lia.
      * intros Hnd. rewrite (I4 Hnd), <- app_assoc. reflexivity.
Qed.

Lemma resolve_into_named (v4l_ctrls : V4L2Ctrls.t D) (preset : list (Z * pyval)) :
  forall ret, resolve_into ret v4l_ctrls preset = set_all ret (named v4l_ctrls preset).
Proof.
  induction preset as [| [k v] rest IH]; intros ret; [reflexivity |].
  cbn [resolve_into named omap list_omap fst snd].
  destruct (V4L2Ctrls.find_by_v4l2_id v4l_ctrls k) as [[i c] |]; cbn [fmap option_fmap option_map].
  - rewrite IH. reflexivity.
  - apply IH.
Qed.

Lemma named_length (v4l_ctrls : V4L2Ctrls.t D) (preset : list (Z * pyval)) :
  (length (named v4l_ctrls preset) <= length preset)%nat /\
  (length (named v4l_ctrls preset) = length preset <->
   forall k, k ∈ preset.*1 -> is_Some (V4L2Ctrls.find_by_v4l2_id v4l_ctrls k)).
Proof.
  induction preset as [| [k v] rest [IH1 IH2]].
  - split; [reflexivity |]. split; [intros _ k Hk; inversion Hk | reflexivity].
  - cbn [named omap list_omap fst snd]. fold (named v4l_ctrls rest).
    destruct (V4L2Ctrls.find_by_v4l2_id v4l_ctrls k) as [[i c] |] eqn:Hk;
      cbn [fmap option_fmap option_map length].
    + split; [lia |]. split.
      * intros E k' Hin. cbn in Hin. apply elem_of_cons in Hin as [-> | Hin].
        -- rewrite Hk. eauto.
        -- apply IH2; [lia | exact Hin].
      * intros Hall. f_equal. apply IH2. intros k' Hin. apply Hall. cbn. now right.
    + split; [lia |]. split; [lia |].
      intros Hall. destruct (Hall k) as [x Hx]; [cbn; left |]. congruence.
Qed.

(** X23. [resolve_v4l_ids] makes a batch of a preset, and the filter of
    the color presets keeps a preset exactly when the batch has as many
    items as the preset. That is the case exactly when every id of the
    preset is the id of a control and the controls found have different
    text ids; the batch is then the preset itself, item by item in its
    order, with the text id of the control in place of the id. An id
    that no control has is dropped without notice, and a text id that
    comes twice keeps its first place and takes the later value, so in
    these cases the batch is shorter and the preset is not offered. *)
Theorem offered_iff_all_ids_resolve (v4l_ctrls : V4L2Ctrls.t D)
    (preset : list (Z * pyval)) :
  NoDup (resolve_v4l_ids v4l_ctrls preset).*1 /\
  (length (resolve_v4l_ids v4l_ctrls preset) <= length preset)%nat /\
  (offered v4l_ctrls preset = true <->
   (forall k, k ∈ preset.*1 -> is_Some (V4L2Ctrls.find_by_v4l2_id v4l_ctrls k)) /\
   NoDup (named v4l_ctrls preset).*1) /\
  (offered v4l_ctrls preset = true ->
   resolve_v4l_ids v4l_ctrls preset = named v4l_ctrls preset /\
   length (named v4l_ctrls preset) = length preset).
Proof.
  unfold offered, resolve_v4l_ids. rewrite resolve_into_named.
  destruct (set_all_length (named v4l_ctrls preset) [] (NoDup_nil_2 (A := string)))
    as (H1 & H2 & H3 & H4).
  destruct (named_length v4l_ctrls preset) as [N1 N2].
  cbn [length Nat.add fmap list_fmap app] in *.
  split; [exact H1 |]. split; [lia |].
  assert (Hiff : length preset = length (set_all [] (named v4l_ctrls preset)) <->
                 (forall k, k ∈ preset.*1 ->
                            is_Some (V4L2Ctrls.find_by_v4l2_id v4l_ctrls k)) /\
                 NoDup (named v4l_ctrls preset).*1).
  { split.
    - intros E. split; [apply N2; lia | apply H3; lia].
    - intros [Hall Hnd]. rewrite (H4 Hnd). cbn [app]. symmetry. now apply N2. }
  split.
  - rewrite Nat.eqb_eq. exact Hiff.
  - rewrite Nat.eqb_eq. intros E. apply Hiff in E as [Hall Hnd].
    split; [exact (H4 Hnd) | now apply N2].
Qed.

End PresetIds.

(** ** Rounding to the nearest double

    What [binary_round_aux] gives for a fraction whose integer part has 53
    or more bits, in terms of [nearest_even_quot]. *)

Section Rounding.

Lemma shr_1_div2 (mrs : shr_record) :
  0 <= shr_m mrs ->
  shr_m (shr_1 mrs) = shr_m mrs / 2 /\
  shr_r (shr_1 mrs) = Z.odd (shr_m mrs) /\
  shr_s (shr_1 mrs) = shr_r mrs || shr_s mrs.
Proof.
  destruct mrs as [m r s]. cbn [shr_m shr_r shr_s]. intros Hm.
  destruct m as [| [p | p |] | p]; cbn [shr_1 shr_m shr_r shr_s]; [| | | | lia].
  - repeat split.
  - split; [| split; reflexivity].
    rewrite Pos2Z.inj_xI. apply (Z.div_unique_pos _ 2 _ 1); lia.
  - split; [| split; reflexivity].
    rewrite Pos2Z.inj_xO. apply (Z.div_unique_pos _ 2 _ 0); lia.
  - repeat split.
Qed.

Lemma loc_bits (mrs : shr_record) (r d : Z) :
  0 <= r < d ->
  loc_of_shr_record mrs = loc_of r d ->
  (shr_r mrs || shr_s mrs = negb (r =? 0)).
Proof.
  intros Hr. destruct mrs as [m [|] [|]]; cbn [loc_of_shr_record shr_r shr_s orb];
    unfold loc_of; destruct (Z.eqb_spec r 0); try discriminate; reflexivity.
Qed.

Lemma shr_1_describes (mrs : shr_record) (n d : Z) :
  0 <= n -> 0 < d -> describes mrs n d -> describes (shr_1 mrs) n (2 * d).
Proof.
  intros Hn Hd [Hm Hl].
  assert (Hq : 0 <= n / d) by (apply Z.div_pos; lia).
  assert (Hr : 0 <= n mod d < d) by (apply Z.mod_pos_bound; lia).
  destruct (shr_1_div2 mrs) as (H1 & H2 & H3); [lia |].
  pose proof (loc_bits mrs _ _ Hr Hl) as Hb.
  assert (Hdiv : n / (2 * d) = n / d / 2).
  { rewrite (Z.mul_comm 2 d). rewrite Z.div_div by lia. reflexivity. }
  assert (Hmod : n mod (2 * d) = (n / d mod 2) * d + n mod d).
  { rewrite (Z.mul_comm 2 d). rewrite Z.rem_mul_r by lia. ring. }
  split; [rewrite H1, Hm, Hdiv; reflexivity |].
  destruct (shr_1 mrs) as [m1 r1 s1]. cbn [shr_m shr_r shr_s loc_of_shr_record] in *.
  subst r1 s1. rewrite Hb. rewrite Hm. rewrite Hmod.
  rewrite Zmod_odd.
  unfold loc_of.
  destruct (Z.odd (n / d)); destruct (Z.eqb_spec (n mod d) 0) as [E | E]; cbn [negb].
  - rewrite E. replace (1 * d + 0 =? 0) with false by (symmetry; apply Z.eqb_neq; lia).
    f_equal. symmetry. apply Z.compare_eq_iff. lia.
  - replace (1 * d + n mod d =? 0) with false by (symmetry; apply Z.eqb_neq; lia).
    f_equal. symmetry. apply Z.compare_gt_iff. lia.
  - rewrite E. reflexivity.
  - replace (0 * d + n mod d =? 0) with false by (symmetry; apply Z.eqb_neq; lia).
    f_equal. symmetry. apply Z.compare_lt_iff. lia.
Qed.

Lemma iter_pos_describes (p : positive) :
  forall (mrs : shr_record) (n d : Z),
  0 <= n -> 0 < d -> describes mrs n d ->
  describes (SpecFloat.iter_pos shr_1 p mrs) n (d * 2 ^ Zpos p).
Proof.
  induction p as [p IH | p IH |]; intros mrs n d Hn Hd H; cbn [SpecFloat.iter_pos].
  - replace (d * 2 ^ Z.pos p~1) with (((2 * d) * 2 ^ Zpos p) * 2 ^ Zpos p).
    + apply IH; [lia | | apply IH; [lia | lia | now apply shr_1_describes]].
      apply Z.mul_pos_pos; [lia | apply Z.pow_pos_nonneg; lia].
    + rewrite (Pos2Z.inj_xI p), Z.pow_add_r, Z.pow_twice_r by lia. ring.
  - replace (d * 2 ^ Z.pos p~0) with ((d * 2 ^ Zpos p) * 2 ^ Zpos p).
    + apply IH; [lia | | apply IH; [lia | lia | exact H]].
      apply Z.mul_pos_pos; [lia | apply Z.pow_pos_nonneg; lia].
    + rewrite (Pos2Z.inj_xO p), Z.pow_twice_r. ring.
  - replace (d * 2 ^ 1) with (2 * d) by lia. now apply shr_1_describes.
Qed.

Lemma digits2_pos_bounds (p : positive) :
  2 ^ (Zpos (digits2_pos p) - 1) <= Zpos p < 2 ^ Zpos (digits2_pos p).
Proof.
  induction p as [p IH | p IH |]; cbn [digits2_pos].
  - rewrite Pos2Z.inj_succ, (Pos2Z.inj_xI p).
    replace (Z.succ (Z.pos (digits2_pos p)) - 1) with (Z.succ (Z.pos (digits2_pos p) - 1))
      by lia.
    rewrite !Z.pow_succ_r by lia. lia.
  - rewrite Pos2Z.inj_succ, (Pos2Z.inj_xO p).
    replace (Z.succ (Z.pos (digits2_pos p)) - 1) with (Z.succ (Z.pos (digits2_pos p) - 1))
      by lia.
    rewrite !Z.pow_succ_r by lia. lia.
  - cbn. lia.
Qed.

Lemma Zdigits2_unique (m n : Z) :
  2 ^ (n - 1) <= m < 2 ^ n -> 1 <= n -> Zdigits2 m = n.
Proof.
  intros Hm Hn.
  assert (0 < m) by (pose proof (Z.pow_pos_nonneg 2 (n - 1)); lia).
  destruct m as [| p |]; try lia. cbn [Zdigits2].
  pose proof (digits2_pos_bounds p) as Hp.
  set (j := Zpos (digits2_pos p)) in *.
  destruct (Z.lt_trichotomy j n) as [Hlt | [Heq | Hgt]]; [| exact Heq |].
  - assert (2 ^ j <= 2 ^ (n - 1)) by (apply Z.pow_le_mono_r; lia). lia.
  - assert (2 ^ n <= 2 ^ (j - 1)) by (apply Z.pow_le_mono_r; lia). lia.
Qed.

Lemma loc_of_shr_record_of_loc (m : Z) (l : location) :
  loc_of_shr_record (shr_record_of_loc m l) = l /\ shr_m (shr_record_of_loc m l) = m.
Proof. destruct l as [| []]; split; reflexivity. Qed.

Lemma round_describes (mrs : shr_record) (n d : Z) :
  0 <= n -> 0 < d -> describes mrs n d ->
  round_nearest_even (shr_m mrs) (loc_of_shr_record mrs) = nearest_even_quot n d.
Proof.
  intros Hn Hd [-> ->].
  pose proof (Z.mod_pos_bound n d Hd) as Hr.
  unfold loc_of, nearest_even_quot, round_nearest_even.
  destruct (Z.eqb_spec (n mod d) 0) as [E | E].
  - rewrite E. replace (2 * 0 <? d) with true by (symmetry; apply Z.ltb_lt; lia).
    reflexivity.
  - destruct (Z.compare_spec (2 * (n mod d)) d) as [C | C | C].
    + replace (2 * (n mod d) <? d) with false by (symmetry; apply Z.ltb_ge; lia).
      replace (d <? 2 * (n mod d)) with false by (symmetry; apply Z.ltb_ge; lia).
      reflexivity.
    + replace (2 * (n mod d) <? d) with true by (symmetry; apply Z.ltb_lt; lia).
      reflexivity.
    + replace (2 * (n mod d) <? d) with false by (symmetry; apply Z.ltb_ge; lia).
      replace (d <? 2 * (n mod d)) with true by (symmetry; apply Z.ltb_lt; lia).
      reflexivity.
Qed.

Lemma nearest_even_quot_bounds (a b : Z) :
  a / b <= nearest_even_quot a b <= a / b + 1.
Proof.
  unfold nearest_even_quot.
  destruct (_ <? _); [lia |]. destruct (_ <? _); [lia |]. destruct (Z.even _); lia.
Qed.

Lemma shr_describes (mrs : shr_record) (e n N D : Z) :
  0 <= N -> 0 < D -> 0 <= n -> describes mrs N D ->
  describes (shr mrs e n).1 N (D * 2 ^ n) /\ (shr mrs e n).2 = e + n.
Proof.
  intros HN HD Hn H. destruct n as [| p |]; [| | lia]; cbn [shr fst snd].
  - rewrite Z.mul_1_r. split; [exact H | lia].
  - split; [now apply iter_pos_describes | reflexivity].
Qed.

Lemma fexp_normal (x : Z) : -1074 <= x - 53 -> fexp prec emax x = x - 53.
Proof. intros Hx. unfold fexp, emin, prec, emax. lia. Qed.

Lemma binary_round_aux_spec (s : bool) (m e : Z) (l : location) (N D n : Z) :
  0 < D -> 0 <= N -> m = N / D -> l = loc_of (N mod D) D ->
  0 <= n -> 2 ^ (52 + n) <= m < 2 ^ (53 + n) ->
  -1074 <= e + n -> e + n + 1 <= 971 ->
  binary_round_aux prec emax s m e l
  = if nearest_even_quot N (D * 2 ^ n) <? 2 ^ 53
    then S754_finite s (Z.to_pos (nearest_even_quot N (D * 2 ^ n))) (e + n)
    else S754_finite s (Z.to_pos (2 ^ 52)) (e + n + 1).
Proof.
  intros HD HN Hm Hl Hn Hbits Hlo Hhi.
  unfold binary_round_aux, shr_fexp.
  rewrite (Zdigits2_unique m (53 + n)) by (replace (53 + n - 1) with (52 + n) by lia; lia).
  rewrite fexp_normal by lia.
  replace (53 + n + e - 53 - e) with n by lia.
  assert (Hdesc : describes (shr_record_of_loc m l) N D).
  { destruct (loc_of_shr_record_of_loc m l) as [H1 H2]. split; congruence. }
  destruct (shr_describes _ e n N D HN HD Hn Hdesc) as [Hd1 He1].
  destruct (shr (shr_record_of_loc m l) e n) as [mrs1 e1]. cbn [fst snd] in *. subst e1.
  assert (HD' : 0 < D * 2 ^ n)
    by (apply Z.mul_pos_pos; [lia | apply Z.pow_pos_nonneg; lia]).
  rewrite (round_describes mrs1 N (D * 2 ^ n) HN HD' Hd1).
  pose proof (nearest_even_quot_bounds N (D * 2 ^ n)) as HM.
  assert (Hq : N / (D * 2 ^ n) = m / 2 ^ n).
  { rewrite Hm. rewrite Z.div_div by (try apply Z.pow_pos_nonneg; lia). reflexivity. }
  assert (Hqb : 2 ^ 52 <= m / 2 ^ n < 2 ^ 53).
  { pose proof (Z.pow_pos_nonneg 2 n ltac:(lia) Hn) as Hp.
    rewrite !Z.pow_add_r in Hbits by lia. split.
    - apply Z.div_le_lower_bound; lia.
    - apply Z.div_lt_upper_bound; lia. }
  rewrite Hq in HM.
  set (M := nearest_even_quot N (D * 2 ^ n)) in *.
  destruct (Z.ltb_spec M (2 ^ 53)) as [Hlt | Hge].
  - rewrite (Zdigits2_unique M 53) by lia.
    rewrite fexp_normal by lia.
    replace (53 + (e + n) - 53 - (e + n)) with 0 by lia.
    cbn [shr shr_record_of_loc shr_m].
    destruct M as [| p |]; [lia | | lia].
    replace (e + n <=? emax - prec) with true
      by (symmetry; apply Z.leb_le; unfold emax, prec; lia).
    reflexivity.
  - assert (HM53 : M = 2 ^ 53) by lia. rewrite HM53.
    rewrite (Zdigits2_unique (2 ^ 53) 54) by lia.
    rewrite fexp_normal by lia.
    replace (54 + (e + n) - 53 - (e + n)) with 1 by lia.
    cbn [shr shr_record_of_loc SpecFloat.iter_pos]. 
    change (shr_m (shr_1 {| shr_m := 2 ^ 53; shr_r := false; shr_s := false |}))
      with (2 ^ 52).
    change (2 ^ 52) with (Zpos (Z.to_pos (2 ^ 52))) at 1. cbv iota.
    replace (e + n + 1 <=? emax - prec) with true
      by (symmetry; apply Z.leb_le; unfold emax, prec; lia).
    reflexivity.
Qed.

Lemma nearest_even_quot_error (a b : Z) : 0 < b -> 2 * Z.abs (b * nearest_even_quot a b - a) <= b.
Proof.
  intros Hb. unfold nearest_even_quot.
  pose proof (Z.div_mod a b ltac:(lia)) as E.
  pose proof (Z.mod_pos_bound a b Hb) as Hr.
  destruct (Z.ltb_spec (2 * (a mod b)) b); [lia |].
  destruct (Z.ltb_spec b (2 * (a mod b))); [lia |].
  destruct (Z.even _); lia.
Qed.

Lemma nearest_even_quot_unique (a b c : Z) :
  0 < b ->
  2 * Z.abs (a - c * b) < b \/ (2 * Z.abs (a - c * b) = b /\ Z.even c = true) ->
  nearest_even_quot a b = c.
Proof.
  intros Hb Hc. unfold nearest_even_quot.
  destruct (Z.le_gt_cases 0 (a - c * b)) as [Hpos | Hneg].
  - assert (Hq : a / b = c) by (symmetry; apply (Z.div_unique_pos a b c (a - c * b)); lia).
    assert (Hr : a mod b = a - c * b)
      by (symmetry; apply (Z.mod_unique_pos a b c (a - c * b)); lia).
    rewrite Hq, Hr.
    destruct (Z.ltb_spec (2 * (a - c * b)) b); [reflexivity |].
    destruct (Z.ltb_spec b (2 * (a - c * b))); [lia |].
    destruct Hc as [Hc | [_ ->]]; [lia | reflexivity].
  - assert (Hq : a / b = c - 1)
      by (symmetry; apply (Z.div_unique_pos a b (c - 1) (a - c * b + b)); lia).
    assert (Hr : a mod b = a - c * b + b)
      by (symmetry; apply (Z.mod_unique_pos a b (c - 1) (a - c * b + b)); lia).
    rewrite Hq, Hr.
    destruct (Z.ltb_spec (2 * (a - c * b + b)) b); [lia |].
    destruct (Z.ltb_spec b (2 * (a - c * b + b))); [lia |].
    destruct Hc as [Hc | [_ Hev]]; [lia |].
    replace (Z.even (c - 1)) with false; [lia |].
    rewrite Z.even_sub, Hev. reflexivity.
Qed.

Lemma div_eucl_pair (a b : Z) : Z.div_eucl a b = (a / b, a mod b).
Proof. unfold Z.div, Z.modulo. destruct (Z.div_eucl a b). reflexivity. Qed.

End Rounding.

(** ** A number of tenths, read by [float] and multiplied by ten

    For [t] below [2 ^ 48], with [j] binary digits: the double nearest to
    [t / 10], multiplied by the double 10, is [t] exactly. *)

Section Tenths.
Import V4L2FmtCtrls.
Variable t : positive.
Let j := Zpos (digits2_pos t).
Hypothesis Hj : j <= 48.
Let u := 2 ^ (48 - j).
Let w := Zpos t * u.

Lemma scale_pos : 0 < u.
Proof. apply Z.pow_pos_nonneg; lia. Qed.

Lemma scaled_bounds : 2 ^ 47 <= w < 2 ^ 48.
Proof.
  pose proof (digits2_pos_bounds t) as Hb. fold j in Hb.
  pose proof scale_pos as Hu. unfold w.
  assert (E1 : 2 ^ 47 = 2 ^ (j - 1) * u).
  { unfold u. rewrite <- Z.pow_add_r by lia. f_equal. lia. }
  assert (E2 : 2 ^ 48 = 2 ^ j * u).
  { unfold u. rewrite <- Z.pow_add_r by lia. f_equal. lia. }
  rewrite E1, E2. split.
  - apply Z.mul_le_mono_nonneg_r; lia.
  - apply Z.mul_lt_mono_pos_r; lia.
Qed.

Lemma scaled_shift (k : Z) : 0 <= k -> Zpos t * 2 ^ (48 - j + k) = w * 2 ^ k.
Proof. intros Hk. unfold w, u. rewrite Z.pow_add_r by lia. ring. Qed.

(** [t / 10] *)
Lemma fdiv_ten :
  fdiv (S754_finite false t 0) (S754_finite false 10 0)
  = if 512 * w <? 10 * 2 ^ 53
    then S754_finite false (Z.to_pos (nearest_even_quot (512 * w) 10)) (j - 57)
    else S754_finite false (Z.to_pos (nearest_even_quot (512 * w) 20)) (j - 56).
Proof.
  pose proof scaled_bounds as Hw.
  unfold fdiv, SFdiv, SFdiv_core_binary. cbn [Zdigits2 xorb].
  change (Z.pos (digits2_pos t)) with j.
  change (Z.pos (digits2_pos 10)) with 4.
  rewrite fexp_normal by lia.
  replace (Z.min (j + 0 - (4 + 0) - 53) (0 - 0)) with (j - 57) by lia.
  replace (0 - 0 - (j - 57)) with (57 - j) by lia.
  destruct (57 - j) as [| s |] eqn:Hs; [lia | | lia].
  rewrite <- Hs. rewrite Z.shiftl_mul_pow2 by lia.
  replace (57 - j) with (48 - j + 9) by lia. rewrite scaled_shift by lia.
  change (2 ^ 9) with 512. rewrite (Z.mul_comm w 512).
  rewrite div_eucl_pair.
  assert (Hloc : new_location 10 (512 * w mod 10) = loc_of (512 * w mod 10) 10)
    by reflexivity.
  rewrite Hloc.
  destruct (Z.ltb_spec (512 * w) (10 * 2 ^ 53)) as [Hlt | Hge].
  - rewrite (binary_round_aux_spec false _ (j - 57) _ (512 * w) 10 0);
      [| lia | lia | reflexivity | reflexivity | lia | | lia | lia].
    + change (10 * 2 ^ 0) with 10.
      pose proof (nearest_even_quot_error (512 * w) 10 ltac:(lia)) as He.
      replace (nearest_even_quot (512 * w) 10 <? 2 ^ 53) with true by (symmetry; apply Z.ltb_lt; lia).
      replace (j - 57 + 0) with (j - 57) by lia. reflexivity.
    + change (2 ^ (52 + 0)) with (2 ^ 52). change (2 ^ (53 + 0)) with (2 ^ 53).
      Z.div_mod_to_equations. lia.
  - rewrite (binary_round_aux_spec false _ (j - 57) _ (512 * w) 10 1);
      [| lia | lia | reflexivity | reflexivity | lia | | lia | lia].
    + change (10 * 2 ^ 1) with 20.
      pose proof (nearest_even_quot_error (512 * w) 20 ltac:(lia)) as He.
      replace (nearest_even_quot (512 * w) 20 <? 2 ^ 53) with true by (symmetry; apply Z.ltb_lt; lia).
      replace (j - 57 + 1) with (j - 56) by lia. reflexivity.
    + change (2 ^ (52 + 1)) with (2 ^ 53). change (2 ^ (53 + 1)) with (2 ^ 54).
      Z.div_mod_to_equations. lia.
Qed.


Lemma ten_eq : ten = S754_finite false 5629499534213120 (-49).
Proof. vm_compute. reflexivity. Qed.

Lemma fmul_ten (M e n : Z) :
  2 ^ 52 <= M < 2 ^ 53 -> 0 <= n ->
  2 ^ (52 + n) <= M * 5629499534213120 < 2 ^ (53 + n) ->
  -1074 <= e - 49 + n -> e - 49 + n + 1 <= 971 ->
  fmul (S754_finite false (Z.to_pos M) e) ten
  = if nearest_even_quot (M * 5629499534213120) (2 ^ n) <? 2 ^ 53
    then S754_finite false (Z.to_pos (nearest_even_quot (M * 5629499534213120) (2 ^ n))) (e - 49 + n)
    else S754_finite false (Z.to_pos (2 ^ 52)) (e - 49 + n + 1).
Proof.
  intros HM Hn Hbits Hlo Hhi. rewrite ten_eq. unfold fmul, SFmul. cbn [xorb].
  rewrite Pos2Z.inj_mul, Z2Pos.id by lia.
  rewrite (binary_round_aux_spec false _ (e + -49) _ (M * 5629499534213120) 1 n);
    [| lia | lia | now rewrite Z.div_1_r | now rewrite Z.mod_1_r | lia | exact Hbits
     | lia | lia].
  rewrite Z.mul_1_l. replace (e + -49 + n) with (e - 49 + n) by lia. reflexivity.
Qed.

Lemma tenths_times_ten :
  fmul (fdiv (S754_finite false t 0) (S754_finite false 10 0)) ten
  = S754_finite false (Z.to_pos (32 * w)) (j - 53).
Proof.
  pose proof scaled_bounds as Hw. rewrite fdiv_ten.
  destruct (Z.ltb_spec (512 * w) (10 * 2 ^ 53)) as [Hlt | Hge].
  - pose proof (nearest_even_quot_error (512 * w) 10 ltac:(lia)) as He.
    set (M := nearest_even_quot (512 * w) 10) in *.
    rewrite (fmul_ten M (j - 57) 53); [| lia | lia | lia | lia | lia].
    assert (HM2 : nearest_even_quot (M * 5629499534213120) (2 ^ 53) = 32 * w)
      by (apply nearest_even_quot_unique; lia).
    rewrite HM2.
    replace (32 * w <? 2 ^ 53) with true by (symmetry; apply Z.ltb_lt; lia).
    f_equal. lia.
  - pose proof (nearest_even_quot_error (512 * w) 20 ltac:(lia)) as He.
    set (M := nearest_even_quot (512 * w) 20) in *.
    rewrite (fmul_ten M (j - 56) 52); [| lia | lia | lia | lia | lia].
    assert (HM2 : nearest_even_quot (M * 5629499534213120) (2 ^ 52) = 32 * w).
    { apply nearest_even_quot_unique; [lia |].
      assert (Hev : Z.even (32 * w) = true) by (rewrite Z.even_mul; reflexivity).
      rewrite Hev.
      destruct (Z.eq_dec (Z.abs (20 * M - 512 * w)) 8); [right | left]; lia. }
    rewrite HM2.
    replace (32 * w <? 2 ^ 53) with true by (symmetry; apply Z.ltb_lt; lia).
    f_equal. lia.
Qed.

Lemma scale_53 : 2 ^ (53 - j) = 32 * u.
Proof.
  unfold u. replace (53 - j) with (5 + (48 - j)) by lia.
  rewrite Z.pow_add_r by lia. reflexivity.
Qed.

Lemma tenths_truncated :
  py_trunc (fmul (float_of_quot false (Zpos t) 10) ten) = Ok (Zpos t) /\
  py_round (fmul (float_of_quot false (Zpos t) 10) ten) = Ok (Zpos t).
Proof.
  pose proof scaled_bounds as Hw. pose proof scale_pos as Hu.
  unfold float_of_quot. rewrite tenths_times_ten.
  unfold py_trunc, py_round, signed, int_part, nearest_even.
  rewrite Z2Pos.id by lia.
  replace (0 <=? j - 53) with false by (symmetry; apply Z.leb_gt; lia).
  replace (- (j - 53)) with (53 - j) by lia. rewrite scale_53.
  assert (E : 32 * w = Zpos t * (32 * u)) by (unfold w; ring).
  rewrite E, Z.div_mul, Z.mod_mul by lia.
  replace (2 * 0 <? 32 * u) with true by (symmetry; apply Z.ltb_lt; lia).
  split; reflexivity.
Qed.


(** [t / 1] *)
Lemma fdiv_one :
  fdiv (S754_finite false t 0) (S754_finite false 1 0)
  = S754_finite false (Z.to_pos (32 * w)) (j - 53).
Proof.
  pose proof scaled_bounds as Hw.
  unfold fdiv, SFdiv, SFdiv_core_binary. cbn [Zdigits2 xorb].
  change (Z.pos (digits2_pos t)) with j.
  change (Z.pos (digits2_pos 1)) with 1.
  rewrite fexp_normal by lia.
  replace (Z.min (j + 0 - (1 + 0) - 53) (0 - 0)) with (j - 54) by lia.
  replace (0 - 0 - (j - 54)) with (54 - j) by lia.
  destruct (54 - j) as [| s |] eqn:Hs; [lia | | lia].
  rewrite <- Hs. rewrite Z.shiftl_mul_pow2 by lia.
  replace (54 - j) with (48 - j + 6) by lia. rewrite scaled_shift by lia.
  change (2 ^ 6) with 64. rewrite (Z.mul_comm w 64).
  rewrite div_eucl_pair, Z.div_1_r, Z.mod_1_r.
  change (new_location 1 0) with (loc_of 0 1).
  rewrite (binary_round_aux_spec false _ (j - 54) _ (64 * w) 1 1);
    [| lia | lia | now rewrite Z.div_1_r | now rewrite Z.mod_1_r | lia | | lia | lia].
  - change (1 * 2 ^ 1) with 2.
    assert (HM : nearest_even_quot (64 * w) 2 = 32 * w) by (apply nearest_even_quot_unique; lia).
    rewrite HM.
    replace (32 * w <? 2 ^ 53) with true by (symmetry; apply Z.ltb_lt; lia).
    f_equal. lia.
  - change (2 ^ (52 + 1)) with (2 ^ 53). change (2 ^ (53 + 1)) with (2 ^ 54). lia.
Qed.

Lemma whole_times_ten :
  fmul (fdiv (S754_finite false t 0) (S754_finite false 1 0)) ten
  = if 320 * w <? 2 ^ 56
    then S754_finite false (Z.to_pos (40 * w)) (j - 50)
    else S754_finite false (Z.to_pos (20 * w)) (j - 49).
Proof.
  pose proof scaled_bounds as Hw. rewrite fdiv_one.
  destruct (Z.ltb_spec (320 * w) (2 ^ 56)) as [Hlt | Hge].
  - rewrite (fmul_ten (32 * w) (j - 53) 52); [| lia | lia | lia | lia | lia].
    assert (HM2 : nearest_even_quot (32 * w * 5629499534213120) (2 ^ 52) = 40 * w)
      by (apply nearest_even_quot_unique; lia).
    rewrite HM2.
    replace (40 * w <? 2 ^ 53) with true by (symmetry; apply Z.ltb_lt; lia).
    f_equal. lia.
  - rewrite (fmul_ten (32 * w) (j - 53) 53); [| lia | lia | lia | lia | lia].
    assert (HM2 : nearest_even_quot (32 * w * 5629499534213120) (2 ^ 53) = 20 * w)
      by (apply nearest_even_quot_unique; lia).
    rewrite HM2.
    replace (20 * w <? 2 ^ 53) with true by (symmetry; apply Z.ltb_lt; lia).
    f_equal. lia.
Qed.

Lemma whole_truncated :
  py_trunc (fmul (float_of_quot false (Zpos t) 1) ten) = Ok (10 * Zpos t) /\
  py_round (fmul (float_of_quot false (Zpos t) 1) ten) = Ok (10 * Zpos t).
Proof.
  pose proof scaled_bounds as Hw. pose proof scale_pos as Hu.
  unfold float_of_quot. rewrite whole_times_ten.
  assert (E50 : 2 ^ (50 - j) = 4 * u).
  { unfold u. replace (50 - j) with (2 + (48 - j)) by lia.
    rewrite Z.pow_add_r by lia. reflexivity. }
  assert (E49 : 2 ^ (49 - j) = 2 * u).
  { unfold u. replace (49 - j) with (1 + (48 - j)) by lia.
    rewrite Z.pow_add_r by lia. reflexivity. }
  destruct (320 * w <? 2 ^ 56);
    unfold py_trunc, py_round, signed, int_part, nearest_even;
    rewrite Z2Pos.id by lia.
  - replace (0 <=? j - 50) with false by (symmetry; apply Z.leb_gt; lia).
    replace (- (j - 50)) with (50 - j) by lia. rewrite E50.
    assert (E : 40 * w = 10 * Zpos t * (4 * u)) by (unfold w; ring).
    rewrite E, Z.div_mul, Z.mod_mul by lia.
    replace (2 * 0 <? 4 * u) with true by (symmetry; apply Z.ltb_lt; lia).
    split; reflexivity.
  - replace (0 <=? j - 49) with false by (symmetry; apply Z.leb_gt; lia).
    replace (- (j - 49)) with (49 - j) by lia. rewrite E49.
    assert (E : 20 * w = 10 * Zpos t * (2 * u)) by (unfold w; ring).
    rewrite E, Z.div_mul, Z.mod_mul by lia.
    replace (2 * 0 <? 2 * u) with true by (symmetry; apply Z.ltb_lt; lia).
    split; reflexivity.
Qed.

End Tenths.

(** ** What [float] reads in a decimal with one digit after the point *)

Section TenthsStrings.
Import V4L2FmtCtrls.

Ltac step_append :=
  match goal with
  | |- context [(String ?a ?s +:+ ?r)%string] =>
      change (String a s +:+ r)%string with (String a (s +:+ r)%string)
  end.

Lemma digits_of_false_string_of_uint (d : uint) :
  d <> Nil ->
  digits_of false (NilEmpty.string_of_uint d) = Some (NilEmpty.string_of_uint d).
Proof.
  intros Hd. destruct d; [congruence | ..];
    (cbn [NilEmpty.string_of_uint digits_of];
     rewrite digits_of_string_of_uint; reflexivity).
Qed.

Lemma optional_digits_string_of_uint (d : uint) :
  optional_digits (NilEmpty.string_of_uint d) = Some (NilEmpty.string_of_uint d).
Proof.
  destruct d; [reflexivity | ..];
    (unfold optional_digits; cbn [NilEmpty.string_of_uint];
     cbn [digits_of]; rewrite digits_of_string_of_uint; reflexivity).
Qed.

Lemma replace_dot0_digits (d : uint) (rest : string) :
  replace_dot0 (NilEmpty.string_of_uint d +:+ rest)
  = (NilEmpty.string_of_uint d +:+ replace_dot0 rest)%string.
Proof.
  induction d; cbn [NilEmpty.string_of_uint]; [reflexivity | ..];
    (repeat step_append; cbn [replace_dot0]; rewrite IHd; reflexivity).
Qed.

Lemma split_dot_digits (d : uint) :
  split "." (NilEmpty.string_of_uint d) = [NilEmpty.string_of_uint d].
Proof.
  induction d; cbn [NilEmpty.string_of_uint split]; [reflexivity | ..];
    (rewrite IHd; reflexivity).
Qed.

Lemma split_dot_point (d : uint) (s : string) :
  split "." (NilEmpty.string_of_uint d +:+ String "." s)
  = NilEmpty.string_of_uint d :: split "." s.
Proof.
  induction d; [reflexivity | ..].
  all: cbn [NilEmpty.string_of_uint]; step_append; cbn [split]; rewrite IHd; reflexivity.
Qed.

Lemma split_exponent_digits (d : uint) :
  split_exponent (NilEmpty.string_of_uint d) = (NilEmpty.string_of_uint d, None).
Proof.
  induction d; cbn [NilEmpty.string_of_uint split_exponent]; [reflexivity | ..];
    (rewrite IHd; reflexivity).
Qed.

Lemma split_exponent_point (d f : uint) :
  split_exponent (NilEmpty.string_of_uint d +:+ String "." (NilEmpty.string_of_uint f))
  = ((NilEmpty.string_of_uint d +:+ String "." (NilEmpty.string_of_uint f))%string, None).
Proof.
  induction d; cbn [NilEmpty.string_of_uint].
  - change (EmptyString +:+ ?s)%string with s. cbn [split_exponent].
    rewrite split_exponent_digits. reflexivity.
  - step_append. cbn [split_exponent]. rewrite IHd. reflexivity.
  - step_append. cbn [split_exponent]. rewrite IHd. reflexivity.
  - step_append. cbn [split_exponent]. rewrite IHd. reflexivity.
  - step_append. cbn [split_exponent]. rewrite IHd. reflexivity.
  - step_append. cbn [split_exponent]. rewrite IHd. reflexivity.
  - step_append. cbn [split_exponent]. rewrite IHd. reflexivity.
  - step_append. cbn [split_exponent]. rewrite IHd. reflexivity.
  - step_append. cbn [split_exponent]. rewrite IHd. reflexivity.
  - step_append. cbn [split_exponent]. rewrite IHd. reflexivity.
  - step_append. cbn [split_exponent]. rewrite IHd. reflexivity.
Qed.

Lemma rstrip_point (text : bool) (d f : uint) :
  rstrip (is_space text) (NilEmpty.string_of_uint d +:+ String "." (NilEmpty.string_of_uint f))
  = (NilEmpty.string_of_uint d +:+ String "." (NilEmpty.string_of_uint f))%string.
Proof.
  assert (Hbase : rstrip (is_space text) (String "." (NilEmpty.string_of_uint f))
                  = String "." (NilEmpty.string_of_uint f)).
  { cbn [rstrip]. rewrite rstrip_string_of_uint.
    destruct (NilEmpty.string_of_uint f); [destruct text |]; reflexivity. }
  induction d; cbn [NilEmpty.string_of_uint]; [exact Hbase | ..];
    (step_append; cbn [rstrip]; rewrite IHd;
     destruct (NilEmpty.string_of_uint d +:+ String "." (NilEmpty.string_of_uint f))%string;
     [destruct text |]; reflexivity).
Qed.

Lemma float_of_str_whole (d : uint) :
  d <> Nil ->
  float_of_str (NilEmpty.string_of_uint d)
  = Ok (float_of_quot false (Z.of_N (N.of_uint d)) 1).
Proof.
  intros Hd. unfold float_of_str, float_of_text.
  rewrite strip_string_of_uint, split_sign_string_of_uint. unfold float_of_unsigned.
  assert (Hl : String.eqb (lower (NilEmpty.string_of_uint d)) "inf"
               || String.eqb (lower (NilEmpty.string_of_uint d)) "infinity" = false)
    by (destruct d; [congruence | reflexivity ..]).
  assert (Hn : String.eqb (lower (NilEmpty.string_of_uint d)) "nan" = false)
    by (destruct d; [congruence | reflexivity ..]).
  rewrite Hl, Hn, split_exponent_digits.
  unfold parse_mantissa. rewrite split_dot_digits, (parse_digits_string_of_uint d Hd).
  cbn [parse_exponent]. unfold scale10. cbn [Z.sub Z.opp Z.add Z.leb Z.compare].
  rewrite Z.pow_0_r, Z.mul_1_r. reflexivity.
Qed.

Lemma float_of_str_point (d f : uint) :
  d <> Nil -> f <> Nil ->
  float_of_str (NilEmpty.string_of_uint d +:+ String "." (NilEmpty.string_of_uint f))
  = Ok (scale10 false
          (Z.of_N (N.of_uint d) * 10 ^ Z.of_nat (String.length (NilEmpty.string_of_uint f))
           + Z.of_N (N.of_uint f))
          (0 - Z.of_nat (String.length (NilEmpty.string_of_uint f)))).
Proof.
  intros Hd Hf. unfold float_of_str, float_of_text, strip.
  assert (Hls : lstrip (is_space true)
                  (NilEmpty.string_of_uint d +:+ String "." (NilEmpty.string_of_uint f))
                = (NilEmpty.string_of_uint d +:+ String "." (NilEmpty.string_of_uint f))%string)
    by (destruct d; [congruence | reflexivity ..]).
  rewrite Hls, rstrip_point.
  assert (Hsg : split_sign
                  (NilEmpty.string_of_uint d +:+ String "." (NilEmpty.string_of_uint f))
                = (false, (NilEmpty.string_of_uint d
                           +:+ String "." (NilEmpty.string_of_uint f))%string))
    by (destruct d; [congruence | reflexivity ..]).
  rewrite Hsg. unfold float_of_unsigned.
  assert (Hl : String.eqb (lower (NilEmpty.string_of_uint d
                                  +:+ String "." (NilEmpty.string_of_uint f))) "inf"
               || String.eqb (lower (NilEmpty.string_of_uint d
                                     +:+ String "." (NilEmpty.string_of_uint f))) "infinity"
               = false)
    by (destruct d; [congruence | reflexivity ..]).
  assert (Hn : String.eqb (lower (NilEmpty.string_of_uint d
                                  +:+ String "." (NilEmpty.string_of_uint f))) "nan" = false)
    by (destruct d; [congruence | reflexivity ..]).
  rewrite Hl, Hn, split_exponent_point.
  unfold parse_mantissa. rewrite split_dot_point, split_dot_digits.
  rewrite !optional_digits_string_of_uint, !number_of_string_of_uint.
  assert (Hne : exists a r, (NilEmpty.string_of_uint d +:+ NilEmpty.string_of_uint f)%string
                            = String a r)
    by (destruct d; [congruence | ..]; eexists _, _; reflexivity).
  destruct Hne as (a & r & ->).
  cbn [parse_exponent]. reflexivity.
Qed.

End TenthsStrings.

Section TenthsDenominators.
Import V4L2FmtCtrls.

Lemma append_empty (s : string) : (s +:+ EmptyString)%string = s.
Proof.
  induction s as [| a s IH]; [reflexivity |].
  change (String a s +:+ EmptyString)%string with (String a (s +:+ EmptyString)%string).
  now rewrite IH.
Qed.

Lemma str_of_Z_digit (f : Z) :
  0 <= f <= 9 ->
  exists d, d <> Nil /\ str_of_Z f = NilEmpty.string_of_uint d /\
            Z.of_N (N.of_uint d) = f /\
            String.length (NilEmpty.string_of_uint d) = 1%nat /\
            replace_dot0 (String "." (NilEmpty.string_of_uint d))
            = if f =? 0 then EmptyString else String "." (NilEmpty.string_of_uint d).
Proof.
  intros Hf.
  assert (Hcases : f = 0 \/ f = 1 \/ f = 2 \/ f = 3 \/ f = 4 \/ f = 5 \/ f = 6 \/ f = 7
                   \/ f = 8 \/ f = 9) by lia.
  destruct Hcases as [-> | [-> | [-> | [-> | [-> | [-> | [-> | [-> | [-> | ->]]]]]]]]].
  - exists (D0 Nil). repeat split. discriminate.
  - exists (D1 Nil). repeat split. discriminate.
  - exists (D2 Nil). repeat split. discriminate.
  - exists (D3 Nil). repeat split. discriminate.
  - exists (D4 Nil). repeat split. discriminate.
  - exists (D5 Nil). repeat split. discriminate.
  - exists (D6 Nil). repeat split. discriminate.
  - exists (D7 Nil). repeat split. discriminate.
  - exists (D8 Nil). repeat split. discriminate.
  - exists (D9 Nil). repeat split. discriminate.
Qed.

Lemma py_float_tenths (t : Z) :
  0 <= t ->
  py_float (PStr (tenths_str t))
  = Ok (if t mod 10 =? 0 then float_of_quot false (t / 10) 1
        else float_of_quot false t 10).
Proof.
  intros Ht.
  assert (Hi : 0 <= t / 10) by (apply Z.div_pos; lia).
  assert (Hf : 0 <= t mod 10 <= 9) by (pose proof (Z.mod_pos_bound t 10); lia).
  destruct (str_of_Z_nonneg (t / 10) Hi) as (d & Hd & Ed & Vd).
  destruct (str_of_Z_digit (t mod 10) Hf) as (f & Hfn & Ef & Vf & Lf & Rf).
  unfold tenths_str, py_float. rewrite Ed, Ef.
  change ("." +:+ NilEmpty.string_of_uint f)%string
    with (String "." (NilEmpty.string_of_uint f)).
  rewrite replace_dot0_digits, Rf.
  destruct (Z.eqb_spec (t mod 10) 0) as [E0 | E0].
  - rewrite append_empty, (float_of_str_whole d Hd), Vd. reflexivity.
  - rewrite (float_of_str_point d f Hd Hfn), Lf, Vd, Vf.
    unfold scale10. change (Z.of_nat 1) with 1.
    change (0 <=? 0 - 1) with false. cbv iota.
    change (Z.to_pos (10 ^ (- (0 - 1)))) with 10%positive.
    replace (t / 10 * 10 ^ 1 + t mod 10) with t; [reflexivity |].
    change (10 ^ 1) with 10. pose proof (Z.div_mod t 10). lia.
Qed.

Lemma digits2_pos_le (p : positive) (k : Z) :
  0 <= k -> Zpos p < 2 ^ k -> Zpos (digits2_pos p) <= k.
Proof.
  intros Hk Hp. pose proof (digits2_pos_bounds p) as Hb.
  destruct (Z.le_gt_cases (Zpos (digits2_pos p)) k) as [|Hgt]; [assumption |].
  assert (2 ^ k <= 2 ^ (Zpos (digits2_pos p) - 1)) by (apply Z.pow_le_mono_r; lia). lia.
Qed.

Lemma tenths_denominators (t : Z) :
  0 <= t < 2 ^ 48 ->
  truncated_denominator (PStr (tenths_str t)) = Ok t /\
  rounded_denominator (PStr (tenths_str t)) = Ok t.
Proof.
  intros Ht. unfold truncated_denominator, rounded_denominator.
  rewrite py_float_tenths by lia. cbn [mbind res_bind Py.bind].
  destruct (Z.eqb_spec (t mod 10) 0) as [E0 | E0].
  - assert (Et : t = 10 * (t / 10)) by (pose proof (Z.div_mod t 10); lia).
    destruct (t / 10) as [| p |] eqn:Ei.
    + rewrite Et. split; vm_compute; reflexivity.
    + rewrite Et. apply whole_truncated. apply digits2_pos_le; lia.
    + pose proof (Z.div_pos t 10). lia.
  - destruct t as [| p |]; [now rewrite Z.mod_0_l in E0 | | lia].
    apply tenths_truncated. apply digits2_pos_le; lia.
Qed.

End TenthsDenominators.

(** ** The frame rates [dn2str] spells *)

Section Quotients.
Import V4L2FmtCtrls.

Lemma new_location_loc_of (n r : Z) :
  0 < n -> 0 <= r < n -> new_location n r = loc_of r n.
Proof.
  intros Hn Hr. unfold new_location, loc_of.
  destruct (Z.even n) eqn:Hev; [reflexivity |].
  unfold new_location_odd. destruct (r =? 0); [reflexivity |]. f_equal.
  assert (Hodd : Z.odd n = true) by (rewrite <- Z.negb_even, Hev; reflexivity).
  apply Z.odd_spec in Hodd as [k Hk].
  destruct (Z.compare_spec (2 * r + 1) n), (Z.compare_spec (2 * r) n); try reflexivity; lia.
Qed.

(** The quotient of two 32-bit numbers: at most 53 bits, scaled down by
    at least [2 ^ 20]. *)
Lemma fdiv_u32 (d n : positive) :
  Zpos d < 2 ^ 32 -> Zpos n < 2 ^ 32 ->
  exists m e,
    fdiv (S754_finite false d 0) (S754_finite false n 0) = S754_finite false m e /\
    Zpos m <= 2 ^ 53 /\ e <= -20.
Proof.
  intros Hd Hn.
  pose proof (digits2_pos_bounds d) as Bd. pose proof (digits2_pos_bounds n) as Bn.
  pose proof (digits2_pos_le d 32 ltac:(lia) Hd) as Ld.
  pose proof (digits2_pos_le n 32 ltac:(lia) Hn) as Ln.
  unfold fdiv, SFdiv, SFdiv_core_binary. cbn [Zdigits2 xorb].
  set (d1 := Zpos (digits2_pos d)) in *. set (d2 := Zpos (digits2_pos n)) in *.
  assert (H1 : 1 <= d1) by (unfold d1; lia). assert (H2 : 1 <= d2) by (unfold d2; lia).
  rewrite fexp_normal by lia.
  replace (Z.min (d1 + 0 - (d2 + 0) - 53) (0 - 0)) with (d1 - d2 - 53) by lia.
  replace (0 - 0 - (d1 - d2 - 53)) with (53 + d2 - d1) by lia.
  destruct (53 + d2 - d1) as [| s |] eqn:Hs; [lia | | lia].
  rewrite <- Hs. rewrite Z.shiftl_mul_pow2 by lia.
  rewrite div_eucl_pair.
  set (P := 2 ^ (53 + d2 - d1)).
  assert (HP : 0 < P) by (apply Z.pow_pos_nonneg; lia).
  assert (E1 : 2 ^ (d1 - 1) * P = 2 ^ 52 * 2 ^ d2).
  { unfold P. rewrite <- !Z.pow_add_r by lia. f_equal. lia. }
  assert (E2 : 2 ^ d1 * P = 2 ^ 54 * 2 ^ (d2 - 1)).
  { unfold P. rewrite <- !Z.pow_add_r by lia. f_equal. lia. }
  assert (Hlow : 2 ^ 52 * Zpos n <= Zpos d * P).
  { transitivity (2 ^ (d1 - 1) * P).
    - rewrite E1. apply Z.mul_le_mono_nonneg_l; lia.
    - apply Z.mul_le_mono_nonneg_r; lia. }
  assert (Hhigh : Zpos d * P < 2 ^ 54 * Zpos n).
  { apply Z.lt_le_trans with (2 ^ d1 * P).
    - apply Z.mul_lt_mono_pos_r; lia.
    - rewrite E2. apply Z.mul_le_mono_nonneg_l; lia. }
  assert (Hq : 2 ^ 52 <= Zpos d * P / Zpos n < 2 ^ 54).
  { split.
    - apply Z.div_le_lower_bound; lia.
    - apply Z.div_lt_upper_bound; lia. }
  rewrite new_location_loc_of by (try apply Z.mod_pos_bound; lia).
  destruct (Z.lt_ge_cases (Zpos d * P / Zpos n) (2 ^ 53)) as [Hlt | Hge].
  - rewrite (binary_round_aux_spec false _ (d1 - d2 - 53) _ (Zpos d * P) (Zpos n) 0);
      [| lia | lia | reflexivity | reflexivity | lia | | lia | lia].
    + pose proof (nearest_even_quot_bounds (Zpos d * P) (Zpos n * 2 ^ 0)) as HM.
      rewrite Z.mul_1_r in HM. rewrite Z.mul_1_r.
      destruct (_ <? 2 ^ 53); eexists _, _; (split; [reflexivity |]);
        (split; [| lia]).
      * rewrite Z2Pos.id by lia. lia.
      * rewrite Z2Pos.id by lia. lia.
    + change (2 ^ (52 + 0)) with (2 ^ 52). change (2 ^ (53 + 0)) with (2 ^ 53). lia.
  - rewrite (binary_round_aux_spec false _ (d1 - d2 - 53) _ (Zpos d * P) (Zpos n) 1);
      [| lia | lia | reflexivity | reflexivity | lia | | lia | lia].
    + pose proof (nearest_even_quot_bounds (Zpos d * P) (Zpos n * 2 ^ 1)) as HM.
      assert (Hq2 : Zpos d * P / (Zpos n * 2 ^ 1) < 2 ^ 53).
      { rewrite <- Z.div_div by lia. apply Z.div_lt_upper_bound; lia. }
      assert (Hq3 : 0 <= Zpos d * P / (Zpos n * 2 ^ 1)) by (apply Z.div_pos; lia).
      assert (Hq4 : 2 ^ 52 <= Zpos d * P / (Zpos n * 2 ^ 1)).
      { rewrite <- Z.div_div by lia. apply Z.div_le_lower_bound; lia. }
      destruct (_ <? 2 ^ 53); eexists _, _; (split; [reflexivity |]);
        (split; [| lia]).
      * rewrite Z2Pos.id by lia. lia.
      * rewrite Z2Pos.id by lia. lia.
    + change (2 ^ (52 + 1)) with (2 ^ 53). change (2 ^ (53 + 1)) with (2 ^ 54). lia.
Qed.

Lemma nearest_even_bounds (m e : Z) :
  0 <= m -> e <= 0 -> m / 2 ^ (- e) <= nearest_even m e <= m / 2 ^ (- e) + 1.
Proof.
  intros Hm He. unfold nearest_even.
  destruct (Z.leb_spec 0 e).
  - assert (e = 0) by lia. subst e. change (2 ^ (- 0)) with 1.
    rewrite Z.div_1_r. change (2 ^ 0) with 1. lia.
  - destruct (_ <? _); [lia |]. destruct (_ <? _); [lia |]. destruct (Z.even _); lia.
Qed.

Lemma dn2str_tenths (dn : v4l2_fract) (s : string) :
  is_u32 (numerator dn) -> is_u32 (denominator dn) ->
  dn2str dn = Ok s ->
  exists t, 0 <= t < 2 ^ 48 /\ s = tenths_str t.
Proof.
  intros [Hn0 Hn] [Hd0 Hd]. unfold dn2str, true_div.
  destruct (Z.eqb_spec (numerator dn) 0) as [E | E]; [discriminate |].
  destruct (denominator dn) as [| a |] eqn:Ea; [| | lia].
  - destruct (numerator dn); intros [= <-]; exists 0; (split; [lia | reflexivity]).
  - destruct (numerator dn) as [| q |] eqn:Eq; [lia | | lia].
    cbn [mbind res_bind Py.bind]. intros [= <-].
    unfold float_of_quot.
    change (let '(mz, ez, lz) := SFdiv_core_binary prec emax (Z.pos a) 0 (Z.pos q) 0 in
            binary_round_aux prec emax false mz ez lz)
      with (fdiv (S754_finite false a 0) (S754_finite false q 0)).
    destruct (fdiv_u32 a q Hd Hn) as (m & e & -> & Hm & He).
    cbn [format_1f].
    pose proof (nearest_even_bounds (10 * Zpos m) e ltac:(lia) ltac:(lia)) as Ht.
    exists (nearest_even (10 * Zpos m) e). split; [| reflexivity].
    assert (Hpow : 2 ^ 20 <= 2 ^ (- e)) by (apply Z.pow_le_mono_r; lia).
    assert (Hq : 0 <= 10 * Zpos m / 2 ^ (- e) <= 10 * 2 ^ 53 / 2 ^ 20).
    { split; [apply Z.div_pos; lia |].
      transitivity (10 * Zpos m / 2 ^ 20).
      - apply Z.div_le_compat_l; lia.
      - apply Z.div_le_mono; lia. }
    change (10 * 2 ^ 53 / 2 ^ 20) with 85899345920 in Hq. lia.
Qed.

Lemma get_framerates_tenths (answers : list v4l2_frmivalenum) :
  forall framerates,
  Forall (fun a => is_u32 (numerator (frmi_discrete a))
                   /\ is_u32 (denominator (frmi_discrete a))) answers ->
  get_framerates answers = Ok framerates ->
  Forall (fun s => exists t, 0 <= t < 2 ^ 48 /\ s = tenths_str t) framerates.
Proof.
  induction answers as [| a rest IH]; intros framerates Hall.
  - intros [= <-]. constructor.
  - cbn [get_framerates]. destruct (negb _); [intros [= <-]; constructor |].
    apply Forall_cons in Hall as [[Hn Hd] Hrest].
    destruct (dn2str (frmi_discrete a)) as [s | e] eqn:Es; [| discriminate].
    cbn [mbind res_bind Py.bind].
    destruct (get_framerates rest) as [rs | e] eqn:Er; [| discriminate].
    intros [= <-]. constructor.
    + exact (dn2str_tenths _ _ Hn Hd Es).
    + now apply IH.
Qed.

End Quotients.

(** ** The frame interval written for an accepted frame rate *)

Section AcceptedFrameRates.
Import V4L2FmtCtrls FmtSetup.
Context {D : Type} `{Device D} `{SetDevice D}.

Lemma find_by_text_id_fps_menu (framerates : list string) (v : pyval) (m : BaseCtrlMenu) :
  find_by_text_id (fps_menu framerates) v = Some m ->
  exists s, s ∈ framerates /\ v = PStr s.
Proof.
  intros Hm. apply find_by_text_id_some in Hm as [Hin ->].
  unfold fps_menu in Hin. apply list_elem_of_fmap in Hin as (s & -> & Hs).
  exists s. split; [exact Hs | reflexivity].
Qed.


End AcceptedFrameRates.

Section AcceptedFrameRatesExamples.
Import V4L2FmtCtrls FmtSetup Sample Runs.


End AcceptedFrameRatesExamples.
